(* ===== verification/_CoqProject ===== *)
-Q . S2P
Prelude.v
JsMap.v
Store.v
Handler.v
EventLoop.v
StoreTyping.v
ParticipantIds.v
Routes.v
Chat.v
Guarantees.v
Scenarios.v
Pages.v
Url.v
Router.v
Panels.v
Editor.v
Setup.v
Config.v
ChatSocket.v
ChatFlow.v
