(* ===== verification/Prelude.v ===== *)
(** * A verification development of the collaborative code editor

    The repository is a browser-based collaborative code editor.  A Node
    server ([src/server]) keeps durable room records in MongoDB through a
    Mongoose model ([models/Code.js]), serves them over an Express HTTP
    API ([routes/code.js]), and relays live editing over socket.io
    ([socket/handler.js]): per room, a process-wide [Map] [rooms] holds a
    live state object (code, language, participants, cursors, a pending
    debounced save).  React components ([src/client]) create and list
    rooms over HTTP (Home, Sidebar) and exchange chat and typing notices
    over the socket (Chat).

    ** Files, in dependency order

    - [Prelude] (this file): the [editor_scope] notations, JavaScript value
      helpers ([js_or] for [x || d], [js_truthy], [trim] for
      [String.prototype.trim]), a result type and a state monad [St] with
      [x <- c ;; k], the [editor] hint databases and the list lemmas the
      components share.
    - [JsMap]: a JavaScript [Map] as its specification describes it, an
      insertion-ordered list of slots where [delete] leaves a hole, with
      [get]/[set]/[delete]/[has]/[size]/[entries] and the live iterator
      that [for ... of map.entries()] uses; well-formedness, the
      [get]/[set] laws, an equivalence with [Proper] instances, and a
      refinement [abs] to stdpp's [gmap].
    - [Store] (Module [Store]): the [Code] schema as [Room], [new Code]
      with its defaults, and the collection with [findOne], [save] of a
      new or a loaded document (Mongoose's [__v] version check on array
      [$set]s), [findOneAndUpdate], [findOneAndDelete], [find] with sort,
      skip and limit, [countDocuments]; the [required] validator of
      [roomId] ([required_ok], an empty id is a [ValidationError]) and
      the typing [docs_typed] (stored ids non-empty and distinct) that
      every writing operation keeps.
    - [Routes] (Module [Routes]): every route of [routes/code.js] as a
      function from the request and the store to a response and a store.
    - [Handler] (Module [Handler]): the socket handler.  [World] is the
      server state: [rooms] as a [JsMap] to references into a heap of
      state objects (so that a handler that captured an object before an
      [await] keeps it after [rooms] forgot it), socket.io's broadcast
      groups, the connected sockets, the store, the timers, the suspended
      continuations and the emitted events.  Each handler is a statement
      of [St World] up to its first [await], which leaves a [Task];
      [resume] performs the awaited store operation against the store as
      it then is and runs the code up to the next [await].  [socket.join]
      of a socket that has disconnected is a no-op, as in socket.io 4.5.2
      and later (the repository pins no version).  The registry
      invariant [registry_ok] is proved for every handler, continuation
      and timer with the [keeps] combinators and hint database.
    - [EventLoop] (Module [EventLoop]): the Node event loop as a step
      relation on worlds (a connection, an event, a disconnection, the
      resumption of any suspended continuation, an expired timer, time
      passing, the store going down or up), its reachable states, and an
      executable labelled version [run_all] proved sound.
    - [StoreTyping] (Module [StoreTyping]): Section [Preserve] proves, for
      any property of the stored documents that the store's writes keep,
      that every handler, continuation and timer keeps it (the [keeps_db]
      combinators and hint database), hence every step and every
      reachable state.
    - [ParticipantIds] (Module [ParticipantIds]): every state object's
      participants map stores each entry under its own socket id, so
      every participant list the server sends names each socket once.
    - [Chat] (Module [Chat]): the chat panel of [Chat.js] with its
      handlers and the events it sends.
    - [Guarantees] (Module [Guarantees]): the spec's promises about runs:
      [drain] resumes suspended continuations in turn; the teardown on
      disconnection, the completion of [join-room] and the ordering
      guarantee of a room's stream; and the interleavings that break the
      registry's promises, for every world where they start.
    - [Scenarios] (Module [Scenarios]): concrete executions from a fresh
      server, computed by [vm_compute]: the spec's end-to-end scenarios and
      one run of each interleaving that breaks its promises.
    - [Pages] (Modules [Home], [Sidebar]): [Home.js] and [Sidebar.js].
      Home's HTTP calls are the [Routes] handlers applied to the store;
      the sidebar's [axios.put] is the Section variable [http_put] (a URL,
      a JSON body, the store before and after), which [Router] instantiates
      with the server; the sidebar's events as a step function over its
      session.
    - [Url] (Module [Url]): [decodeURIComponent] as ECMA-262 specifies
      it (escapes, UTF-8 validity) and React Router's [parsePath].
    - [Router] (Modules [Path], [Server], [Client]): URL paths cut into
      segments and matched against route patterns as Express and React
      Router do; [Server.serve] is the middleware chain of [index.js] with
      the route table of [code.js] behind the [/api/code] mount, calling
      the [Routes] handlers; [Client.App] is the route table of [App.js];
      [Client.axios_put] sends the sidebar's [PUT] to [Server.serve].
    - [Panels] (Module [Participants]): the status functions and the
      rendered list of [Participants.js].
    - [Editor] (Module [Editor], with [Styles]): the standalone
      [Editor.js] page, its handlers and what it renders, the [styles]
      object as data and the inline styles the markup computes from the
      state with object spread ([spread], read back by [style_get]).
    - [Setup] (Module [Setup]): [src/setup.js] over a modelled machine
      ([Sys]: files, console lines, commands run, exit status) in the
      prelude's state monad with an [option] result for [process.exit];
      what each command answers and what it writes to the files are the
      Section variables [shell] and [effect].
    - [Config] (Modules [Dotenv], [Boot], [BootFacts]): dotenv's
      [config()] as its documentation describes it, and the settings
      [index.js] reads from [process.env] (CORS origin, MongoDB URI,
      port, listen logs).
    - [ChatSocket] (Module [Subscription]): the chat panel's socket
      subscription, the effect of [Chat.js] with its cleanup as React
      runs them on renders and unmounts, over the listener lists of the
      socket objects, and the delivery of server events to listeners.
    - [ChatFlow] (Module [ChatFlow]): the composition of the sender's
      panel, the server's [chat-message] handler and the receivers'
      listeners.

    ** What is proved

    - The store's typing: in every reachable state the stored room ids
      are non-empty and distinct ([StoreTyping.reachable_docs_typed]).
    - Participant lists: in every reachable state every list sent in
      [room-joined], [user-joined] or [user-left] names each socket at
      most once ([ParticipantIds.sent_participants_distinct]), so the
      participant panel's rows have distinct keys.
    - The registry: in every reachable state, whatever the interleaving,
      [rooms] has one entry per room id, no two ids share a state object,
      each object's participant and cursor maps and each broadcast group
      are well formed ([EventLoop.reachable_registry_ok]); the theorems
      about runs take this invariant as their hypothesis.
    - Teardown: a disconnection run to its end without interleaving
      leaves the socket in no group and no live room, with nothing
      suspended, whatever the store answers
      ([Guarantees.disconnect_teardown]); the loop's fuel is enough
      ([Handler.disconnect_loop_fuel]).
    - Joining: a [join-room] run to its end without interleaving, on a
      running store, leaves the socket in the room's group, registered in
      the live state with its name and join time, sent the [room-joined]
      snapshot and nothing else, and listed in the stored room, whether
      the room existed or was created ([Guarantees.join_completes]);
      distinct sockets joining one after the other are exactly the live
      participants, in join order ([Guarantees.joins_participants]).
    - Room teardown: when the last participant of a room disconnects, the
      room's entry leaves [rooms] whatever the store answers, and a later
      join seeds a new state from the stored record
      ([Guarantees.last_disconnect_drops_room]).
    - Who receives what: [code-change] reaches exactly the other members
      of the room; a sequence of code, cursor, chat and typing events
      reaches every socket in handling order ([Guarantees.broadcast_order]);
      a burst of [code-change] events for a room whose pending saves are
      the one its state object holds leaves exactly one save pending, the
      last event's, due 1000 ms after it ([Handler.debounce_coalescing]);
      dropping a room does not cancel its save, so after a rejoin that
      hypothesis fails ([Scenarios.dropped_room_keeps_pending_save]).
    - The spec's scenarios 2 to 4 hold on concrete runs.
    - Routing: each endpoint of the spec's API table, at its path under
      [/api/code], reaches its handler with the ids decoded
      ([Server.serve_api_table]); an id that does not decode gets 400 on
      every method, registered or not ([Server.serve_bad_param]); every
      navigation of the home page lands on a path the client renders as
      the editor for the same room id and the server answers with
      [index.html], for ids without [/ ? # %]
      ([Client.home_navigation_editor]), and other ids open another room
      ([Client.navigate_mangles_ids]); path splitting and joining are
      inverse ([Path.split_join], [Path.join_split]).
    - Interleavings the spec rules out but the code allows, for every
      world where they start: a [leave-room] whose cleanup reads its
      captured, empty state object drops the room's new, live one
      ([Guarantees.stale_cleanup_drops_live_room]); a socket that
      disconnects while its join waits for the store ends registered in
      the live room and the stored room, though disconnected
      ([Guarantees.disconnect_during_join_leaves_ghost]); a leave whose
      save follows a join's [$push] is rejected by the version check and
      the departed socket stays stored
      ([Guarantees.departed_user_kept_in_store]); the typing indicator of
      every other member prints [undefined]
      ([ChatFlow.typing_indicator_without_username]).  [Scenarios] runs
      each of them once from a fresh server.
    - The HTTP API: create-then-get, duplicate ids, idempotent participant
      add, participant removal, partial [PUT], 404s, delete, the paging of
      [GET /rooms], its single unlimited page for [limit=0] (the matching
      public rooms, newest first, with the fields its [.select()] keeps,
      [Routes.list_rooms_order]), and the unique-id invariant.
    - The client: the chat panel's typing list and typing timer invariant,
      the keystroke burst, the submit guard; room creation and the recent
      rooms of the home page, end to end through the routes; the sidebar
      save sent to the server's routing, for ids without [/ ? # %]
      ([Client.sidebar_save_room_info]; other ids reach no route or
      another room, [Client.sidebar_save_mangled_ids]); the sidebar's
      session invariant (the save button is
      disabled exactly while its [PUT] is in flight, the parent is called
      only with languages of the table); the participant status bands
      and colours; the editor page's message numbering, its fixed
      member list and its computed styles (a panel is slid in and its
      button highlighted exactly when it is the active overlay,
      [Editor.overlay_styles]); the home page's input bounds and
      unreachable guard alerts.
    - A chat message end to end: submitted in one panel, relayed by the
      server, it appears exactly once in every subscribed panel of a
      member of the room and nowhere else ([ChatFlow.chat_end_to_end]).
    - Subscriptions: whatever the renders and unmounts of a chat panel,
      an event on a socket reaches its handler exactly once when it is
      mounted with that socket and never otherwise, other components'
      listeners untouched ([Subscription.chat_delivered_once]).
    - Setup and start-up: the setup script runs its four commands in
      order up to the first failure, with exit status 1 and that
      command's message exactly when one fails ([Setup.setup_commands]);
      the files it leaves are what its commands made of them with [.env]
      written between the checks and the installs when missing, so [.env]
      is written only when missing and after the checks when no command
      writes it ([Setup.setup_env_file]); the server started after it has the
      settings of the process environment alone, the file restating
      index.js's fallbacks ([BootFacts.setup_then_boot]).

    ** Bounds, fuel and time

    [disconnect_loop] walks [rooms] from an iterator index with the
    number of slots of [rooms] as fuel: each step moves the index forward
    by one slot at least, so this fuel reaches the end of the map, and
    more fuel changes nothing ([Handler.disconnect_loop_fuel]).  [drain]
    is given twice the number of slots: each room the socket is in costs
    at most two resumptions ([findOne], then [save()]); a [join-room] at
    most three ([findOne], the creation of a missing room, the [save()]
    of the participant).  Times
    are integers of milliseconds; the debounce and typing timers are due
    1000 ms and 2000 ms after they are set.  Concrete runs use short room
    ids and small worlds; the theorems about handlers are for every world.

    ** Not modelled

    Of [src/server/index.js], what [mongoose.connect] and
    [server.listen] do (a database connection and a listening socket),
    the headers of [helmet] and [compression] and body-parser errors;
    the files of the client build are a parameter of [serve].  The query
    of [GET /rooms] is taken as numbers.  The three [CodeSchema.index]
    declarations of [models/Code.js] only speed up queries.  Of
    [src/setup.js], what [npm install] installs is the parameter [effect].
    The browser's percent-encoding of characters in a request path is
    not modelled: Express decodes it back, and it leaves [%], [/], [?]
    and [#] as they are.  dotenv's parser
    is modelled for one-line values (multi-line quoted values and the
    escapes of double-quoted ones are not).  The regular-expression
    engine of [$regex] is a parameter, with a literal-pattern matcher for
    concrete runs.  Each component's markup is modelled as a [render]
    function giving what the page shows (texts, lists, disabled and
    active flags); styles (but those of [Editor.js]), the
    [onMouseEnter]/[onMouseLeave] handlers that write [element.style]
    directly, icons, static text, [scrollIntoView] and the
    locale formats of dates and times are not.  Strings are ASCII: [trim]
    drops ASCII white space only, and [toUpperCase] and [toLowerCase] act
    on ASCII letters.
*)

From stdpp Require Export base list option strings gmap pretty.
From Stdlib Require Export ZArith Lia Ascii Sorted.

Declare Scope editor_scope.
Delimit Scope editor_scope with editor.
Open Scope editor_scope.

Create HintDb editor discriminated.
Create Rewrite HintDb editor_rw.

(** ** JavaScript values

    A field of an inbound socket payload or of an HTTP body is a JavaScript
    value that may be missing: [None] stands for [undefined]. *)

(** JavaScript truthiness of a possibly missing string: [undefined] and
    the empty string are falsy. *)
Definition js_truthy (o : option string) : bool :=
  match o with
  | Some s => negb (String.eqb s "")
  | None => false
  end.

(** [x || d] for a possibly missing string [x]: the default is taken when
    [x] is falsy. *)
Definition js_or (o : option string) (d : string) : string :=
  match o with
  | Some s => if String.eqb s "" then d else s
  | None => d
  end.

Notation "o ?|| d" := (js_or o d) (at level 40, left associativity) : editor_scope.

Lemma js_or_truthy o d : js_truthy o = true -> exists s, o = Some s /\ o ?|| d = s.
Proof.
  destruct o as [s|]; simpl; [|discriminate].
  destruct (String.eqb s "") eqn:E; simpl; [discriminate|]. eauto.
Qed.

Lemma js_or_falsy o d : js_truthy o = false -> o ?|| d = d.
Proof.
  destruct o as [s|]; simpl; [|done].
  destruct (String.eqb s "") eqn:E; simpl; [done|discriminate].
Qed.

Lemma js_or_nonempty o d : d <> "" -> o ?|| d <> "".
Proof.
  intros Hd. destruct o as [s|]; simpl; [|done].
  destruct (String.eqb s "") eqn:E; [done|].
  intros ->. discriminate.
Qed.

#[export] Hint Resolve js_or_nonempty : editor.

(** [String.prototype.trim] on the ASCII strings of the model: it drops
    the leading and trailing white space and line terminators (tab, line
    feed, vertical tab, form feed, carriage return, space). *)
Definition js_space (c : ascii) : bool :=
  let n := nat_of_ascii c in orb (Nat.eqb n 32) (andb (Nat.leb 9 n) (Nat.leb n 13)).

Fixpoint drop_space (l : list ascii) : list ascii :=
  match l with
  | c :: l' => if js_space c then drop_space l' else l
  | [] => []
  end.

Definition trim (s : string) : string :=
  String.string_of_list_ascii (rev (drop_space (rev (drop_space (String.list_ascii_of_string s))))).

Lemma drop_space_nil l : drop_space l = [] <-> Forall (fun c => js_space c = true) l.
Proof.
  induction l as [|c l IH]; simpl; [split; auto|].
  destruct (js_space c) eqn:E.
  - rewrite IH. split; [intros; constructor; auto|intros H; by inversion H].
  - split; [discriminate|intros H; inversion H; congruence].
Qed.

Lemma string_of_list_ascii_nil l : String.string_of_list_ascii l = "" <-> l = [].
Proof. destruct l; simpl; split; congruence. Qed.

Lemma drop_space_head l c l' : drop_space l = c :: l' -> js_space c = false.
Proof.
  induction l as [|c0 l IH]; simpl; [discriminate|].
  destruct (js_space c0) eqn:E; [exact IH|]. by intros [= <- _].
Qed.

Lemma drop_space_all l : Forall (fun c => js_space c = true) (drop_space l) <-> drop_space l = [].
Proof.
  destruct (drop_space l) as [|c l'] eqn:E; [split; auto|].
  split; [|discriminate]. intros H. inversion H. by rewrite (drop_space_head _ _ _ E) in *.
Qed.

Lemma rev_eq_nil {A} (l : list A) : rev l = [] <-> l = [].
Proof.
  destruct l as [|a l]; simpl; [done|].
  split; [|discriminate]. intros H. apply app_eq_nil in H. naive_solver.
Qed.

Lemma Forall_rev_iff {A} (P : A -> Prop) l : Forall P (rev l) <-> Forall P l.
Proof.
  split; intros H; [rewrite <-(rev_involutive l)|]; by apply Forall_rev.
Qed.

(** A string trims to [""] exactly when it is all white space. *)
Lemma trim_empty s :
  trim s = "" <-> Forall (fun c => js_space c = true) (String.list_ascii_of_string s).
Proof.
  unfold trim. rewrite string_of_list_ascii_nil, rev_eq_nil, <-drop_space_nil, drop_space_nil.
  rewrite Forall_rev_iff, drop_space_all, drop_space_nil. done.
Qed.

Lemma trim_eqb_empty s :
  String.eqb (trim s) "" = forallb js_space (String.list_ascii_of_string s).
Proof.
  apply Bool.eq_iff_eq_true. rewrite String.eqb_eq, trim_empty, forallb_forall, List.Forall_forall.
  done.
Qed.

(** ** Results

    A store operation either succeeds with a value or fails with an error;
    [let! x := c in k] threads the success value. *)
Inductive result (A E : Type) : Type :=
| Ok (a : A)
| Err (e : E).
Arguments Ok {A E} a.
Arguments Err {A E} e.

Definition rbind {A B E} (c : result A E) (k : A -> result B E) : result B E :=
  match c with
  | Ok a => k a
  | Err e => Err e
  end.

Notation "'let!' x ':=' c 'in' k" := (rbind c (fun x => k))
  (at level 10, x name, c at level 100, k at level 200) : editor_scope.

Lemma rbind_ok {A B E} (c : result A E) (k : A -> result B E) b :
  rbind c k = Ok b <-> exists a, c = Ok a /\ k a = Ok b.
Proof. destruct c; simpl; split; [eauto|intros (?&?&?); congruence|discriminate|intros (?&?&?); discriminate]. Qed.

(** ** A state monad

    A handler that runs synchronously on the server's state is a function
    from the state to a value and the new state; [x <- c ;; k] sequences
    two statements. *)
Definition St (S A : Type) : Type := S -> A * S.

Definition st_ret {S A} (a : A) : St S A := fun s => (a, s).
Definition st_bind {S A B} (c : St S A) (k : A -> St S B) : St S B :=
  fun s => let '(a, s') := c s in k a s'.
Definition st_get {S} : St S S := fun s => (s, s).
Definition st_modify {S} (f : S -> S) : St S unit := fun s => (tt, f s).
Definition skip {S} : St S unit := st_ret tt.

(** Run a statement for its effect on the state. *)
Definition exec {S A} (c : St S A) (s : S) : S := snd (c s).

Lemma exec_seq {S A B} (c1 : St S A) (c2 : St S B) s :
  exec (st_bind c1 (fun _ => c2)) s = exec c2 (exec c1 s).
Proof. unfold exec, st_bind. by destruct (c1 s). Qed.

Notation "x <- c1 ;; c2" := (st_bind c1 (fun x => c2))
  (at level 100, c1 at next level, right associativity) : editor_scope.
Notation "c1 ;; c2" := (st_bind c1 (fun _ => c2))
  (at level 100, right associativity) : editor_scope.

Lemma st_bind_ret_l {S A B} (a : A) (k : A -> St S B) s : st_bind (st_ret a) k s = k a s.
Proof. done. Qed.

Lemma st_bind_assoc {S A B C} (c : St S A) (k1 : A -> St S B) (k2 : B -> St S C) s :
  st_bind (st_bind c k1) k2 s = st_bind c (fun a => st_bind (k1 a) k2) s.
Proof. unfold st_bind. by destruct (c s). Qed.

(** ** Shared list lemmas *)

(** The double quote, which a string literal here does not hold, and
    the text of lines joined by newlines (a template literal). *)
Definition dq : string := String (ascii_of_nat 34) EmptyString.
Definition quoted (s : string) : string := dq +:+ s +:+ dq.

Fixpoint unlines (ls : list string) : string :=
  match ls with
  | [] => ""
  | [l] => l
  | l :: ls' => l +:+ String (ascii_of_nat 10) (unlines ls')
  end.

Lemma filter_length_le {A} (f : A -> bool) (l : list A) :
  length (List.filter f l) <= length l.
Proof. induction l as [|x l IH]; simpl; [lia|]. destruct (f x); simpl; lia. Qed.

Lemma filter_idem {A} (f : A -> bool) (l : list A) :
  List.filter f (List.filter f l) = List.filter f l.
Proof.
  induction l as [|x l IH]; simpl; [done|].
  destruct (f x) eqn:E; simpl; [rewrite E|]; congruence.
Qed.

Lemma filter_all_true {A} (f : A -> bool) (l : list A) :
  Forall (fun x => f x = true) l -> List.filter f l = l.
Proof. induction 1 as [|x l Hx _ IH]; simpl; [done|]. rewrite Hx. congruence. Qed.

Lemma filter_all_false {A} (f : A -> bool) (l : list A) :
  Forall (fun x => f x = false) l -> List.filter f l = [].
Proof. induction 1 as [|x l Hx _ IH]; simpl; [done|]. by rewrite Hx. Qed.

Lemma map_filter_sublist {A B} (f : A -> B) (g : A -> bool) (l : list A) :
  sublist (map f (List.filter g l)) (map f l).
Proof.
  induction l as [|x l IH]; simpl; [done|].
  destruct (g x); simpl; [by apply sublist_skip|by apply sublist_cons].
Qed.

Lemma NoDup_map_filter {A B} (f : A -> B) (g : A -> bool) (l : list A) :
  NoDup (map f l) -> NoDup (map f (List.filter g l)).
Proof. intros Hnd. eapply sublist_NoDup; [exact Hnd|]. apply map_filter_sublist. Qed.

Lemma NoDup_list_filter {A} (g : A -> bool) (l : list A) : NoDup l -> NoDup (List.filter g l).
Proof.
  intros Hnd. eapply sublist_NoDup; [exact Hnd|]. clear Hnd.
  induction l as [|x l IH]; simpl; [done|].
  destruct (g x); [by apply sublist_skip|by apply sublist_cons].
Qed.

Lemma if_bool_decide_iff {A} (P Q : Prop) `{Decision P} `{Decision Q} (x y : A) :
  (P <-> Q) -> (if bool_decide P then x else y) = (if bool_decide Q then x else y).
Proof. intros HPQ. by rewrite (bool_decide_ext P Q HPQ). Qed.

Lemma existsb_filter_length {A} (f : A -> bool) (l : list A) :
  List.existsb f l = Nat.ltb 0 (length (List.filter f l)).
Proof. induction l as [|x l IH]; simpl; [done|]. by destruct (f x). Qed.

Lemma filter_app_length {A} (f : A -> bool) (l1 l2 : list A) :
  length (List.filter f (l1 ++ l2)) = length (List.filter f l1) + length (List.filter f l2).
Proof. by rewrite List.filter_app, length_app. Qed.

Lemma find_none_intro {A} (f : A -> bool) (l : list A) :
  (forall x, In x l -> f x = false) -> List.find f l = None.
Proof.
  induction l as [|x l IH]; simpl; intros Hall; [done|].
  rewrite Hall by auto. apply IH. auto.
Qed.

(** Pages of [n] elements: the first [k] pages concatenated are the first
    [k * n] elements. *)
Lemma concat_pages {A} (n k : nat) (l : list A) :
  concat (map (fun i => take n (drop (i * n) l)) (seq 0 k)) = take (k * n) l.
Proof.
  induction k as [|k IH]; [done|].
  rewrite seq_S, map_app, concat_app, IH. simpl. rewrite app_nil_r, take_take_drop.
  f_equal. lia.
Qed.

(** [Math.ceil(total / limit)] for a positive limit, with floor division. *)
Lemma ceil_div_spec (total limit : Z) :
  (0 < limit)%Z -> (0 <= total)%Z ->
  let c := (- (Z.div (- total) limit))%Z in
  (0 <= c /\ total <= c * limit /\ (c - 1) * limit < total)%Z.
Proof.
  intros Hl Ht. simpl.
  pose proof (Z.div_mod (- total) limit ltac:(lia)) as Hdm.
  pose proof (Z.mod_pos_bound (- total) limit Hl) as Hb.
  nia.
Qed.

#[export] Hint Rewrite @filter_idem : editor_rw.
#[export] Hint Resolve NoDup_map_filter : editor.

(** [invc H] inverts [H], substitutes and clears it. *)
Ltac invc H := inversion H; subst; clear H.

(** [case_str] splits on the first string comparison of the goal. *)
Ltac case_str :=
  match goal with
  | |- context [String.eqb ?a ?b] =>
      let E := fresh "E" in
      destruct (String.eqb a b) eqn:E;
      [apply String.eqb_eq in E; subst | apply String.eqb_neq in E]
  end.
