(* ===== verification/JsMap.v ===== *)
(** * JavaScript [Map] and [Set]

    The server keeps its state in JavaScript [Map]s: the process-wide
    [rooms] table of [src/server/socket/handler.js] (line 3), and per room
    the [participants] and [cursors] maps (lines 37-38); socket.io keeps
    its broadcast groups as a [Map] of [Set]s.  Their observable behaviour
    is fixed by ECMAScript: a [Map] holds a list of entries, [set] updates
    an existing key in place and appends a new one, [delete] turns the
    entry into an empty slot, and an iterator walks the list by index, so
    it sees entries appended during the walk and skips deleted ones.  The
    [disconnect] handler (lines 224-251) iterates [rooms] while other
    handlers run, so the slots and the index are modelled as ECMAScript
    states them.

    This file holds that model ([JsMap.t]), its well-formedness (keys of
    live entries are distinct), the equivalence "same live entries" with
    [Proper] instances for every operation, and the refinement of a
    well-formed [JsMap.t] by a stdpp [gmap] ([abs]). *)

From S2P Require Import Prelude.

Module JsMap.

(** [[MapData]]: a slot is [None] once its entry was deleted. *)
Definition t (K V : Type) : Type := list (option (K * V)).

Section Ops.
Context {K V : Type} `{EqDecision K}.
Implicit Types (m : t K V) (k : K) (v : V).

Definition empty : t K V := [].

(** The live entries, in insertion order (what [entries()] yields). *)
Fixpoint entries (m : t K V) : list (K * V) :=
  match m with
  | [] => []
  | Some e :: m' => e :: entries m'
  | None :: m' => entries m'
  end.

Definition keys m : list K := map fst (entries m).
Definition values m : list V := map snd (entries m).
Definition size m : nat := length (entries m).

(** Lookup on a plain association list: the first entry with the key. *)
Fixpoint alookup k (l : list (K * V)) : option V :=
  match l with
  | [] => None
  | (k', v') :: l' => if decide (k = k') then Some v' else alookup k l'
  end.

(** [m.get(k)]: the value of the live entry whose key is [k]. *)
Fixpoint get k m : option V :=
  match m with
  | [] => None
  | Some (k', v') :: m' => if decide (k = k') then Some v' else get k m'
  | None :: m' => get k m'
  end.

Definition has k m : bool := match get k m with Some _ => true | None => false end.

(** Replace the value of the live entry with key [k], if there is one. *)
Fixpoint replace k v m : option (t K V) :=
  match m with
  | [] => None
  | Some (k', v') :: m' =>
      if decide (k = k') then Some (Some (k, v) :: m')
      else cons (Some (k', v')) <$> replace k v m'
  | None :: m' => cons None <$> replace k v m'
  end.

(** [m.set(k, v)]: in place when [k] is present, appended otherwise. *)
Definition set k v m : t K V :=
  match replace k v m with
  | Some m' => m'
  | None => m ++ [Some (k, v)]
  end.

(** [m.delete(k)]: the entry's slot becomes empty. *)
Fixpoint delete k m : t K V :=
  match m with
  | [] => []
  | Some (k', v') :: m' =>
      if decide (k = k') then None :: m' else Some (k', v') :: delete k m'
  | None :: m' => None :: delete k m'
  end.

(** An iterator over [m] at index [i]: the next live entry at an index
    [>= i], with the index after it. *)
Fixpoint next_from (i : nat) m : option (K * V * nat) :=
  match m, i with
  | [], _ => None
  | Some e :: _, 0 => Some (e, 1)
  | None :: m', 0 => (fun '(e, j) => (e, S j)) <$> next_from 0 m'
  | _ :: m', S i' => (fun '(e, j) => (e, S j)) <$> next_from i' m'
  end.

(** Keys of live entries are distinct. *)
Definition wf m : Prop := NoDup (keys m).

(** Two maps are equivalent when they have the same live entries: the
    empty slots are invisible to every operation but iteration indices. *)
Definition equiv_map (m1 m2 : t K V) : Prop := entries m1 = entries m2.

End Ops.

Arguments empty {K V}.

(** ** Operations on the live entries *)

Section Facts.
Context {K V : Type} `{EqDecision K}.
Implicit Types (m : t K V) (k : K) (v : V) (l : list (K * V)).

(** [set] and [delete] on association lists. *)
Fixpoint aset k v l : list (K * V) :=
  match l with
  | [] => [(k, v)]
  | (k', v') :: l' => if decide (k = k') then (k, v) :: l' else (k', v') :: aset k v l'
  end.

Fixpoint adelete k l : list (K * V) :=
  match l with
  | [] => []
  | (k', v') :: l' => if decide (k = k') then l' else (k', v') :: adelete k l'
  end.

Lemma entries_cons_some e m : entries (Some e :: m) = e :: entries m.
Proof. done. Qed.

Lemma entries_cons_none m : entries (None :: m) = entries m.
Proof. done. Qed.

Lemma entries_app m1 m2 : entries (m1 ++ m2) = entries m1 ++ entries m2.
Proof. induction m1 as [|[e|] m1 IH]; simpl; [done| |done]. by rewrite IH. Qed.

Lemma get_entries k m : get k m = alookup k (entries m).
Proof. induction m as [|[[k' v']|] m IH]; simpl; [done| |done]. by case_decide. Qed.

Lemma replace_none k v m : replace k v m = None -> get k m = None.
Proof.
  induction m as [|[[k' v']|] m IH]; simpl; [done| |].
  - case_decide; [discriminate|]. destruct (replace k v m); [discriminate|]. auto.
  - destruct (replace k v m); [discriminate|]. auto.
Qed.

Lemma replace_entries k v m m' :
  replace k v m = Some m' -> entries m' = aset k v (entries m).
Proof.
  revert m'. induction m as [|[[k' v']|] m IH]; simpl; intros m' Hr; [discriminate| |].
  - case_decide; simplify_eq; [done|].
    destruct (replace k v m) as [m''|] eqn:E; simplify_eq/=.
    rewrite (IH m'' eq_refl). simpl. by repeat case_decide.
  - destruct (replace k v m) as [m''|] eqn:E; simplify_eq/=. auto.
Qed.

Lemma alookup_none_aset k v l : alookup k l = None -> aset k v l = l ++ [(k, v)].
Proof.
  induction l as [|[k' v'] l IH]; simpl; [done|].
  case_decide; [discriminate|]. intros H'. by rewrite IH.
Qed.

(** [set] acts on the live entries as [aset]. *)
Lemma entries_set k v m : entries (set k v m) = aset k v (entries m).
Proof.
  unfold set. destruct (replace k v m) as [m'|] eqn:E.
  - by apply replace_entries.
  - rewrite entries_app. apply replace_none in E. rewrite get_entries in E.
    by rewrite alookup_none_aset.
Qed.

(** [delete] acts on the live entries as [adelete]. *)
Lemma entries_delete k m : entries (delete k m) = adelete k (entries m).
Proof.
  induction m as [|[[k' v']|] m IH]; simpl; [done| |done].
  case_decide; [done|]. simpl. rewrite IH. by repeat case_decide.
Qed.

Lemma alookup_aset_eq k v l : alookup k (aset k v l) = Some v.
Proof. induction l as [|[k' v'] l IH]; simpl; repeat (case_decide; simpl); done. Qed.

Lemma alookup_aset_ne k k' v l : k <> k' -> alookup k' (aset k v l) = alookup k' l.
Proof.
  intros Hne. induction l as [|[k'' v''] l IH]; simpl;
    repeat (case_decide; simpl; subst); done.
Qed.

Lemma alookup_adelete_ne k k' l : k <> k' -> alookup k' (adelete k l) = alookup k' l.
Proof.
  intros Hne. induction l as [|[k'' v''] l IH]; simpl; [done|].
  repeat (case_decide; simpl; subst); done.
Qed.

Lemma alookup_adelete_eq k l : NoDup (map fst l) -> alookup k (adelete k l) = None.
Proof.
  induction l as [|[k' v'] l IH]; simpl; intros Hnd; [done|].
  apply NoDup_cons in Hnd as [Hn Hnd].
  case_decide; subst.
  - clear IH. induction l as [|[k'' v''] l IH2]; simpl in *; [done|].
    case_decide; subst; [set_solver|]. apply IH2; [set_solver|by apply NoDup_cons in Hnd as []].
  - simpl. case_decide; [done|]. auto.
Qed.

Lemma alookup_in k v l : alookup k l = Some v -> (k, v) ∈ l.
Proof.
  induction l as [|[k' v'] l IH]; simpl; [discriminate|].
  case_decide; [intros; simplify_eq; left|intros; right; auto].
Qed.

Lemma alookup_none_notin k l : alookup k l = None -> k ∉ map fst l.
Proof.
  induction l as [|[k' v'] l IH]; simpl; [set_solver|].
  case_decide; [discriminate|]. intros H'. apply IH in H'. set_solver.
Qed.

Lemma keys_aset_present k v l :
  alookup k l <> None -> map fst (aset k v l) = map fst l.
Proof.
  induction l as [|[k' v'] l IH]; simpl; [done|].
  case_decide; subst; simpl; [done|]. intros H'. by rewrite IH.
Qed.

Lemma NoDup_aset k v l : NoDup (map fst l) -> NoDup (map fst (aset k v l)).
Proof.
  intros Hnd. destruct (alookup k l) eqn:E.
  - rewrite keys_aset_present; [done|congruence].
  - rewrite alookup_none_aset by done. rewrite map_app. simpl.
    apply NoDup_app. split; [done|]. split; [|apply NoDup_singleton].
    apply alookup_none_notin in E. set_solver.
Qed.

Lemma adelete_keys_sublist k l : sublist (map fst (adelete k l)) (map fst l).
Proof.
  induction l as [|[k' v'] l IH]; simpl; [done|].
  case_decide; [by apply sublist_cons|by apply sublist_skip].
Qed.

Lemma NoDup_adelete k l : NoDup (map fst l) -> NoDup (map fst (adelete k l)).
Proof. intros Hnd. eapply sublist_NoDup; [exact Hnd|]. apply adelete_keys_sublist. Qed.

(** ** The operations' functional behaviour *)

Lemma get_set_eq k v m : get k (set k v m) = Some v.
Proof. rewrite get_entries, entries_set. apply alookup_aset_eq. Qed.

Lemma get_set_ne k k' v m : k <> k' -> get k' (set k v m) = get k' m.
Proof. intros. rewrite !get_entries, entries_set. by apply alookup_aset_ne. Qed.

Lemma get_delete_ne k k' m : k <> k' -> get k' (delete k m) = get k' m.
Proof. intros. rewrite !get_entries, entries_delete. by apply alookup_adelete_ne. Qed.

Lemma get_delete_eq k m : wf m -> get k (delete k m) = None.
Proof. intros Hwf. rewrite get_entries, entries_delete. by apply alookup_adelete_eq. Qed.

Lemma has_get k m : has k m = true <-> is_Some (get k m).
Proof. unfold has. destruct (get k m); split; intros Hs; done. Qed.

Lemma set_wf k v m : wf m -> wf (set k v m).
Proof. unfold wf, keys. rewrite entries_set. apply NoDup_aset. Qed.

Lemma delete_wf k m : wf m -> wf (delete k m).
Proof. unfold wf, keys. rewrite entries_delete. apply NoDup_adelete. Qed.

Lemma empty_wf : wf (@empty K V).
Proof. constructor. Qed.

(** A new key goes to the end of the iteration order. *)
Lemma entries_set_new k v m : get k m = None -> entries (set k v m) = entries m ++ [(k, v)].
Proof. rewrite get_entries, entries_set. apply alookup_none_aset. Qed.

(** An existing key keeps its position. *)
Lemma keys_set_present k v m : is_Some (get k m) -> keys (set k v m) = keys m.
Proof.
  intros [w Hw]. unfold keys. rewrite entries_set. apply keys_aset_present.
  rewrite <- get_entries. congruence.
Qed.

(** Setting fresh, distinct keys one after the other appends them in
    that order. *)
Lemma entries_fold_set_new (l : list (K * V)) m :
  NoDup (map fst l) -> (forall k, k ∈ map fst l -> get k m = None) ->
  entries (foldl (fun m kv => set kv.1 kv.2 m) m l) = entries m ++ l.
Proof.
  revert m. induction l as [|[k v] l IH]; intros m Hnd Hfresh; simpl; [by rewrite app_nil_r|].
  apply NoDup_cons in Hnd as [Hk Hnd].
  rewrite IH; [|done|].
  - rewrite entries_set_new, <-app_assoc; [done|]. apply Hfresh. left.
  - intros k' Hk'. rewrite get_set_ne by (intros ->; contradiction). apply Hfresh. by right.
Qed.

Lemma size_set_new k v m : get k m = None -> size (set k v m) = S (size m).
Proof. intros H'. unfold size. rewrite entries_set_new by done. rewrite length_app. simpl. lia. Qed.

Lemma size_set_present k v m : is_Some (get k m) -> size (set k v m) = size m.
Proof.
  intros H'. unfold size. rewrite <- !(length_map fst). apply (f_equal length).
  by apply keys_set_present.
Qed.

Lemma size_delete_present k m : is_Some (get k m) -> size (delete k m) = pred (size m).
Proof.
  unfold size. rewrite entries_delete, get_entries. generalize (entries m) as l.
  induction l as [|[k' v'] l IH]; simpl; intros [w Hw]; [done|].
  case_decide; [done|]. simpl. rewrite IH by eauto. destruct l; simpl in *; [done|lia].
Qed.

(** ** Maps whose values carry their key *)

(** Every value names its key through [f], as a participant entry names
    its socket id. *)
Definition keyed (f : V -> K) m : Prop := forall k v, get k m = Some v -> f v = k.

Lemma keyed_empty f : keyed f empty.
Proof. by intros k v. Qed.

Lemma keyed_set f k v m : f v = k -> keyed f m -> keyed f (set k v m).
Proof.
  intros Hv Hm k' v'. destruct (decide (k = k')) as [<-|Hne].
  - rewrite get_set_eq. by intros [= <-].
  - rewrite get_set_ne by done. apply Hm.
Qed.

Lemma keyed_delete f k m : wf m -> keyed f m -> keyed f (delete k m).
Proof.
  intros Hwf Hm k'. destruct (decide (k = k')) as [<-|Hne].
  - by rewrite get_delete_eq.
  - rewrite get_delete_ne by done. apply Hm.
Qed.

Lemma alookup_NoDup_in k v l : NoDup (map fst l) -> (k, v) ∈ l -> alookup k l = Some v.
Proof.
  induction l as [|[k' v'] l IH]; simpl; [set_solver|]. intros [Hn Hnd]%NoDup_cons Hin.
  apply elem_of_cons in Hin as [[= -> ->]|Hin]; case_decide; try done.
  - subst. destruct Hn. apply list_elem_of_In, in_map_iff. exists (k', v). split; [done|].
    by apply list_elem_of_In.
  - by apply IH.
Qed.

(** The values of a well-formed keyed map name its keys, in order. *)
Lemma keyed_values f m : wf m -> keyed f m -> map f (values m) = keys m.
Proof.
  intros Hwf Hk. unfold values, keys. rewrite map_map. apply map_ext_in. intros [k v] Hin. simpl.
  apply Hk. rewrite get_entries. apply alookup_NoDup_in; [exact Hwf|]. by apply list_elem_of_In.
Qed.

Lemma keyed_values_NoDup f m : wf m -> keyed f m -> NoDup (map f (values m)).
Proof. intros Hwf Hk. by rewrite keyed_values. Qed.

End Facts.


(** ** The equivalence "same live entries" *)

#[export] Instance equiv_map_equivalence {K V} : Equivalence (@equiv_map K V).
Proof. split; repeat intro; unfold equiv_map in *; congruence. Qed.

#[export] Instance get_proper {K V : Type} `{EqDecision K} k : Proper (equiv_map ==> eq) (@get K V _ k).
Proof. intros m1 m2 He. by rewrite !get_entries, He. Qed.

#[export] Instance has_proper {K V : Type} `{EqDecision K} k : Proper (equiv_map ==> eq) (@has K V _ k).
Proof. intros m1 m2 He. unfold has. by rewrite He. Qed.

#[export] Instance entries_proper {K V : Type} `{EqDecision K}  : Proper (equiv_map ==> eq) (@entries K V).
Proof. intros m1 m2 He. exact He. Qed.

#[export] Instance values_proper {K V : Type} `{EqDecision K}  : Proper (equiv_map ==> eq) (@values K V).
Proof. intros m1 m2 He. unfold values. by rewrite He. Qed.

#[export] Instance size_proper {K V : Type} `{EqDecision K}  : Proper (equiv_map ==> eq) (@size K V).
Proof. intros m1 m2 He. unfold size. by rewrite He. Qed.

#[export] Instance set_proper {K V : Type} `{EqDecision K} k v : Proper (equiv_map ==> equiv_map) (@set K V _ k v).
Proof. intros m1 m2 He. unfold equiv_map. by rewrite !entries_set, He. Qed.

#[export] Instance delete_proper {K V : Type} `{EqDecision K} k : Proper (equiv_map ==> equiv_map) (@delete K V _ k).
Proof. intros m1 m2 He. unfold equiv_map. by rewrite !entries_delete, He. Qed.

#[export] Instance wf_proper {K V : Type} `{EqDecision K}  : Proper (equiv_map ==> iff) (@wf K V).
Proof. intros m1 m2 He. unfold wf, keys. by rewrite He. Qed.

(** ** The iterator *)

Section Iter.
Context {K V : Type} `{EqDecision K}.
Implicit Types (m : t K V).

(** A step of the iterator yields the first live entry of the slots from
    [i] on and resumes after it; when it ends there is no live entry
    left from [i] on. *)
Lemma next_from_drop i m :
  match next_from i m with
  | Some (e, j) => i < j /\ entries (drop i m) = e :: entries (drop j m)
  | None => entries (drop i m) = []
  end.
Proof.
  revert i. induction m as [|o m IH]; intros i; [by destruct i|].
  destruct i as [|i], o as [e|]; simpl.
  - split; [lia|done].
  - specialize (IH 0). rewrite drop_0 in IH.
    destruct (next_from 0 m) as [[e j]|]; simpl; [|done].
    destruct IH as [Hlt ->]. split; [lia|done].
  - specialize (IH i). destruct (next_from i m) as [[e' j]|]; simpl; [|done].
    destruct IH as [Hlt ->]. split; [lia|done].
  - specialize (IH i). destruct (next_from i m) as [[e' j]|]; simpl; [|done].
    destruct IH as [Hlt ->]. split; [lia|done].
Qed.

Lemma next_from_some i m e j :
  next_from i m = Some (e, j) -> i < j /\ entries (drop i m) = e :: entries (drop j m).
Proof. intros H'. pose proof (next_from_drop i m) as Hd. by rewrite H' in Hd. Qed.

Lemma next_from_none i m : next_from i m = None -> entries (drop i m) = [].
Proof. intros H'. pose proof (next_from_drop i m) as Hd. by rewrite H' in Hd. Qed.

Lemma next_from_ge i m : length m <= i -> next_from i m = None.
Proof.
  intros Hl. pose proof (next_from_drop i m) as Hd. rewrite drop_ge in Hd by lia.
  destruct (next_from i m) as [[e j]|]; [by destruct Hd|done].
Qed.

(** The iterator's step by slot index: the live entry it yields sits at
    slot [j - 1], the slots it skipped are holes. *)
Lemma next_from_lookup_some i m e j :
  next_from i m = Some (e, j) ->
  exists k, j = S k /\ i <= k /\ m !! k = Some (Some e) /\ forall k', i <= k' < k -> m !! k' = Some None.
Proof.
  revert i j. induction m as [|o m IH]; intros i j; [done|].
  destruct i as [|i], o as [e'|]; simpl.
  - intros [= -> <-]. exists 0. split_and!; [done|lia|done|lia].
  - destruct (next_from 0 m) as [[e0 j0]|] eqn:E; simpl; [|done]. intros [= -> <-].
    destruct (IH 0 j0 E) as (k & -> & _ & Hk & Hbefore).
    exists (S k). split_and!; [done|lia|done|]. intros [|k'] Hk'; [done|]. apply Hbefore. lia.
  - destruct (next_from i m) as [[e0 j0]|] eqn:E; simpl; [|done]. intros [= -> <-].
    destruct (IH i j0 E) as (k & -> & Hik & Hk & Hbefore).
    exists (S k). split_and!; [done|lia|done|]. intros [|k'] Hk'; [lia|]. apply Hbefore. lia.
  - destruct (next_from i m) as [[e0 j0]|] eqn:E; simpl; [|done]. intros [= -> <-].
    destruct (IH i j0 E) as (k & -> & Hik & Hk & Hbefore).
    exists (S k). split_and!; [done|lia|done|]. intros [|k'] Hk'; [lia|]. apply Hbefore. lia.
Qed.

Lemma next_from_lookup_none i m :
  next_from i m = None -> forall k, i <= k -> m !! k = None \/ m !! k = Some None.
Proof.
  revert i. induction m as [|o m IH]; intros i; [by left|].
  destruct i as [|i], o as [e'|]; simpl; try done.
  - destruct (next_from 0 m) eqn:E; simpl; [done|]. intros _ [|k] Hk; [by right|].
    apply (IH 0 E). lia.
  - destruct (next_from i m) eqn:E; simpl; [done|]. intros _ [|k] Hk; [lia|].
    apply (IH i E). lia.
  - destruct (next_from i m) eqn:E; simpl; [done|]. intros _ [|k] Hk; [lia|].
    apply (IH i E). lia.
Qed.

(** [delete] only empties slots. *)
Lemma delete_lookup k m i e : delete k m !! i = Some (Some e) -> m !! i = Some (Some e).
Proof.
  revert i. induction m as [|o m IH]; intros i; [done|].
  destruct o as [[k' v']|]; simpl; [case_decide|]; destruct i; simpl; auto; done.
Qed.

Lemma length_delete k m : length (delete k m) = length m.
Proof. induction m as [|[[k' v']|] m IH]; simpl; [done| |by rewrite IH]. case_decide; simpl; congruence. Qed.

(** A present key has a live slot. *)
Lemma get_lookup k m v : get k m = Some v -> exists i, m !! i = Some (Some (k, v)).
Proof.
  induction m as [|[[k' v']|] m IH]; simpl; [done| |].
  - case_decide; [intros [= ->]; subst; by exists 0|]. intros Hg. destruct (IH Hg) as [i Hi]. by exists (S i).
  - intros Hg. destruct (IH Hg) as [i Hi]. by exists (S i).
Qed.

(** In a well-formed map, a live slot is the entry [get] finds. *)
Lemma lookup_get m i k v : wf m -> m !! i = Some (Some (k, v)) -> get k m = Some v.
Proof.
  unfold wf, keys. revert i. induction m as [|[[k' v']|] m IH]; intros i Hwf Hi; [done| |].
  - rewrite entries_cons_some in Hwf. simpl in Hwf. apply NoDup_cons in Hwf as [Hk' Hwf].
    simpl. destruct i as [|i]; simpl in Hi.
    + injection Hi as -> ->. by rewrite decide_True.
    + rewrite decide_False; [by eapply IH|]. intros <-. apply Hk'.
      apply list_elem_of_In. change k with (fst (k, v)). apply in_map.
      apply list_elem_of_In, alookup_in. rewrite <-get_entries. by eapply IH.
  - rewrite entries_cons_none in Hwf. destruct i as [|i]; simpl in Hi; [done|]. simpl. by eapply IH.
Qed.

(** Iterating an unchanged map from index [i] to its end, with enough
    fuel, yields its live entries from [i] on. *)
Fixpoint iterate (fuel i : nat) m : list (K * V) :=
  match fuel with
  | 0 => []
  | S fuel' =>
      match next_from i m with
      | Some (e, j) => e :: iterate fuel' j m
      | None => []
      end
  end.

Lemma iterate_entries fuel i m :
  length m <= i + fuel -> iterate fuel i m = entries (drop i m).
Proof.
  revert i. induction fuel as [|fuel IH]; intros i Hle; simpl.
  - rewrite drop_ge by lia. done.
  - pose proof (next_from_drop i m) as Hd.
    destruct (next_from i m) as [[e j]|]; [|done].
    destruct Hd as [Hlt ->]. f_equal. apply IH. lia.
Qed.

Lemma iterate_all m : iterate (length m) 0 m = entries m.
Proof. rewrite iterate_entries by lia. by rewrite drop_0. Qed.

End Iter.

(** ** Refinement by a finite map

    Every operation on a [JsMap.t] is the corresponding stdpp map
    operation on its abstraction [abs m], the map from each key to the
    value of its first live entry. *)

Section Abs.
Context {K V : Type} `{Countable K}.
Implicit Types (m : t K V) (k : K) (v : V).

Definition abs m : gmap K V := list_to_map (entries m).

Lemma abs_lookup_alist k (l : list (K * V)) :
  (list_to_map l : gmap K V) !! k = alookup k l.
Proof.
  induction l as [|[k' v'] l IH]; simpl; [apply lookup_empty|].
  rewrite lookup_insert. case_decide; subst; repeat case_decide; congruence.
Qed.

Lemma abs_lookup m k : abs m !! k = get k m.
Proof. unfold abs. by rewrite abs_lookup_alist, get_entries. Qed.

Lemma abs_empty : abs (empty : t K V) = ∅.
Proof. done. Qed.

Lemma abs_set k v m : abs (set k v m) = <[k:=v]> (abs m).
Proof.
  apply map_eq. intros k'. rewrite abs_lookup, lookup_insert, abs_lookup.
  case_decide; subst; [apply get_set_eq|by apply get_set_ne].
Qed.

Lemma abs_delete k m : wf m -> abs (delete k m) = stdpp.base.delete k (abs m).
Proof.
  intros Hwf. apply map_eq. intros k'. rewrite abs_lookup, lookup_delete, abs_lookup.
  case_decide; subst; [by apply get_delete_eq|by apply get_delete_ne].
Qed.

Lemma abs_size m : wf m -> stdpp.base.size (abs m) = size m.
Proof.
  unfold wf, keys, abs, size. generalize (entries m) as l. intros l Hnd.
  induction l as [|[k' v'] l IH]; simpl in *; [apply map_size_empty|].
  apply NoDup_cons in Hnd as [Hn Hnd].
  rewrite map_size_insert_None; [by rewrite IH|].
  rewrite abs_lookup_alist. destruct (alookup k' l) eqn:E; [|done].
  apply alookup_in in E. exfalso. apply Hn. apply list_elem_of_fmap. eexists; split; [|exact E]. done.
Qed.

End Abs.

#[export] Instance abs_proper {K V : Type} `{Countable K} :
  Proper (equiv_map ==> eq) (@abs K V _ _).
Proof. intros m1 m2 He. unfold abs. by rewrite He. Qed.

End JsMap.

#[export] Hint Rewrite @JsMap.entries_set @JsMap.entries_delete @JsMap.get_entries : editor_rw.
#[export] Hint Resolve JsMap.set_wf JsMap.delete_wf JsMap.empty_wf : editor.
