(* ===== verification/Store.v ===== *)
(** * The persistent room store: the [Code] Mongoose model

    [src/server/models/Code.js] declares the durable room record (its
    fields and defaults, lines 3-52), a pre-save hook that stamps
    [updatedAt] (lines 55-58) and a unique index on [roomId].  The route
    handlers and the socket handler use the collection through
    [findOne], [save], [findOneAndUpdate], [findOneAndDelete], [find] and
    [countDocuments].

    This file models the record ([Room]), the constructor with its
    defaults ([new_room]), and the collection ([Db]) with each operation
    as MongoDB and Mongoose perform it:
    - [insert] is [save()] of a new document: it fails validation on an
      empty [roomId] (the [required] validator), fails on a duplicate
      [roomId] (the unique index) and stamps both dates;
    - [save_changes] is [save()] of a loaded document: only the modified
      paths are written; a [push] onto [participants] is a [$push], an
      assignment of the whole array is a [$set] guarded by the document's
      version [__v] (Mongoose's optimistic versioning of arrays), and the
      pre-save hook sets [updatedAt];
    - [find_one_and_update] writes the given fields, an [undefined] field
      being left out of the update;
    - a store that is down fails every operation.
    The unique-index invariant ([unique_ids]) is preserved by each. *)

From S2P Require Import Prelude.

Module Store.

(** An entry of [participants] (Code.js lines 42-49). *)
Record Participant := mkParticipant {
  p_userId : option string;
  p_username : option string;
  p_joinedAt : Z
}.

(** A room document (Code.js lines 3-52); [version] is Mongoose's [__v]. *)
Record Room := mkRoom {
  roomId : string;
  code : string;
  language : string;
  title : string;
  description : string;
  createdAt : Z;
  updatedAt : Z;
  createdBy : string;
  isPublic : bool;
  participants : list Participant;
  version : nat
}.

(** The default of [code] (Code.js lines 10-13): ["// Start coding here...\n"]. *)
Definition default_code : string := "// Start coding here..." ++ String "010"%char EmptyString.

(** [new Code({...})]: a missing field takes its schema default; the
    dates default to the construction time. *)
Definition new_room (rid : string) (title0 description0 language0 createdBy0 : option string)
    (now : Z) : Room :=
  {| roomId := rid;
     code := default_code;
     language := default "javascript" language0;
     title := default "Untitled" title0;
     description := default "" description0;
     createdAt := now;
     updatedAt := now;
     createdBy := default "Anonymous" createdBy0;
     isPublic := true;
     participants := [];
     version := 0 |}.

(** Field updates of a document. *)
Definition set_code r s := mkRoom (roomId r) s (language r) (title r) (description r)
  (createdAt r) (updatedAt r) (createdBy r) (isPublic r) (participants r) (version r).
Definition set_language r s := mkRoom (roomId r) (code r) s (title r) (description r)
  (createdAt r) (updatedAt r) (createdBy r) (isPublic r) (participants r) (version r).
Definition set_title r s := mkRoom (roomId r) (code r) (language r) s (description r)
  (createdAt r) (updatedAt r) (createdBy r) (isPublic r) (participants r) (version r).
Definition set_description r s := mkRoom (roomId r) (code r) (language r) (title r) s
  (createdAt r) (updatedAt r) (createdBy r) (isPublic r) (participants r) (version r).
Definition set_participants r ps := mkRoom (roomId r) (code r) (language r) (title r)
  (description r) (createdAt r) (updatedAt r) (createdBy r) (isPublic r) ps (version r).
Definition stamp r (now : Z) (v : nat) := mkRoom (roomId r) (code r) (language r) (title r)
  (description r) (createdAt r) now (createdBy r) (isPublic r) (participants r) v.

(** Errors of the store. *)
Inductive DbError :=
| DuplicateKey        (** E11000 on the unique [roomId] index *)
| DocumentNotFound    (** [save()] of a document that is no longer stored *)
| VersionError        (** [save()] of an array against a newer [__v] *)
| Unavailable         (** the database cannot be reached *)
| BadValue            (** a negative [skip] *)
| BadRegex            (** a [$regex] pattern that does not compile *)
| ValidationError.    (** a required path ([roomId]) is empty *)

(** The collection, in natural order, and whether the server is up. *)
Record Db := mkDb { docs : list Room; up : bool }.

Definition has_id (rid : string) (r : Room) : bool := String.eqb (roomId r) rid.

(** A modified path of a document, as [save()] or an update writes it. *)
Inductive Change :=
| SetCode (s : string)
| SetLanguage (s : string)
| SetTitle (s : string)
| SetDescription (s : string)
| PushParticipant (p : Participant)
| SetParticipants (ps : list Participant).

(** An update field given as a possibly [undefined] JavaScript value:
    Mongoose leaves [undefined] fields out of the update. *)
Definition opt_change (mk : string -> Change) (o : option string) : list Change :=
  match o with Some s => [mk s] | None => [] end.

Definition apply_change (r : Room) (c : Change) : Room :=
  match c with
  | SetCode s => set_code r s
  | SetLanguage s => set_language r s
  | SetTitle s => set_title r s
  | SetDescription s => set_description r s
  | PushParticipant p => set_participants r (participants r ++ [p])
  | SetParticipants ps => set_participants r ps
  end.

Definition apply_changes (r : Room) (cs : list Change) : Room := foldl apply_change r cs.

Definition touches_array (c : Change) : bool :=
  match c with PushParticipant _ | SetParticipants _ => true | _ => false end.

Definition sets_array (c : Change) : bool :=
  match c with SetParticipants _ => true | _ => false end.

(** Replace the stored document with id [rid]. *)
Definition replace_doc (rid : string) (r : Room) (l : list Room) : list Room :=
  map (fun d => if has_id rid d then r else d) l.

(** [Code.findOne({ roomId })]. *)
Definition find_one (rid : string) (db : Db) : result (option Room) DbError :=
  if up db then Ok (List.find (has_id rid) (docs db)) else Err Unavailable.

(** Mongoose's [required] validator of [roomId] (line 7): a string
    passes when it is not empty.  [save()] validates the document before
    it reaches the database. *)
Definition required_ok (r : Room) : bool := negb (String.eqb (roomId r) "").

(** [doc.save()] of a new document at time [now]. *)
Definition insert (r : Room) (now : Z) (db : Db) : result (Room * Db) DbError :=
  if negb (required_ok r) then Err ValidationError
  else if negb (up db) then Err Unavailable
  else if List.existsb (has_id (roomId r)) (docs db) then Err DuplicateKey
  else
    let r' := stamp r now (version r) in
    Ok (r', mkDb (docs db ++ [r']) true).

(** [doc.save()] of a loaded document [r] whose paths [cs] were modified
    in memory: returns the document as it is after the save and the new
    store. *)
Definition save_changes (r : Room) (cs : list Change) (now : Z) (db : Db)
    : result (Room * Db) DbError :=
  if negb (required_ok r) then Err ValidationError else
  if negb (up db) then Err Unavailable else
  match List.find (has_id (roomId r)) (docs db) with
  | None => Err DocumentNotFound
  | Some stored =>
      if List.existsb sets_array cs && negb (Nat.eqb (version stored) (version r))
      then Err VersionError
      else
        let bump := if List.existsb touches_array cs then S else id in
        let stored' := stamp (apply_changes stored cs) now (bump (version stored)) in
        let local := stamp (apply_changes r cs) now (bump (version r)) in
        Ok (local, mkDb (replace_doc (roomId r) stored' (docs db)) true)
  end.

(** [Code.findOneAndUpdate({ roomId }, fields)]: the document before the
    update, if there was one. *)
Definition find_one_and_update (rid : string) (cs : list Change) (now : Z) (db : Db)
    : result (option Room * Db) DbError :=
  if negb (up db) then Err Unavailable else
  match List.find (has_id rid) (docs db) with
  | None => Ok (None, db)
  | Some stored =>
      let stored' := stamp (apply_changes stored cs) now (version stored) in
      Ok (Some stored, mkDb (replace_doc rid stored' (docs db)) true)
  end.

(** [Code.findOneAndDelete({ roomId })]. *)
Definition find_one_and_delete (rid : string) (db : Db) : result (option Room * Db) DbError :=
  if negb (up db) then Err Unavailable else
  match List.find (has_id rid) (docs db) with
  | None => Ok (None, db)
  | Some stored => Ok (Some stored, mkDb (List.filter (fun d => negb (has_id rid d)) (docs db)) true)
  end.

(** ** Queries: [find(query).sort({ updatedAt: -1 }).skip(s).limit(l)]

    MongoDB sorts the matching documents by [updatedAt], newest first; it
    does not specify the order of ties, which [sort_desc] takes in the
    collection's natural order (an insertion sort, so stable). *)

Fixpoint insert_desc (r : Room) (l : list Room) : list Room :=
  match l with
  | [] => [r]
  | d :: l' => if Z.leb (updatedAt d) (updatedAt r) then r :: d :: l' else d :: insert_desc r l'
  end.

Fixpoint sort_desc (l : list Room) : list Room :=
  match l with
  | [] => []
  | r :: l' => insert_desc r (sort_desc l')
  end.

(** [skip] then [limit]: a negative skip is refused by the server, a zero
    limit means no limit and a negative limit [-n] returns [n] documents. *)
Definition skip_limit (s l : Z) (rs : list Room) : result (list Room) DbError :=
  if Z.ltb s 0 then Err BadValue
  else
    let rest := drop (Z.to_nat s) rs in
    Ok (if Z.eqb l 0 then rest else take (Z.to_nat (Z.abs l)) rest).

Definition find_sorted (q : Room -> bool) (s l : Z) (db : Db) : result (list Room) DbError :=
  if up db then skip_limit s l (sort_desc (List.filter q (docs db))) else Err Unavailable.

Definition count_documents (q : Room -> bool) (db : Db) : result Z DbError :=
  if up db then Ok (Z.of_nat (length (List.filter q (docs db)))) else Err Unavailable.

Definition newer_or_same (a b : Room) : Prop := (updatedAt b <= updatedAt a)%Z.

Lemma insert_desc_perm r l : insert_desc r l ≡ₚ r :: l.
Proof.
  induction l as [|d l IH]; simpl; [done|].
  destruct (Z.leb _ _); [done|]. rewrite IH. constructor.
Qed.

Lemma sort_desc_perm l : sort_desc l ≡ₚ l.
Proof. induction l as [|r l IH]; simpl; [done|]. by rewrite insert_desc_perm, IH. Qed.

Lemma insert_desc_sorted r l :
  Sorted newer_or_same l -> Sorted newer_or_same (insert_desc r l).
Proof.
  induction 1 as [|d l Hs IH Hhd]; simpl; [by repeat constructor|].
  unfold newer_or_same in *.
  destruct (Z.leb_spec (updatedAt d) (updatedAt r)) as [Hle|Hlt].
  - constructor; [by constructor|constructor; unfold newer_or_same; lia].
  - constructor; [exact IH|]. destruct l as [|d' l]; simpl.
    + constructor. unfold newer_or_same. lia.
    + inversion Hhd as [|? ? Hd]; subst. unfold newer_or_same in Hd.
      destruct (Z.leb_spec (updatedAt d') (updatedAt r)); constructor; unfold newer_or_same; lia.
Qed.

Lemma sort_desc_sorted l : Sorted newer_or_same (sort_desc l).
Proof. induction l as [|r l IH]; simpl; [constructor|]. by apply insert_desc_sorted. Qed.

(** The unique index on [roomId]. *)
Definition unique_ids (db : Db) : Prop := NoDup (map roomId (docs db)).

(** ** Properties of the store operations *)

Lemma roomId_apply_changes r cs : roomId (apply_changes r cs) = roomId r.
Proof.
  unfold apply_changes. revert r. induction cs as [|c cs IH]; intros r; simpl; [done|].
  rewrite IH. by destruct c.
Qed.

Lemma roomId_stamp r now v : roomId (stamp r now v) = roomId r.
Proof. done. Qed.

#[export] Hint Rewrite roomId_apply_changes roomId_stamp : editor_rw.

Lemma find_has_id rid l r : List.find (has_id rid) l = Some r -> roomId r = rid.
Proof.
  intros Hf. apply find_some in Hf as [_ Hf]. unfold has_id in Hf.
  by apply String.eqb_eq in Hf.
Qed.

Lemma map_roomId_replace rid r l :
  roomId r = rid -> map roomId (replace_doc rid r l) = map roomId l.
Proof.
  intros Hr. induction l as [|d l IH]; simpl; [done|]. rewrite IH.
  unfold has_id. destruct (String.eqb (roomId d) rid) eqn:E; [|done].
  apply String.eqb_eq in E. congruence.
Qed.

Lemma existsb_has_id_false rid l : List.existsb (has_id rid) l = false -> rid ∉ map roomId l.
Proof.
  induction l as [|d l IH]; simpl; [set_solver|].
  intros [Hd Hl]%orb_false_iff. unfold has_id in Hd. apply String.eqb_neq in Hd.
  apply IH in Hl. set_solver.
Qed.

Lemma find_none_has_id rid l : List.find (has_id rid) l = None -> List.existsb (has_id rid) l = false.
Proof.
  induction l as [|d l IH]; simpl; [done|].
  destruct (has_id rid d); [discriminate|]. auto.
Qed.

Lemma find_snoc_none {A} (f : A -> bool) l x :
  List.find f l = None -> List.find f (l ++ [x]) = if f x then Some x else None.
Proof. induction l as [|y l IH]; simpl; [done|]. destruct (f y); [discriminate|done]. Qed.

Lemma find_one_some rid db r :
  find_one rid db = Ok (Some r) -> up db = true /\ List.find (has_id rid) (docs db) = Some r /\ roomId r = rid.
Proof.
  unfold find_one. destruct (up db); [|discriminate]. intros [= Hf].
  repeat split; [done|]. eapply find_has_id; eauto.
Qed.

(** The document [insert] stores is the one [find_one] returns next. *)
Lemma find_one_insert r now db r' db' :
  insert r now db = Ok (r', db') -> find_one (roomId r) db' = Ok (Some r').
Proof.
  unfold insert, find_one. destruct (required_ok r); simpl; [|discriminate].
  destruct (up db) eqn:Hup; simpl; [|discriminate].
  destruct (List.existsb (has_id (roomId r)) (docs db)) eqn:Ex; [discriminate|].
  intros [= <- <-]. simpl. f_equal.
  induction (docs db) as [|d l IH]; simpl in *.
  - unfold has_id. simpl. by rewrite String.eqb_refl.
  - apply orb_false_iff in Ex as [-> Ex]. auto.
Qed.

Lemma insert_duplicate r now db d :
  find_one (roomId r) db = Ok (Some d) ->
  insert r now db = Err (if required_ok r then DuplicateKey else ValidationError).
Proof.
  unfold find_one, insert. destruct (required_ok r); simpl; [|done].
  destruct (up db); simpl; [|discriminate].
  intros [= Hf]. apply find_some in Hf as [Hin Hid].
  replace (List.existsb (has_id (roomId r)) (docs db)) with true; [done|].
  symmetry. apply existsb_exists. eauto.
Qed.

(** A document found under a non-empty id passes the [required] check. *)
Lemma required_found rid db r : rid <> "" -> find_one rid db = Ok (Some r) -> required_ok r = true.
Proof.
  intros Hne Hf. destruct (find_one_some _ _ _ Hf) as (_ & _ & Hid).
  unfold required_ok. rewrite Hid. by rewrite (proj2 (String.eqb_neq rid "") Hne).
Qed.

(** Each operation keeps [roomId] unique. *)
Lemma insert_unique r now db r' db' :
  unique_ids db -> insert r now db = Ok (r', db') -> unique_ids db'.
Proof.
  unfold unique_ids, insert. destruct (required_ok r); simpl; [|discriminate].
  destruct (up db); simpl; [|discriminate].
  destruct (List.existsb (has_id (roomId r)) (docs db)) eqn:Ex; [discriminate|].
  intros Hnd [= <- <-]. simpl. rewrite map_app. simpl.
  apply NoDup_app. split; [done|]. split; [|apply NoDup_singleton].
  apply existsb_has_id_false in Ex. set_solver.
Qed.

Lemma save_changes_unique r cs now db r' db' :
  unique_ids db -> save_changes r cs now db = Ok (r', db') -> unique_ids db'.
Proof.
  unfold unique_ids, save_changes. destruct (required_ok r); simpl; [|discriminate].
  destruct (up db); simpl; [|discriminate].
  destruct (List.find (has_id (roomId r)) (docs db)) as [st|] eqn:Hf; [|discriminate].
  destruct (_ && _); [discriminate|].
  intros Hnd [= <- <-]. simpl. rewrite map_roomId_replace; [done|].
  rewrite roomId_stamp, roomId_apply_changes. eapply find_has_id; eauto.
Qed.

Lemma find_one_and_update_unique rid cs now db o db' :
  unique_ids db -> find_one_and_update rid cs now db = Ok (o, db') -> unique_ids db'.
Proof.
  unfold unique_ids, find_one_and_update. destruct (up db); simpl; [|discriminate].
  destruct (List.find (has_id rid) (docs db)) as [st|] eqn:Hf; intros Hnd [= <- <-]; [|done].
  simpl. rewrite map_roomId_replace; [done|].
  rewrite roomId_stamp, roomId_apply_changes. eapply find_has_id; eauto.
Qed.

Lemma find_one_and_delete_unique rid db o db' :
  unique_ids db -> find_one_and_delete rid db = Ok (o, db') -> unique_ids db'.
Proof.
  unfold unique_ids, find_one_and_delete. destruct (up db); simpl; [|discriminate].
  destruct (List.find (has_id rid) (docs db)); intros Hnd [= <- <-]; [|done].
  by apply NoDup_map_filter.
Qed.

(** [find_one] after a write to document [rid] returns the written document. *)
Lemma find_replace_doc rid r l d :
  List.find (has_id rid) l = Some d -> roomId r = rid ->
  List.find (has_id rid) (replace_doc rid r l) = Some r.
Proof.
  intros Hf Hr. induction l as [|d' l IH]; simpl in *; [discriminate|].
  destruct (has_id rid d') eqn:E; simpl.
  - unfold has_id. rewrite Hr. by rewrite String.eqb_refl.
  - rewrite E. auto.
Qed.

Lemma find_one_after_save r cs now db r' db' :
  save_changes r cs now db = Ok (r', db') ->
  exists stored, find_one (roomId r) db = Ok (Some stored) /\
    find_one (roomId r) db' =
      Ok (Some (stamp (apply_changes stored cs) now
                  ((if List.existsb touches_array cs then S else id) (version stored)))) /\
    r' = stamp (apply_changes r cs) now ((if List.existsb touches_array cs then S else id) (version r)).
Proof.
  unfold save_changes, find_one. destruct (required_ok r); simpl; [|discriminate].
  destruct (up db); simpl; [|discriminate].
  destruct (List.find (has_id (roomId r)) (docs db)) as [st|] eqn:Hf; [|discriminate].
  destruct (_ && _); [discriminate|]. intros [= <- <-].
  exists st. split; [done|]. split; [|done]. simpl. f_equal.
  eapply find_replace_doc; [exact Hf|]. rewrite roomId_stamp, roomId_apply_changes.
  eapply find_has_id; eauto.
Qed.

(** An insert of an id the store does not hold succeeds. *)
Lemma insert_new r now db :
  required_ok r = true -> up db = true -> find_one (roomId r) db = Ok None ->
  insert r now db = Ok (stamp r now (version r), mkDb (docs db ++ [stamp r now (version r)]) true).
Proof.
  unfold find_one, insert. intros -> -> [= Hf]. simpl. by rewrite (find_none_has_id _ _ Hf).
Qed.

(** A [save()] that pushes a participant succeeds whenever the document
    is stored: only a [SetParticipants] is checked against [__v]. *)
Lemma save_push r p now db stored :
  required_ok r = true -> find_one (roomId r) db = Ok (Some stored) ->
  exists r' db', save_changes r [PushParticipant p] now db = Ok (r', db') /\
    find_one (roomId r) db' =
      Ok (Some (stamp (set_participants stored (participants stored ++ [p])) now (S (version stored)))).
Proof.
  intros Hreq Hf. destruct (find_one_some _ _ _ Hf) as (Hup & Hfind & Hid).
  unfold save_changes. rewrite Hreq, Hup, Hfind. simpl. do 2 eexists. split; [reflexivity|].
  unfold find_one. simpl. f_equal. f_equal. apply find_replace_doc with stored; [done|]. simpl. done.
Qed.

(** A save that sets the whole participant array of a document loaded
    before the stored one changed version is rejected. *)
Lemma save_set_stale r ps now db stored :
  required_ok r = true -> find_one (roomId r) db = Ok (Some stored) -> version stored <> version r ->
  save_changes r [SetParticipants ps] now db = Err VersionError.
Proof.
  intros Hreq Hf Hv. destruct (find_one_some _ _ _ Hf) as (Hup & Hfind & Hid).
  unfold save_changes. rewrite Hreq, Hup, Hfind. simpl.
  by rewrite (proj2 (Nat.eqb_neq _ _) Hv).
Qed.

(** ** The store's typing

    Every stored document has a [roomId] that passes the [required]
    validator, and no two share it (the unique index). *)
Definition docs_typed (db : Db) : Prop := unique_ids db /\ "" ∉ map roomId (docs db).

(** What each write does to the stored ids. *)
Lemma insert_ids r now db r' db' :
  insert r now db = Ok (r', db') ->
  required_ok r = true /\ map roomId (docs db') = map roomId (docs db) ++ [roomId r].
Proof.
  unfold insert. destruct (required_ok r); simpl; [|discriminate].
  destruct (up db); simpl; [|discriminate].
  destruct (List.existsb _ _); [discriminate|]. intros [= <- <-]. simpl. by rewrite map_app.
Qed.

Lemma save_changes_ids r cs now db r' db' :
  save_changes r cs now db = Ok (r', db') -> map roomId (docs db') = map roomId (docs db).
Proof.
  unfold save_changes. destruct (required_ok r); simpl; [|discriminate].
  destruct (up db); simpl; [|discriminate].
  destruct (List.find (has_id (roomId r)) (docs db)) as [st|] eqn:Hf; [|discriminate].
  destruct (_ && _); [discriminate|]. intros [= <- <-]. simpl. apply map_roomId_replace.
  rewrite roomId_stamp, roomId_apply_changes. eapply find_has_id; eauto.
Qed.

Lemma find_one_and_update_ids rid cs now db o db' :
  find_one_and_update rid cs now db = Ok (o, db') -> map roomId (docs db') = map roomId (docs db).
Proof.
  unfold find_one_and_update. destruct (up db); simpl; [|discriminate].
  destruct (List.find (has_id rid) (docs db)) as [st|] eqn:Hf; intros [= <- <-]; [|done].
  simpl. apply map_roomId_replace. rewrite roomId_stamp, roomId_apply_changes. eapply find_has_id; eauto.
Qed.

Lemma insert_typed r now db r' db' :
  docs_typed db -> insert r now db = Ok (r', db') -> docs_typed db'.
Proof.
  intros [Hu Hn] Hi. split; [by eapply insert_unique|].
  destruct (insert_ids _ _ _ _ _ Hi) as [Hr ->]. unfold required_ok in Hr.
  rewrite elem_of_app, list_elem_of_singleton. intros [|Habs]; [done|].
  rewrite <-Habs, String.eqb_refl in Hr. discriminate.
Qed.

Lemma save_changes_typed r cs now db r' db' :
  docs_typed db -> save_changes r cs now db = Ok (r', db') -> docs_typed db'.
Proof. unfold docs_typed, unique_ids. intros H Hs. by rewrite (save_changes_ids _ _ _ _ _ _ Hs). Qed.

Lemma find_one_and_update_typed rid cs now db o db' :
  docs_typed db -> find_one_and_update rid cs now db = Ok (o, db') -> docs_typed db'.
Proof. unfold docs_typed, unique_ids. intros H Hs. by rewrite (find_one_and_update_ids _ _ _ _ _ _ Hs). Qed.

Lemma find_one_and_delete_typed rid db o db' :
  docs_typed db -> find_one_and_delete rid db = Ok (o, db') -> docs_typed db'.
Proof.
  intros [Hu Hn] Hd. split; [by eapply find_one_and_delete_unique|].
  revert Hd. unfold find_one_and_delete. destruct (up db); simpl; [|discriminate].
  destruct (List.find (has_id rid) (docs db)); intros [= <- <-]; [|done]. simpl.
  intros Hin. apply Hn. apply list_elem_of_In in Hin. apply in_map_iff in Hin as (d & <- & Hd).
  apply filter_In in Hd as [Hd _]. apply list_elem_of_In, in_map, Hd.
Qed.

#[export] Hint Resolve insert_unique save_changes_unique find_one_and_update_unique
  find_one_and_delete_unique : editor.

End Store.
