(* ===== verification/Handler.v ===== *)
(** * The room event router: [src/server/socket/handler.js]

    The socket handler keeps a process-wide [Map] [rooms] (line 3) from a
    room id to a live room-state object [{code, language, participants,
    cursors, saveTimeout}] (lines 34-39), and registers, per connected
    socket, one handler per inbound event (lines 10-288).  A handler runs
    synchronously until its first [await] on the store; the rest of it
    runs later, when the store answers, interleaved with other handlers.

    The model:
    - [World] is the whole server state: the [rooms] map from a room id
      to a reference, the heap of room-state objects ([w_heap]; two
      handlers that captured the same object see each other's writes, and
      a handler that captured an object keeps it after [rooms] forgets
      it), socket.io's broadcast groups ([w_groups], a [Map] of [Set]s,
      as its in-memory adapter keeps them), the connected sockets, the
      store, the pending timers, the pending continuations ([w_tasks]),
      the clock and the emitted events ([w_out], in emission order);
    - each handler is a statement of the state monad [St World] that reads
      as the JavaScript it models, up to its first [await], which leaves a
      [Task] naming the store operation and what follows it;
    - [resume] runs a task: it performs the store operation against the
      store as it is then, and runs the code after the [await] up to the
      next one;
    - [fire] runs an expired timer's callback (the debounced save).
    The event loop that interleaves these is in [EventLoop]. *)

From S2P Require Import Prelude JsMap Store.

Module Handler.
Import Store.

(** ** Data *)

(** A JSON value relayed from a client's payload (cursor positions, chat
    messages, typing flags), never inspected by the server. *)
Inductive Json :=
| JUndefined
| JNull
| JBool (b : bool)
| JNum (z : Z)
| JStr (s : string)
| JList (l : list Json)
| JObj (fields : list (string * Json)).

(** An entry of [roomState.participants] (lines 43-47). *)
Record LiveParticipant := mkLive { lp_id : string; lp_username : string; lp_joinedAt : Z }.

(** An entry of [roomState.cursors] (lines 129-134). *)
Record Cursor := mkCursor {
  cur_userId : string; cur_position : Json; cur_selection : Json; cur_timestamp : Z }.

(** A live room-state object (lines 34-39 and the [saveTimeout] field
    added at line 106). [code] and [language] hold whatever the last
    event sent, [undefined] included. *)
Record RoomState := mkRoomState {
  rs_code : option string;
  rs_language : option string;
  rs_participants : JsMap.t string LiveParticipant;
  rs_cursors : JsMap.t string Cursor;
  rs_saveTimeout : option nat
}.

Definition rs_set_code (rs : RoomState) c :=
  mkRoomState c (rs_language rs) (rs_participants rs) (rs_cursors rs) (rs_saveTimeout rs).
Definition rs_set_language (rs : RoomState) l :=
  mkRoomState (rs_code rs) l (rs_participants rs) (rs_cursors rs) (rs_saveTimeout rs).
Definition rs_set_participants (rs : RoomState) ps :=
  mkRoomState (rs_code rs) (rs_language rs) ps (rs_cursors rs) (rs_saveTimeout rs).
Definition rs_set_cursors (rs : RoomState) cs :=
  mkRoomState (rs_code rs) (rs_language rs) (rs_participants rs) cs (rs_saveTimeout rs).
Definition rs_set_saveTimeout (rs : RoomState) t :=
  mkRoomState (rs_code rs) (rs_language rs) (rs_participants rs) (rs_cursors rs) t.

(** Inbound events (lines 10, 84, 123, 146, 160, 171, 197, 255) with
    their payload fields; a missing field is [None] or [JUndefined]. *)
Inductive InEvent :=
| JoinRoom (roomId : string) (username : option string)
| CodeChange (roomId : string) (code language : option string)
| CursorChange (roomId : string) (position selection : Json)
| ChatMessageIn (roomId : string) (message : Json) (username : option string)
| TypingIn (roomId : string) (isTyping : Json)
| LanguageChange (roomId : string) (language : option string)
| RoomUpdate (roomId : string) (title description : option string)
| LeaveRoom (roomId : string).

(** Outbound events with their payloads. *)
Inductive OutEvent :=
| RoomJoined (roomId : string) (code language : option string)
    (participants : list LiveParticipant) (cursors : list Cursor)
| UserJoined (userId username : string) (participants : list LiveParticipant)
| CodeUpdated (code language : option string) (userId : string)
| CursorUpdated (userId : string) (position selection : Json)
| ChatMessage (userId username : string) (message : Json) (timestamp : Z)
| UserTyping (userId : string) (isTyping : Json)
| LanguageUpdated (language : option string) (userId : string)
| RoomUpdated (title description : option string) (userId : string)
| UserLeft (userId : string) (participants : list LiveParticipant)
| ErrorEvent (message : string).

(** A pending debounced save (the [setTimeout] of lines 106-115): its
    id, when it is due, and the values its closure captured. *)
Record Timer := mkTimer {
  tm_id : nat; tm_due : Z; tm_roomId : string; tm_code : option string; tm_language : option string }.

(** A handler suspended at an [await]: the store operation it waits for
    is performed when it resumes.  [issued] is the time the operation was
    issued (the [new Date()] of its arguments, or the pre-save hook). *)
Inductive Task :=
| JoinFind (sid roomId : string) (username : option string)
    (** [await Code.findOne({ roomId })], line 16 *)
| JoinCreate (sid roomId : string) (username : option string) (room : Room) (issued : Z)
    (** [await room.save()] of a new room, line 26 *)
| JoinSave (sid roomId : string) (username : option string) (room : Room) (p : Participant)
    (ref : nat) (issued : Z)
    (** [await room.save()] after [participants.push], line 57 *)
| CodeSave (roomId : string) (code language : option string) (issued : Z)
    (** [await Code.findOneAndUpdate] in the timer callback, line 108 *)
| LanguageSave (roomId : string) (language : option string) (issued : Z)
    (** line 187 *)
| RoomUpdateSave (roomId : string) (title description : option string) (issued : Z)
    (** line 209 *)
| LeaveFind (sid roomId : string) (ref : nat)
    (** [await Code.findOne], line 274 *)
| LeaveSave (sid roomId : string) (ref : nat) (room : Room) (kept : list Participant) (issued : Z)
    (** [await room.save()], line 277 *)
| DisconnectFind (sid roomId : string) (ref : nat) (next : nat)
    (** [await Code.findOne], line 237, iterating [rooms] at index [next] *)
| DisconnectSave (sid roomId : string) (ref : nat) (next : nat) (room : Room)
    (kept : list Participant) (issued : Z).
    (** [await room.save()], line 240 *)

(** The server. *)
Record World := mkWorld {
  w_rooms : JsMap.t string nat;
  w_heap : gmap nat RoomState;
  w_next_ref : nat;
  w_groups : JsMap.t string (JsMap.t string unit);
  w_connected : list string;
  w_db : Db;
  w_timers : list Timer;
  w_next_timer : nat;
  w_tasks : list Task;
  w_clock : Z;
  w_out : list (string * OutEvent)
}.

(** ** Primitive statements *)

Definition set_rooms w x := mkWorld x (w_heap w) (w_next_ref w) (w_groups w) (w_connected w)
  (w_db w) (w_timers w) (w_next_timer w) (w_tasks w) (w_clock w) (w_out w).
Definition set_heap w x := mkWorld (w_rooms w) x (w_next_ref w) (w_groups w) (w_connected w)
  (w_db w) (w_timers w) (w_next_timer w) (w_tasks w) (w_clock w) (w_out w).
Definition set_next_ref w x := mkWorld (w_rooms w) (w_heap w) x (w_groups w) (w_connected w)
  (w_db w) (w_timers w) (w_next_timer w) (w_tasks w) (w_clock w) (w_out w).
Definition set_groups w x := mkWorld (w_rooms w) (w_heap w) (w_next_ref w) x (w_connected w)
  (w_db w) (w_timers w) (w_next_timer w) (w_tasks w) (w_clock w) (w_out w).
Definition set_connected w x := mkWorld (w_rooms w) (w_heap w) (w_next_ref w) (w_groups w) x
  (w_db w) (w_timers w) (w_next_timer w) (w_tasks w) (w_clock w) (w_out w).
Definition set_db w x := mkWorld (w_rooms w) (w_heap w) (w_next_ref w) (w_groups w)
  (w_connected w) x (w_timers w) (w_next_timer w) (w_tasks w) (w_clock w) (w_out w).
Definition set_timers w x := mkWorld (w_rooms w) (w_heap w) (w_next_ref w) (w_groups w)
  (w_connected w) (w_db w) x (w_next_timer w) (w_tasks w) (w_clock w) (w_out w).
Definition set_next_timer w x := mkWorld (w_rooms w) (w_heap w) (w_next_ref w) (w_groups w)
  (w_connected w) (w_db w) (w_timers w) x (w_tasks w) (w_clock w) (w_out w).
Definition set_tasks w x := mkWorld (w_rooms w) (w_heap w) (w_next_ref w) (w_groups w)
  (w_connected w) (w_db w) (w_timers w) (w_next_timer w) x (w_clock w) (w_out w).
Definition set_clock w x := mkWorld (w_rooms w) (w_heap w) (w_next_ref w) (w_groups w)
  (w_connected w) (w_db w) (w_timers w) (w_next_timer w) (w_tasks w) x (w_out w).
Definition set_out w x := mkWorld (w_rooms w) (w_heap w) (w_next_ref w) (w_groups w)
  (w_connected w) (w_db w) (w_timers w) (w_next_timer w) (w_tasks w) (w_clock w) x.

Abbreviation M := (St World).

(** [Date.now()] / [new Date()]. *)
Definition now : M Z := fun w => (w_clock w, w).

(** [rooms.get(roomId)]: the reference of the room's state object. *)
Definition rooms_get (roomId : string) : M (option nat) := fun w => (JsMap.get roomId (w_rooms w), w).

Definition empty_state : RoomState := mkRoomState None None JsMap.empty JsMap.empty None.

(** The object at a reference. *)
Definition deref (w : World) (ref : nat) : RoomState := default empty_state (w_heap w !! ref).

Definition state_of (ref : nat) : M RoomState := fun w => (deref w ref, w).

(** A write to a field of the object at [ref]. *)
Definition modify_state (ref : nat) (f : RoomState -> RoomState) : M unit :=
  st_modify (fun w => set_heap w (<[ref := f (deref w ref)]> (w_heap w))).

(** [new Map] of a room-state object literal: a fresh reference. *)
Definition alloc_state (rs : RoomState) : M nat :=
  fun w => (w_next_ref w,
            set_next_ref (set_heap w (<[w_next_ref w := rs]> (w_heap w))) (S (w_next_ref w))).

(** [rooms.set(roomId, obj)] and [rooms.delete(roomId)]. *)
Definition rooms_set (roomId : string) (ref : nat) : M unit :=
  st_modify (fun w => set_rooms w (JsMap.set roomId ref (w_rooms w))).
Definition rooms_delete (roomId : string) : M unit :=
  st_modify (fun w => set_rooms w (JsMap.delete roomId (w_rooms w))).

(** The members of a broadcast group, in the order they joined. *)
Definition members (w : World) (room : string) : list string :=
  match JsMap.get room (w_groups w) with Some set => JsMap.keys set | None => [] end.

(** [socket.emit(ev)] to one socket, and an event sent to several. *)
Definition emit (sid : string) (ev : OutEvent) : M unit :=
  st_modify (fun w => set_out w (w_out w ++ [(sid, ev)])).
Definition emit_all (sids : list string) (ev : OutEvent) : M unit :=
  st_modify (fun w => set_out w (w_out w ++ map (fun s => (s, ev)) sids)).

(** [socket.to(room).emit(ev)]: every member of the group but the sender. *)
Definition to_room_except (room sid : string) (ev : OutEvent) : M unit :=
  fun w => emit_all (List.filter (fun s => negb (String.eqb s sid)) (members w room)) ev w.

(** [io.to(room).emit(ev)]: every member of the group. *)
Definition to_room (room : string) (ev : OutEvent) : M unit :=
  fun w => emit_all (members w room) ev w.

(** [socket.join(room)]: socket.io's adapter adds the socket to the group,
    creating the group when it is missing.  A socket that has disconnected
    joins nothing: since socket.io 4.5.2 [join] after the disconnection is
    a no-op (the repository pins no version, and [npm install] of a 4.x
    range resolves to a later one). *)
Definition is_connected (w : World) (sid : string) : bool := bool_decide (sid ∈ w_connected w).
Arguments is_connected : simpl never.

Definition sio_join (sid room : string) : M unit :=
  st_modify (fun w =>
    let set := default JsMap.empty (JsMap.get room (w_groups w)) in
    set_groups w (if is_connected w sid
                  then JsMap.set room (JsMap.set sid tt set) (w_groups w) else w_groups w)).

(** [socket.leave(room)]: the adapter removes the socket and deletes a
    group that becomes empty. *)
Definition leave_group (sid room : string) (g : JsMap.t string (JsMap.t string unit))
    : JsMap.t string (JsMap.t string unit) :=
  match JsMap.get room g with
  | None => g
  | Some set =>
      let set' := JsMap.delete sid set in
      if Nat.eqb (JsMap.size set') 0 then JsMap.delete room g else JsMap.set room set' g
  end.

Definition sio_leave (sid room : string) : M unit :=
  st_modify (fun w => set_groups w (leave_group sid room (w_groups w))).

(** On disconnection the adapter removes the socket from every group. *)
Definition sio_leave_all (sid : string) : M unit :=
  st_modify (fun w => set_groups w (foldl (fun g room => leave_group sid room g)
                                          (w_groups w) (JsMap.keys (w_groups w)))).

(** [setTimeout(cb, 1000)] for the debounced save: its id. *)
Definition set_timeout (roomId : string) (code language : option string) : M nat :=
  fun w => (w_next_timer w,
            set_next_timer (set_timers w (w_timers w ++
              [mkTimer (w_next_timer w) (w_clock w + 1000) roomId code language]))
              (S (w_next_timer w))).

(** [clearTimeout(id)]: a no-op for [undefined] or an expired id. *)
Definition clear_timeout (id : option nat) : M unit :=
  match id with
  | None => skip
  | Some t => st_modify (fun w => set_timers w (List.filter (fun tm => negb (Nat.eqb (tm_id tm) t)) (w_timers w)))
  end.

(** [await op]: the handler suspends until the store answers. *)
Definition await (t : Task) : M unit := st_modify (fun w => set_tasks w (w_tasks w ++ [t])).

(** A store operation's effect on the store, returning its result. *)
Definition store {A} (op : Db -> result (A * Db) DbError) : M (result A DbError) :=
  fun w => match op (w_db w) with
           | Ok (a, db') => (Ok a, set_db w db')
           | Err e => (Err e, w)
           end.

Definition store_read {A} (op : Db -> result A DbError) : M (result A DbError) :=
  fun w => (op (w_db w), w).

(** ** The handlers *)

Definition is_user (sid : string) (p : Participant) : bool := bool_decide (p_userId p = Some sid).

(** [catch] of [join-room] (lines 77-80). *)
Definition join_error (sid : string) : M unit := emit sid (ErrorEvent "Failed to join room").

(** [join-room], lines 60-74: the snapshot to the joining socket and the
    participant list to the rest of the room, read from the state object
    the handler holds. *)
Definition join_finish (sid roomId : string) (username : option string) (ref : nat) : M unit :=
  rs <- state_of ref ;;
  emit sid (RoomJoined roomId (rs_code rs) (rs_language rs)
              (JsMap.values (rs_participants rs)) (JsMap.values (rs_cursors rs))) ;;
  rs' <- state_of ref ;;
  to_room_except roomId sid (UserJoined sid (username ?|| "Anonymous")
                               (JsMap.values (rs_participants rs'))).

(** [join-room], lines 29-58, with the stored room [room]: join the
    broadcast group, create the live state if the room has none, register
    the participant, and add it to the stored room unless it is there. *)
Definition join_continue (sid roomId : string) (username : option string) (room : Room) : M unit :=
  sio_join sid roomId ;;
  o <- rooms_get roomId ;;
  (match o with
   | None =>
       ref <- alloc_state (mkRoomState (Some (code room)) (Some (language room))
                             JsMap.empty JsMap.empty None) ;;
       rooms_set roomId ref
   | Some _ => skip
   end) ;;
  o' <- rooms_get roomId ;;
  match o' with
  | None => skip
  | Some ref =>
      t <- now ;;
      modify_state ref (fun rs => rs_set_participants rs
        (JsMap.set sid (mkLive sid (username ?|| "Anonymous") t) (rs_participants rs))) ;;
      if List.existsb (is_user sid) (participants room)
      then join_finish sid roomId username ref
      else await (JoinSave sid roomId username room
                    (mkParticipant (Some sid) (Some (username ?|| "Anonymous")) t) ref t)
  end.

(** [join-room], lines 16-27, once [findOne] answered: a missing room is
    created (and saved) first. *)
Definition join_after_find (sid roomId : string) (username : option string)
    (r : result (option Room) DbError) : M unit :=
  match r with
  | Err _ => join_error sid
  | Ok (Some room) => join_continue sid roomId username room
  | Ok None =>
      t <- now ;;
      await (JoinCreate sid roomId username
               (new_room roomId (Some "Untitled") None (Some "javascript")
                  (Some (username ?|| "Anonymous")) t) t)
  end.

(** [join-room], line 16. *)
Definition on_join_room (sid roomId : string) (username : option string) : M unit :=
  await (JoinFind sid roomId username).

(** [code-change], lines 84-120. *)
Definition on_code_change (sid roomId : string) (code language : option string) : M unit :=
  o <- rooms_get roomId ;;
  (match o with
   | Some ref =>
       modify_state ref (fun rs =>
         let rs1 := rs_set_code rs code in
         if js_truthy language then rs_set_language rs1 language else rs1)
   | None => skip
   end) ;;
  to_room_except roomId sid (CodeUpdated code language sid) ;;
  o2 <- rooms_get roomId ;;
  (match o2 with
   | Some ref => rs <- state_of ref ;; clear_timeout (rs_saveTimeout rs)
   | None => skip
   end) ;;
  o3 <- rooms_get roomId ;;
  match o3 with
  | Some ref =>
      tid <- set_timeout roomId code language ;;
      modify_state ref (fun rs => rs_set_saveTimeout rs (Some tid))
  | None => skip
  end.

(** The debounced save's callback (lines 106-114): its [findOneAndUpdate]
    is issued when the timer fires. *)
Definition timer_callback (tm : Timer) : M unit :=
  t <- now ;; await (CodeSave (tm_roomId tm) (tm_code tm) (tm_language tm) t).

(** [cursor-change], lines 123-143. *)
Definition on_cursor_change (sid roomId : string) (position selection : Json) : M unit :=
  o <- rooms_get roomId ;;
  match o with
  | Some ref =>
      t <- now ;;
      modify_state ref (fun rs => rs_set_cursors rs
        (JsMap.set sid (mkCursor sid position selection t) (rs_cursors rs))) ;;
      to_room_except roomId sid (CursorUpdated sid position selection)
  | None => skip
  end.

(** [chat-message], lines 146-157. *)
Definition on_chat_message (sid roomId : string) (message : Json) (username : option string) : M unit :=
  t <- now ;; to_room roomId (ChatMessage sid (username ?|| "Anonymous") message t).

(** [typing], lines 160-168. *)
Definition on_typing (sid roomId : string) (isTyping : Json) : M unit :=
  to_room_except roomId sid (UserTyping sid isTyping).

(** [language-change], lines 171-194. *)
Definition on_language_change (sid roomId : string) (language : option string) : M unit :=
  o <- rooms_get roomId ;;
  (match o with
   | Some ref => modify_state ref (fun rs => rs_set_language rs language)
   | None => skip
   end) ;;
  to_room roomId (LanguageUpdated language sid) ;;
  t <- now ;;
  await (LanguageSave roomId language t).

(** [room-update], lines 197-216. *)
Definition on_room_update (sid roomId : string) (title description : option string) : M unit :=
  to_room roomId (RoomUpdated title description sid) ;;
  t <- now ;;
  await (RoomUpdateSave roomId title description t).

(** Lines 226-227 and 263-264: the socket leaves the state object. *)
Definition remove_member (ref : nat) (sid : string) : M unit :=
  modify_state ref (fun rs => rs_set_cursors (rs_set_participants rs
    (JsMap.delete sid (rs_participants rs))) (JsMap.delete sid (rs_cursors rs))).

(** Lines 229-233 and 266-270: [user-left] to the rest of the room. *)
Definition notify_left (sid roomId : string) (ref : nat) : M unit :=
  rs <- state_of ref ;;
  to_room_except roomId sid (UserLeft sid (JsMap.values (rs_participants rs))).

(** Lines 246-249 and 283-286: the room is dropped from [rooms] when the
    state object the handler holds has no participant left. *)
Definition cleanup (roomId : string) (ref : nat) : M unit :=
  rs <- state_of ref ;;
  if Nat.eqb (JsMap.size (rs_participants rs)) 0 then rooms_delete roomId else skip.

(** [leave-room], lines 255-274. *)
Definition on_leave_room (sid roomId : string) : M unit :=
  sio_leave sid roomId ;;
  o <- rooms_get roomId ;;
  match o with
  | Some ref => remove_member ref sid ;; notify_left sid roomId ref ;; await (LeaveFind sid roomId ref)
  | None => skip
  end.

(** The stored participants without the socket's entries (lines 239, 276). *)
Definition kept_participants (sid : string) (room : Room) : list Participant :=
  List.filter (fun p => negb (is_user sid p)) (participants room).

(** The [disconnect] loop (lines 224-251) from iterator index [i]: skip
    the rooms the socket is not in; in the first one it is in, leave the
    state object, notify the room and wait for [findOne].  [fuel] bounds
    the number of skipped entries. *)
Fixpoint disconnect_loop (fuel : nat) (sid : string) (i : nat) : M unit :=
  match fuel with
  | 0 => skip
  | S fuel' =>
      fun w =>
        match JsMap.next_from i (w_rooms w) with
        | None => skip w
        | Some ((roomId, ref), j) =>
            if JsMap.has sid (rs_participants (deref w ref))
            then (remove_member ref sid ;; notify_left sid roomId ref ;;
                  await (DisconnectFind sid roomId ref j)) w
            else disconnect_loop fuel' sid j w
        end
  end.

(** With the number of slots of [rooms] as fuel, which is enough (see
    [disconnect_loop_fuel]). *)
Definition disconnect_from (sid : string) (i : nat) : M unit :=
  fun w => disconnect_loop (length (w_rooms w)) sid i w.

(** The [disconnect] event: socket.io has already removed the socket from
    every group when the handler runs. *)
Definition on_disconnect (sid : string) : M unit :=
  st_modify (fun w => set_connected w (List.filter (fun s => negb (String.eqb s sid)) (w_connected w))) ;;
  sio_leave_all sid ;;
  disconnect_from sid 0.

(** A new connection: socket.io puts the socket in a group of its own id. *)
Definition on_connect (sid : string) : M unit :=
  st_modify (fun w => set_connected w (w_connected w ++ [sid])) ;;
  sio_join sid sid.

(** The dispatcher of lines 10-288. *)
Definition handle (sid : string) (ev : InEvent) : M unit :=
  match ev with
  | JoinRoom roomId username => on_join_room sid roomId username
  | CodeChange roomId code language => on_code_change sid roomId code language
  | CursorChange roomId position selection => on_cursor_change sid roomId position selection
  | ChatMessageIn roomId message username => on_chat_message sid roomId message username
  | TypingIn roomId isTyping => on_typing sid roomId isTyping
  | LanguageChange roomId language => on_language_change sid roomId language
  | RoomUpdate roomId title description => on_room_update sid roomId title description
  | LeaveRoom roomId => on_leave_room sid roomId
  end.

(** Resuming a suspended handler: the store operation it awaited, then
    the code after the [await]. *)
Definition resume (t : Task) : M unit :=
  match t with
  | JoinFind sid roomId username =>
      r <- store_read (find_one roomId) ;; join_after_find sid roomId username r
  | JoinCreate sid roomId username room issued =>
      r <- store (insert room issued) ;;
      match r with
      | Ok room' => join_continue sid roomId username room'
      | Err _ => join_error sid
      end
  | JoinSave sid roomId username room p ref issued =>
      r <- store (save_changes room [PushParticipant p] issued) ;;
      match r with
      | Ok _ => join_finish sid roomId username ref
      | Err _ => join_error sid
      end
  | CodeSave roomId code language issued =>
      store (find_one_and_update roomId (opt_change SetCode code ++ opt_change SetLanguage language)
               issued) ;; skip
  | LanguageSave roomId language issued =>
      store (find_one_and_update roomId (opt_change SetLanguage language) issued) ;; skip
  | RoomUpdateSave roomId title description issued =>
      store (find_one_and_update roomId (opt_change SetTitle title ++
                                         opt_change SetDescription description) issued) ;; skip
  | LeaveFind sid roomId ref =>
      r <- store_read (find_one roomId) ;;
      match r with
      | Ok (Some room) => t <- now ;; await (LeaveSave sid roomId ref room (kept_participants sid room) t)
      | _ => cleanup roomId ref
      end
  | LeaveSave sid roomId ref room kept issued =>
      store (save_changes room [SetParticipants kept] issued) ;; cleanup roomId ref
  | DisconnectFind sid roomId ref next =>
      r <- store_read (find_one roomId) ;;
      match r with
      | Ok (Some room) =>
          t <- now ;; await (DisconnectSave sid roomId ref next room (kept_participants sid room) t)
      | _ => cleanup roomId ref ;; disconnect_from sid next
      end
  | DisconnectSave sid roomId ref next room kept issued =>
      store (save_changes room [SetParticipants kept] issued) ;;
      cleanup roomId ref ;; disconnect_from sid next
  end.

(** [unfold_prims] unfolds the primitive statements, so that [simpl]
    computes a handler's effect on a world. *)
Ltac unfold_prims :=
  unfold to_room_except, to_room, emit, emit_all, sio_join, sio_leave, set_timeout,
    clear_timeout, await, store, store_read, rooms_get, state_of, modify_state, alloc_state,
    rooms_set, rooms_delete, now, exec, skip, st_bind, st_ret, st_get, st_modify in *.

(** ** Who receives what *)

(** The sockets [socket.to(room)] reaches: the group's members but the
    sender. *)
Definition others (w : World) (room sid : string) : list string :=
  List.filter (fun s => negb (String.eqb s sid)) (members w room).

Lemma members_modify_state w ref f room :
  members (exec (modify_state ref f) w) room = members w room.
Proof. done. Qed.

Lemma members_set_timeout w roomId c l room :
  members (snd (set_timeout roomId c l w)) room = members w room.
Proof. done. Qed.

Lemma members_clear_timeout w t room :
  members (exec (clear_timeout t) w) room = members w room.
Proof. by destruct t. Qed.

Lemma out_modify_state w ref f : w_out (exec (modify_state ref f) w) = w_out w.
Proof. done. Qed.

Lemma rooms_modify_state w ref f : w_rooms (exec (modify_state ref f) w) = w_rooms w.
Proof. done. Qed.

(** C8: a [code-change] from [sid] is sent, as [code-updated] with the
    new code, language and sender, to every other member of the room's
    group and to no one else; in particular never back to [sid]. *)
Theorem code_change_audience sid roomId code language w :
  w_out (exec (on_code_change sid roomId code language) w)
    = w_out w ++ map (fun s => (s, CodeUpdated code language sid)) (others w roomId sid).
Proof.
  unfold on_code_change. unfold_prims.
  destruct (JsMap.get roomId (w_rooms w)) as [ref|] eqn:E; do 3 (simpl; rewrite ?E); [|done].
  destruct (rs_saveTimeout _); do 3 (simpl; rewrite ?E); reflexivity.
Qed.

(** ** The live state and the debounced save *)

Lemma deref_set_eq w ref x : deref (set_heap w (<[ref := x]> (w_heap w))) ref = x.
Proof. unfold deref. simpl. by rewrite lookup_insert_eq. Qed.

Lemma deref_set_ne w ref ref' x :
  ref <> ref' -> deref (set_heap w (<[ref := x]> (w_heap w))) ref' = deref w ref'.
Proof. intros Hne. unfold deref. simpl. by rewrite lookup_insert_ne. Qed.

(** The save timers pending for a room id. *)
Definition pending_saves (w : World) (roomId : string) : list Timer :=
  List.filter (fun tm => String.eqb (tm_roomId tm) roomId) (w_timers w).

(** Every save pending for a live room is the one its state object
    holds in [saveTimeout]. *)
Definition debounced (w : World) (roomId : string) (ref : nat) : Prop :=
  Forall (fun tm => rs_saveTimeout (deref w ref) = Some (tm_id tm)) (pending_saves w roomId).

(** Cancelling the save a room's state holds leaves no save pending for
    the room. *)
Lemma cancel_pending roomId (st : option nat) (ts : list Timer) :
  Forall (fun tm => st = Some (tm_id tm)) (List.filter (fun tm => String.eqb (tm_roomId tm) roomId) ts) ->
  List.filter (fun tm => String.eqb (tm_roomId tm) roomId)
    (List.filter (fun t => negb (match st with Some n => Nat.eqb (tm_id t) n | None => false end)) ts) = [].
Proof.
  induction ts as [|t ts IH]; simpl; [done|].
  destruct (String.eqb (tm_roomId t) roomId) eqn:Er; simpl; intros Hf.
  - apply Forall_cons in Hf as [-> Hf]. rewrite Nat.eqb_refl. simpl. auto.
  - destruct (negb _); simpl; rewrite ?Er; auto.
Qed.

Lemma Forall_none_nil (l : list Timer) :
  Forall (fun tm => None = Some (tm_id tm)) l -> l = [].
Proof. destruct 1; [done|discriminate]. Qed.

(** On a live room, [code-change] overwrites the state object's code,
    and its language only when the event's language is truthy; it cancels
    the pending save and schedules one new save, due 1000 ms later with
    the event's code and language, so that exactly one save is pending for
    the room afterwards. *)
Lemma code_change_debounce sid roomId code language w ref :
  JsMap.get roomId (w_rooms w) = Some ref -> debounced w roomId ref ->
  let w' := exec (on_code_change sid roomId code language) w in
  rs_code (deref w' ref) = code /\
  rs_language (deref w' ref) = (if js_truthy language then language else rs_language (deref w ref)) /\
  rs_participants (deref w' ref) = rs_participants (deref w ref) /\
  pending_saves w' roomId = [mkTimer (w_next_timer w) (w_clock w + 1000) roomId code language] /\
  debounced w' roomId ref.
Proof.
  intros E Hdeb. unfold on_code_change. unfold_prims. unfold debounced, pending_saves, deref in *.
  destruct (w_heap w !! ref) as [rs|] eqn:Hh; simpl in Hdeb;
  do 3 (simpl; rewrite ?E, ?Hh, ?lookup_insert_eq);
  [destruct (js_truthy language), (rs_saveTimeout rs) as [n|] eqn:Hst|destruct (js_truthy language)];
  do 3 (simpl; rewrite ?E, ?Hh, ?lookup_insert_eq, ?Hst);
  unfold default; simpl; rewrite List.filter_app; simpl; rewrite String.eqb_refl;
  first [rewrite (cancel_pending roomId (Some n)) by exact Hdeb|idtac];
  simpl; repeat split; try (rewrite (Forall_none_nil _ Hdeb)); repeat constructor.
Qed.

(** A server with one live room ["r"] whose state object (reference 0)
    has one participant and a save pending. *)
Definition demo_world : World :=
  mkWorld [Some ("r", 0)]
    {[0 := mkRoomState (Some "a") (Some "python") [Some ("s1", mkLive "s1" "ann" 0)] [] (Some 0)]}
    1 [Some ("r", [Some ("s1", tt); Some ("s2", tt)])] ["s1"; "s2"] (mkDb [] true)
    [mkTimer 0 1000 "r" (Some "a") None] 1 [] 500 [].

(** [code-change] on a live room keeps [rooms] and the clock, and takes
    one timer id. *)
Lemma code_change_frame sid roomId code language w ref :
  JsMap.get roomId (w_rooms w) = Some ref ->
  let w' := exec (on_code_change sid roomId code language) w in
  w_rooms w' = w_rooms w /\ w_clock w' = w_clock w /\ w_next_timer w' = S (w_next_timer w).
Proof.
  intros E. unfold on_code_change. unfold_prims.
  do 3 (simpl; rewrite ?E). destruct (rs_saveTimeout _); do 3 (simpl; rewrite ?E); by split_and!.
Qed.

(** A burst of [code-change] events for one room: each waits [d]
    milliseconds after the previous one, then is handled. *)
Definition code_burst (roomId : string) (es : list (Z * string * option string * option string))
    (w : World) : World :=
  foldl (fun w '(d, sid, code, language) =>
           exec (on_code_change sid roomId code language) (set_clock w (w_clock w + d))) w es.

(** C10: the spec's debounce coalescing, for a room whose pending saves
    are all the one its live state object holds in [saveTimeout]
    ([debounced]; true of a room no save is pending for, and kept by the
    burst, but false once the room was dropped from [rooms] with a save
    pending and created again: see
    [Scenarios.dropped_room_keeps_pending_save]): a burst of
    [code-change] events for the live room, from any sockets and at any
    pace, leaves the live code of the last event and exactly one save
    pending for the room, the one the last event scheduled: it carries
    the last event's code and language and is due 1000 ms after the last
    event.  Every earlier save was cancelled, so the burst makes at most
    one write. *)
Theorem debounce_coalescing roomId es d sid code language w ref :
  JsMap.get roomId (w_rooms w) = Some ref -> debounced w roomId ref ->
  let w' := code_burst roomId (es ++ [(d, sid, code, language)]) w in
  rs_code (deref w' ref) = code /\
  pending_saves w' roomId =
    [mkTimer (w_next_timer w + length es) (w_clock w' + 1000) roomId code language] /\
  debounced w' roomId ref.
Proof.
  revert w. induction es as [|[[[d' s'] c'] l'] es IH]; intros w E Hdeb; cbv zeta.
  - destruct (code_change_frame sid roomId code language (set_clock w (w_clock w + d)) ref E)
      as (_ & Hc & _).
    destruct (code_change_debounce sid roomId code language (set_clock w (w_clock w + d)) ref E Hdeb)
      as (H1 & _ & _ & H4 & H5).
    simpl. rewrite Nat.add_0_r, Hc. by split_and!.
  - set (w1 := exec (on_code_change s' roomId c' l') (set_clock w (w_clock w + d'))).
    destruct (code_change_frame s' roomId c' l' (set_clock w (w_clock w + d')) ref E)
      as (Hr & _ & Hn).
    destruct (code_change_debounce s' roomId c' l' (set_clock w (w_clock w + d')) ref E Hdeb)
      as (_ & _ & _ & _ & Hdeb1).
    destruct (IH w1) as (H1 & H2 & H3); [unfold w1; by rewrite Hr|exact Hdeb1|].
    change (code_burst roomId (((d', s', c', l') :: es) ++ [(d, sid, code, language)]) w)
      with (code_burst roomId (es ++ [(d, sid, code, language)]) w1).
    unfold w1 in H2. rewrite Hn in H2. simpl length. rewrite Nat.add_succ_r. by split_and!.
Qed.

Example debounce_coalescing_witness :
  let es := [(100%Z, "s1", Some "b", None); (300%Z, "s2", Some "c", Some "go")] in
  let w' := code_burst "r" (es ++ [(200%Z, "s1", Some "d", None)]) demo_world in
  JsMap.get "r" (w_rooms demo_world) = Some 0 /\ debounced demo_world "r" 0 /\
  rs_code (deref w' 0) = Some "d" /\
  pending_saves w' "r" =
    [mkTimer (w_next_timer demo_world + length es) (w_clock w' + 1000) "r" (Some "d") None] /\
  debounced w' "r" 0.
Proof.
  cbv zeta. split; [reflexivity|]. split; [unfold debounced, pending_saves; simpl; repeat constructor|].
  apply (debounce_coalescing "r" [(100%Z, "s1", Some "b", None); (300%Z, "s2", Some "c", Some "go")]
           200 "s1" (Some "d") None demo_world 0); [reflexivity|].
  unfold debounced, pending_saves. simpl. repeat constructor.
Defined.

(** ** The registry's well-formedness *)

(** socket.io's groups: one entry per room, one member entry per socket. *)
Definition groups_wf (g : JsMap.t string (JsMap.t string unit)) : Prop :=
  JsMap.wf g /\ forall room set, JsMap.get room g = Some set -> JsMap.wf set.

(** The [rooms] table has one entry per room id, its references are
    allocated and no two room ids share a state object; every state
    object's participant and cursor maps have one entry per socket; the
    broadcast groups are well formed. *)
Record registry_ok (w : World) : Prop := {
  ro_rooms_wf : JsMap.wf (w_rooms w);
  ro_refs_allocated : forall roomId ref, JsMap.get roomId (w_rooms w) = Some ref -> ref < w_next_ref w;
  ro_no_alias : forall r1 r2 ref,
    JsMap.get r1 (w_rooms w) = Some ref -> JsMap.get r2 (w_rooms w) = Some ref -> r1 = r2;
  ro_states_wf : forall ref rs, w_heap w !! ref = Some rs ->
    JsMap.wf (rs_participants rs) /\ JsMap.wf (rs_cursors rs);
  ro_groups_wf : groups_wf (w_groups w)
}.

Create HintDb keeps discriminated.

(** A statement keeps [registry_ok], whatever the world it starts from. *)
Definition keeps {A} (c : M A) : Prop := forall w, registry_ok w -> registry_ok (snd (c w)).

Lemma keeps_bind {A B} (c : M A) (k : A -> M B) :
  keeps c -> (forall a, keeps (k a)) -> keeps (st_bind c k).
Proof.
  intros Hc Hk w Hw. unfold st_bind. specialize (Hc w Hw).
  destruct (c w) as [a w']. apply Hk. exact Hc.
Qed.

Lemma keeps_ret {A} (a : A) : keeps (st_ret a).
Proof. by intros w. Qed.

Lemma keeps_skip : keeps skip.
Proof. by intros w. Qed.

(** A statement that changes neither [rooms], the heap, the next
    reference nor the groups keeps the invariant. *)
Lemma keeps_frame {A} (c : M A) :
  (forall w, w_rooms (snd (c w)) = w_rooms w /\ w_heap (snd (c w)) = w_heap w /\
             w_next_ref (snd (c w)) = w_next_ref w /\ w_groups (snd (c w)) = w_groups w) -> keeps c.
Proof.
  intros Hf w [H1 H2 H3 H4 H5]. destruct (Hf w) as (E1 & E2 & E3 & E4).
  split; rewrite ?E1, ?E2, ?E3, ?E4; assumption.
Qed.

(** A change of the groups alone keeps the invariant when it keeps them
    well formed. *)
Lemma keeps_groups (f : World -> World) :
  (forall w, w_rooms (f w) = w_rooms w /\ w_heap (f w) = w_heap w /\ w_next_ref (f w) = w_next_ref w) ->
  (forall w, groups_wf (w_groups w) -> groups_wf (w_groups (f w))) -> keeps (st_modify f).
Proof.
  intros Hf Hg w [H1 H2 H3 H4 H5]. destruct (Hf w) as (E1 & E2 & E3). simpl.
  split; rewrite ?E1, ?E2, ?E3; auto.
Qed.

Lemma groups_wf_join sid room g :
  groups_wf g -> groups_wf (JsMap.set room (JsMap.set sid tt (default JsMap.empty (JsMap.get room g))) g).
Proof.
  intros [Hg Hs]. split; [by apply JsMap.set_wf|]. intros r set.
  destruct (decide (room = r)) as [<-|Hne].
  - rewrite JsMap.get_set_eq. intros [= <-]. apply JsMap.set_wf.
    destruct (JsMap.get room g) eqn:E; simpl; [by apply (Hs room)|apply JsMap.empty_wf].
  - rewrite JsMap.get_set_ne by done. apply Hs.
Qed.

Lemma groups_wf_leave sid room g : groups_wf g -> groups_wf (leave_group sid room g).
Proof.
  intros [Hg Hs]. unfold leave_group. destruct (JsMap.get room g) as [set|] eqn:E; [|by split].
  destruct (Nat.eqb _ 0); split.
  - by apply JsMap.delete_wf.
  - intros r set'. destruct (decide (room = r)) as [<-|Hne].
    + by rewrite JsMap.get_delete_eq.
    + rewrite JsMap.get_delete_ne by done. apply Hs.
  - by apply JsMap.set_wf.
  - intros r set'. destruct (decide (room = r)) as [<-|Hne].
    + rewrite JsMap.get_set_eq. intros [= <-]. apply JsMap.delete_wf. by apply (Hs room).
    + rewrite JsMap.get_set_ne by done. apply Hs.
Qed.

Lemma groups_wf_leave_all sid rooms g :
  groups_wf g -> groups_wf (foldl (fun g room => leave_group sid room g) g rooms).
Proof. revert g. induction rooms as [|r rooms IH]; intros g Hg; simpl; [done|]. by apply IH, groups_wf_leave. Qed.

Ltac frame_tac := apply keeps_frame; intros ?; unfold_prims; simpl; repeat split.

Lemma keeps_now : keeps now. Proof. by intros w. Qed.
Lemma keeps_rooms_get roomId : keeps (rooms_get roomId). Proof. by intros w. Qed.
Lemma keeps_state_of ref : keeps (state_of ref). Proof. by intros w. Qed.
Lemma keeps_store_read {A} (op : Db -> result A DbError) : keeps (store_read op). Proof. by intros w. Qed.
Lemma keeps_emit sid ev : keeps (emit sid ev). Proof. frame_tac. Qed.
Lemma keeps_emit_all sids ev : keeps (emit_all sids ev). Proof. frame_tac. Qed.
Lemma keeps_to_room_except room sid ev : keeps (to_room_except room sid ev). Proof. frame_tac. Qed.
Lemma keeps_to_room room ev : keeps (to_room room ev). Proof. frame_tac. Qed.
Lemma keeps_sio_join sid room : keeps (sio_join sid room).
Proof. apply keeps_groups; [done|]. intros w Hw. simpl. destruct (is_connected w sid); [by apply groups_wf_join|done]. Qed.
Lemma keeps_sio_leave sid room : keeps (sio_leave sid room).
Proof. apply keeps_groups; [done|]. intros w. apply groups_wf_leave. Qed.
Lemma keeps_sio_leave_all sid : keeps (sio_leave_all sid).
Proof. apply keeps_groups; [done|]. intros w. apply groups_wf_leave_all. Qed.
Lemma keeps_set_timeout roomId c l : keeps (set_timeout roomId c l). Proof. frame_tac. Qed.
Lemma keeps_clear_timeout t : keeps (clear_timeout t). Proof. destruct t; frame_tac. Qed.
Lemma keeps_await t : keeps (await t). Proof. frame_tac. Qed.
Lemma keeps_store {A} (op : Db -> result (A * Db) DbError) : keeps (store op).
Proof. apply keeps_frame. intros w. unfold store. destruct (op (w_db w)) as [[a db']|e]; done. Qed.
Lemma keeps_modify_world (f : World -> World) :
  (forall w, w_rooms (f w) = w_rooms w /\ w_heap (f w) = w_heap w /\ w_next_ref (f w) = w_next_ref w /\
             w_groups (f w) = w_groups w) ->
  keeps (st_modify f).
Proof. intros Hf. apply keeps_frame. exact Hf. Qed.

(** A write to a state object keeps the invariant when it keeps the
    object's maps well formed. *)
Definition maps_wf (rs : RoomState) : Prop :=
  JsMap.wf (rs_participants rs) /\ JsMap.wf (rs_cursors rs).

Lemma keeps_modify_state ref f :
  (forall rs, maps_wf rs -> maps_wf (f rs)) -> keeps (modify_state ref f).
Proof.
  intros Hf w [H1 H2 H3 H4 H5]. unfold_prims. split; simpl; try done.
  intros ref' rs'. destruct (decide (ref = ref')) as [<-|Hne].
  - rewrite lookup_insert_eq. intros [= <-]. apply Hf. unfold deref.
    destruct (w_heap w !! ref) eqn:E; simpl; [by apply (H4 ref)|split; apply JsMap.empty_wf].
  - rewrite lookup_insert_ne by done. apply H4.
Qed.

(** Allocating a state object and registering it under a room id. *)
Lemma keeps_alloc_register roomId rs :
  maps_wf rs -> keeps (ref <- alloc_state rs ;; rooms_set roomId ref).
Proof.
  intros Hrs w [H1 H2 H3 H4 H5]. unfold_prims. simpl. split; simpl; [..|done].
  - by apply JsMap.set_wf.
  - intros r ref. destruct (decide (roomId = r)) as [<-|Hne].
    + rewrite JsMap.get_set_eq. intros [= <-]. lia.
    + rewrite JsMap.get_set_ne by done. intros Hg. specialize (H2 _ _ Hg). lia.
  - intros r1 r2 ref.
    destruct (decide (roomId = r1)) as [<-|Hne1], (decide (roomId = r2)) as [<-|Hne2];
      rewrite ?JsMap.get_set_eq, ?JsMap.get_set_ne by done; try done.
    + intros [= <-] Hg. specialize (H2 _ _ Hg). lia.
    + intros Hg [= <-]. specialize (H2 _ _ Hg). lia.
    + apply H3.
  - intros ref rs'. destruct (decide (w_next_ref w = ref)) as [<-|Hne].
    + rewrite lookup_insert_eq. by intros [= <-].
    + rewrite lookup_insert_ne by done. apply H4.
Qed.

Lemma keeps_rooms_delete roomId : keeps (rooms_delete roomId).
Proof.
  intros w [H1 H2 H3 H4 H5]. unfold_prims. split; simpl; try done.
  - by apply JsMap.delete_wf.
  - intros r ref. destruct (decide (roomId = r)) as [<-|Hne].
    + by rewrite JsMap.get_delete_eq.
    + rewrite JsMap.get_delete_ne by done. apply H2.
  - intros r1 r2 ref.
    destruct (decide (roomId = r1)) as [<-|Hne1]; [by rewrite JsMap.get_delete_eq|].
    destruct (decide (roomId = r2)) as [<-|Hne2]; [by rewrite JsMap.get_delete_eq|].
    rewrite !JsMap.get_delete_ne by done. apply H3.
Qed.

#[export] Hint Resolve keeps_bind keeps_ret keeps_skip keeps_now keeps_rooms_get keeps_state_of
  keeps_store_read keeps_emit keeps_emit_all keeps_to_room_except keeps_to_room keeps_sio_join
  keeps_sio_leave keeps_sio_leave_all keeps_set_timeout keeps_clear_timeout keeps_await
  keeps_store keeps_rooms_delete : keeps.

(** [keeps_tac] walks a handler statement by statement. *)
Ltac keeps_tac :=
  repeat match goal with
  | |- keeps (st_bind (alloc_state _) (fun ref => rooms_set _ ref)) =>
      apply keeps_alloc_register; split; apply JsMap.empty_wf
  | |- keeps (st_bind _ _) => apply keeps_bind; [|intros ?]
  | |- keeps (match ?x with _ => _ end) => destruct x
  | |- keeps (if ?b then _ else _) => destruct b
  | |- keeps (modify_state _ _) =>
      apply keeps_modify_state; intros ? [? ?];
      unfold rs_set_participants, rs_set_cursors, rs_set_code, rs_set_language, rs_set_saveTimeout;
      split; cbn [rs_participants rs_cursors]; try destruct (js_truthy _); auto with editor
  | |- keeps (st_modify _) => apply keeps_modify_world; intros ?; simpl; repeat split
  | |- keeps _ => solve [eauto with keeps]
  end.

Lemma keeps_join_finish sid roomId username ref : keeps (join_finish sid roomId username ref).
Proof. unfold join_finish. keeps_tac. Qed.

#[export] Hint Resolve keeps_join_finish : keeps.

Lemma keeps_join_continue sid roomId username room : keeps (join_continue sid roomId username room).
Proof. unfold join_continue. keeps_tac. Qed.

Lemma keeps_cleanup roomId ref : keeps (cleanup roomId ref).
Proof. unfold cleanup. keeps_tac. Qed.

Lemma keeps_remove_member ref sid : keeps (remove_member ref sid).
Proof. unfold remove_member. keeps_tac. Qed.

Lemma keeps_notify_left sid roomId ref : keeps (notify_left sid roomId ref).
Proof. unfold notify_left. keeps_tac. Qed.

#[export] Hint Resolve keeps_cleanup keeps_remove_member keeps_notify_left : keeps.

Lemma keeps_disconnect_loop fuel sid i : keeps (disconnect_loop fuel sid i).
Proof.
  revert i. induction fuel as [|fuel IH]; intros i; [apply keeps_skip|].
  intros w Hw. simpl. destruct (JsMap.next_from i (w_rooms w)) as [[[roomId ref] j]|]; [|done].
  destruct (JsMap.has sid _); [|by apply IH].
  match goal with |- registry_ok (snd (?c w)) => enough (Hc : keeps c) by exact (Hc w Hw) end.
  keeps_tac.
Qed.

Lemma keeps_disconnect_from sid i : keeps (disconnect_from sid i).
Proof. intros w. apply keeps_disconnect_loop. Qed.

#[export] Hint Resolve keeps_disconnect_loop keeps_disconnect_from : keeps.

Lemma keeps_handle sid ev : keeps (handle sid ev).
Proof.
  destruct ev; simpl; unfold on_join_room, on_code_change, on_cursor_change, on_chat_message,
    on_typing, on_language_change, on_room_update, on_leave_room; keeps_tac.
Qed.

Lemma keeps_resume t : keeps (resume t).
Proof. destruct t; simpl; unfold join_after_find, join_error; keeps_tac; apply keeps_join_continue. Qed.

Lemma keeps_timer_callback tm : keeps (timer_callback tm).
Proof. unfold timer_callback. keeps_tac. Qed.

Lemma keeps_on_connect sid : keeps (on_connect sid).
Proof. unfold on_connect. keeps_tac. Qed.

Lemma keeps_on_disconnect sid : keeps (on_disconnect sid).
Proof. unfold on_disconnect. keeps_tac. Qed.

(** Fields outside the registry do not matter to it. *)
Lemma registry_ok_frame w w' :
  w_rooms w' = w_rooms w -> w_heap w' = w_heap w -> w_next_ref w' = w_next_ref w ->
  w_groups w' = w_groups w -> registry_ok w -> registry_ok w'.
Proof. intros E1 E2 E3 E4 [H1 H2 H3 H4 H5]. split; rewrite ?E1, ?E2, ?E3, ?E4; assumption. Qed.

(** The world of the examples satisfies the invariant. *)
Lemma demo_world_ok : registry_ok demo_world.
Proof.
  split; simpl.
  - repeat constructor; set_solver.
  - intros roomId ref H. simpl in H. case_decide; simplify_eq. lia.
  - intros r1 r2 ref H1 H2. simpl in *. repeat case_decide; simplify_eq; done.
  - intros ref rs H. apply lookup_singleton_Some in H as [<- <-]. split; repeat constructor; set_solver.
  - split; [repeat constructor; set_solver|]. intros room set H. simpl in H. case_decide; simplify_eq.
    repeat constructor; set_solver.
Qed.

(** ** The room's stream as one socket sees it *)

(** The events socket [b] was sent, in order. *)
Definition received (w : World) (b : string) : list OutEvent :=
  map snd (List.filter (fun '(s, _) => String.eqb s b) (w_out w)).

(** The inbound events a room relays at once: code, cursor, chat and
    typing. *)
Definition stream_event (ev : InEvent) : bool :=
  match ev with
  | CodeChange _ _ _ | CursorChange _ _ _ | ChatMessageIn _ _ _ | TypingIn _ _ => true
  | _ => false
  end.

(** What socket [b] is sent when [s]'s stream event [ev] is handled in
    [w]: [socket.to] reaches the other members of the group, [io.to] all
    of them; [cursor-change] relays only for a live room. *)
Definition relayed (w : World) (b s : string) (ev : InEvent) : list OutEvent :=
  match ev with
  | CodeChange r code lang =>
      if bool_decide (b ∈ members w r /\ b <> s) then [CodeUpdated code lang s] else []
  | CursorChange r pos sel =>
      if JsMap.has r (w_rooms w) && bool_decide (b ∈ members w r /\ b <> s)
      then [CursorUpdated s pos sel] else []
  | ChatMessageIn r msg u =>
      if bool_decide (b ∈ members w r) then [ChatMessage s (u ?|| "Anonymous") msg (w_clock w)] else []
  | TypingIn r t => if bool_decide (b ∈ members w r /\ b <> s) then [UserTyping s t] else []
  | _ => []
  end.

Lemma received_emit_all (out : list (string * OutEvent)) (sids : list string) (ev : OutEvent) (b : string) :
  NoDup sids ->
  map snd (List.filter (fun '(s, _) => String.eqb s b) (out ++ map (fun x => (x, ev)) sids)) =
  map snd (List.filter (fun '(s, _) => String.eqb s b) out) ++ (if bool_decide (b ∈ sids) then [ev] else []).
Proof.
  intros Hnd. rewrite List.filter_app, map_app. f_equal.
  induction Hnd as [|x sids Hx Hnd IH]; simpl; [done|].
  destruct (String.eqb_spec x b) as [->|Hne]; simpl.
  - rewrite IH, bool_decide_false by done. rewrite bool_decide_true by set_solver. done.
  - rewrite IH. apply (f_equal (fun c : bool => if c then [ev] else [])).
    apply bool_decide_ext. set_solver.
Qed.

Lemma members_NoDup w room : registry_ok w -> NoDup (members w room).
Proof.
  intros Hw. destruct (ro_groups_wf w Hw) as [_ Hs]. unfold members.
  destruct (JsMap.get room (w_groups w)) as [set|] eqn:E; [exact (Hs _ _ E)|constructor].
Qed.

Lemma others_spec w room sid b : b ∈ others w room sid <-> b ∈ members w room /\ b <> sid.
Proof.
  unfold others. rewrite !list_elem_of_In, filter_In.
  destruct (String.eqb_spec b sid); simpl; naive_solver.
Qed.

(** Handling a stream event appends what [relayed] says to what [b]
    received, and changes neither the groups, [rooms] nor the clock. *)
Lemma stream_step s ev w b :
  registry_ok w -> stream_event ev = true ->
  let w' := exec (handle s ev) w in
  received w' b = received w b ++ relayed w b s ev /\
  w_groups w' = w_groups w /\ w_rooms w' = w_rooms w /\ w_clock w' = w_clock w.
Proof.
  intros Hw Hev. pose proof (members_NoDup w) as Hnd.
  assert (Hnd' : forall r, NoDup (others w r s)) by (intros r; unfold others; apply NoDup_list_filter, Hnd, Hw).
  destruct ev as [|r code lang|r pos sel|r msg u|r t| | |]; try discriminate; simpl;
    unfold on_code_change, on_cursor_change, on_chat_message, on_typing; unfold_prims; unfold received.
  - destruct (JsMap.get r (w_rooms w)) as [ref|] eqn:E; do 3 (simpl; rewrite ?E);
      [destruct (rs_saveTimeout _)|]; do 3 (simpl; rewrite ?E);
      (split; [|done]); rewrite received_emit_all by apply Hnd'; f_equal; apply if_bool_decide_iff; exact (others_spec w r s b).
  - unfold JsMap.has. destruct (JsMap.get r (w_rooms w)) as [ref|] eqn:E; simpl; rewrite ?E;
      [|by rewrite app_nil_r].
    split; [|done]. rewrite received_emit_all by apply Hnd'. f_equal. apply if_bool_decide_iff; exact (others_spec w r s b).
  - simpl. split; [|done]. by rewrite received_emit_all by (apply Hnd, Hw).
  - simpl. split; [|done]. rewrite received_emit_all by apply Hnd'. f_equal. apply if_bool_decide_iff; exact (others_spec w r s b).
Qed.

(** ** The disconnect loop's fuel *)

(** The fuel of the [disconnect] loop is enough: from iterator index
    [i], any fuel that covers the slots of [rooms] after [i] gives the
    same run as any larger fuel, so [disconnect_from]'s choice (the number
    of slots) never cuts the loop short. *)
Theorem disconnect_loop_fuel fuel fuel' sid i w :
  length (w_rooms w) <= i + fuel -> fuel <= fuel' ->
  disconnect_loop fuel sid i w = disconnect_loop fuel' sid i w.
Proof.
  revert fuel' i. induction fuel as [|fuel IH]; intros fuel' i Hl Hle.
  - destruct fuel' as [|fuel']; [done|]. simpl.
    by rewrite JsMap.next_from_ge by lia.
  - destruct fuel' as [|fuel']; [lia|]. simpl.
    destruct (JsMap.next_from i (w_rooms w)) as [[[roomId ref] j]|] eqn:E; [|done].
    destruct (JsMap.next_from_some _ _ _ _ E) as [Hij _].
    destruct (JsMap.has sid _); [done|]. apply IH; lia.
Qed.

Example disconnect_loop_fuel_witness :
  length (w_rooms demo_world) <= 0 + 1 /\ 1 <= 4 /\
  disconnect_loop 1 "s2" 0 demo_world = disconnect_loop 4 "s2" 0 demo_world.
Proof. split; [simpl; lia|]. split; [lia|]. apply (disconnect_loop_fuel 1 4 "s2" 0 demo_world); simpl; lia. Defined.

(** ** Teardown on disconnect *)

(** Slot [k] of [rooms] is empty or names a state object without [sid]. *)
Definition slot_clear (sid : string) (w : World) (k : nat) : Prop :=
  match w_rooms w !! k with
  | Some (Some (_, ref)) => JsMap.has sid (rs_participants (deref w ref)) = false
  | _ => True
  end.

(** One run of the [disconnect] loop from index [i]: either no slot from
    [i] on holds [sid] and nothing happens, or the first slot [k] that
    does is left and its [findOne] awaited, the slots before it being
    clear. *)
Lemma disconnect_loop_cases fuel sid i w :
  length (w_rooms w) <= i + fuel ->
  (disconnect_loop fuel sid i w = (tt, w) /\ forall k, i <= k -> slot_clear sid w k) \/
  (exists k roomId ref, i <= k /\ w_rooms w !! k = Some (Some (roomId, ref)) /\
     JsMap.has sid (rs_participants (deref w ref)) = true /\
     (forall k', i <= k' < k -> slot_clear sid w k') /\
     disconnect_loop fuel sid i w =
       (remove_member ref sid ;; notify_left sid roomId ref ;; await (DisconnectFind sid roomId ref (S k))) w).
Proof.
  revert i. induction fuel as [|fuel IH]; intros i Hl.
  - left. split; [done|]. intros k Hk. unfold slot_clear.
    destruct (w_rooms w !! k) as [o|] eqn:E; [|done]. apply lookup_lt_Some in E. lia.
  - simpl. destruct (JsMap.next_from i (w_rooms w)) as [[[roomId ref] j]|] eqn:E.
    + destruct (JsMap.next_from_lookup_some _ _ _ _ E) as (k & -> & Hik & Hk & Hbefore).
      assert (Hskip : forall k', i <= k' < k -> slot_clear sid w k')
        by (intros k' Hk'; unfold slot_clear; by rewrite Hbefore).
      destruct (JsMap.has sid _) eqn:Hh; [right; exists k, roomId, ref; by split_and!|].
      assert (Hk' : forall k', i <= k' <= k -> slot_clear sid w k').
      { intros k' Hk'. destruct (decide (k' = k)) as [->|]; [unfold slot_clear; by rewrite Hk|].
        apply Hskip. lia. }
      destruct (IH (S k) ltac:(lia)) as [[Heq Hall]|(k2 & r2 & ref2 & Hk2 & Hl2 & Hh2 & Hb2 & Heq)].
      * left. split; [done|]. intros k' ?. destruct (decide (k' <= k)); [apply Hk'|apply Hall]; lia.
      * right. exists k2, r2, ref2. split_and!; [lia|done|done| |done].
        intros k' ?. destruct (decide (k' <= k)); [apply Hk'|apply Hb2]; lia.
    + left. split; [done|]. intros k Hk. unfold slot_clear.
      by destruct (JsMap.next_from_lookup_none _ _ E k Hk) as [-> | ->].
Qed.

Lemma deref_wf w ref : registry_ok w -> JsMap.wf (rs_participants (deref w ref)).
Proof.
  intros Hw. unfold deref. destruct (w_heap w !! ref) eqn:E; simpl;
    [apply (ro_states_wf w Hw _ _ E)|apply JsMap.empty_wf].
Qed.

Lemma has_delete {V} sid (m : JsMap.t string V) : JsMap.wf m -> JsMap.has sid (JsMap.delete sid m) = false.
Proof. intros Hwf. unfold JsMap.has. by rewrite JsMap.get_delete_eq. Qed.

(** The loop's work on the slot it found. *)
Lemma remove_block sid roomId ref n w :
  registry_ok w ->
  let w' := exec (remove_member ref sid ;; notify_left sid roomId ref ;;
                  await (DisconnectFind sid roomId ref n)) w in
  registry_ok w' /\ w_rooms w' = w_rooms w /\ w_groups w' = w_groups w /\
  w_connected w' = w_connected w /\ w_tasks w' = w_tasks w ++ [DisconnectFind sid roomId ref n] /\
  JsMap.has sid (rs_participants (deref w' ref)) = false /\
  (forall ref', ref' <> ref -> deref w' ref' = deref w ref').
Proof.
  intros Hw. split.
  { assert (Hk : keeps (remove_member ref sid ;; notify_left sid roomId ref ;;
                         await (DisconnectFind sid roomId ref n))) by keeps_tac.
    exact (Hk w Hw). }
  unfold remove_member, notify_left. unfold_prims. simpl. split_and!; try done.
  - unfold deref at 1. simpl. rewrite lookup_insert_eq. simpl.
    apply has_delete. exact (deref_wf w ref Hw).
  - intros ref' Hne. unfold deref at 1. simpl. by rewrite lookup_insert_ne.
Qed.

(** The empty-room cleanup only empties the room's slot. *)
Lemma cleanup_spec roomId ref w :
  let w' := exec (cleanup roomId ref) w in
  (w_rooms w' = w_rooms w \/ w_rooms w' = JsMap.delete roomId (w_rooms w)) /\
  w_heap w' = w_heap w /\ w_groups w' = w_groups w /\ w_tasks w' = w_tasks w /\
  w_connected w' = w_connected w.
Proof. unfold cleanup. unfold_prims. simpl. destruct (Nat.eqb _ 0); simpl; split_and!; auto. Qed.

Lemma slot_clear_shrink sid w w' r k :
  w_heap w' = w_heap w -> (w_rooms w' = w_rooms w \/ w_rooms w' = JsMap.delete r (w_rooms w)) ->
  slot_clear sid w k -> slot_clear sid w' k.
Proof.
  intros Eh Er. unfold slot_clear, deref. rewrite Eh.
  destruct (w_rooms w' !! k) as [[[r' ref']|]|] eqn:E; [|done|done].
  destruct Er as [Er|Er]; rewrite Er in E; [|apply JsMap.delete_lookup in E]; by rewrite E.
Qed.

Lemma slot_clear_remove sid w w1 ref k :
  w_rooms w1 = w_rooms w -> JsMap.has sid (rs_participants (deref w1 ref)) = false ->
  (forall ref', ref' <> ref -> deref w1 ref' = deref w ref') ->
  slot_clear sid w k -> slot_clear sid w1 k.
Proof.
  unfold slot_clear. intros Er Hh Hd. rewrite Er.
  destruct (w_rooms w !! k) as [[[r ref']|]|]; [|done|done].
  destruct (decide (ref' = ref)) as [->|Hne]; [done|by rewrite Hd].
Qed.

Lemma exec_store_read {A B} (op : Db -> result A DbError) (k : result A DbError -> M B) w :
  exec (st_bind (store_read op) k) w = exec (k (op (w_db w))) w.
Proof. done. Qed.

Lemma exec_now_await (f : Z -> Task) w :
  exec (st_bind now (fun t => await (f t))) w = set_tasks w (w_tasks w ++ [f (w_clock w)]).
Proof. done. Qed.

Lemma store_fields {A} (op : Db -> result (A * Db) DbError) w :
  let w' := exec (store op) w in
  w_rooms w' = w_rooms w /\ w_heap w' = w_heap w /\ w_groups w' = w_groups w /\
  w_tasks w' = w_tasks w /\ w_connected w' = w_connected w.
Proof. unfold store, exec. by destruct (op (w_db w)) as [[a db']|e]. Qed.

(** The members of a group in the groups [g]. *)
Definition group_members (g : JsMap.t string (JsMap.t string unit)) (room : string) : list string :=
  match JsMap.get room g with Some set => JsMap.keys set | None => [] end.

Lemma keys_delete_notin {V} k (m : JsMap.t string V) : JsMap.wf m -> k ∉ JsMap.keys (JsMap.delete k m).
Proof.
  intros Hwf. unfold JsMap.keys. apply JsMap.alookup_none_notin.
  rewrite <-JsMap.get_entries. by apply JsMap.get_delete_eq.
Qed.

Lemma get_keys {V} k (m : JsMap.t string V) v : JsMap.get k m = Some v -> k ∈ JsMap.keys m.
Proof.
  rewrite JsMap.get_entries. intros H%JsMap.alookup_in. unfold JsMap.keys.
  rewrite list_elem_of_In, in_map_iff. exists (k, v). split; [done|]. by apply list_elem_of_In.
Qed.

Lemma leave_group_members sid r r' g :
  groups_wf g -> (r' = r \/ sid ∉ group_members g r') -> sid ∉ group_members (leave_group sid r g) r'.
Proof.
  intros [Hg Hs] Hor. unfold leave_group. destruct (JsMap.get r g) as [set|] eqn:E.
  - unfold group_members. destruct (Nat.eqb _ 0); destruct (decide (r = r')) as [<-|Hne].
    + rewrite JsMap.get_delete_eq by done. set_solver.
    + rewrite JsMap.get_delete_ne by done. destruct Hor as [->|H]; [done|exact H].
    + rewrite JsMap.get_set_eq. apply keys_delete_notin. by apply (Hs r).
    + rewrite JsMap.get_set_ne by done. destruct Hor as [->|H]; [done|exact H].
  - destruct Hor as [->|H]; [unfold group_members; rewrite E; set_solver|exact H].
Qed.

Lemma leave_all_members sid rs g r :
  groups_wf g -> (r ∈ rs \/ sid ∉ group_members g r) ->
  sid ∉ group_members (foldl (fun g room => leave_group sid room g) g rs) r.
Proof.
  revert g. induction rs as [|r0 rs IH]; intros g Hg Hr; simpl.
  - destruct Hr as [Hr|Hr]; [set_solver|exact Hr].
  - apply IH; [by apply groups_wf_leave|]. destruct (decide (r ∈ rs)); [by left|right].
    apply leave_group_members; [done|]. destruct Hr as [Hr|Hr]; [left; set_solver|by right].
Qed.

(** After socket.io's leave-all, the socket is in no group. *)
Lemma sio_leave_all_members sid w room :
  registry_ok w -> sid ∉ members (exec (sio_leave_all sid) w) room.
Proof.
  intros Hw. unfold sio_leave_all. unfold_prims. simpl.
  apply (leave_all_members sid _ (w_groups w) room (ro_groups_wf w Hw)).
  unfold group_members. destruct (JsMap.get room (w_groups w)) as [set|] eqn:E; [left|right; set_solver].
  by apply (get_keys _ _ set).
Qed.

End Handler.
