(* ===== verification/EventLoop.v ===== *)
(** * The event loop: interleavings of handlers, continuations and timers

    Node runs one callback at a time: an inbound socket event runs its
    handler up to its first [await]; a store answer resumes a suspended
    handler up to its next [await]; an expired timer runs its callback.
    Store answers come back in any order, so any pending continuation may
    run next.  [step] is that loop as a relation on [Handler.World]; the
    store may also go down or come back ([step_db]), and time passes
    ([step_tick]).  [run] executes a labelled step and [run_all] a list
    of them; [run_sound] shows each labelled step is a [step], so that a
    concrete run is a reachable execution.

    The theorem here: the registry's well-formedness holds in every
    reachable state ([reachable_registry_ok]).  The guarantees about runs
    are in [Guarantees]; concrete runs are in [Scenarios]. *)

From S2P Require Import Prelude JsMap Store Handler.

Module EventLoop.
Import Store Handler.

(** ** The loop *)

Inductive step : World -> World -> Prop :=
| step_connect sid w :
    sid ∉ w_connected w -> step w (exec (on_connect sid) w)
| step_event sid ev w :
    sid ∈ w_connected w -> step w (exec (handle sid ev) w)
| step_disconnect sid w :
    sid ∈ w_connected w -> step w (exec (on_disconnect sid) w)
| step_resume i t w :
    w_tasks w !! i = Some t -> step w (exec (resume t) (set_tasks w (delete i (w_tasks w))))
| step_fire tm rest w :
    w_timers w = tm :: rest -> (tm_due tm <= w_clock w)%Z ->
    step w (exec (timer_callback tm) (set_timers w rest))
| step_tick d w :
    (0 < d)%Z -> step w (set_clock w (w_clock w + d))
| step_db b w :
    step w (set_db w (mkDb (docs (w_db w)) b)).

(** Reflexive-transitive closure. *)
Inductive star : World -> World -> Prop :=
| star_refl w : star w w
| star_step w1 w2 w3 : step w1 w2 -> star w2 w3 -> star w1 w3.

Lemma star_trans w1 w2 w3 : star w1 w2 -> star w2 w3 -> star w1 w3.
Proof. induction 1; eauto using star. Qed.

(** The server when it starts: nothing connected, an empty [rooms], the
    store [db]. *)
Definition init (db : Db) : World :=
  mkWorld JsMap.empty ∅ 0 JsMap.empty [] db [] 0 [] 0 [].

Definition reachable (db : Db) (w : World) : Prop := star (init db) w.

(** ** Labelled steps *)

Inductive Action :=
| AConnect (sid : string)
| AEvent (sid : string) (ev : InEvent)
| ADisconnect (sid : string)
| AResume (i : nat)
| AFire
| ATick (d : Z)
| ADb (up : bool).

Definition run (a : Action) (w : World) : option World :=
  match a with
  | AConnect sid =>
      if bool_decide (sid ∈ w_connected w) then None else Some (exec (on_connect sid) w)
  | AEvent sid ev =>
      if bool_decide (sid ∈ w_connected w) then Some (exec (handle sid ev) w) else None
  | ADisconnect sid =>
      if bool_decide (sid ∈ w_connected w) then Some (exec (on_disconnect sid) w) else None
  | AResume i =>
      match w_tasks w !! i with
      | Some t => Some (exec (resume t) (set_tasks w (delete i (w_tasks w))))
      | None => None
      end
  | AFire =>
      match w_timers w with
      | tm :: rest => if Z.leb (tm_due tm) (w_clock w)
                      then Some (exec (timer_callback tm) (set_timers w rest)) else None
      | [] => None
      end
  | ATick d => if Z.ltb 0 d then Some (set_clock w (w_clock w + d)) else None
  | ADb b => Some (set_db w (mkDb (docs (w_db w)) b))
  end.

Fixpoint run_all (acts : list Action) (w : World) : option World :=
  match acts with
  | [] => Some w
  | a :: acts' => match run a w with Some w' => run_all acts' w' | None => None end
  end.

Lemma run_sound a w w' : run a w = Some w' -> step w w'.
Proof.
  destruct a; simpl.
  - case_bool_decide; intros; simplify_eq. by apply step_connect.
  - case_bool_decide; intros; simplify_eq. by apply step_event.
  - case_bool_decide; intros; simplify_eq. by apply step_disconnect.
  - destruct (w_tasks w !! i) eqn:E; intros; simplify_eq. by eapply step_resume.
  - destruct (w_timers w) as [|tm rest] eqn:E; [discriminate|].
    destruct (Z.leb_spec (tm_due tm) (w_clock w)); intros; simplify_eq. by eapply step_fire.
  - destruct (Z.ltb_spec 0 d); intros; simplify_eq. by apply step_tick.
  - intros; simplify_eq. apply step_db.
Qed.

Lemma run_all_sound acts w w' : run_all acts w = Some w' -> star w w'.
Proof.
  revert w. induction acts as [|a acts IH]; simpl; intros w.
  - intros [= <-]. constructor.
  - destruct (run a w) as [w1|] eqn:E; [|discriminate].
    intros H. apply star_step with w1; [exact (run_sound _ _ _ E)|by apply IH].
Qed.

(** ** The registry's well-formedness in every reachable state *)

Lemma registry_ok_init db : registry_ok (init db).
Proof.
  split; simpl.
  - apply JsMap.empty_wf.
  - done.
  - done.
  - intros ref rs. by rewrite lookup_empty.
  - split; [apply JsMap.empty_wf|done].
Qed.

(** In every state the server can reach, whatever the interleaving
    of handlers, store answers and timers, [rooms] has one entry per room
    id, no two room ids share a state object, every state object has one
    participant and one cursor entry per socket, and every broadcast group
    one entry per member. *)
Theorem reachable_registry_ok db w : reachable db w -> registry_ok w.
Proof.
  unfold reachable. intros Hr. remember (init db) as w0 eqn:E.
  assert (H0 : registry_ok w0) by (subst; apply registry_ok_init).
  clear E. induction Hr as [|w1 w2 w3 Hs _ IH]; [done|]. apply IH.
  destruct Hs; [by apply keeps_on_connect|by apply keeps_handle|by apply keeps_on_disconnect|
                apply keeps_resume|apply keeps_timer_callback|..];
    by apply (registry_ok_frame w).
Qed.

Example reachable_registry_ok_witness :
  registry_ok (default (init (mkDb [] true))
    (run_all [AConnect "A"; AEvent "A" (JoinRoom "r" (Some "ann")); AResume 0;
             AEvent "A" (CodeChange "r" (Some "x") None)]
       (init (mkDb [] true)))).
Proof.
  apply (reachable_registry_ok (mkDb [] true)). unfold reachable.
  apply (run_all_sound [AConnect "A"; AEvent "A" (JoinRoom "r" (Some "ann")); AResume 0;
             AEvent "A" (CodeChange "r" (Some "x") None)]).
  vm_compute. reflexivity.
Defined.

End EventLoop.
