(* ===== verification/StoreTyping.v ===== *)
(** * The store's typing over runs of the server

    [Code.js] declares [roomId] [required] and [unique] (lines 4-9).  The
    socket handler writes to the store only through the operations of
    [Store] that it awaits ([resume]): the creation of a missing room, the
    [save()] of a loaded room, and [findOneAndUpdate].  Section [Preserve]
    shows, for any property [P] of the stored documents that those
    operations keep and that does not depend on the store being up, that
    every handler, continuation and timer keeps [P], and hence every
    reachable state.  The instance is [docs_typed]: the stored ids are
    non-empty and distinct ([reachable_docs_typed]). *)

From S2P Require Import Prelude JsMap Store Handler EventLoop.

Module StoreTyping.
Import Store Handler EventLoop.

Section Preserve.
Context (P : Db -> Prop).
Hypothesis P_up : forall db b, P db -> P (mkDb (docs db) b).
Hypothesis P_insert : forall r now db r' db', P db -> insert r now db = Ok (r', db') -> P db'.
Hypothesis P_save : forall r cs now db r' db',
  P db -> save_changes r cs now db = Ok (r', db') -> P db'.
Hypothesis P_update : forall rid cs now db o db',
  P db -> find_one_and_update rid cs now db = Ok (o, db') -> P db'.

(** A statement keeps [P] of the store, whatever the world it runs in. *)
Definition keeps_db {A} (c : M A) : Prop := forall w, P (w_db w) -> P (w_db (exec c w)).

Lemma keeps_db_bind {A B} (c : M A) (k : A -> M B) :
  keeps_db c -> (forall a, keeps_db (k a)) -> keeps_db (st_bind c k).
Proof.
  intros Hc Hk w Hw. unfold exec, st_bind. specialize (Hc w Hw). unfold exec in Hc.
  destruct (c w) as [a w']. apply (Hk a w' Hc).
Qed.

(** A statement that leaves the store as it is. *)
Lemma keeps_db_frame {A} (c : M A) : (forall w, w_db (exec c w) = w_db w) -> keeps_db c.
Proof. intros Hf w Hw. by rewrite Hf. Qed.

Lemma keeps_db_store {A} (op : Db -> result (A * Db) DbError) :
  (forall db a db', P db -> op db = Ok (a, db') -> P db') -> keeps_db (store op).
Proof.
  intros Hop w Hw. unfold exec, store. destruct (op (w_db w)) as [[a db']|e] eqn:E; [|done].
  exact (Hop _ _ _ Hw E).
Qed.

Lemma keeps_db_clear_timeout t : keeps_db (clear_timeout t).
Proof. apply keeps_db_frame. intros w. by destruct t. Qed.

Create HintDb keeps_db discriminated.
#[local] Hint Resolve keeps_db_clear_timeout : keeps_db.

(** The decomposition the handlers need: binds and branches are split,
    writes go to the store lemmas, and the primitive statements leave the
    store alone. *)
Ltac keeps_db_tac :=
  repeat match goal with
  | |- keeps_db (st_bind _ _) => apply keeps_db_bind; [|intros ?]
  | |- keeps_db (match ?x with _ => _ end) => destruct x
  | |- keeps_db (if ?b then _ else _) => destruct b
  | |- keeps_db (store _) => apply keeps_db_store; intros ???; eauto
  | |- keeps_db _ => solve [eauto with keeps_db]
  | |- keeps_db _ => apply keeps_db_frame; intros ?; unfold_prims; simpl; reflexivity
  end.

Lemma keeps_db_join_finish sid roomId username ref : keeps_db (join_finish sid roomId username ref).
Proof. unfold join_finish. keeps_db_tac. Qed.
Lemma keeps_db_join_continue sid roomId username room : keeps_db (join_continue sid roomId username room).
Proof. unfold join_continue. keeps_db_tac. Qed.
Lemma keeps_db_join_error sid : keeps_db (join_error sid).
Proof. unfold join_error. keeps_db_tac. Qed.
Lemma keeps_db_cleanup roomId ref : keeps_db (cleanup roomId ref).
Proof. unfold cleanup. keeps_db_tac. Qed.
Lemma keeps_db_remove_member ref sid : keeps_db (remove_member ref sid).
Proof. unfold remove_member. keeps_db_tac. Qed.
Lemma keeps_db_notify_left sid roomId ref : keeps_db (notify_left sid roomId ref).
Proof. unfold notify_left. keeps_db_tac. Qed.

#[local] Hint Resolve keeps_db_join_finish keeps_db_join_continue keeps_db_join_error keeps_db_cleanup
  keeps_db_remove_member keeps_db_notify_left : keeps_db.

(** The [disconnect] loop only reads [rooms] and suspends. *)
Lemma keeps_db_disconnect_loop fuel sid i : keeps_db (disconnect_loop fuel sid i).
Proof.
  revert i. induction fuel as [|fuel IH]; intros i; simpl; [keeps_db_tac|].
  intros w Hw. unfold exec. destruct (JsMap.next_from i (w_rooms w)) as [[[roomId ref] j]|]; [|done].
  destruct (JsMap.has sid _).
  - assert (Hk : keeps_db (remove_member ref sid ;; notify_left sid roomId ref ;;
                           await (DisconnectFind sid roomId ref j))) by keeps_db_tac.
    exact (Hk w Hw).
  - exact (IH j w Hw).
Qed.

Lemma keeps_db_disconnect_from sid i : keeps_db (disconnect_from sid i).
Proof. intros w Hw. exact (keeps_db_disconnect_loop (length (w_rooms w)) sid i w Hw). Qed.

#[local] Hint Resolve keeps_db_disconnect_from : keeps_db.

Lemma keeps_db_handle sid ev : keeps_db (handle sid ev).
Proof.
  destruct ev; simpl;
    unfold on_join_room, on_code_change, on_cursor_change, on_chat_message, on_typing,
      on_language_change, on_room_update, on_leave_room; keeps_db_tac.
Qed.

Lemma keeps_db_resume t : keeps_db (resume t).
Proof. destruct t; simpl; unfold join_after_find; keeps_db_tac. Qed.

Lemma keeps_db_on_connect sid : keeps_db (on_connect sid).
Proof. unfold on_connect. keeps_db_tac. Qed.

Lemma keeps_db_on_disconnect sid : keeps_db (on_disconnect sid).
Proof. unfold on_disconnect. keeps_db_tac. Qed.

Lemma keeps_db_timer_callback tm : keeps_db (timer_callback tm).
Proof. unfold timer_callback. keeps_db_tac. Qed.

(** Every step of the event loop keeps [P]. *)
Lemma step_keeps_db w w' : step w w' -> P (w_db w) -> P (w_db w').
Proof.
  destruct 1 as [sid w|sid ev w|sid w|i t w|tm rest w|d w|b w]; intros Hw.
  - by apply keeps_db_on_connect.
  - by apply keeps_db_handle.
  - by apply keeps_db_on_disconnect.
  - exact (keeps_db_resume t (set_tasks w (delete i (w_tasks w))) Hw).
  - exact (keeps_db_timer_callback tm (set_timers w rest) Hw).
  - exact Hw.
  - by apply P_up.
Qed.

Lemma star_keeps_db w w' : star w w' -> P (w_db w) -> P (w_db w').
Proof. induction 1; eauto using step_keeps_db. Qed.

End Preserve.

(** C1: the schema's typing of the store ([roomId] [required] and
    [unique], [Code.js] lines 4-9) holds in every state the server can
    reach from a store that satisfies it, whatever the interleaving of
    handlers, store answers, timers and outages: every stored document
    has a non-empty [roomId] and no two share one. *)
Theorem reachable_docs_typed db w : docs_typed db -> reachable db w -> docs_typed (w_db w).
Proof.
  intros Hdb Hr. refine (star_keeps_db docs_typed _ insert_typed save_changes_typed
                          find_one_and_update_typed (init db) w Hr Hdb).
  intros db' b H. exact H.
Qed.

Definition typed_db : Db := mkDb [new_room "r" None None None None 0] true.

Example reachable_docs_typed_witness :
  docs_typed typed_db /\
  docs_typed (w_db (default (init typed_db)
    (run_all [AConnect "A"; AEvent "A" (RoomUpdate "r" (Some "T") None); AResume 0;
              AEvent "A" (LanguageChange "r" (Some "python")); AResume 0]
       (init typed_db)))).
Proof.
  assert (H0 : docs_typed typed_db) by (split; simpl; [constructor; [set_solver|constructor]|set_solver]).
  split; [exact H0|].
  apply (reachable_docs_typed typed_db); [exact H0|]. unfold reachable.
  apply (run_all_sound [AConnect "A"; AEvent "A" (RoomUpdate "r" (Some "T") None); AResume 0;
              AEvent "A" (LanguageChange "r" (Some "python")); AResume 0]).
  vm_compute. reflexivity.
Defined.

End StoreTyping.
