(* ===== verification/ParticipantIds.v ===== *)
(** * The participant lists the server sends

    [room-joined], [user-joined] and [user-left] carry
    [Array.from(roomState.participants.values())] (handler.js lines 61-74,
    229-233, 266-270).  The participants [Map] is keyed by socket id and
    each entry is [{ id: socket.id, ... }] (lines 43-47), so each entry
    names its key; [participants.delete(socket.id)] removes entries.  Module
    [ParticipantIds] shows that this holds of every state object in every
    reachable state ([state_keyed]), and hence that every participant list
    ever sent names each socket at most once ([reachable_ids_ok]): the
    client's list, keyed by [participant.id], has distinct keys. *)

From S2P Require Import Prelude JsMap Store Handler EventLoop.

Module ParticipantIds.
Import Store Handler EventLoop.

(** The participant list an event carries, if any. *)
Definition ev_participants (ev : OutEvent) : list LiveParticipant :=
  match ev with
  | RoomJoined _ _ _ ps _ | UserJoined _ _ ps | UserLeft _ ps => ps
  | _ => []
  end.

Definition ev_ok (ev : OutEvent) : Prop := NoDup (map lp_id (ev_participants ev)).

(** A state object's participants map is well formed and every entry is
    stored under its own id. *)
Definition state_keyed (rs : RoomState) : Prop :=
  JsMap.wf (rs_participants rs) /\ JsMap.keyed lp_id (rs_participants rs).

Record ids_ok (w : World) : Prop := {
  io_heap : forall ref rs, w_heap w !! ref = Some rs -> state_keyed rs;
  io_out : forall sid ev, (sid, ev) ∈ w_out w -> ev_ok ev
}.

(** A statement keeps [ids_ok], whatever the world it runs in. *)
Definition keeps_ids {A} (c : M A) : Prop := forall w, ids_ok w -> ids_ok (exec c w).

Lemma keeps_ids_bind {A B} (c : M A) (k : A -> M B) :
  keeps_ids c -> (forall a, keeps_ids (k a)) -> keeps_ids (st_bind c k).
Proof.
  intros Hc Hk w Hw. unfold exec, st_bind. specialize (Hc w Hw). unfold exec in Hc.
  destruct (c w) as [a w']. apply (Hk a w' Hc).
Qed.

(** A statement that changes neither the heap nor the sent events. *)
Lemma keeps_ids_frame {A} (c : M A) :
  (forall w, w_heap (exec c w) = w_heap w /\ w_out (exec c w) = w_out w) -> keeps_ids c.
Proof. intros Hf w [Hh Ho]. destruct (Hf w) as [E1 E2]. split; rewrite ?E1, ?E2; assumption. Qed.

Lemma state_keyed_empty : state_keyed empty_state.
Proof. split; [apply JsMap.empty_wf|apply JsMap.keyed_empty]. Qed.

Lemma deref_keyed w ref : ids_ok w -> state_keyed (deref w ref).
Proof.
  intros Hw. unfold deref. destruct (w_heap w !! ref) eqn:E; simpl;
    [exact (io_heap w Hw _ _ E)|apply state_keyed_empty].
Qed.

(** Reading a state object: what follows may rely on it being keyed. *)
Lemma keeps_ids_state_of {B} ref (k : RoomState -> M B) :
  (forall rs, state_keyed rs -> keeps_ids (k rs)) -> keeps_ids (st_bind (state_of ref) k).
Proof. intros Hk w Hw. apply (Hk _ (deref_keyed w ref Hw) w Hw). Qed.

Lemma keeps_ids_modify_state ref f :
  (forall rs, state_keyed rs -> state_keyed (f rs)) -> keeps_ids (modify_state ref f).
Proof.
  intros Hf w Hw. split; [|apply (io_out w Hw)]. intros ref' rs. simpl.
  destruct (decide (ref = ref')) as [<-|Hne].
  - rewrite lookup_insert_eq. intros [= <-]. by apply Hf, deref_keyed.
  - rewrite lookup_insert_ne by done. apply (io_heap w Hw).
Qed.

Lemma keeps_ids_alloc rs : state_keyed rs -> keeps_ids (alloc_state rs).
Proof.
  intros Hrs w Hw. split; [|apply (io_out w Hw)]. intros ref rs'. simpl.
  destruct (decide (w_next_ref w = ref)) as [<-|Hne].
  - rewrite lookup_insert_eq. by intros [= <-].
  - rewrite lookup_insert_ne by done. apply (io_heap w Hw).
Qed.

Lemma keeps_ids_emit_all sids ev : ev_ok ev -> keeps_ids (emit_all sids ev).
Proof.
  intros Hev w Hw. split; [apply (io_heap w Hw)|]. intros sid ev'. simpl.
  intros [Hin|(s & [= -> ->] & _)%list_elem_of_fmap]%elem_of_app; [|done].
  exact (io_out w Hw _ _ Hin).
Qed.

Lemma keeps_ids_emit sid ev : ev_ok ev -> keeps_ids (emit sid ev).
Proof. intros Hev. exact (keeps_ids_emit_all [sid] ev Hev). Qed.

Lemma keeps_ids_to_room_except room sid ev : ev_ok ev -> keeps_ids (to_room_except room sid ev).
Proof. intros Hev w. apply (keeps_ids_emit_all _ ev Hev w). Qed.

Lemma keeps_ids_to_room room ev : ev_ok ev -> keeps_ids (to_room room ev).
Proof. intros Hev w. apply (keeps_ids_emit_all _ ev Hev w). Qed.

(** The list of a keyed state object names each socket once. *)
Lemma values_ok rs : state_keyed rs -> NoDup (map lp_id (JsMap.values (rs_participants rs))).
Proof. intros [Hwf Hk]. by apply JsMap.keyed_values_NoDup. Qed.

Lemma keeps_ids_clear_timeout t : keeps_ids (clear_timeout t).
Proof. apply keeps_ids_frame. intros w. by destruct t. Qed.

Lemma keeps_ids_store {A} (op : Db -> result (A * Db) DbError) : keeps_ids (store op).
Proof. apply keeps_ids_frame. intros w. unfold exec, store. by destruct (op (w_db w)) as [[a db']|e]. Qed.

Create HintDb ids discriminated.
#[local] Hint Resolve keeps_ids_clear_timeout keeps_ids_store : ids.

Ltac ev_tac := unfold ev_ok; simpl; first [by constructor | by apply values_ok].

Ltac keyed_tac :=
  intros ? [? ?];
  unfold rs_set_participants, rs_set_cursors, rs_set_code, rs_set_language, rs_set_saveTimeout;
  repeat case_match; split; cbn [rs_participants];
  first [ assumption
        | by apply JsMap.set_wf | by apply JsMap.delete_wf
        | by apply JsMap.keyed_set | by apply JsMap.keyed_delete ].

(** [ids_tac] walks a handler statement by statement. *)
Ltac ids_tac :=
  repeat match goal with
  | |- keeps_ids (st_bind (state_of _) _) => apply keeps_ids_state_of; intros ? ?
  | |- keeps_ids (st_bind _ _) => apply keeps_ids_bind; [|intros ?]
  | |- keeps_ids (match ?x with _ => _ end) => destruct x
  | |- keeps_ids (if ?b then _ else _) => destruct b
  | |- keeps_ids (modify_state _ _) => apply keeps_ids_modify_state; keyed_tac
  | |- keeps_ids (alloc_state _) =>
      apply keeps_ids_alloc; split; [apply JsMap.empty_wf|apply JsMap.keyed_empty]
  | |- keeps_ids (emit _ _) => apply keeps_ids_emit; ev_tac
  | |- keeps_ids (emit_all _ _) => apply keeps_ids_emit_all; ev_tac
  | |- keeps_ids (to_room_except _ _ _) => apply keeps_ids_to_room_except; ev_tac
  | |- keeps_ids (to_room _ _) => apply keeps_ids_to_room; ev_tac
  | |- keeps_ids _ => solve [eauto with ids]
  | |- keeps_ids _ => apply keeps_ids_frame; intros ?; unfold_prims; simpl; split; reflexivity
  end.

Lemma keeps_ids_join_finish sid roomId username ref : keeps_ids (join_finish sid roomId username ref).
Proof. unfold join_finish. ids_tac. Qed.

#[local] Hint Resolve keeps_ids_join_finish : ids.

Lemma keeps_ids_join_continue sid roomId username room : keeps_ids (join_continue sid roomId username room).
Proof. unfold join_continue. ids_tac. Qed.
Lemma keeps_ids_join_error sid : keeps_ids (join_error sid).
Proof. unfold join_error. ids_tac. Qed.
Lemma keeps_ids_cleanup roomId ref : keeps_ids (cleanup roomId ref).
Proof. unfold cleanup. ids_tac. Qed.
Lemma keeps_ids_remove_member ref sid : keeps_ids (remove_member ref sid).
Proof. unfold remove_member. ids_tac. Qed.
Lemma keeps_ids_notify_left sid roomId ref : keeps_ids (notify_left sid roomId ref).
Proof. unfold notify_left. ids_tac. Qed.

#[local] Hint Resolve keeps_ids_join_continue keeps_ids_join_error
  keeps_ids_cleanup keeps_ids_remove_member keeps_ids_notify_left : ids.

(** The [disconnect] loop only reads [rooms] and suspends. *)
Lemma keeps_ids_disconnect_loop fuel sid i : keeps_ids (disconnect_loop fuel sid i).
Proof.
  revert i. induction fuel as [|fuel IH]; intros i; simpl; [ids_tac|].
  intros w Hw. unfold exec. destruct (JsMap.next_from i (w_rooms w)) as [[[roomId ref] j]|]; [|done].
  destruct (JsMap.has sid _).
  - assert (Hk : keeps_ids (remove_member ref sid ;; notify_left sid roomId ref ;;
                            await (DisconnectFind sid roomId ref j))) by ids_tac.
    exact (Hk w Hw).
  - exact (IH j w Hw).
Qed.

Lemma keeps_ids_disconnect_from sid i : keeps_ids (disconnect_from sid i).
Proof. intros w Hw. exact (keeps_ids_disconnect_loop (length (w_rooms w)) sid i w Hw). Qed.

#[local] Hint Resolve keeps_ids_disconnect_from : ids.

Lemma keeps_ids_handle sid ev : keeps_ids (handle sid ev).
Proof.
  destruct ev; simpl;
    unfold on_join_room, on_code_change, on_cursor_change, on_chat_message, on_typing,
      on_language_change, on_room_update, on_leave_room; ids_tac.
Qed.

Lemma keeps_ids_resume t : keeps_ids (resume t).
Proof. destruct t; simpl; unfold join_after_find; ids_tac. Qed.

Lemma keeps_ids_on_connect sid : keeps_ids (on_connect sid).
Proof. unfold on_connect. ids_tac. Qed.

Lemma keeps_ids_on_disconnect sid : keeps_ids (on_disconnect sid).
Proof. unfold on_disconnect. ids_tac. Qed.

Lemma keeps_ids_timer_callback tm : keeps_ids (timer_callback tm).
Proof. unfold timer_callback. ids_tac. Qed.

(** Fields other than the heap and the sent events do not matter. *)
Lemma ids_ok_frame w w' : w_heap w' = w_heap w -> w_out w' = w_out w -> ids_ok w -> ids_ok w'.
Proof. intros E1 E2 [H1 H2]. split; rewrite ?E1, ?E2; assumption. Qed.

Lemma step_ids_ok w w' : step w w' -> ids_ok w -> ids_ok w'.
Proof.
  destruct 1 as [sid w|sid ev w|sid w|i t w|tm rest w|d w|b w]; intros Hw.
  - by apply keeps_ids_on_connect.
  - by apply keeps_ids_handle.
  - by apply keeps_ids_on_disconnect.
  - apply keeps_ids_resume. by apply (ids_ok_frame w).
  - apply keeps_ids_timer_callback. by apply (ids_ok_frame w).
  - by apply (ids_ok_frame w).
  - by apply (ids_ok_frame w).
Qed.

(** In every reachable state every state object is keyed and every
    participant list sent names each socket at most once. *)
Lemma reachable_ids_ok db w : reachable db w -> ids_ok w.
Proof.
  unfold reachable. intros Hr. assert (H0 : ids_ok (init db)).
  { split; simpl; [by intros ref rs|intros sid ev Hin; set_solver]. }
  revert H0. induction Hr as [|w1 w2 w3 Hs _ IH]; intros H; [done|]. by apply IH, (step_ids_ok w1).
Qed.

(** C2: in every state the server can reach, whatever the interleaving of
    joins, leaves, disconnections, timers and store answers, every
    participant list it has sent ([room-joined], [user-joined],
    [user-left]) names each socket at most once. *)
Theorem sent_participants_distinct db w sid ev :
  reachable db w -> (sid, ev) ∈ w_out w -> NoDup (map lp_id (ev_participants ev)).
Proof. intros Hr Hin. exact (io_out w (reachable_ids_ok db w Hr) sid ev Hin). Qed.

Definition one_join_db : Db := mkDb [new_room "r" None None None None 0] true.

Definition one_join : list Action :=
  [AConnect "A"; AEvent "A" (JoinRoom "r" (Some "ann")); AResume 0; AResume 0].

Example sent_participants_distinct_witness :
  let w := default (init one_join_db) (run_all one_join (init one_join_db)) in
  let ev := RoomJoined "r" (Some default_code) (Some "javascript") [mkLive "A" "ann" 0] [] in
  reachable one_join_db w /\ ("A", ev) ∈ w_out w /\ NoDup (map lp_id (ev_participants ev)).
Proof.
  cbv zeta.
  assert (Hr : reachable one_join_db (default (init one_join_db) (run_all one_join (init one_join_db))))
    by (apply (run_all_sound one_join); vm_compute; reflexivity).
  assert (Hin : ("A", RoomJoined "r" (Some default_code) (Some "javascript") [mkLive "A" "ann" 0] []) ∈
                w_out (default (init one_join_db) (run_all one_join (init one_join_db))))
    by (apply list_elem_of_In; vm_compute; left; reflexivity).
  split; [exact Hr|]. split; [exact Hin|]. exact (sent_participants_distinct _ _ _ _ Hr Hin).
Defined.

End ParticipantIds.
