(* ===== verification/Routes.v ===== *)
(** * The HTTP room API: [src/server/routes/code.js]

    Each Express handler is a function from its request fields and the
    store to a response (status and JSON body) and the new store.  A body
    field that the client did not send is [None].  The handlers' [try]
    blocks turn every store error into a 500 response; a missing room is a
    404.  The random [uuidv4()] of [POST /room] is an argument.

    [GET /rooms] builds a [$regex] query from the search text with the
    [i] option; the regular-expression engine is the argument [rx], which
    compiles a pattern to a matcher or fails ([None]); [ci_contains] is
    its behaviour on a pattern without metacharacters. *)

From S2P Require Import Prelude Store.

Module Routes.
Import Store.

(** A room as [GET /rooms] sends it: the query's
    [.select('roomId title description language createdAt updatedAt participants')]
    (line 115) keeps these fields (and [_id]); [code], [createdBy],
    [isPublic] and [__v] are not sent. *)
Record Listing := mkListing {
  l_roomId : string; l_title : string; l_description : string; l_language : string;
  l_createdAt : Z; l_updatedAt : Z; l_participants : list Participant }.

Definition select_listing (r : Room) : Listing :=
  mkListing (roomId r) (title r) (description r) (language r) (createdAt r) (updatedAt r)
    (participants r).

(** The JSON bodies the handlers send. *)
Inductive Body :=
| BCreated (rid : string) (room : Room)
| BRoom (room : Room)
| BRooms (rooms : list Listing) (totalPages : option Z) (currentPage : Z) (total : Z)
| BParticipants (ps : list Participant)
| BMessage (success : bool) (message : string).

Record Response := mkResponse { status : Z; body : Body }.

Definition fail500 (msg : string) : Response := mkResponse 500 (BMessage false msg).
Definition not_found : Response := mkResponse 404 (BMessage false "Room not found").

(** [POST /room] (lines 7-34). *)
Definition create_room (uuid : string) (title description language createdBy : option string)
    (now : Z) (db : Db) : Response * Db :=
  let rid := String.substring 0 8 uuid in
  let newRoom := new_room rid (Some (title ?|| "Untitled")) (Some (description ?|| ""))
                   (Some (language ?|| "javascript")) (Some (createdBy ?|| "Anonymous")) now in
  match insert newRoom now db with
  | Ok (r, db') => (mkResponse 201 (BCreated rid r), db')
  | Err _ => (fail500 "Failed to create room", db)
  end.

(** [GET /room/:roomId] (lines 37-60). *)
Definition get_room (rid : string) (db : Db) : Response :=
  match find_one rid db with
  | Ok None => not_found
  | Ok (Some r) => mkResponse 200 (BRoom r)
  | Err _ => fail500 "Failed to fetch room"
  end.

(** The fields of [PUT /room/:roomId] that are not [undefined] (lines 78-81). *)
Definition put_changes (code0 language0 title0 description0 : option string) : list Change :=
  opt_change SetCode code0 ++ opt_change SetLanguage language0 ++
  opt_change SetTitle title0 ++ opt_change SetDescription description0.

(** [PUT /room/:roomId] (lines 63-96). *)
Definition put_room (rid : string) (code0 language0 title0 description0 : option string)
    (now : Z) (db : Db) : Response * Db :=
  match find_one rid db with
  | Ok None => (not_found, db)
  | Ok (Some room) =>
      match save_changes room (put_changes code0 language0 title0 description0) now db with
      | Ok (r, db') => (mkResponse 200 (BRoom r), db')
      | Err _ => (fail500 "Failed to update room", db)
      end
  | Err _ => (fail500 "Failed to update room", db)
  end.

(** The query of [GET /rooms] (lines 103-109): public rooms, and when the
    search text is not empty, a title or description it matches. *)
Definition rooms_query (rx : string -> option (string -> bool)) (search : string)
    : option (Room -> bool) :=
  if String.eqb search "" then Some isPublic
  else match rx search with
       | Some f => Some (fun r => isPublic r && (f (title r) || f (description r)))
       | None => None
       end.

(** [Math.ceil(total / limit)]; a zero limit gives [Infinity] or [NaN],
    which JSON sends as [null] ([None]). *)
Definition total_pages (total limit : Z) : option Z :=
  if Z.eqb limit 0 then None else Some (- (Z.div (- total) limit))%Z.

(** [GET /rooms?page=&limit=&search=] (lines 99-133), with the defaults
    [page = 1], [limit = 10], [search = ''] for missing parameters. *)
Definition list_rooms (rx : string -> option (string -> bool))
    (page0 limit0 : option Z) (search0 : option string) (db : Db) : Response :=
  let page := default 1%Z page0 in
  let limit := default 10%Z limit0 in
  let search := default "" search0 in
  match rooms_query rx search with
  | None => fail500 "Failed to fetch rooms"
  | Some q =>
      match find_sorted q ((page - 1) * limit)%Z limit db with
      | Err _ => fail500 "Failed to fetch rooms"
      | Ok rooms =>
          match count_documents q db with
          | Err _ => fail500 "Failed to fetch rooms"
          | Ok total => mkResponse 200 (BRooms (map select_listing rooms) (total_pages total limit) page total)
          end
      end
  end.

(** [DELETE /room/:roomId] (lines 136-159). *)
Definition delete_room (rid : string) (db : Db) : Response * Db :=
  match find_one_and_delete rid db with
  | Ok (None, db') => (not_found, db')
  | Ok (Some _, db') => (mkResponse 200 (BMessage true "Room deleted successfully"), db')
  | Err _ => (fail500 "Failed to delete room", db)
  end.

(** [p.userId === userId] on possibly missing strings. *)
Definition same_user (u : option string) (p : Participant) : bool :=
  bool_decide (p_userId p = u).

(** [POST /room/:roomId/participant] (lines 162-199). *)
Definition add_participant (rid : string) (userId username : option string) (now : Z) (db : Db)
    : Response * Db :=
  match find_one rid db with
  | Ok None => (not_found, db)
  | Ok (Some room) =>
      if List.existsb (same_user userId) (participants room)
      then (mkResponse 200 (BParticipants (participants room)), db)
      else
        match save_changes room [PushParticipant (mkParticipant userId username now)] now db with
        | Ok (r, db') => (mkResponse 200 (BParticipants (participants r)), db')
        | Err _ => (fail500 "Failed to add participant", db)
        end
  | Err _ => (fail500 "Failed to add participant", db)
  end.

(** [DELETE /room/:roomId/participant/:userId] (lines 202-229). *)
Definition remove_participant (rid userId : string) (now : Z) (db : Db) : Response * Db :=
  match find_one rid db with
  | Ok None => (not_found, db)
  | Ok (Some room) =>
      let kept := List.filter (fun p => negb (same_user (Some userId) p)) (participants room) in
      match save_changes room [SetParticipants kept] now db with
      | Ok (r, db') => (mkResponse 200 (BParticipants (participants r)), db')
      | Err _ => (fail500 "Failed to remove participant", db)
      end
  | Err _ => (fail500 "Failed to remove participant", db)
  end.

(** ** A regular-expression matcher for literal patterns

    On a pattern without metacharacters, [new RegExp(p, 'i')] tests
    whether the subject contains [p] up to ASCII case. *)

Definition lower_ascii (c : ascii) : ascii :=
  let n := nat_of_ascii c in
  if (65 <=? n) && (n <=? 90) then ascii_of_nat (n + 32) else c.

Fixpoint lower (s : string) : string :=
  match s with
  | EmptyString => EmptyString
  | String c s' => String (lower_ascii c) (lower s')
  end.

Fixpoint contains (p s : string) : bool :=
  String.prefix p s ||
  match s with
  | EmptyString => false
  | String _ s' => contains p s'
  end.

Definition ci_contains (p s : string) : bool := contains (lower p) (lower s).

Definition regex_meta : list ascii :=
  ["\"; "^"; "$"; "."; "|"; "?"; "*"; "+"; "("; ")"; "["; "]"; "{"; "}"]%char.

Fixpoint literal_pattern (p : string) : bool :=
  match p with
  | EmptyString => true
  | String c p' => negb (existsb (Ascii.eqb c) regex_meta) && literal_pattern p'
  end.

(** The engine on literal patterns; other patterns are not modelled. *)
Definition literal_rx (p : string) : option (string -> bool) :=
  if literal_pattern p then Some (ci_contains p) else None.

(** ** Properties of the route handlers *)

Lemma substring_0_length (n : nat) (s : string) :
  n <= String.length s -> String.length (String.substring 0 n s) = n.
Proof.
  revert s. induction n as [|n IH]; intros s Hn; [by destruct s|].
  destruct s as [|c s]; simpl in *; [lia|]. f_equal. apply IH. lia.
Qed.

(** The id [POST /room] takes from a UUID passes the [required] check. *)
Lemma substring_required (s : string) :
  8 <= String.length s -> String.eqb (String.substring 0 8 s) "" = false.
Proof.
  intros Hl. apply String.eqb_neq. intros E.
  pose proof (substring_0_length 8 s Hl) as L. rewrite E in L. discriminate.
Qed.

(** C15: [POST /room] stores a room under the first eight characters of
    the UUID, with the schema defaults and the [||] defaults of the body,
    answers 201 with it, and [GET /room/:roomId] then returns it. *)
Theorem create_room_then_get uuid title0 description0 language0 createdBy0 now db :
  up db = true -> 8 <= String.length uuid ->
  find_one (String.substring 0 8 uuid) db = Ok None ->
  exists r,
    create_room uuid title0 description0 language0 createdBy0 now db
      = (mkResponse 201 (BCreated (String.substring 0 8 uuid) r), mkDb (docs db ++ [r]) true) /\
    get_room (String.substring 0 8 uuid) (mkDb (docs db ++ [r]) true) = mkResponse 200 (BRoom r) /\
    String.length (roomId r) = 8 /\
    code r = default_code /\ language r = language0 ?|| "javascript" /\
    title r = title0 ?|| "Untitled" /\ description r = description0 ?|| "" /\
    createdBy r = createdBy0 ?|| "Anonymous" /\ isPublic r = true /\ participants r = [] /\
    createdAt r = now /\ updatedAt r = now.
Proof.
  intros Hup Hlen Hnone.
  unfold find_one in Hnone. rewrite Hup in Hnone. injection Hnone as Hnone.
  unfold create_room, insert, required_ok. simpl. rewrite substring_required, Hup by done. simpl.
  rewrite (find_none_has_id _ _ Hnone). simpl.
  eexists. split; [reflexivity|].
  split; [|simpl; repeat split; [by apply substring_0_length|..]; done].
  unfold get_room, find_one. simpl. rewrite find_snoc_none by done.
  unfold has_id. simpl. by rewrite String.eqb_refl.
Qed.

Example create_room_then_get_witness :
  exists r, create_room "abc12345-0000-4000-8000-000000000000" (Some "T") None (Some "python")
      (Some "alice") 5 (mkDb [] true)
    = (mkResponse 201 (BCreated "abc12345" r), mkDb ([] ++ [r]) true) /\
    get_room "abc12345" (mkDb ([] ++ [r]) true) = mkResponse 200 (BRoom r) /\
    String.length (roomId r) = 8 /\ code r = default_code /\
    language r = Some "python" ?|| "javascript" /\ title r = Some "T" ?|| "Untitled" /\
    description r = None ?|| "" /\ createdBy r = Some "alice" ?|| "Anonymous" /\
    isPublic r = true /\ participants r = [] /\ createdAt r = 5%Z /\ updatedAt r = 5%Z.
Proof.
  apply (create_room_then_get "abc12345-0000-4000-8000-000000000000" (Some "T") None
           (Some "python") (Some "alice") 5 (mkDb [] true)); [reflexivity|simpl; lia|reflexivity].
Defined.

(** [POST /room] on an identifier that is already stored answers 500
    and leaves the store unchanged (the unique index rejects the save). *)
Theorem create_room_duplicate uuid title0 description0 language0 createdBy0 now db d :
  find_one (String.substring 0 8 uuid) db = Ok (Some d) ->
  create_room uuid title0 description0 language0 createdBy0 now db
    = (fail500 "Failed to create room", db).
Proof.
  intros Hf. unfold create_room.
  by erewrite insert_duplicate by exact Hf.
Qed.

Example create_room_duplicate_witness :
  create_room "abc12345-0000" None None None None 2 (mkDb [new_room "abc12345" None None None None 1] true)
    = (fail500 "Failed to create room", mkDb [new_room "abc12345" None None None None 1] true).
Proof. eapply create_room_duplicate. reflexivity. Defined.

(** The number of entries of [ps] for user [u]. *)
Definition count_user (u : option string) (ps : list Participant) : nat :=
  length (List.filter (same_user u) ps).

Lemma same_user_self u n t : same_user u (mkParticipant u n t) = true.
Proof. unfold same_user. by apply bool_decide_eq_true. Qed.

(** Adding a participant is idempotent: after a successful
    [POST /room/:roomId/participant] the stored room has exactly one entry
    for the user (if it had at most one), and a second request for the
    same user answers the same list and leaves the store unchanged. *)
Theorem add_participant_idempotent rid u n n' now now' db r resp1 db1 :
  find_one rid db = Ok (Some r) -> count_user u (participants r) <= 1 ->
  add_participant rid u n now db = (resp1, db1) -> status resp1 = 200%Z ->
  exists r1, find_one rid db1 = Ok (Some r1) /\ count_user u (participants r1) = 1 /\
    add_participant rid u n' now' db1 = (mkResponse 200 (BParticipants (participants r1)), db1).
Proof.
  intros Hf Hc Hadd Hst. pose proof (find_one_some _ _ _ Hf) as (_ & _ & Hid).
  unfold add_participant in Hadd |- *. rewrite Hf in Hadd.
  destruct (List.existsb (same_user u) (participants r)) eqn:Ex.
  - injection Hadd as <- <-. exists r. rewrite Hf, Ex. unfold count_user in *.
    rewrite existsb_filter_length in Ex. apply Nat.ltb_lt in Ex. split; [done|]. split; [lia|done].
  - destruct (save_changes r _ now db) as [[r' db']|e] eqn:Hs; [|by injection Hadd as <- _].
    injection Hadd as <- <-.
    destruct (find_one_after_save _ _ _ _ _ _ Hs) as (st & Hst1 & Hst2 & _).
    rewrite Hid, Hf in Hst1. injection Hst1 as <-. rewrite Hid in Hst2.
    eexists. split; [exact Hst2|]. rewrite Hst2. simpl.
    assert (Hcnt : count_user u (participants r ++ [mkParticipant u n now]) = 1).
    { unfold count_user. rewrite filter_app_length. simpl. rewrite same_user_self.
      rewrite existsb_filter_length in Ex. apply Nat.ltb_ge in Ex. simpl. lia. }
    split; [exact Hcnt|].
    replace (List.existsb (same_user u) (participants r ++ [mkParticipant u n now])) with true;
      [done|]. symmetry. rewrite existsb_filter_length. apply Nat.ltb_lt.
    unfold count_user in Hcnt. lia.
Qed.

Definition participant_room : Room :=
  set_participants (new_room "abc12345" None None None None 0)
    [mkParticipant (Some "u1") (Some "bob") 1].

Definition participant_db : Db := mkDb [participant_room] true.

Example add_participant_idempotent_witness :
  exists r1, find_one "abc12345" (snd (add_participant "abc12345" (Some "u2") (Some "eve") 3 participant_db))
      = Ok (Some r1) /\ count_user (Some "u2") (participants r1) = 1 /\
    add_participant "abc12345" (Some "u2") (Some "eve") 4
      (snd (add_participant "abc12345" (Some "u2") (Some "eve") 3 participant_db))
    = (mkResponse 200 (BParticipants (participants r1)),
       snd (add_participant "abc12345" (Some "u2") (Some "eve") 3 participant_db)).
Proof.
  eapply (add_participant_idempotent "abc12345" (Some "u2") (Some "eve") (Some "eve") 3 4
            participant_db); [reflexivity|vm_compute; lia|reflexivity|reflexivity].
Defined.

(** C16: [DELETE /room/:roomId/participant/:userId] stores the room's
    participants without any entry of that user, the others kept in
    order, stamps [updatedAt], and answers the stored list. *)
Theorem remove_participant_spec rid u now db r :
  rid <> "" -> find_one rid db = Ok (Some r) ->
  exists r' db',
    remove_participant rid u now db = (mkResponse 200 (BParticipants (participants r')), db') /\
    find_one rid db' = Ok (Some r') /\
    participants r' = List.filter (fun p => negb (same_user (Some u) p)) (participants r) /\
    Forall (fun p => p_userId p <> Some u) (participants r') /\
    updatedAt r' = now /\ code r' = code r /\ language r' = language r.
Proof.
  intros Hne Hf. pose proof (find_one_some _ _ _ Hf) as (Hup & Hfind & Hid).
  unfold remove_participant. rewrite Hf. unfold save_changes.
  rewrite (required_found _ _ _ Hne Hf), Hup, Hid, Hfind, Nat.eqb_refl. simpl.
  exists (stamp (apply_changes r [SetParticipants
    (List.filter (fun p => negb (same_user (Some u) p)) (participants r))]) now (S (version r))).
  eexists. split; [reflexivity|].
  split; [unfold find_one; simpl; f_equal; eapply find_replace_doc; [exact Hfind|done]|].
  simpl. split; [done|]. split; [|done].
  apply Forall_forall. intros p Hp%list_elem_of_In%filter_In. destruct Hp as [_ Hp].
  unfold same_user in Hp. intros Heq. rewrite bool_decide_eq_true_2 in Hp; done.
Qed.

Example remove_participant_spec_witness :
  exists r' db',
    remove_participant "abc12345" "u1" 2 participant_db
      = (mkResponse 200 (BParticipants (participants r')), db') /\
    find_one "abc12345" db' = Ok (Some r') /\
    participants r' = List.filter (fun p => negb (same_user (Some "u1") p))
                        (participants participant_room) /\
    Forall (fun p => p_userId p <> Some "u1") (participants r') /\
    updatedAt r' = 2%Z /\ code r' = code participant_room /\
    language r' = language participant_room.
Proof. apply (remove_participant_spec "abc12345" "u1" 2 participant_db participant_room); [done|reflexivity]. Defined.

Lemma put_changes_no_array c l t d :
  List.existsb sets_array (put_changes c l t d) = false /\
  List.existsb touches_array (put_changes c l t d) = false.
Proof. by destruct c, l, t, d. Qed.

Lemma apply_put_changes r c l t d :
  let r' := apply_changes r (put_changes c l t d) in
  roomId r' = roomId r /\ code r' = default (code r) c /\ language r' = default (language r) l /\
  title r' = default (title r) t /\ description r' = default (description r) d /\
  participants r' = participants r /\ createdAt r' = createdAt r /\ isPublic r' = isPublic r.
Proof. by destruct c, l, t, d. Qed.

(** C17: [PUT /room/:roomId] on a stored room writes exactly the fields
    the body provides, keeps the others, stamps [updatedAt], answers 200
    with the document and stores it. *)
Theorem put_room_spec rid c l t d now db r :
  rid <> "" -> find_one rid db = Ok (Some r) ->
  exists r' db',
    put_room rid c l t d now db = (mkResponse 200 (BRoom r'), db') /\
    find_one rid db' = Ok (Some r') /\
    code r' = default (code r) c /\ language r' = default (language r) l /\
    title r' = default (title r) t /\ description r' = default (description r) d /\
    participants r' = participants r /\ createdAt r' = createdAt r /\ updatedAt r' = now.
Proof.
  intros Hne Hf. pose proof (find_one_some _ _ _ Hf) as (Hup & Hfind & Hid).
  destruct (put_changes_no_array c l t d) as [Hs Ht].
  destruct (apply_put_changes r c l t d) as (Hr1 & Hr2 & Hr3 & Hr4 & Hr5 & Hr6 & Hr7 & _).
  unfold put_room. rewrite Hf. unfold save_changes.
  rewrite (required_found _ _ _ Hne Hf), Hup, Hid, Hfind, Hs, Ht. simpl.
  exists (stamp (apply_changes r (put_changes c l t d)) now (version r)). eexists.
  split; [reflexivity|]. split.
  - unfold find_one. simpl. f_equal. eapply find_replace_doc; [exact Hfind|].
    simpl. by rewrite Hr1.
  - simpl. by repeat split.
Qed.

Example put_room_spec_witness :
  exists r' db',
    put_room "abc12345" (Some "x=1") None (Some "T2") None 9 participant_db
      = (mkResponse 200 (BRoom r'), db') /\
    find_one "abc12345" db' = Ok (Some r') /\
    code r' = default (code participant_room) (Some "x=1") /\
    language r' = default (language participant_room) None /\
    title r' = default (title participant_room) (Some "T2") /\
    description r' = default (description participant_room) None /\
    participants r' = participants participant_room /\
    createdAt r' = createdAt participant_room /\ updatedAt r' = 9%Z.
Proof.
  apply (put_room_spec "abc12345" (Some "x=1") None (Some "T2") None 9 participant_db
           participant_room); [done|reflexivity].
Defined.

(** [PUT] and [DELETE] of a room that is not stored answer 404 and
    leave the store unchanged. *)
Theorem missing_room_404 rid c l t d now db :
  find_one rid db = Ok None ->
  put_room rid c l t d now db = (not_found, db) /\ delete_room rid db = (not_found, db) /\
  get_room rid db = not_found.
Proof.
  intros Hf. unfold put_room, delete_room, get_room. rewrite Hf.
  unfold find_one in Hf. unfold find_one_and_delete.
  destruct (up db); [|discriminate]. injection Hf as ->. done.
Qed.

Example missing_room_404_witness :
  put_room "zzz" None None None None 1 participant_db = (not_found, participant_db) /\
  delete_room "zzz" participant_db = (not_found, participant_db) /\
  get_room "zzz" participant_db = not_found.
Proof. apply (missing_room_404 "zzz" None None None None 1 participant_db). reflexivity. Defined.

(** [DELETE /room/:roomId] of a stored room answers 200 and the room
    is gone: [GET /room/:roomId] then answers 404. *)
Theorem delete_room_spec rid db r :
  find_one rid db = Ok (Some r) ->
  exists db', delete_room rid db = (mkResponse 200 (BMessage true "Room deleted successfully"), db') /\
    get_room rid db' = not_found.
Proof.
  intros Hf. pose proof (find_one_some _ _ _ Hf) as (Hup & Hfind & _).
  unfold delete_room, find_one_and_delete. rewrite Hup, Hfind. simpl.
  eexists. split; [reflexivity|]. unfold get_room, find_one. simpl.
  replace (List.find (has_id rid) _) with (@None Room); [done|].
  symmetry. apply find_none_intro. intros x. rewrite filter_In. by intros [_ ->%negb_true_iff].
Qed.

Example delete_room_spec_witness :
  exists db', delete_room "abc12345" participant_db
      = (mkResponse 200 (BMessage true "Room deleted successfully"), db') /\
    get_room "abc12345" db' = not_found.
Proof. apply (delete_room_spec "abc12345" participant_db participant_room). reflexivity. Defined.

(** The rooms a [GET /rooms] response lists. *)
Definition listed_rooms (resp : Response) : list Listing :=
  match body resp with BRooms rs _ _ _ => rs | _ => [] end.

Lemma list_rooms_ok rx page limit search db q :
  up db = true -> rooms_query rx search = Some q -> (1 <= page)%Z -> (0 <= limit)%Z ->
  list_rooms rx (Some page) (Some limit) (Some search) db =
    mkResponse 200 (BRooms
      (let rest := drop (Z.to_nat ((page - 1) * limit)) (map select_listing (sort_desc (List.filter q (docs db)))) in
       if Z.eqb limit 0 then rest else take (Z.to_nat limit) rest)
      (total_pages (Z.of_nat (length (List.filter q (docs db)))) limit) page
      (Z.of_nat (length (List.filter q (docs db))))).
Proof.
  intros Hup Hq Hp Hl. unfold list_rooms. simpl. rewrite Hq.
  unfold find_sorted, count_documents, skip_limit. rewrite Hup.
  replace (Z.ltb ((page - 1) * limit) 0) with false by (symmetry; apply Z.ltb_ge; nia).
  rewrite Z.abs_eq by lia. simpl. rewrite skipn_map. by destruct (Z.eqb limit 0); [|rewrite firstn_map].
Qed.

(** C18: paging through [GET /rooms] with a positive [limit]: every page
    lists at most [limit] rooms, [totalPages] is finite, and pages [1] to
    [totalPages] together list every matching room exactly once, in the
    order of the query. *)
Theorem list_rooms_pages rx limit search db q :
  up db = true -> rooms_query rx search = Some q -> (0 < limit)%Z ->
  exists tp,
    total_pages (Z.of_nat (length (List.filter q (docs db)))) limit = Some tp /\
    (forall page, (1 <= page)%Z ->
       length (listed_rooms (list_rooms rx (Some page) (Some limit) (Some search) db))
         <= Z.to_nat limit) /\
    concat (map (fun i => listed_rooms
                   (list_rooms rx (Some (Z.of_nat i + 1)%Z) (Some limit) (Some search) db))
                (seq 0 (Z.to_nat tp)))
      = map select_listing (sort_desc (List.filter q (docs db))).
Proof.
  intros Hup Hq Hl.
  set (L := map select_listing (sort_desc (List.filter q (docs db)))).
  assert (HlenL : length L = length (List.filter q (docs db))).
  { unfold L. rewrite length_map. apply Permutation_length, sort_desc_perm. }
  pose proof (ceil_div_spec (Z.of_nat (length (List.filter q (docs db)))) limit Hl
                ltac:(lia)) as (Hc0 & Hc1 & _).
  eexists. split; [unfold total_pages; rewrite (proj2 (Z.eqb_neq _ _)) by lia; reflexivity|].
  split.
  - intros page Hp. rewrite (list_rooms_ok rx page limit search db q) by (done || lia).
    unfold listed_rooms. simpl. rewrite (proj2 (Z.eqb_neq _ _)) by lia. rewrite length_take. lia.
  - erewrite map_ext_in.
    2:{ intros i _. rewrite (list_rooms_ok rx (Z.of_nat i + 1) limit search db q) by (done || lia).
        unfold listed_rooms. simpl. rewrite (proj2 (Z.eqb_neq _ _)) by lia.
        replace (Z.to_nat ((Z.of_nat i + 1 - 1) * limit)) with (i * Z.to_nat limit) by lia.
        reflexivity. }
    fold L. rewrite concat_pages. apply take_ge. rewrite HlenL. nia.
Qed.

Definition listing_db : Db :=
  mkDb [new_room "r1" (Some "Alpha") None None None 3; new_room "r2" (Some "beta") None None None 7;
        new_room "r3" (Some "Gamma") None None None 5] true.

Example list_rooms_pages_witness :
  exists tp,
    total_pages (Z.of_nat (length (List.filter isPublic (docs listing_db)))) 2 = Some tp /\
    (forall page, (1 <= page)%Z ->
       length (listed_rooms (list_rooms literal_rx (Some page) (Some 2%Z) (Some "") listing_db))
         <= Z.to_nat 2) /\
    concat (map (fun i => listed_rooms
                   (list_rooms literal_rx (Some (Z.of_nat i + 1)%Z) (Some 2%Z) (Some "") listing_db))
                (seq 0 (Z.to_nat tp)))
      = map select_listing (sort_desc (List.filter isPublic (docs listing_db))).
Proof. apply (list_rooms_pages literal_rx 2 "" listing_db isPublic); [reflexivity|reflexivity|lia]. Defined.

(** C19: [GET /rooms?limit=0] (MongoDB reads a zero limit as no limit),
    on a running store and with a search the regular-expression engine
    compiles, answers 200 with every matching room in one page, whatever
    the [page]: the rooms it sends are the selected fields of a list [rs]
    that is a permutation of the public rooms the search matches (in
    title or description), newest [updatedAt] first; [total] counts them
    and [totalPages] is [null] ([total / 0] is not finite). *)
Theorem list_rooms_order rx search db q page :
  up db = true -> rooms_query rx search = Some q ->
  exists rs,
    list_rooms rx page (Some 0%Z) (Some search) db =
      mkResponse 200 (BRooms (map select_listing rs) None (default 1%Z page) (Z.of_nat (length rs))) /\
    rs ≡ₚ List.filter q (docs db) /\ Sorted newer_or_same rs /\
    Forall (fun r => isPublic r = true) rs /\
    (forall r, r ∈ rs -> String.eqb search "" = false ->
       exists f, rx search = Some f /\ (f (title r) || f (description r)) = true).
Proof.
  intros Hup Hq. exists (sort_desc (List.filter q (docs db))).
  assert (Hperm := sort_desc_perm (List.filter q (docs db))).
  split.
  { unfold list_rooms. simpl. rewrite Hq. unfold find_sorted, count_documents, skip_limit. rewrite Hup.
    rewrite Z.mul_0_r. simpl. by rewrite (Permutation_length Hperm). }
  split; [exact Hperm|]. split; [apply sort_desc_sorted|].
  assert (Hin : forall r, In r (sort_desc (List.filter q (docs db))) -> q r = true).
  { intros r Hr%list_elem_of_In. rewrite Hperm in Hr.
    by apply list_elem_of_In, filter_In in Hr as [_ Hr]. }
  unfold rooms_query in Hq. split.
  - apply Forall_forall. intros r Hr. rewrite list_elem_of_In in Hr. apply Hin in Hr.
    destruct (String.eqb search ""); [by injection Hq as <-|].
    destruct (rx search); [|discriminate]. injection Hq as <-. by apply andb_prop in Hr as [-> _].
  - intros r Hr Hs. rewrite list_elem_of_In in Hr. apply Hin in Hr. rewrite Hs in Hq. destruct (rx search) as [f|]; [|discriminate].
    injection Hq as <-. apply andb_prop in Hr as [_ Hr]. eauto.
Qed.

(** Listing [listing_db] searched for [a]. *)
Example list_rooms_order_witness :
  (up listing_db = true /\ rooms_query literal_rx "a" = Some (fun r => isPublic r &&
     (ci_contains "a" (title r) || ci_contains "a" (description r)))) /\
  exists rs,
    list_rooms literal_rx (Some 3%Z) (Some 0%Z) (Some "a") listing_db =
      mkResponse 200 (BRooms (map select_listing rs) None (default 1%Z (Some 3%Z)) (Z.of_nat (length rs))) /\
    rs ≡ₚ List.filter (fun r => isPublic r && (ci_contains "a" (title r) || ci_contains "a" (description r)))
            (docs listing_db) /\ Sorted newer_or_same rs /\
    Forall (fun r => isPublic r = true) rs /\
    (forall r, r ∈ rs -> String.eqb "a" "" = false ->
       exists f, literal_rx "a" = Some f /\ (f (title r) || f (description r)) = true).
Proof.
  split; [split; reflexivity|].
  apply (list_rooms_order literal_rx "a" listing_db _ (Some 3%Z)); reflexivity.
Defined.

(** C20: every state-changing route keeps the room identifiers of the
    store unique, whatever its inputs and however its store calls end. *)
Theorem routes_keep_unique_ids db uuid t d l c now rid u n code0 :
  unique_ids db ->
  unique_ids (snd (create_room uuid t d l c now db)) /\
  unique_ids (snd (put_room rid code0 l t d now db)) /\
  unique_ids (snd (delete_room rid db)) /\
  unique_ids (snd (add_participant rid u n now db)) /\
  (forall uid, unique_ids (snd (remove_participant rid uid now db))).
Proof.
  intros Hu.
  unfold create_room, put_room, delete_room, add_participant, remove_participant.
  repeat split; [|..|intros uid];
  repeat match goal with
  | |- context [match ?e with _ => _ end] =>
      let E := fresh "E" in destruct e eqn:E
  end; simpl; eauto with editor.
Qed.

Example routes_keep_unique_ids_witness :
  unique_ids (snd (create_room "abc12345-x" None None None None 1 participant_db)) /\
  unique_ids (snd (put_room "abc12345" None None None None 1 participant_db)) /\
  unique_ids (snd (delete_room "abc12345" participant_db)) /\
  unique_ids (snd (add_participant "abc12345" None None 1 participant_db)) /\
  (forall uid, unique_ids (snd (remove_participant "abc12345" uid 1 participant_db))).
Proof.
  apply (routes_keep_unique_ids participant_db "abc12345-x" None None None None 1 "abc12345"
           None None None).
  unfold unique_ids. simpl. repeat constructor; set_solver.
Defined.

(** C27: a page before the first ([page < 1]) with a positive [limit]
    makes the skip [(page - 1) * limit] negative, which MongoDB rejects:
    [GET /rooms] answers 500 even on a running store and a valid search. *)
Theorem list_rooms_bad_page rx page limit search db q :
  up db = true -> rooms_query rx search = Some q -> (page < 1)%Z -> (0 < limit)%Z ->
  list_rooms rx (Some page) (Some limit) (Some search) db = fail500 "Failed to fetch rooms".
Proof.
  intros Hup Hq Hp Hl. unfold list_rooms. simpl. rewrite Hq.
  unfold find_sorted, skip_limit. rewrite Hup.
  replace (Z.ltb ((page - 1) * limit) 0) with true by (symmetry; apply Z.ltb_lt; nia). done.
Qed.

Example list_rooms_bad_page_witness :
  up listing_db = true /\ rooms_query literal_rx "" = Some isPublic /\ (0 < 1)%Z /\ (0 < 10)%Z /\
  list_rooms literal_rx (Some 0%Z) (Some 10%Z) (Some "") listing_db = fail500 "Failed to fetch rooms".
Proof.
  split_and!; [reflexivity|reflexivity|lia|lia|].
  apply (list_rooms_bad_page literal_rx 0 10 "" listing_db isPublic); [reflexivity|reflexivity|lia|lia].
Defined.

End Routes.
