(* ===== verification/Chat.v ===== *)
(** * The chat panel: [src/client/src/components/Chat.js]

    The [Chat] component of a client in a room keeps the messages
    received, the text being typed, whether this client told the room it
    is typing, and the list of other users typing.  It listens to two
    server events ([chat-message], [user-typing], lines 24-41) and sends
    two ([chat-message] on submit, lines 49-61; [typing] while the user
    types, lines 63-77, turned off by a 2 s timer kept in the global
    [window.typingTimeout]).

    Module [Chat] models the component's state as a record [ChatState],
    each handler as a function on it, with the props ([roomId],
    [username]) and the socket ([Some id] when connected) as arguments,
    and the events the client sends as [Handler.InEvent]s appended to
    [sent].  React re-renders between two events, so a handler reads the
    state the previous one left.  [render] is what the panel shows (lines
    86-174): the message rows, the typing indicator, the input and the
    disabled send button.  The theorems: the typing list never
    lists a user twice nor the client itself; a burst of keystrokes sends
    one [typing true] and leaves one timer; a message is sent only when
    its trimmed text is not empty, trimmed; and the indicator shown for
    the [user-typing] payload the server sends. *)

From S2P Require Import Prelude JsMap Store Handler.

Module Chat.
Import Handler.

(** ** Data *)

(** A [chat-message] payload as the server sends it (handler.js lines
    151-156), appended as is to [messages]. *)
Record Message := mkMessage {
  m_userId : string; m_username : string; m_message : Json; m_timestamp : Z }.

(** A [user-typing] payload as the component reads it: [data.userId],
    [data.isTyping] and [data.username] (read by the indicator). *)
Record Typing := mkTyping { ty_userId : string; ty_isTyping : Json; ty_username : option string }.

(** A pending [setTimeout] of [handleTyping]: its id and due time. *)
Record TypingTimer := mkTypingTimer { tt_id : nat; tt_due : Z }.

Record ChatState := mkChat {
  messages : list Message;
  newMessage : string;
  isTyping : bool;
  typingUsers : list Typing;
  typingTimeout : option nat;      (** [window.typingTimeout] *)
  timers : list TypingTimer;
  next_timer : nat;
  clock : Z;
  sent : list InEvent              (** what [socket.emit] sent, in order *)
}.

Definition set_messages s x := mkChat x (newMessage s) (isTyping s) (typingUsers s)
  (typingTimeout s) (timers s) (next_timer s) (clock s) (sent s).
Definition set_newMessage s x := mkChat (messages s) x (isTyping s) (typingUsers s)
  (typingTimeout s) (timers s) (next_timer s) (clock s) (sent s).
Definition set_isTyping s x := mkChat (messages s) (newMessage s) x (typingUsers s)
  (typingTimeout s) (timers s) (next_timer s) (clock s) (sent s).
Definition set_typingUsers s x := mkChat (messages s) (newMessage s) (isTyping s) x
  (typingTimeout s) (timers s) (next_timer s) (clock s) (sent s).
Definition set_typingTimeout s x := mkChat (messages s) (newMessage s) (isTyping s)
  (typingUsers s) x (timers s) (next_timer s) (clock s) (sent s).
Definition set_timers s x := mkChat (messages s) (newMessage s) (isTyping s)
  (typingUsers s) (typingTimeout s) x (next_timer s) (clock s) (sent s).
Definition set_next_timer s x := mkChat (messages s) (newMessage s) (isTyping s)
  (typingUsers s) (typingTimeout s) (timers s) x (clock s) (sent s).
Definition set_sent s x := mkChat (messages s) (newMessage s) (isTyping s)
  (typingUsers s) (typingTimeout s) (timers s) (next_timer s) (clock s) x.

(** The state of a freshly mounted panel (lines 7-10). *)
Definition initial (t : Z) : ChatState := mkChat [] "" false [] None [] 0 t [].

(** JavaScript truthiness of a relayed JSON value. *)
Definition json_truthy (j : Json) : bool :=
  match j with
  | JUndefined | JNull => false
  | JBool b => b
  | JNum z => negb (Z.eqb z 0)
  | JStr s => negb (String.eqb s "")
  | JList _ | JObj _ => true
  end.

(** [socket?.emit(ev)]: nothing when there is no socket. *)
Definition emit (socket : option string) (ev : InEvent) (s : ChatState) : ChatState :=
  match socket with Some _ => set_sent s (sent s ++ [ev]) | None => s end.

(** [clearTimeout(window.typingTimeout)]. *)
Definition clear_typing (s : ChatState) : ChatState :=
  match typingTimeout s with
  | Some t => set_timers s (List.filter (fun tm => negb (Nat.eqb (tt_id tm) t)) (timers s))
  | None => s
  end.

(** [window.typingTimeout = setTimeout(cb, 2000)]. *)
Definition set_typing_timer (s : ChatState) : ChatState :=
  set_typingTimeout
    (set_next_timer (set_timers s (timers s ++ [mkTypingTimer (next_timer s) (clock s + 2000)]))
       (S (next_timer s)))
    (Some (next_timer s)).

(** ** Handlers *)

Definition other_user (u : string) (t : Typing) : bool := negb (String.eqb (ty_userId t) u).

(** [handleChatMessage], lines 24-26. *)
Definition handleChatMessage (data : Message) (s : ChatState) : ChatState :=
  set_messages s (messages s ++ [data]).

(** The update [handleUserTyping] applies to [typingUsers] (lines 29-36);
    [me] is [socket.id]. *)
Definition typing_update (me : string) (data : Typing) (prev : list Typing) : list Typing :=
  if String.eqb (ty_userId data) me then prev
  else if json_truthy (ty_isTyping data)
       then List.filter (other_user (ty_userId data)) prev ++ [data]
       else List.filter (other_user (ty_userId data)) prev.

(** [handleUserTyping], lines 28-38. *)
Definition handleUserTyping (me : string) (data : Typing) (s : ChatState) : ChatState :=
  set_typingUsers s (typing_update me data (typingUsers s)).

(** [handleSendMessage], lines 49-61. *)
Definition handleSendMessage (roomId : string) (username : option string) (socket : option string)
    (s : ChatState) : ChatState :=
  if String.eqb (trim (newMessage s)) "" then s
  else match socket with
       | None => s
       | Some _ =>
           set_isTyping (set_newMessage
             (emit socket (ChatMessageIn roomId (JStr (trim (newMessage s))) username) s) "") false
       end.

(** [handleTyping], lines 63-77, with [e.target.value = value]. *)
Definition handleTyping (roomId : string) (socket : option string) (value : string)
    (s : ChatState) : ChatState :=
  let s1 := set_newMessage s value in
  let s2 := if isTyping s1 then s1
            else emit socket (TypingIn roomId (JBool true)) (set_isTyping s1 true) in
  set_typing_timer (clear_typing s2).

(** The callback of the typing timer (lines 73-76). *)
Definition typing_timeout (roomId : string) (socket : option string) (s : ChatState) : ChatState :=
  emit socket (TypingIn roomId (JBool false)) (set_isTyping s false).

(** The text of the typing indicator (lines 138-148), when shown: a
    missing [username] prints as [undefined]. *)
Definition typing_text (s : ChatState) : option string :=
  match typingUsers s with
  | [] => None
  | [t] => Some (default "undefined" (ty_username t) +:+ " is typing...")
  | l => Some (pretty (length l) +:+ " people are typing...")
  end.

(** How the panel reads a server event: it subscribes to [chat-message]
    and [user-typing] only (lines 40-41). *)
Definition receive (me : string) (ev : OutEvent) (s : ChatState) : ChatState :=
  match ev with
  | ChatMessage u name msg t => handleChatMessage (mkMessage u name msg t) s
  | UserTyping u b => handleUserTyping me (mkTyping u b None) s
  | _ => s
  end.

(** ** What the panel shows *)

(** A row of the message list (lines 111-133): its [key] (the index), whether it is
    the client's own message ([message.userId === socket?.id], which picks
    the side and the colour), the author, the time and the text; the time is
    the timestamp ([formatTime]'s locale format is not modelled). *)
Record MsgRow := mkMsgRow { mr_key : nat; mr_own : bool; mr_username : string; mr_time : Z; mr_text : Json }.

Definition msg_rows (socket : option string) (ms : list Message) : list MsgRow :=
  imap (fun i m => mkMsgRow i (bool_decide (socket = Some (m_userId m))) (m_username m) (m_timestamp m)
                     (m_message m)) ms.

(** The panel (lines 86-174): the message list or its empty state, the
    typing indicator, the input and the [disabled] send button. *)
Record ChatView := mkChatView {
  cv_rows : option (list MsgRow);     (** [None]: [No messages yet] *)
  cv_typing : option string;
  cv_input : string;
  cv_send_disabled : bool }.

Definition render (socket : option string) (s : ChatState) : ChatView :=
  mkChatView (if Nat.eqb (length (messages s)) 0 then None else Some (msg_rows socket (messages s)))
    (typing_text s) (newMessage s) (String.eqb (trim (newMessage s)) "").

(** ** A session of the panel *)

(** What happens to the panel: a server event, a keystroke, a submit, the
    expiry of the first pending typing timer, time passing. *)
Inductive UiEvent :=
| Recv (ev : OutEvent)
| Keystroke (value : string)
| Submit
| Fire
| Tick (d : Z).

Definition ui_step (roomId : string) (username socket : option string) (me : string) (e : UiEvent)
    (s : ChatState) : ChatState :=
  match e with
  | Recv ev => receive me ev s
  | Keystroke v => handleTyping roomId socket v s
  | Submit => handleSendMessage roomId username socket s
  | Fire =>
      match timers s with
      | tm :: rest => if Z.leb (tt_due tm) (clock s)
                      then typing_timeout roomId socket (set_timers s rest) else s
      | [] => s
      end
  | Tick d => if Z.ltb 0 d then mkChat (messages s) (newMessage s) (isTyping s) (typingUsers s)
                                  (typingTimeout s) (timers s) (next_timer s) (clock s + d) (sent s)
              else s
  end.

Definition ui_run roomId username socket me (es : list UiEvent) (s : ChatState) : ChatState :=
  foldl (fun s e => ui_step roomId username socket me e s) s es.

(** [chat_unfold] unfolds the handlers and the setters, so that [simpl]
    computes the fields of the resulting state. *)
Ltac chat_unfold :=
  unfold ui_step, receive, handleChatMessage, handleUserTyping, handleTyping, handleSendMessage,
    typing_timeout, set_typing_timer, clear_typing, emit, set_messages, set_newMessage,
    set_isTyping, set_typingUsers, set_typingTimeout, set_timers, set_next_timer, set_sent in *.

(** ** The panel's invariant *)

(** The typing list names each user at most once, and never the client
    itself. *)
Definition typing_ok (me : string) (l : list Typing) : Prop :=
  NoDup (map ty_userId l) /\ Forall (fun t => ty_userId t <> me) l.

(** At most one typing timer is pending, and it is the one
    [window.typingTimeout] names. *)
Definition timer_ok (s : ChatState) : Prop :=
  length (timers s) <= 1 /\ Forall (fun tm => typingTimeout s = Some (tt_id tm)) (timers s).

Record chat_ok (me : string) (s : ChatState) : Prop := {
  co_typing : typing_ok me (typingUsers s);
  co_timer : timer_ok s
}.

Lemma filter_other_ok me u l :
  typing_ok me l -> typing_ok me (List.filter (other_user u) l) /\
                    u ∉ map ty_userId (List.filter (other_user u) l).
Proof.
  intros [Hn Hf]. split; [split|].
  - by apply NoDup_map_filter.
  - apply List.Forall_forall. intros t [Ht _]%filter_In. exact (proj1 (List.Forall_forall _ _) Hf t Ht).
  - rewrite list_elem_of_In, in_map_iff. intros (t & Ht & [_ Hin]%filter_In).
    unfold other_user in Hin. subst u. by rewrite String.eqb_refl in Hin.
Qed.

Lemma typing_update_ok me d l : typing_ok me l -> typing_ok me (typing_update me d l).
Proof.
  intros Hl. unfold typing_update. case_str; [done|].
  destruct (filter_other_ok me (ty_userId d) l Hl) as ([Hn Hf] & Hnot).
  destruct (json_truthy _); [|by split].
  split.
  - rewrite map_app. apply NoDup_app. split_and!; [done| |].
    + intros x Hx. simpl. rewrite list_elem_of_singleton. intros ->. done.
    + constructor; [set_solver|constructor].
  - apply Forall_app. split; [done|]. by constructor.
Qed.

(** With the invariant, [clearTimeout] removes every pending timer. *)
Lemma clear_typing_nil s : timer_ok s -> timers (clear_typing s) = [].
Proof.
  unfold timer_ok, clear_typing. intros [_ H]. destruct (typingTimeout s) as [t|] eqn:E.
  - simpl. apply filter_all_false. eapply Forall_impl; [exact H|].
    intros tm [= ->]. simpl. by rewrite Nat.eqb_refl.
  - by inversion H.
Qed.

(** A handler that leaves [typingUsers], [typingTimeout] and [timers]
    as they were keeps the invariant. *)
Lemma chat_ok_frame me s s' :
  typingUsers s' = typingUsers s -> typingTimeout s' = typingTimeout s -> timers s' = timers s ->
  chat_ok me s -> chat_ok me s'.
Proof. intros E1 E2 E3 [Ht Hm]. split; unfold timer_ok; [by rewrite E1|by rewrite E2, E3]. Qed.

(** [clearTimeout] then [setTimeout] leaves exactly the new timer. *)
Lemma timer_ok_set_typing_timer s : timer_ok s -> timer_ok (set_typing_timer (clear_typing s)).
Proof.
  intros Hm. pose proof (clear_typing_nil s Hm) as Hc. unfold timer_ok, set_typing_timer.
  simpl. rewrite Hc. simpl. split; [lia|repeat constructor].
Qed.

Lemma clear_typing_fields s :
  typingUsers (clear_typing s) = typingUsers s /\ typingTimeout (clear_typing s) = typingTimeout s /\
  next_timer (clear_typing s) = next_timer s.
Proof. unfold clear_typing. destruct (typingTimeout s) eqn:E; simpl; rewrite ?E; by split_and!. Qed.

Lemma clear_typing_eq s : clear_typing s = set_timers s (timers (clear_typing s)).
Proof. unfold clear_typing. destruct (typingTimeout s); [done|by destruct s]. Qed.

Lemma ui_step_ok roomId username socket me e s :
  chat_ok me s -> chat_ok me (ui_step roomId username socket me e s).
Proof.
  intros Hs. destruct e as [ev|v| | |d]; simpl.
  - destruct ev; try exact Hs; unfold receive.
    + by apply (chat_ok_frame me s).
    + destruct Hs as [Ht Hm]. split; [by apply typing_update_ok|done].
  - unfold handleTyping. destruct Hs as [Ht Hm].
    set (s2 := if isTyping (set_newMessage s v) then _ else _).
    assert (typingUsers s2 = typingUsers s /\ timer_ok s2) as [E2 Hm2]
      by (subst s2; destruct (isTyping _), socket; by split).
    destruct (clear_typing_fields s2) as (E3 & _).
    split; [|by apply timer_ok_set_typing_timer].
    unfold set_typing_timer, set_typingTimeout, set_next_timer, set_timers. cbn [typingUsers].
    by rewrite E3, E2.
  - unfold handleSendMessage. destruct (String.eqb _ _); [done|].
    destruct socket; [|done]. by apply (chat_ok_frame me s).
  - destruct (timers s) as [|tm rest] eqn:E; [done|]. destruct (Z.leb _ _); [|done].
    destruct Hs as [Ht [Hl Hm]]. rewrite E in Hl, Hm. simpl in Hl. inversion Hm.
    unfold typing_timeout, emit. destruct socket; (split; [done|split; [simpl; lia|done]]).
  - destruct (Z.ltb 0 d); [|done]. by apply (chat_ok_frame me s).
Qed.

Lemma chat_ok_initial me t : chat_ok me (initial t).
Proof. split; [split; constructor|split; simpl; [lia|constructor]]. Qed.

Lemma ui_run_ok roomId username socket me es s :
  chat_ok me s -> chat_ok me (ui_run roomId username socket me es s).
Proof. revert s. induction es as [|e es IH]; intros s Hs; [done|]. apply IH. by apply ui_step_ok. Qed.

Lemma ui_run_cons roomId username socket me e es s :
  ui_run roomId username socket me (e :: es) s = ui_run roomId username socket me es (ui_step roomId username socket me e s).
Proof. done. Qed.

(** C28: in every session of the panel from its mount, whatever the server
    sends and the user does, the typing indicator's list names each other
    user at most once and never the client itself, and at most one typing
    timer is pending, the one [window.typingTimeout] names. *)
Theorem panel_invariant roomId username socket me es t :
  let s := ui_run roomId username socket me es (initial t) in
  NoDup (map ty_userId (typingUsers s)) /\ Forall (fun u => ty_userId u <> me) (typingUsers s) /\
  length (timers s) <= 1 /\ Forall (fun tm => typingTimeout s = Some (tt_id tm)) (timers s).
Proof.
  simpl. destruct (ui_run_ok roomId username socket me es (initial t) (chat_ok_initial me t))
    as [[Hn Hf] [Hl Ht]]. done.
Qed.

(** One keystroke: the text is the input's value, the client is typing,
    [typing true] was sent unless it already was typing, and the one
    pending timer is the new one. *)
Lemma keystroke_spec roomId socket v s :
  timer_ok s ->
  let s' := handleTyping roomId socket v s in
  newMessage s' = v /\ isTyping s' = true /\ clock s' = clock s /\
  sent s' = sent s ++ (if isTyping s then [] else
                        match socket with Some _ => [TypingIn roomId (JBool true)] | None => [] end) /\
  timers s' = [mkTypingTimer (next_timer s) (clock s + 2000)] /\
  typingTimeout s' = Some (next_timer s) /\ next_timer s' = S (next_timer s).
Proof.
  intros Hm. unfold handleTyping.
  set (s2 := if isTyping (set_newMessage s v) then _ else _).
  assert (newMessage s2 = v /\ isTyping s2 = true /\ clock s2 = clock s /\
          sent s2 = sent s ++ (if isTyping s then [] else
                        match socket with Some _ => [TypingIn roomId (JBool true)] | None => [] end) /\
          timer_ok s2 /\ next_timer s2 = next_timer s) as (E1 & E2 & E3 & E4 & Hm2 & E5).
  { subst s2. destruct (isTyping s) eqn:Ei, socket; simpl; rewrite ?Ei, ?app_nil_r; by split_and!. }
  rewrite clear_typing_eq, (clear_typing_nil s2 Hm2). simpl. rewrite E5, E3. by split_and!.
Qed.

(** C29: a burst of keystrokes (a non-empty list of input values) sends
    one [typing true] at most — none if the client was already typing,
    none without a socket — and leaves exactly one pending timer, due
    2000 ms after the burst, named by [window.typingTimeout]. *)
Theorem typing_burst roomId username socket me vs v s :
  timer_ok s ->
  let s' := ui_run roomId username socket me (map Keystroke (vs ++ [v])) s in
  newMessage s' = v /\ isTyping s' = true /\
  sent s' = sent s ++ (if isTyping s then [] else
                        match socket with Some _ => [TypingIn roomId (JBool true)] | None => [] end) /\
  timers s' = [mkTypingTimer (next_timer s + length vs) (clock s + 2000)] /\
  typingTimeout s' = Some (next_timer s + length vs).
Proof.
  revert s. induction vs as [|x vs IH]; intros s Hm; simpl.
  - destruct (keystroke_spec roomId socket v s Hm) as (E1 & E2 & _ & E4 & E5 & E6 & _).
    rewrite Nat.add_0_r. by split_and!.
  - pose proof (keystroke_spec roomId socket x s Hm) as (E1 & E2 & E3 & E4 & E5 & E6 & E7).
    assert (Hm' : timer_ok (handleTyping roomId socket x s)) by (unfold timer_ok; rewrite E5, E6; split; simpl; [lia|repeat constructor]).
    destruct (IH _ Hm') as (F1 & F2 & F3 & F4 & F5). rewrite E2, E4, E3, E7, app_nil_r in *.
    simpl in *. rewrite <-Nat.add_succ_comm. by split_and!.
Qed.

(** A burst of three keystrokes on a fresh panel. *)
Example typing_burst_witness :
  timer_ok (initial 0) /\
  let s' := ui_run "r" None (Some "me") "me" (map Keystroke (["h"; "hi"] ++ ["hi!"])) (initial 0) in
  newMessage s' = "hi!" /\ isTyping s' = true /\
  sent s' = sent (initial 0) ++ (if isTyping (initial 0) then [] else [TypingIn "r" (JBool true)]) /\
  timers s' = [mkTypingTimer (next_timer (initial 0) + 2) (clock (initial 0) + 2000)] /\
  typingTimeout s' = Some (next_timer (initial 0) + 2).
Proof.
  split; [split; simpl; [lia|constructor]|].
  apply (typing_burst "r" None (Some "me") "me" ["h"; "hi"] "hi!" (initial 0)).
  split; simpl; [lia|constructor].
Defined.

(** A submit sends [chat-message] exactly when a socket is connected
    and the text has a character that is not white space; it sends the
    trimmed text with the [username] prop, then empties the input and
    clears the typing flag, leaving the rest of the panel as it was.
    Otherwise the panel is unchanged. *)
Theorem send_message_guard roomId username socket s :
  let s' := handleSendMessage roomId username socket s in
  if bool_decide (socket <> None) && negb (forallb js_space (String.list_ascii_of_string (newMessage s)))
  then sent s' = sent s ++ [ChatMessageIn roomId (JStr (trim (newMessage s))) username] /\
       newMessage s' = "" /\ isTyping s' = false /\
       messages s' = messages s /\ typingUsers s' = typingUsers s /\ timers s' = timers s
  else s' = s.
Proof.
  simpl. unfold handleSendMessage. rewrite trim_eqb_empty.
  destruct socket as [id|]; simpl; [|by destruct (forallb _ _)].
  destruct (forallb _ _); simpl; [done|]. by split_and!.
Qed.

(** While the send button is disabled, submitting the form (by the
    keyboard) does nothing: the handler's first guard is the button's
    condition. *)
Lemma send_disabled_noop roomId username socket s :
  cv_send_disabled (render socket s) = true -> handleSendMessage roomId username socket s = s.
Proof. unfold render, handleSendMessage. simpl. by intros ->. Qed.

End Chat.
