(* ===== verification/Guarantees.v ===== *)
(** * The spec's guarantees over runs of the event loop

    The promises of the spec that are about runs rather than single
    steps, proved for every world satisfying the registry invariant.
    [drain] resumes the oldest suspended continuation until none is left;
    each of its steps is a [step_resume] of the event loop.
    - the teardown on disconnection ([disconnect_teardown]): in a run
      where the [disconnect] handler and its continuations run with no
      other step in between, the socket ends in no group and no live room,
      with nothing suspended;
    - the ordering guarantee ([broadcast_order]): a sequence of code,
      cursor, chat and typing events handled one after the other reaches
      every socket in handling order;
    - the completion of [join-room] ([join_run_spec], [join_completes]):
      run with no other step in between on a running store, it registers
      the socket in the group, the live state and the stored room, and
      sends it the snapshot, whether the room was stored or is created;
      a room with no live state is seeded from the stored record;
    - a sequence of joins ([joins_participants]): the live participants
      are exactly the sockets that joined, in join order;
    - the last participant's disconnection ([last_disconnect_drops_room]):
      the room's entry leaves [rooms], and a later join re-seeds it from
      the store;
    - three interleavings the spec rules out, for every world where they
      start: a stale cleanup that drops a live room
      ([stale_cleanup_drops_live_room]), a socket that disconnects while
      its join waits and stays registered
      ([disconnect_during_join_leaves_ghost]), and a leave whose save is
      rejected after a join's [$push] ([departed_user_kept_in_store]). *)

From S2P Require Import Prelude JsMap Store Handler EventLoop.

Module Guarantees.
Import Store Handler EventLoop.

(** ** Draining the suspended continuations *)

(** Resuming the oldest suspended continuation, at most [fuel] times,
    until none is left. *)
Fixpoint drain (fuel : nat) (w : World) : World :=
  match fuel with
  | 0 => w
  | S f =>
      match w_tasks w with
      | t :: rest => drain f (exec (resume t) (set_tasks w rest))
      | [] => w
      end
  end.

Lemma drain_star fuel w : star w (drain fuel w).
Proof.
  revert w. induction fuel as [|f IH]; intros w; simpl; [constructor|].
  destruct (w_tasks w) as [|t rest] eqn:E; [constructor|].
  eapply star_step; [|apply IH].
  replace rest with (delete 0 (w_tasks w)) by (by rewrite E). apply (step_resume 0 t). by rewrite E.
Qed.

Lemma drain_S f w t rest :
  w_tasks w = t :: rest -> drain (S f) w = drain f (exec (resume t) (set_tasks w rest)).
Proof. intros E. simpl. by rewrite E. Qed.

Lemma drain_done fuel w : w_tasks w = [] -> drain fuel w = w.
Proof. destruct fuel; simpl; [done|]. by intros ->. Qed.

Lemma drain_more f f' w : w_tasks (drain f w) = [] -> f <= f' -> drain f' w = drain f w.
Proof.
  revert f' w. induction f as [|f IH]; intros f' w Ht Hle; simpl in *.
  - by apply drain_done.
  - destruct f' as [|f']; [lia|]. simpl. destruct (w_tasks w); [done|]. apply IH; [done|lia].
Qed.

(** What the rest of the disconnect loop needs of a world: the
    invariant, nothing suspended, the slots before [i] clear of [sid],
    and [n] rounds enough to reach the end of [rooms]. *)
Definition ready (sid : string) (i n : nat) (w : World) : Prop :=
  registry_ok w /\ w_tasks w = [] /\ (forall k, k < i -> slot_clear sid w k) /\ length (w_rooms w) <= i + n.

Lemma ready_set_tasks sid i n w :
  registry_ok w -> (forall k, k < i -> slot_clear sid w k) -> length (w_rooms w) <= i + n ->
  ready sid i n (set_tasks w []) /\ w_groups (set_tasks w []) = w_groups w /\
  w_connected (set_tasks w []) = w_connected w.
Proof.
  intros Hw Hc Hl. unfold ready. split_and!; try done.
  by apply (registry_ok_frame w).
Qed.

(** After a round's store operations, the room's cleanup. *)
Lemma ready_cleanup sid roomId ref i n w w1 :
  registry_ok w -> w_tasks w = [] -> (forall k, k < i -> slot_clear sid w k) ->
  length (w_rooms w) <= i + n -> w_rooms w1 = w_rooms w -> w_heap w1 = w_heap w ->
  w_groups w1 = w_groups w -> w_connected w1 = w_connected w -> w_tasks w1 = [] -> registry_ok w1 ->
  let w3 := exec (cleanup roomId ref) w1 in
  ready sid i n w3 /\ w_groups w3 = w_groups w /\ w_connected w3 = w_connected w.
Proof.
  intros Hw Ht Hc Hl Er Eh Eg Ec Et1 Hw1. destruct (cleanup_spec roomId ref w1) as (Er3 & Eh3 & Eg3 & Et3 & Ec3).
  unfold ready. split_and!; [|congruence| | |congruence|congruence].
  - exact (keeps_cleanup roomId ref w1 Hw1).
  - intros k Hk. eapply slot_clear_shrink; [exact Eh3|exact Er3|]. unfold slot_clear, deref.
    rewrite Er, Eh. apply Hc, Hk.
  - destruct Er3 as [-> | ->]; rewrite ?JsMap.length_delete; congruence.
Qed.

(** The disconnect loop from index [i], its continuations resumed in
    turn with no other step in between, ends with nothing suspended and
    every slot of [rooms] clear of [sid]. *)
Lemma drain_disconnect n sid i w :
  ready sid i n w ->
  let w' := drain (2 * n) (exec (disconnect_from sid i) w) in
  registry_ok w' /\ w_tasks w' = [] /\ w_groups w' = w_groups w /\ w_connected w' = w_connected w /\
  forall k, slot_clear sid w' k.
Proof.
  revert i w. induction n as [|n IH]; intros i w (Hw & Ht & Hc & Hl); cbv zeta;
    unfold disconnect_from, exec; cbv beta;
    destruct (disconnect_loop_cases (length (w_rooms w)) sid i w ltac:(lia))
      as [[Heq Hall]|(k & roomId & ref & Hik & Hk & Hh & Hb & Heq)]; rewrite Heq.
  1,3: simpl snd; rewrite drain_done by done; split_and!; try done; intros k;
       destruct (decide (k < i)); [apply Hc|apply Hall]; lia.
  - apply lookup_lt_Some in Hk. lia.
  - pose proof (remove_block sid roomId ref (S k) w Hw) as (Hw1 & Er1 & Eg1 & Ec1 & Et1 & Hh1 & Hd1).
    unfold exec in Hw1, Er1, Eg1, Ec1, Et1, Hh1, Hd1.
    set (w1 := snd ((remove_member ref sid ;; notify_left sid roomId ref ;;
                     await (DisconnectFind sid roomId ref (S k))) w)) in *.
    rewrite Ht, app_nil_l in Et1.
    assert (Hc1 : forall k', k' < S k -> slot_clear sid w1 k').
    { intros k' Hk'. destruct (decide (k' = k)) as [->|].
      - unfold slot_clear. by rewrite Er1, Hk.
      - eapply slot_clear_remove; [exact Er1|exact Hh1|exact Hd1|].
        destruct (decide (k' < i)); [apply Hc|apply Hb]; lia. }
    replace (2 * S n) with (S (S (2 * n))) by lia. rewrite (drain_S _ w1 _ [] Et1).
    unfold resume. cbv beta iota. rewrite exec_store_read.
    set (w1' := set_tasks w1 []).
    assert (R1 : ready sid (S k) n w1' /\ w_groups w1' = w_groups w /\ w_connected w1' = w_connected w).
    { destruct (ready_set_tasks sid (S k) n w1 Hw1 Hc1) as (R & Eg & Ec); [rewrite Er1; lia|].
      split_and!; [exact R|unfold w1'; congruence|unfold w1'; congruence]. }
    destruct (find_one roomId (w_db w1')) as [[room|]|e].
    + rewrite exec_now_await. erewrite drain_S by reflexivity. unfold resume. cbv beta iota. rewrite !exec_seq.
      set (w2 := set_tasks _ []).
      destruct (store_fields (save_changes room [SetParticipants (kept_participants sid room)] (w_clock w1')) w2)
        as (Er2 & Eh2 & Eg2 & Et2 & Ec2).
      destruct R1 as ((Hw1' & Ht1' & Hc1' & Hl1') & Eg1' & Ec1').
      destruct (ready_cleanup sid roomId ref (S k) n w1' (exec (store (save_changes room
                  [SetParticipants (kept_participants sid room)] (w_clock w1'))) w2)
                  Hw1' Ht1' Hc1' Hl1' Er2 Eh2 Eg2 Ec2 Et2) as (R3 & Eg3 & Ec3).
      { apply keeps_store. apply (registry_ok_frame w1'); done. }
      destruct (IH _ _ R3) as (? & ? & Eg4 & Ec4 & ?). split_and!; try done; congruence.
    + rewrite exec_seq.
      destruct R1 as ((Hw1' & Ht1' & Hc1' & Hl1') & Eg1' & Ec1').
      destruct (ready_cleanup sid roomId ref (S k) n w1' w1' Hw1' Ht1' Hc1' Hl1') as (R3 & Eg3 & Ec3); try done.
      destruct (IH _ _ R3) as (? & Ht4 & Eg4 & Ec4 & ?).
      rewrite (drain_more (2 * n)) by (done || lia). split_and!; try done; congruence.
    + rewrite exec_seq.
      destruct R1 as ((Hw1' & Ht1' & Hc1' & Hl1') & Eg1' & Ec1').
      destruct (ready_cleanup sid roomId ref (S k) n w1' w1' Hw1' Ht1' Hc1' Hl1') as (R3 & Eg3 & Ec3); try done.
      destruct (IH _ _ R3) as (? & Ht4 & Eg4 & Ec4 & ?).
      rewrite (drain_more (2 * n)) by (done || lia). split_and!; try done; congruence.
Qed.

(** C3: the spec's teardown on disconnection, in a run where nothing
    else happens: once the [disconnect] handler ran and its continuations
    were resumed in turn (twice the number of slots of [rooms] is enough),
    the socket is no longer connected, in no broadcast group, a
    participant of no state object [rooms] holds, and nothing is left
    suspended — whether the store answered or failed. *)
Theorem disconnect_teardown sid w :
  registry_ok w -> w_tasks w = [] -> sid ∈ w_connected w ->
  let w' := drain (2 * length (w_rooms w)) (exec (on_disconnect sid) w) in
  star w w' /\ w_tasks w' = [] /\ sid ∉ w_connected w' /\ (forall room, sid ∉ members w' room) /\
  forall roomId ref, JsMap.get roomId (w_rooms w') = Some ref ->
    JsMap.has sid (rs_participants (deref w' ref)) = false.
Proof.
  intros Hw Ht Hc. cbv zeta.
  assert (Hstar : star w (drain (2 * length (w_rooms w)) (exec (on_disconnect sid) w)))
    by (eapply star_step; [by apply step_disconnect|apply drain_star]).
  unfold on_disconnect in *. rewrite !exec_seq in *.
  set (w00 := exec (st_modify _) w) in *.
  assert (Hw00 : registry_ok w00) by (apply keeps_modify_world; [intros; by split_and!|exact Hw]).
  set (w0 := exec (sio_leave_all sid) w00) in *.
  assert (Hw0 : registry_ok w0) by (apply keeps_sio_leave_all, Hw00).
  change (length (w_rooms w)) with (length (w_rooms w0)) in *.
  destruct (drain_disconnect (length (w_rooms w0)) sid 0 w0) as (Hw' & Ht' & Eg' & Ec' & Hcl).
  { split_and!; [done|done|intros; lia|lia]. }
  split_and!; [done|done| | |].
  - rewrite Ec'. simpl. rewrite list_elem_of_In, filter_In, String.eqb_refl. naive_solver.
  - intros room. unfold members. rewrite Eg'. exact (sio_leave_all_members sid w00 room Hw00).
  - intros roomId ref Hg. destruct (JsMap.get_lookup _ _ _ Hg) as [k Hk].
    specialize (Hcl k). unfold slot_clear in Hcl. by rewrite Hk in Hcl.
Qed.

Example disconnect_teardown_witness :
  registry_ok demo_world /\ w_tasks demo_world = [] /\ "s1" ∈ w_connected demo_world /\
  let w' := drain (2 * length (w_rooms demo_world)) (exec (on_disconnect "s1") demo_world) in
  star demo_world w' /\ w_tasks w' = [] /\ "s1" ∉ w_connected w' /\ (forall room, "s1" ∉ members w' room) /\
  forall roomId ref, JsMap.get roomId (w_rooms w') = Some ref ->
    JsMap.has "s1" (rs_participants (deref w' ref)) = false.
Proof.
  split; [apply demo_world_ok|]. split; [reflexivity|]. split; [set_solver|].
  apply (disconnect_teardown "s1" demo_world); [apply demo_world_ok|reflexivity|set_solver].
Defined.

(** ** The order of a room's stream *)

Lemma relayed_frame w w1 b s ev :
  w_groups w1 = w_groups w -> w_rooms w1 = w_rooms w -> w_clock w1 = w_clock w ->
  relayed w1 b s ev = relayed w b s ev.
Proof. intros E1 E2 E3. unfold relayed, members. by rewrite E1, E2, E3. Qed.

(** C9: the ordering guarantee (spec section 5): when the event loop
    handles code, cursor, chat and typing events one after the other,
    every socket receives the room's relays in the order the events were
    handled, each event's relay being what [relayed] says: the other
    members for [socket.to], every member for [chat-message]. *)
Theorem broadcast_order evs w w' b :
  registry_ok w -> Forall (fun e => stream_event (snd e) = true) evs ->
  run_all (map (fun e => AEvent (fst e) (snd e)) evs) w = Some w' ->
  received w' b = received w b ++ concat (map (fun e => relayed w b (fst e) (snd e)) evs).
Proof.
  revert w. induction evs as [|[s ev] evs IH]; intros w Hw Hevs; simpl.
  - intros [= <-]. by rewrite app_nil_r.
  - apply Forall_cons in Hevs as [Hev Hevs]. simpl in Hev.
    case_bool_decide; [|discriminate]. intros Hrun.
    destruct (stream_step s ev w b Hw Hev) as (E0 & E1 & E2 & E3). unfold exec in *.
    rewrite (IH _ (keeps_handle s ev w Hw) Hevs Hrun), E0, <-app_assoc. do 2 f_equal. f_equal.
    apply map_ext. intros [s' ev']. by apply relayed_frame.
Qed.

Example broadcast_order_witness :
  let evs := [("s1", CodeChange "r" (Some "x") None); ("s2", ChatMessageIn "r" (JStr "hi") None)] in
  let w' := default demo_world (run_all (map (fun e => AEvent (fst e) (snd e)) evs) demo_world) in
  registry_ok demo_world /\ Forall (fun e => stream_event (snd e) = true) evs /\
  run_all (map (fun e => AEvent (fst e) (snd e)) evs) demo_world = Some w' /\
  received w' "s2" = received demo_world "s2" ++ concat (map (fun e => relayed demo_world "s2" (fst e) (snd e)) evs).
Proof.
  cbv zeta. split; [apply demo_world_ok|]. split; [repeat constructor|]. split; [vm_compute; reflexivity|].
  apply (broadcast_order [("s1", CodeChange "r" (Some "x") None); ("s2", ChatMessageIn "r" (JStr "hi") None)]
           demo_world); [apply demo_world_ok|repeat constructor|vm_compute; reflexivity].
Defined.


(** ** Joining a room *)

(** The [room-joined] snapshot of a state object. *)
Definition snapshot (roomId : string) (rs : RoomState) : OutEvent :=
  RoomJoined roomId (rs_code rs) (rs_language rs) (JsMap.values (rs_participants rs)) (JsMap.values (rs_cursors rs)).

(** [socket.to(room)] sends nothing to the sender. *)
Lemma received_others (out : list (string * OutEvent)) l sid ev :
  map snd (List.filter (fun '(s, _) => String.eqb s sid)
    (out ++ map (fun x => (x, ev)) (List.filter (fun s => negb (String.eqb s sid)) l))) =
  map snd (List.filter (fun '(s, _) => String.eqb s sid) out).
Proof.
  rewrite List.filter_app, map_app. rewrite (filter_all_false _ (map _ _)), app_nil_r; [done|].
  apply List.Forall_forall. intros [x e] Hx. apply in_map_iff in Hx as (y & [= <- <-] & Hy).
  apply filter_In in Hy as [_ Hy]. simpl. by apply negb_true_iff in Hy.
Qed.

(** The end of [join-room] (lines 60-74) only sends: the snapshot to
    the joining socket, the participant list to the others. *)
Lemma join_finish_spec sid roomId username ref w :
  let w' := exec (join_finish sid roomId username ref) w in
  w_rooms w' = w_rooms w /\ w_heap w' = w_heap w /\ w_groups w' = w_groups w /\ w_tasks w' = w_tasks w /\
  w_db w' = w_db w /\ w_clock w' = w_clock w /\ w_connected w' = w_connected w /\
  received w' sid = received w sid ++ [snapshot roomId (deref w ref)].
Proof.
  unfold join_finish. unfold_prims. simpl. split_and!; try done.
  unfold received. simpl. rewrite received_others, List.filter_app, map_app. simpl.
  by rewrite String.eqb_refl.
Qed.

(** What the rest of the room receives from the end of [join-room]: the
    [user-joined] event, once, if it is a member of the group. *)
Definition user_joined (w : World) (b sid roomId : string) (username : option string) (ref : nat)
    : list OutEvent :=
  if bool_decide (b ∈ members w roomId)
  then [UserJoined sid (username ?|| "Anonymous") (JsMap.values (rs_participants (deref w ref)))]
  else [].

Lemma join_finish_others sid roomId username ref w b :
  NoDup (members w roomId) -> b <> sid ->
  received (exec (join_finish sid roomId username ref) w) b =
    received w b ++ user_joined w b sid roomId username ref.
Proof.
  intros Hw Hb. unfold join_finish. unfold_prims. unfold received. simpl.
  rewrite received_emit_all by (apply NoDup_list_filter; exact Hw).
  rewrite List.filter_app, map_app. simpl. rewrite (proj2 (String.eqb_neq sid b)) by congruence.
  rewrite app_nil_r. unfold user_joined. f_equal. apply if_bool_decide_iff.
  change (b ∈ others w roomId sid <-> b ∈ members w roomId). rewrite others_spec. naive_solver.
Qed.

Lemma deref_insert w ref x h : w_heap w = <[ref := x]> h -> deref w ref = x.
Proof. intros Hh. unfold deref. by rewrite Hh, lookup_insert_eq. Qed.

Lemma deref_heap w w' ref : w_heap w' = w_heap w -> deref w' ref = deref w ref.
Proof. intros Hh. unfold deref. by rewrite Hh. Qed.

Lemma members_join w sid roomId g :
  JsMap.get roomId (w_groups w) = Some g -> sid ∈ JsMap.keys g -> sid ∈ members w roomId.
Proof. unfold members. by intros -> ?. Qed.

Lemma user_joined_frame w w' b sid roomId username ref :
  w_groups w' = w_groups w -> w_heap w' = w_heap w ->
  user_joined w' b sid roomId username ref = user_joined w b sid roomId username ref.
Proof. intros Eg Eh. unfold user_joined, members. by rewrite Eg, (deref_heap _ _ _ Eh). Qed.

Lemma has_keys {V} k (m : JsMap.t string V) : k ∈ JsMap.keys m -> JsMap.has k m = true.
Proof.
  intros Hk. apply JsMap.has_get. rewrite JsMap.get_entries.
  destruct (JsMap.alookup k (JsMap.entries m)) eqn:E; [done|].
  by apply JsMap.alookup_none_notin in E.
Qed.


Lemma elem_keys_get {V} k (m : JsMap.t string V) : k ∈ JsMap.keys m <-> is_Some (JsMap.get k m).
Proof.
  split; [intros Hk; apply JsMap.has_get; by apply has_keys|].
  intros [v Hv]. by eapply get_keys.
Qed.

(** [socket.join]: the other members of the group stay, the socket is
    added, and the group keeps one entry per member. *)
Lemma members_join_iff w w' sid rid b (c : bool) :
  w_groups w' = (if c then JsMap.set rid (JsMap.set sid () (default JsMap.empty (JsMap.get rid (w_groups w))))
                  (w_groups w) else w_groups w) ->
  b <> sid -> b ∈ members w' rid <-> b ∈ members w rid.
Proof.
  intros Eg Hb. unfold members. rewrite Eg. destruct c; [|done].
  rewrite JsMap.get_set_eq, elem_keys_get, JsMap.get_set_ne by congruence.
  destruct (JsMap.get rid (w_groups w)); simpl; [by rewrite elem_keys_get|].
  split; [by intros []|set_solver].
Qed.

(** A connected socket that joins is a member. *)
Lemma members_sio_join w w' sid rid :
  w_groups w' = (if is_connected w sid
                 then JsMap.set rid (JsMap.set sid () (default JsMap.empty (JsMap.get rid (w_groups w))))
                        (w_groups w) else w_groups w) ->
  sid ∈ w_connected w -> sid ∈ members w' rid.
Proof.
  intros Eg Hc. unfold is_connected in Eg. rewrite bool_decide_true in Eg by exact Hc.
  eapply members_join; [rewrite Eg; apply JsMap.get_set_eq|eapply get_keys, JsMap.get_set_eq].
Qed.

Lemma members_join_NoDup w w' sid rid (c : bool) :
  registry_ok w ->
  w_groups w' = (if c then JsMap.set rid (JsMap.set sid () (default JsMap.empty (JsMap.get rid (w_groups w))))
                  (w_groups w) else w_groups w) ->
  NoDup (members w' rid).
Proof.
  intros Hw Eg. destruct (ro_groups_wf w Hw) as [_ Hs]. unfold members. rewrite Eg.
  destruct c; [rewrite JsMap.get_set_eq|destruct (JsMap.get rid (w_groups w)) eqn:E;
    [exact (Hs _ _ E)|constructor]].
  apply JsMap.set_wf. destruct (JsMap.get rid (w_groups w)) eqn:E; [exact (Hs _ _ E)|apply JsMap.empty_wf].
Qed.

(** The participants map of the state object [rooms] holds for a room,
    if it holds one. *)
Definition live_participants (w : World) (roomId : string) : option (JsMap.t string LiveParticipant) :=
  match JsMap.get roomId (w_rooms w) with
  | Some ref => Some (rs_participants (deref w ref))
  | None => None
  end.

(** [join-room] with the loaded room, up to its [room.save()]: the
    socket is in the group and registered in the live state; the handler
    either finishes (the stored room lists it) or awaits the save. *)
Lemma join_continue_spec sid roomId username room w :
  registry_ok w ->
  let w1 := exec (join_continue sid roomId username room) w in
  registry_ok w1 /\ w_db w1 = w_db w /\ w_clock w1 = w_clock w /\ w_connected w1 = w_connected w /\
  (sid ∈ w_connected w -> sid ∈ members w1 roomId) /\
  (forall b, b <> sid -> b ∈ members w1 roomId <-> b ∈ members w roomId) /\
  exists ref, JsMap.get roomId (w_rooms w1) = Some ref /\
    rs_participants (deref w1 ref) =
      JsMap.set sid (mkLive sid (username ?|| "Anonymous") (w_clock w))
        (default JsMap.empty (live_participants w roomId)) /\
    (JsMap.get roomId (w_rooms w) = None ->
       rs_code (deref w1 ref) = Some (code room) /\ rs_language (deref w1 ref) = Some (language room)) /\
    if List.existsb (is_user sid) (participants room)
    then w_tasks w1 = w_tasks w /\ received w1 sid = received w sid ++ [snapshot roomId (deref w1 ref)] /\
         forall b, b <> sid -> received w1 b = received w b ++ user_joined w1 b sid roomId username ref
    else w_tasks w1 = w_tasks w ++ [JoinSave sid roomId username room
             (mkParticipant (Some sid) (Some (username ?|| "Anonymous")) (w_clock w)) ref (w_clock w)] /\
         received w1 sid = received w sid /\ forall b, b <> sid -> received w1 b = received w b.
Proof.
  intros Hw. cbv zeta. split; [by apply keeps_join_continue|].
  unfold join_continue. unfold_prims. cbn -[join_finish deref members received].
  destruct (JsMap.get roomId (w_rooms w)) as [ref0|] eqn:E; cbn -[join_finish deref members received];
    [rewrite E|rewrite JsMap.get_set_eq]; cbn -[join_finish deref members received];
    destruct (existsb _ _) eqn:Hex; cbn -[join_finish deref members received].
  all: try match goal with |- context [join_finish ?a ?b ?c ?d ?W] =>
    change ((join_finish a b c d W).2) with (exec (join_finish a b c d) W);
    destruct (join_finish_spec a b c d W) as (F1&F2&F3&F4&F5&F6&F7&F8);
    pose proof (join_finish_others a b c d W) as Fo;
    pose proof (members_join_NoDup w W sid roomId _ Hw eq_refl) as Fnd;
    set (W' := exec (join_finish a b c d) W) in * end.
  all: split; [rewrite ?F5; reflexivity|]; split; [rewrite ?F6; reflexivity|];
    split; [rewrite ?F7; reflexivity|]; split;
    [intros Hc; apply (members_sio_join w _ sid); [rewrite ?F3; reflexivity|exact Hc]|].
  all: split; [intros b0 Hb0; try (unfold members at 1; rewrite F3; fold (members w roomId));
               apply (members_join_iff w _ sid _ _ (is_connected w sid));
               [reflexivity|exact Hb0]|].
  all: eexists; split; [rewrite ?F1; cbn; rewrite ?E; apply JsMap.get_set_eq || reflexivity|].
  all: split; [erewrite deref_insert by reflexivity; unfold live_participants; rewrite E;
                try (erewrite deref_insert by reflexivity); reflexivity|].
  all: split; [intros Hn; try discriminate Hn; erewrite deref_insert by reflexivity; simpl;
                erewrite deref_insert by reflexivity; by split|].
  all: split; [rewrite ?F4; reflexivity|].
  all: split; [try (rewrite F8, (deref_heap _ _ _ F2)); reflexivity|].
  all: intros b0 Hb0; try reflexivity.
  all: rewrite (Fo b0 Fnd Hb0), (user_joined_frame _ W' _ _ _ _ _ F3 F2); reflexivity.
Qed.

(** The resumed [room.save()] of [join-room] on a running store. *)
Lemma resume_join_save sid rid username room p ref t w stored :
  required_ok room = true -> find_one (roomId room) (w_db w) = Ok (Some stored) ->
  let w2 := exec (resume (JoinSave sid rid username room p ref t)) w in
  w_rooms w2 = w_rooms w /\ w_heap w2 = w_heap w /\ w_groups w2 = w_groups w /\
  w_tasks w2 = w_tasks w /\ w_clock w2 = w_clock w /\ w_connected w2 = w_connected w /\
  received w2 sid = received w sid ++ [snapshot rid (deref w ref)] /\
  (NoDup (members w rid) ->
   forall b, b <> sid -> received w2 b = received w b ++ user_joined w b sid rid username ref) /\
  find_one (roomId room) (w_db w2) =
    Ok (Some (stamp (set_participants stored (participants stored ++ [p])) t (S (version stored)))).
Proof.
  intros Hreq Hf. destruct (save_push room p t (w_db w) stored Hreq Hf) as (r' & db' & Hs & Hf').
  cbv zeta. unfold resume. unfold_prims. cbn -[join_finish save_changes].
  rewrite Hs. cbn -[join_finish].
  change ((join_finish sid rid username ref (set_db w db')).2)
    with (exec (join_finish sid rid username ref) (set_db w db')).
  destruct (join_finish_spec sid rid username ref (set_db w db')) as (F1&F2&F3&F4&F5&F6&F7&F8).
  split_and!; try done. intros Hnd b Hb. exact (join_finish_others sid rid username ref (set_db w db') b Hnd Hb).
Qed.

Lemma existsb_is_user_push sid ps p :
  p_userId p = Some sid -> List.existsb (is_user sid) (ps ++ [p]) = true.
Proof. intros Hp. rewrite existsb_app. simpl. unfold is_user. rewrite bool_decide_eq_true_2 by done. apply orb_true_r. Qed.

(** [join-room] from the point where the room is loaded: the rest of
    the handler, and the [room.save()] it may await, leave the socket
    joined and stored, and change neither the clock nor the connected
    sockets. *)
Lemma join_continue_drain sid rid username room w f :
  rid <> "" -> registry_ok w -> w_tasks w = [] -> find_one rid (w_db w) = Ok (Some room) ->
  let w' := drain (S f) (exec (join_continue sid rid username room) w) in
  registry_ok w' /\ w_tasks w' = [] /\ w_clock w' = w_clock w /\ w_connected w' = w_connected w /\
  (sid ∈ w_connected w -> sid ∈ members w' rid) /\
  (forall b, b <> sid -> b ∈ members w' rid <-> b ∈ members w rid) /\
  exists ref r,
    JsMap.get rid (w_rooms w') = Some ref /\
    rs_participants (deref w' ref) =
      JsMap.set sid (mkLive sid (username ?|| "Anonymous") (w_clock w))
        (default JsMap.empty (live_participants w rid)) /\
    (JsMap.get rid (w_rooms w) = None ->
       rs_code (deref w' ref) = Some (code room) /\ rs_language (deref w' ref) = Some (language room)) /\
    received w' sid = received w sid ++ [snapshot rid (deref w' ref)] /\
    (forall b, b <> sid -> received w' b = received w b ++ user_joined w' b sid rid username ref) /\
    find_one rid (w_db w') = Ok (Some r) /\ List.existsb (is_user sid) (participants r) = true.
Proof.
  intros Hrid Hw Ht Hf. cbv zeta.
  destruct (join_continue_spec sid rid username room w Hw)
    as (Hok & Hdb & Hclk & Hconn & Hmem & Hmem' & ref & Hget & Hpart & Hseed & Hcase).
  set (w1 := exec (join_continue sid rid username room) w) in *.
  destruct (List.existsb (is_user sid) (participants room)) eqn:Hex;
    destruct Hcase as (Htasks & Hrecv & Hoth); rewrite Ht in Htasks.
  - rewrite drain_done by done. split_and!; [done..|]. exists ref, room. rewrite Hdb. by split_and!.
  - destruct (find_one_some _ _ _ Hf) as (_ & _ & Hid).
    rewrite (drain_S f w1 _ [] Htasks).
    assert (Hf1 : find_one (roomId room) (w_db (set_tasks w1 [])) = Ok (Some room))
      by (simpl; rewrite Hdb, Hid; exact Hf).
    assert (Hok1 : registry_ok (set_tasks w1 [])) by (by apply (registry_ok_frame w1)).
    match goal with |- context [resume (JoinSave ?a ?b ?c ?d ?e ?g ?h)] =>
      pose proof (keeps_resume (JoinSave a b c d e g h) _ Hok1) as Hok2;
      destruct (resume_join_save a b c d e g h _ _ (required_found _ _ _ Hrid Hf) Hf1) as (G1&G2&G3&G4&G5&G6&G7&Go&G8);
      set (w2 := exec (resume (JoinSave a b c d e g h)) (set_tasks w1 [])) in * end.
    rewrite drain_done by (by rewrite G4). split_and!; [done|by rewrite G4|by rewrite G5|by rewrite G6| | |].
    + unfold members. rewrite G3. exact Hmem.
    + intros b Hb. unfold members at 1. rewrite G3. exact (Hmem' b Hb).
    + do 2 eexists. rewrite G1, (deref_heap _ _ _ G2).
      split_and!; [exact Hget|exact Hpart|exact Hseed| | | |].
      * rewrite G7. change (received (set_tasks w1 []) sid) with (received w1 sid). by rewrite Hrecv.
      * intros b Hb. rewrite (Go (members_NoDup w1 rid Hok) b Hb), (user_joined_frame _ w2 _ _ _ _ _ G3 G2).
        change (received (set_tasks w1 []) b) with (received w1 b). by rewrite Hoth.
      * rewrite <-Hid. exact G8.
      * apply existsb_is_user_push. done.
Qed.

(** A [join-room] run to its end: the handler, then at most three
    resumptions. *)
Definition join_run (sid rid : string) (username : option string) (w : World) : World :=
  drain 3 (exec (handle sid (JoinRoom rid username)) w).

(** [join-room] on a running store, run to its end, whether the room is
    stored ([findOne] answers it) or is created first. *)
Lemma join_run_spec sid rid username w :
  rid <> "" -> registry_ok w -> w_tasks w = [] -> up (w_db w) = true ->
  let w' := join_run sid rid username w in
  registry_ok w' /\ w_tasks w' = [] /\ w_clock w' = w_clock w /\ w_connected w' = w_connected w /\
  (sid ∈ w_connected w -> sid ∈ members w' rid) /\
  (forall b, b <> sid -> b ∈ members w' rid <-> b ∈ members w rid) /\
  exists ref r,
    JsMap.get rid (w_rooms w') = Some ref /\
    rs_participants (deref w' ref) =
      JsMap.set sid (mkLive sid (username ?|| "Anonymous") (w_clock w))
        (default JsMap.empty (live_participants w rid)) /\
    (JsMap.get rid (w_rooms w) = None -> forall r0, find_one rid (w_db w) = Ok (Some r0) ->
       rs_code (deref w' ref) = Some (code r0) /\ rs_language (deref w' ref) = Some (language r0)) /\
    (JsMap.get rid (w_rooms w) = None -> find_one rid (w_db w) = Ok None ->
       rs_code (deref w' ref) = Some default_code /\ rs_language (deref w' ref) = Some "javascript") /\
    received w' sid = received w sid ++ [snapshot rid (deref w' ref)] /\
    (forall b, b <> sid -> received w' b = received w b ++ user_joined w' b sid rid username ref) /\
    find_one rid (w_db w') = Ok (Some r) /\ List.existsb (is_user sid) (participants r) = true.
Proof.
  intros Hrid Hw Ht Hup. cbv zeta. unfold join_run.
  rewrite (drain_S 2 _ (JoinFind sid rid username) []) by (simpl; by rewrite Ht).
  set (w1 := set_tasks _ []).
  assert (Hw1 : registry_ok w1) by (by apply (registry_ok_frame w)).
  assert (Ht1 : w_tasks w1 = []) by done.
  assert (Hdb1 : find_one rid (w_db w) = Ok (List.find (has_id rid) (docs (w_db w))))
    by (unfold find_one; simpl; by rewrite Hup).
  destruct (List.find (has_id rid) (docs (w_db w))) as [room|] eqn:Hfind.
  - assert (E : exec (resume (JoinFind sid rid username)) w1 = exec (join_continue sid rid username room) w1)
      by (unfold resume; unfold_prims; cbn -[join_continue find_one]; by rewrite Hdb1).
    rewrite E. destruct (join_continue_drain sid rid username room w1 1 Hrid Hw1 Ht1 Hdb1)
      as (H1 & H2 & H3 & H4 & H5 & H5' & ref & r & G1 & G2 & G3 & G4 & Go & G5 & G6).
    split_and!; try done. exists ref, r. split_and!; try done.
    + intros Hn r0 Hr0. rewrite Hdb1 in Hr0. injection Hr0 as <-. by apply G3.
    + intros _ Hr0. by rewrite Hdb1 in Hr0.
  - set (nr := new_room rid (Some "Untitled") None (Some "javascript")
                 (Some (username ?|| "Anonymous")) (w_clock w)).
    assert (E : exec (resume (JoinFind sid rid username)) w1 =
                set_tasks w1 [JoinCreate sid rid username nr (w_clock w)])
      by (unfold resume; unfold_prims; cbn -[join_continue find_one]; by rewrite Hdb1).
    rewrite E, (drain_S 1 _ (JoinCreate sid rid username nr (w_clock w)) []) by done.
    set (w2 := set_tasks _ []).
    assert (Hnone : find_one (roomId nr) (w_db w2) = Ok None) by exact Hdb1.
    assert (Hreq : required_ok nr = true)
      by (unfold required_ok; simpl; by rewrite (proj2 (String.eqb_neq rid "") Hrid)).
    pose proof (insert_new nr (w_clock w) (w_db w) Hreq Hup Hnone) as Hins.
    set (db3 := mkDb _ true) in Hins.
    assert (E2 : exec (resume (JoinCreate sid rid username nr (w_clock w))) w2 =
                 exec (join_continue sid rid username (stamp nr (w_clock w) (version nr))) (set_db w2 db3))
      by (unfold resume; unfold_prims; cbn -[join_continue insert]; by rewrite Hins).
    rewrite E2. destruct (join_continue_drain sid rid username (stamp nr (w_clock w) (version nr))
                            (set_db w2 db3) 0 Hrid) as (H1 & H2 & H3 & H4 & H5 & H5' & ref & r & G1 & G2 & G3 & G4 & Go & G5 & G6).
    { by apply (registry_ok_frame w). }
    { done. }
    { exact (find_one_insert _ _ _ _ _ Hins). }
    split_and!; try done. exists ref, r. split_and!; try done.
    + intros _ r0 Hr0. by rewrite Hdb1 in Hr0.
    + intros Hn _. by apply G3.
Qed.

(** C4: the spec's [join-room], in a run where nothing else happens, on
    a running store: whether the room is stored or is created first, once
    the handler and the store operations it awaits (at most three: the
    lookup, the creation and the save of the participant) have run, the
    socket is in the room's broadcast group; the room's live participants
    are the ones it had (none for a room that was not live) with the
    socket set to its name (or [Anonymous]) and the join time; the socket
    has been sent exactly one event, the [room-joined] snapshot of that
    state; the stored room lists it as a participant; nothing is left
    suspended. *)
Theorem join_completes sid rid username w :
  rid <> "" ->
  registry_ok w -> w_tasks w = [] -> up (w_db w) = true -> sid ∈ w_connected w ->
  let w' := drain 3 (exec (handle sid (JoinRoom rid username)) w) in
  star w w' /\ w_tasks w' = [] /\ sid ∈ members w' rid /\
  exists ref r,
    JsMap.get rid (w_rooms w') = Some ref /\
    rs_participants (deref w' ref) =
      JsMap.set sid (mkLive sid (username ?|| "Anonymous") (w_clock w))
        (default JsMap.empty (live_participants w rid)) /\
    received w' sid = received w sid ++ [snapshot rid (deref w' ref)] /\
    find_one rid (w_db w') = Ok (Some r) /\ List.existsb (is_user sid) (participants r) = true.
Proof.
  intros Hrid Hw Ht Hup Hc. cbv zeta. split.
  { eapply star_step; [by apply step_event|apply drain_star]. }
  destruct (join_run_spec sid rid username w Hrid Hw Ht Hup)
    as (_ & Ht' & _ & _ & Hm & _ & ref & r & G1 & G2 & _ & _ & G3 & _ & G4 & G5).
  split_and!; [done|exact (Hm Hc)|]. exists ref, r. by split_and!.
Qed.

Example join_completes_witness :
  "r" <> "" /\ registry_ok demo_world /\ w_tasks demo_world = [] /\ up (w_db demo_world) = true /\
  "s2" ∈ w_connected demo_world /\
  let w' := drain 3 (exec (handle "s2" (JoinRoom "r" (Some "bob"))) demo_world) in
  star demo_world w' /\ w_tasks w' = [] /\ "s2" ∈ members w' "r" /\
  exists ref r,
    JsMap.get "r" (w_rooms w') = Some ref /\
    rs_participants (deref w' ref) =
      JsMap.set "s2" (mkLive "s2" (Some "bob" ?|| "Anonymous") (w_clock demo_world))
        (default JsMap.empty (live_participants demo_world "r")) /\
    received w' "s2" = received demo_world "s2" ++ [snapshot "r" (deref w' ref)] /\
    find_one "r" (w_db w') = Ok (Some r) /\ List.existsb (is_user "s2") (participants r) = true.
Proof.
  split; [done|]. split; [apply demo_world_ok|]. split; [reflexivity|]. split; [reflexivity|].
  split; [set_solver|].
  apply (join_completes "s2" "r" (Some "bob") demo_world); [done|apply demo_world_ok|reflexivity|reflexivity|set_solver].
Defined.

(** C5: the spec's [join-room], as the rest of the room sees it: in a
    join run to its end on a running store, every other socket that was
    a member of the room's broadcast group receives exactly one event,
    [user-joined] with the joining socket's id, its name (or [Anonymous])
    and the updated participant list; any other socket receives
    nothing. *)
Theorem join_notifies_others sid rid username w b :
  rid <> "" ->
  registry_ok w -> w_tasks w = [] -> up (w_db w) = true -> b <> sid ->
  let w' := join_run sid rid username w in
  exists ref, JsMap.get rid (w_rooms w') = Some ref /\
    received w' b = received w b ++
      (if bool_decide (b ∈ members w rid)
       then [UserJoined sid (username ?|| "Anonymous") (JsMap.values (rs_participants (deref w' ref)))]
       else []).
Proof.
  intros Hrid Hw Ht Hup Hb. cbv zeta.
  destruct (join_run_spec sid rid username w Hrid Hw Ht Hup)
    as (_ & _ & _ & _ & _ & Hm & ref & r & G1 & _ & _ & _ & _ & Go & _).
  exists ref. split; [done|]. rewrite (Go b Hb). unfold user_joined. f_equal.
  apply if_bool_decide_iff. by apply Hm.
Qed.

Example join_notifies_others_witness :
  "r" <> "" /\ registry_ok demo_world /\ w_tasks demo_world = [] /\ up (w_db demo_world) = true /\ "s1" <> "s2" /\
  let w' := join_run "s2" "r" (Some "bob") demo_world in
  exists ref, JsMap.get "r" (w_rooms w') = Some ref /\
    received w' "s1" = received demo_world "s1" ++
      (if bool_decide ("s1" ∈ members demo_world "r")
       then [UserJoined "s2" (Some "bob" ?|| "Anonymous") (JsMap.values (rs_participants (deref w' ref)))]
       else []).
Proof.
  split; [done|]. split; [apply demo_world_ok|]. split; [reflexivity|]. split; [reflexivity|]. split; [done|].
  apply (join_notifies_others "s2" "r" (Some "bob") demo_world "s1"); [done|apply demo_world_ok|reflexivity..|done].
Defined.

(** ** A sequence of joins *)

(** [join-room] for room [rid] from each socket of [joins] in turn, each
    run to its end before the next one arrives. *)
Definition join_all (rid : string) (joins : list (string * option string)) (w : World) : World :=
  foldl (fun w '(sid, username) => join_run sid rid username w) w joins.

(** The live entry each join adds, at time [t]. *)
Definition joined_entry (t : Z) (j : string * option string) : string * LiveParticipant :=
  (j.1, mkLive j.1 (j.2 ?|| "Anonymous") t).

Lemma join_all_spec rid joins w :
  rid <> "" ->
  registry_ok w -> w_tasks w = [] -> up (w_db w) = true ->
  let w' := join_all rid joins w in
  registry_ok w' /\ w_tasks w' = [] /\ up (w_db w') = true /\ w_clock w' = w_clock w /\
  w_connected w' = w_connected w /\
  (Forall (fun j => j.1 ∈ w_connected w) joins -> star w w') /\
  (joins <> [] -> is_Some (JsMap.get rid (w_rooms w'))) /\
  default JsMap.empty (live_participants w' rid) =
    foldl (fun m kv => JsMap.set kv.1 kv.2 m) (default JsMap.empty (live_participants w rid))
      (map (joined_entry (w_clock w)) joins).
Proof.
  intros Hrid. revert w. induction joins as [|[sid username] joins IH]; intros w Hw Ht Hup; cbv zeta.
  - split_and!; try done. intros _. constructor.
  - destruct (join_run_spec sid rid username w Hrid Hw Ht Hup)
      as (Hw1 & Ht1 & Hc1 & Hcn1 & _ & _ & ref & r & Hget & Hpart & _ & _ & _ & _ & Hf & _).
    set (w1 := join_run sid rid username w) in *.
    destruct (find_one_some _ _ _ Hf) as (Hup1 & _).
    destruct (IH w1 Hw1 Ht1 Hup1) as (H1 & H2 & H3 & H4 & H5 & H6 & H7 & H8).
    change (join_all rid ((sid, username) :: joins) w) with (join_all rid joins w1).
    split_and!; try congruence.
    + intros Hcon. apply Forall_cons in Hcon as [Hs Hcon]. eapply star_trans.
      * eapply star_step; [by apply step_event|apply drain_star].
      * apply H6. by rewrite Hcn1.
    + intros _. destruct joins as [|j joins]; [change (is_Some (JsMap.get rid (w_rooms w1))); rewrite Hget; eauto|apply H7; done].
    + rewrite H8, Hc1. cbn [map foldl]. f_equal.
      unfold live_participants at 1. rewrite Hget. simpl. by rewrite Hpart.
Qed.

(** C6: the spec's property of joins (section 8): when distinct sockets
    join a room that has no live state, one after the other, each join
    run to its end on a running store, the room's live participants are
    exactly the sockets that joined, in join order, each under its name
    (or [Anonymous]); the run is a run of the event loop. *)
Theorem joins_participants rid joins w :
  rid <> "" ->
  registry_ok w -> w_tasks w = [] -> up (w_db w) = true -> JsMap.get rid (w_rooms w) = None ->
  NoDup (map fst joins) -> Forall (fun j => j.1 ∈ w_connected w) joins -> joins <> [] ->
  let w' := join_all rid joins w in
  star w w' /\
  exists ref, JsMap.get rid (w_rooms w') = Some ref /\
    JsMap.entries (rs_participants (deref w' ref)) = map (joined_entry (w_clock w)) joins.
Proof.
  intros Hrid Hw Ht Hup Hnone Hnd Hcon Hne. cbv zeta.
  destruct (join_all_spec rid joins w Hrid Hw Ht Hup) as (_ & _ & _ & _ & _ & Hstar & [ref Hget] & Hp);
    [done|].
  split; [by apply Hstar|]. exists ref. split; [done|].
  unfold live_participants in Hp. rewrite Hget, Hnone in Hp. simpl in Hp. rewrite Hp.
  rewrite JsMap.entries_fold_set_new; [done| |done].
  by rewrite map_map.
Qed.

Example joins_participants_witness :
  let joins := [("s1", Some "ann"); ("s2", None)] in
  let w0 := set_rooms demo_world JsMap.empty in
  "r" <> "" /\ registry_ok w0 /\ w_tasks w0 = [] /\ up (w_db w0) = true /\ JsMap.get "r" (w_rooms w0) = None /\
  NoDup (map fst joins) /\ Forall (fun j => j.1 ∈ w_connected w0) joins /\ joins <> [] /\
  let w' := join_all "r" joins w0 in
  star w0 w' /\
  exists ref, JsMap.get "r" (w_rooms w') = Some ref /\
    JsMap.entries (rs_participants (deref w' ref)) = map (joined_entry (w_clock w0)) joins.
Proof.
  cbv zeta. assert (Hw0 : registry_ok (set_rooms demo_world JsMap.empty)).
  { destruct demo_world_ok. split; simpl; try done; [apply JsMap.empty_wf|intros ??; discriminate..]. }
  assert (Hnd : NoDup (map fst [("s1", Some "ann"); ("s2", None)])) by (apply (bool_decide_unpack _); vm_compute; reflexivity).
  assert (Hc : Forall (fun j : string * option string => j.1 ∈ w_connected (set_rooms demo_world JsMap.empty))
                 [("s1", Some "ann"); ("s2", None)]) by (apply (bool_decide_unpack _); vm_compute; reflexivity).
  do 8 (split; [first [exact Hw0|reflexivity|exact Hnd|exact Hc|done]|]).
  apply (joins_participants "r" [("s1", Some "ann"); ("s2", None)]);
    [done|exact Hw0|reflexivity|reflexivity|reflexivity|exact Hnd|exact Hc|done].
Defined.

(** ** The last participant's disconnection *)

(** The disconnect handler's removal of the socket from a state object. *)
Lemma remove_block_parts sid roomId ref n w :
  rs_participants (deref (exec (remove_member ref sid ;; notify_left sid roomId ref ;;
                                await (DisconnectFind sid roomId ref n)) w) ref) =
  JsMap.delete sid (rs_participants (deref w ref)).
Proof.
  unfold remove_member, notify_left. unfold_prims. simpl. by erewrite deref_insert by reflexivity.
Qed.

(** The cleanup of a state object with no participant deletes the room. *)
Lemma cleanup_drops roomId ref w :
  JsMap.size (rs_participants (deref w ref)) = 0 ->
  let w' := exec (cleanup roomId ref) w in
  w_rooms w' = JsMap.delete roomId (w_rooms w) /\ w_heap w' = w_heap w /\ w_tasks w' = w_tasks w.
Proof. intros H. unfold cleanup. unfold_prims. simpl. by rewrite H. Qed.

(** With every slot from [i] clear of the socket, the loop does nothing. *)
Lemma disconnect_from_clear sid i w :
  (forall k, i <= k -> slot_clear sid w k) -> exec (disconnect_from sid i) w = w.
Proof.
  intros Hc. unfold disconnect_from, exec.
  destruct (disconnect_loop_cases (length (w_rooms w)) sid i w ltac:(lia))
    as [[-> _]|(k & roomId & ref & Hik & Hk & Hh & _ & _)]; [done|].
  specialize (Hc k Hik). unfold slot_clear in Hc. rewrite Hk in Hc. congruence.
Qed.

(** Once the room [rid] is deleted and the socket removed from its state
    object, no slot holds the socket if no other room did. *)
Lemma slots_clear_after sid rid ref w w3 :
  JsMap.wf (w_rooms w) -> w_rooms w3 = JsMap.delete rid (w_rooms w) ->
  (forall ref', ref' <> ref -> deref w3 ref' = deref w ref') ->
  JsMap.has sid (rs_participants (deref w3 ref)) = false ->
  (forall r ref', JsMap.get r (w_rooms w) = Some ref' ->
     JsMap.has sid (rs_participants (deref w ref')) = true -> r = rid) ->
  forall k, slot_clear sid w3 k.
Proof.
  intros Hwf Er Hd Hh Honly k. unfold slot_clear. rewrite Er.
  destruct (JsMap.delete rid (w_rooms w) !! k) as [[[r ref']|]|] eqn:E; [|done|done].
  pose proof (JsMap.lookup_get _ _ _ _ (JsMap.delete_wf rid _ Hwf) E) as Hg.
  destruct (decide (r = rid)) as [->|Hne]; [by rewrite JsMap.get_delete_eq in Hg|].
  rewrite JsMap.get_delete_ne in Hg by congruence.
  destruct (decide (ref' = ref)) as [->|Href]; [done|]. rewrite Hd by done.
  destruct (JsMap.has sid (rs_participants (deref w ref'))) eqn:Hs; [|done]. exfalso. exact (Hne (Honly r ref' Hg Hs)).
Qed.

(** The round of the disconnect loop for a room the socket was the last
    participant of: whatever the store answers, the cleanup deletes the
    room, and the loop then ends if no later slot holds the socket. *)
Lemma last_round sid rid ref k w1 f :
  w_tasks w1 = [DisconnectFind sid rid ref (S k)] ->
  JsMap.size (rs_participants (deref w1 ref)) = 0 ->
  (forall w3, w_rooms w3 = JsMap.delete rid (w_rooms w1) -> w_heap w3 = w_heap w1 ->
     forall k', slot_clear sid w3 k') ->
  let w' := drain (S (S f)) w1 in
  w_tasks w' = [] /\ w_rooms w' = JsMap.delete rid (w_rooms w1).
Proof.
  intros Ht1 Hsz Hclear. cbv zeta.
  rewrite (drain_S _ w1 _ [] Ht1). unfold resume. cbv beta iota. rewrite exec_store_read.
  set (w1' := set_tasks w1 []).
  destruct (find_one rid (w_db w1')) as [[room|]|e].
  - rewrite exec_now_await. erewrite drain_S by reflexivity. unfold resume. cbv beta iota. rewrite !exec_seq.
    set (w2 := set_tasks _ []).
    destruct (store_fields (save_changes room [SetParticipants (kept_participants sid room)] (w_clock w1')) w2)
      as (Er2 & Eh2 & _ & Et2 & _).
    set (w2s := exec (store _) w2) in *.
    destruct (cleanup_drops rid ref w2s) as (Er3 & Eh3 & Et3); [by rewrite (deref_heap _ _ _ Eh2)|].
    rewrite disconnect_from_clear
      by (intros k' _; apply Hclear; [rewrite Er3, Er2; reflexivity|rewrite Eh3, Eh2; reflexivity]).
    rewrite drain_done by (rewrite Et3, Et2; reflexivity).
    split; [rewrite Et3, Et2|rewrite Er3, Er2]; reflexivity.
  - rewrite exec_seq. destruct (cleanup_drops rid ref w1') as (Er3 & Eh3 & Et3); [done|].
    rewrite disconnect_from_clear by (intros k' _; apply Hclear; [rewrite Er3; reflexivity|exact Eh3]).
    rewrite drain_done by (rewrite Et3; reflexivity). split; [rewrite Et3|rewrite Er3]; reflexivity.
  - rewrite exec_seq. destruct (cleanup_drops rid ref w1') as (Er3 & Eh3 & Et3); [done|].
    rewrite disconnect_from_clear by (intros k' _; apply Hclear; [rewrite Er3; reflexivity|exact Eh3]).
    rewrite drain_done by (rewrite Et3; reflexivity). split; [rewrite Et3|rewrite Er3]; reflexivity.
Qed.

(** A socket that was the only participant of a state object leaves it
    with none. *)
Lemma size_delete_last {V} sid (m : JsMap.t string V) :
  JsMap.keys m = [sid] -> JsMap.size (JsMap.delete sid m) = 0.
Proof.
  intros Hk. rewrite JsMap.size_delete_present.
  - unfold JsMap.size. rewrite <-(length_map fst). change (map fst (JsMap.entries m)) with (JsMap.keys m).
    by rewrite Hk.
  - apply JsMap.has_get, has_keys. rewrite Hk. set_solver.
Qed.

(** C7: the spec's room teardown (section 8): when the last participant
    of a room disconnects (it is in no other room), in a run where the
    disconnect handler and its continuations run with no other step in
    between, the room's entry is removed from [rooms] and nothing is left
    suspended, whatever the store answers; a later [join-room] of the
    room, on a running store, creates a new state object seeded with the
    code and language of the stored room, not with the discarded one. *)
Theorem last_disconnect_drops_room sid rid ref w :
  registry_ok w -> w_tasks w = [] -> sid ∈ w_connected w ->
  JsMap.get rid (w_rooms w) = Some ref -> JsMap.keys (rs_participants (deref w ref)) = [sid] ->
  (forall r ref', JsMap.get r (w_rooms w) = Some ref' ->
     JsMap.has sid (rs_participants (deref w ref')) = true -> r = rid) ->
  let w' := drain (2 * length (w_rooms w)) (exec (on_disconnect sid) w) in
  star w w' /\ w_tasks w' = [] /\ w_rooms w' = JsMap.delete rid (w_rooms w) /\
  forall sid' username r, rid <> "" -> up (w_db w') = true -> find_one rid (w_db w') = Ok (Some r) ->
    let w'' := join_run sid' rid username w' in
    exists ref', JsMap.get rid (w_rooms w'') = Some ref' /\
      rs_code (deref w'' ref') = Some (code r) /\ rs_language (deref w'' ref') = Some (language r).
Proof.
  intros Hw Ht Hc Hget Hkeys Honly. cbv zeta.
  assert (Hstar : star w (drain (2 * length (w_rooms w)) (exec (on_disconnect sid) w)))
    by (eapply star_step; [by apply step_disconnect|apply drain_star]).
  unfold on_disconnect in *. rewrite !exec_seq in *.
  set (w00 := exec (st_modify _) w) in *.
  assert (Hw00 : registry_ok w00) by (apply keeps_modify_world; [intros; by split_and!|exact Hw]).
  set (w0 := exec (sio_leave_all sid) w00) in *.
  assert (Hw0 : registry_ok w0) by (apply keeps_sio_leave_all, Hw00).
  change (length (w_rooms w)) with (length (w_rooms w0)) in *.
  destruct (drain_disconnect (length (w_rooms w0)) sid 0 w0) as (Hw' & Ht' & _).
  { split_and!; [done|done|intros; lia|lia]. }
  pose proof (ro_rooms_wf _ Hw0) as Hwf.
  destruct (JsMap.get_lookup _ _ _ Hget) as [k0 Hk0].
  destruct (disconnect_loop_cases (length (w_rooms w0)) sid 0 w0 ltac:(lia))
    as [[_ Hall]|(k & roomId & ref1 & _ & Hk & Hh & _ & Heq)].
  { specialize (Hall k0 ltac:(lia)). unfold slot_clear in Hall.
    change (w_rooms w0) with (w_rooms w) in Hall. rewrite Hk0 in Hall.
    rewrite has_keys in Hall; [done|]. change (deref w0 ref) with (deref w ref). rewrite Hkeys. set_solver. }
  pose proof (JsMap.lookup_get _ _ _ _ Hwf Hk) as Hg1.
  assert (roomId = rid) as -> by exact (Honly roomId ref1 Hg1 Hh).
  change (w_rooms w0) with (w_rooms w) in Hg1. rewrite Hget in Hg1. injection Hg1 as <-.
  pose proof (remove_block sid rid ref (S k) w0 Hw0) as (_ & Er1 & _ & _ & Et1 & Hh1 & Hd1).
  pose proof (remove_block_parts sid rid ref (S k) w0) as Hp1.
  set (w1 := exec (remove_member ref sid ;; _ ;; _) w0) in *.
  change (w_tasks w0) with (w_tasks w) in Et1. rewrite Ht, app_nil_l in Et1.
  assert (E : drain (2 * length (w_rooms w0)) (exec (disconnect_from sid 0) w0) =
              drain (S (S (2 * length (w_rooms w0) - 2))) w1).
  { apply lookup_lt_Some in Hk0. unfold disconnect_from, exec. rewrite Heq.
    f_equal. change (length (w_rooms w0)) with (length (w_rooms w)). lia. }
  rewrite E in Hstar, Hw', Ht' |- *.
  destruct (last_round sid rid ref k w1 (2 * length (w_rooms w0) - 2) Et1) as (Htf & Erf).
  { rewrite Hp1. by apply size_delete_last. }
  { intros w3 Er3 Eh3. apply (slots_clear_after sid rid ref w w3 Hwf); [rewrite Er3, Er1; reflexivity| | |].
    - intros ref' Hne. rewrite (deref_heap _ _ _ Eh3). by apply Hd1.
    - by rewrite (deref_heap _ _ _ Eh3).
    - exact Honly. }
  split_and!; [done|done|by rewrite Erf, Er1|].
  intros sid' username r Hrid Hup Hf.
  destruct (join_run_spec sid' rid username _ Hrid Hw' Ht' Hup) as (_ & _ & _ & _ & _ & _ & ref' & r' & G1 & _ & G3 & _).
  exists ref'. split; [exact G1|]. apply G3; [|exact Hf].
  rewrite Erf, Er1. by apply JsMap.get_delete_eq.
Qed.

Example last_disconnect_drops_room_witness :
  registry_ok demo_world /\ w_tasks demo_world = [] /\ "s1" ∈ w_connected demo_world /\
  JsMap.get "r" (w_rooms demo_world) = Some 0 /\
  JsMap.keys (rs_participants (deref demo_world 0)) = ["s1"] /\
  (forall r ref', JsMap.get r (w_rooms demo_world) = Some ref' ->
     JsMap.has "s1" (rs_participants (deref demo_world ref')) = true -> r = "r") /\
  let w' := drain (2 * length (w_rooms demo_world)) (exec (on_disconnect "s1") demo_world) in
  star demo_world w' /\ w_tasks w' = [] /\ w_rooms w' = JsMap.delete "r" (w_rooms demo_world) /\
  forall sid' username r, "r" <> "" -> up (w_db w') = true -> find_one "r" (w_db w') = Ok (Some r) ->
    let w'' := join_run sid' "r" username w' in
    exists ref', JsMap.get "r" (w_rooms w'') = Some ref' /\
      rs_code (deref w'' ref') = Some (code r) /\ rs_language (deref w'' ref') = Some (language r).
Proof.
  assert (Honly : forall r ref', JsMap.get r (w_rooms demo_world) = Some ref' ->
     JsMap.has "s1" (rs_participants (deref demo_world ref')) = true -> r = "r").
  { intros r ref' Hg _. simpl in Hg. by case_decide. }
  split; [apply demo_world_ok|]. split; [reflexivity|]. split; [set_solver|].
  split; [reflexivity|]. split; [reflexivity|]. split; [exact Honly|].
  apply (last_disconnect_drops_room "s1" "r" 0 demo_world);
    [apply demo_world_ok|reflexivity|set_solver|reflexivity|reflexivity|exact Honly].
Defined.

(** ** A disconnection while a join waits for the store *)

(** The disconnect handler of a socket that is a participant of no live
    room only drops the connection and the groups. *)
Lemma disconnect_unregistered sid w :
  (forall k, slot_clear sid w k) ->
  exec (on_disconnect sid) w =
    exec (sio_leave_all sid) (set_connected w (List.filter (fun s => negb (String.eqb s sid)) (w_connected w))).
Proof.
  intros Hclear.
  set (wl := exec (sio_leave_all sid) (set_connected w (List.filter (fun s => negb (String.eqb s sid)) (w_connected w)))).
  change (exec (on_disconnect sid) w) with (snd (disconnect_loop (length (w_rooms wl)) sid 0 wl)).
  destruct (disconnect_loop_cases (length (w_rooms wl)) sid 0 wl ltac:(lia))
    as [[Heq _]|(k & roomId & ref & _ & Hk & Hh & _)]; [by rewrite Heq|].
  specialize (Hclear k). unfold slot_clear in Hclear.
  change (w_rooms wl) with (w_rooms w) in Hk. change (deref wl ref) with (deref w ref) in Hh.
  rewrite Hk in Hclear. congruence.
Qed.

(** C12: A socket that disconnects while its [join-room] waits for the
    store ends up registered for good.  In a run where, on a running
    store, a connected socket that is a participant of no live room sends
    [join-room] and disconnects before [findOne] answers, and the join's
    store operations then run: the socket is no longer connected (so no
    [disconnect] handler will run for it again) and nothing is left
    suspended, yet it is a participant of the room's live state object,
    which [rooms] holds, and the stored room lists it as a participant:
    the join's continuation (handler.js lines 29-58) does not check that
    the socket is still connected. *)
Theorem disconnect_during_join_leaves_ghost sid rid username w :
  rid <> "" -> registry_ok w -> w_tasks w = [] -> up (w_db w) = true -> sid ∈ w_connected w ->
  (forall k, slot_clear sid w k) ->
  let w' := drain 3 (exec (on_disconnect sid) (exec (handle sid (JoinRoom rid username)) w)) in
  star w w' /\ w_tasks w' = [] /\ sid ∉ w_connected w' /\
  exists ref r,
    JsMap.get rid (w_rooms w') = Some ref /\ JsMap.has sid (rs_participants (deref w' ref)) = true /\
    find_one rid (w_db w') = Ok (Some r) /\ List.existsb (is_user sid) (participants r) = true.
Proof.
  intros Hrid Hw Ht Hup Hc Hclear. cbv zeta.
  assert (Ej : exec (handle sid (JoinRoom rid username)) w = set_tasks w [JoinFind sid rid username])
    by (unfold handle, on_join_room; unfold_prims; simpl; by rewrite Ht).
  split.
  { eapply star_step; [by apply step_event|]. eapply star_step; [apply step_disconnect; by rewrite Ej|].
    apply drain_star. }
  rewrite Ej, disconnect_unregistered by exact Hclear.
  set (wl := exec (sio_leave_all sid) _).
  assert (Hwl : registry_ok wl).
  { apply keeps_sio_leave_all. apply (registry_ok_frame w); done. }
  assert (E : drain 3 wl = join_run sid rid username (set_tasks wl [])) by reflexivity.
  rewrite E.
  destruct (join_run_spec sid rid username (set_tasks wl []) Hrid) as
    (_ & Ht' & _ & Hconn' & _ & _ & ref & r & G1 & G2 & _ & _ & _ & _ & G5 & G6);
    [apply (registry_ok_frame wl); done|done|exact Hup|].
  split; [exact Ht'|]. split.
  - rewrite Hconn'. simpl. intros Hin. apply list_elem_of_In, filter_In in Hin as [_ Hin].
    by rewrite String.eqb_refl in Hin.
  - exists ref, r. split_and!; [exact G1| |exact G5|exact G6].
    rewrite G2. apply JsMap.has_get. rewrite JsMap.get_set_eq. by eexists.
Qed.

(** Socket A, just connected to a fresh server, joins [r] and disconnects. *)
Example disconnect_during_join_leaves_ghost_witness :
  let w := exec (on_connect "A") (init (mkDb [] true)) in
  ("r" <> "" /\ registry_ok w /\ w_tasks w = [] /\ up (w_db w) = true /\ "A" ∈ w_connected w /\
   (forall k, slot_clear "A" w k)) /\
  let w' := drain 3 (exec (on_disconnect "A") (exec (handle "A" (JoinRoom "r" (Some "alice"))) w)) in
  star w w' /\ w_tasks w' = [] /\ "A" ∉ w_connected w' /\
  exists ref r,
    JsMap.get "r" (w_rooms w') = Some ref /\ JsMap.has "A" (rs_participants (deref w' ref)) = true /\
    find_one "r" (w_db w') = Ok (Some r) /\ List.existsb (is_user "A") (participants r) = true.
Proof.
  cbv zeta.
  assert (H : "r" <> "" /\ registry_ok (exec (on_connect "A") (init (mkDb [] true))) /\
              w_tasks (exec (on_connect "A") (init (mkDb [] true))) = [] /\
              up (w_db (exec (on_connect "A") (init (mkDb [] true)))) = true /\
              "A" ∈ w_connected (exec (on_connect "A") (init (mkDb [] true))) /\
              (forall k, slot_clear "A" (exec (on_connect "A") (init (mkDb [] true))) k)).
  { split_and!; [done|apply keeps_on_connect, registry_ok_init|reflexivity|reflexivity|simpl; set_solver|].
    intros k. unfold slot_clear. simpl. by destruct k. }
  split; [exact H|]. destruct H as (H1 & H2 & H3 & H4 & H5 & H6).
  exact (disconnect_during_join_leaves_ghost "A" "r" (Some "alice") _ H1 H2 H3 H4 H5 H6).
Defined.

(** ** A leave whose save comes after a join's *)



(** ** A leave whose cleanup runs after the room was created again *)

(** [cleanup] of a state object left empty deletes the room's entry,
    whichever object the entry names, and touches nothing else but
    [rooms]. *)
Lemma cleanup_empty roomId ref w :
  JsMap.size (rs_participants (deref w ref)) = 0 ->
  exec (cleanup roomId ref) w = set_rooms w (JsMap.delete roomId (w_rooms w)).
Proof. intros H0. unfold cleanup. unfold_prims. simpl. by rewrite H0. Qed.

(** A [code-change] for a room [rooms] has no entry for changes no state
    object and schedules no save. *)
Lemma code_change_no_room sid roomId c l w :
  JsMap.get roomId (w_rooms w) = None ->
  let w' := exec (on_code_change sid roomId c l) w in w_heap w' = w_heap w /\ w_timers w' = w_timers w.
Proof. intros Hn. cbv zeta. unfold on_code_change. unfold_prims. simpl. rewrite Hn. simpl. rewrite Hn. simpl. by rewrite Hn. Qed.

(** C11: [leave-room]'s emptiness check (handler.js line 284) reads the
    state object the handler captured before its [await]s, not the
    current entry of [rooms].  When a [leave-room] of a room waits for the
    store while its captured state object is empty, and [rooms] meanwhile
    names another state object for the room (the room was dropped and
    joined again) with a participant [d]: once the leave's store
    operations have run, whatever the store answers, the room's entry is
    deleted from [rooms] although [d] is still a participant of the live
    object, and every later [code-change] of [d] for the room changes no
    state object and schedules no save.  The emptiness is that of the
    captured object; [registry_ok] holds of every reachable state. *)
Theorem stale_cleanup_drops_live_room sid roomId ref ref' d w :
  registry_ok w -> w_tasks w = [LeaveFind sid roomId ref] -> JsMap.get roomId (w_rooms w) = Some ref' ->
  JsMap.size (rs_participants (deref w ref)) = 0 -> JsMap.has d (rs_participants (deref w ref')) = true ->
  let w' := drain 2 w in
  star w w' /\ w_tasks w' = [] /\ JsMap.get roomId (w_rooms w') = None /\
  JsMap.has d (rs_participants (deref w' ref')) = true /\
  forall c l, let w'' := exec (handle d (CodeChange roomId c l)) w' in
    w_heap w'' = w_heap w' /\ w_timers w'' = w_timers w'.
Proof.
  intros Hw Ht Hget H0 Hd. cbv zeta. pose proof (ro_rooms_wf w Hw) as Hwf.
  assert (Hend : forall w1, w_tasks w1 = [] -> w_heap w1 = w_heap w -> w_rooms w1 = w_rooms w ->
            let w2 := exec (cleanup roomId ref) w1 in
            w_tasks w2 = [] /\ JsMap.get roomId (w_rooms w2) = None /\
            JsMap.has d (rs_participants (deref w2 ref')) = true /\
            forall c l, let w'' := exec (handle d (CodeChange roomId c l)) w2 in
              w_heap w'' = w_heap w2 /\ w_timers w'' = w_timers w2).
  { intros w1 Ht1 Hh1 Hr1. cbv zeta. rewrite cleanup_empty by (by rewrite (deref_heap _ _ _ Hh1)).
    split_and!; [done|simpl; rewrite Hr1; by apply JsMap.get_delete_eq|erewrite deref_heap; [exact Hd|simpl; exact Hh1]|].
    intros c l. apply code_change_no_room. simpl. rewrite Hr1. by apply JsMap.get_delete_eq. }
  split; [apply drain_star|].
  rewrite (drain_S 1 w (LeaveFind sid roomId ref) []) by exact Ht.
  unfold resume. cbv beta iota. rewrite exec_store_read.
  destruct (find_one roomId (w_db (set_tasks w []))) as [[room|]|e].
  - rewrite exec_now_await. erewrite drain_S by reflexivity. cbn [drain].
    unfold resume. cbv beta iota. rewrite exec_seq.
    refine (Hend _ _ _ _); unfold store, exec; cbn -[save_changes];
      destruct (save_changes _ _ _ _) as [[? ?]|?]; reflexivity.
  - rewrite (drain_more 0); [by refine (Hend _ _ _ _)| |lia].
    cbn [drain]. rewrite cleanup_empty by exact H0. reflexivity.
  - rewrite (drain_more 0); [by refine (Hend _ _ _ _)| |lia].
    cbn [drain]. rewrite cleanup_empty by exact H0. reflexivity.
Qed.

(** s1 leaves [r] and waits for [findOne]; another cleanup drops [r];
    s2 joins it again, creating a new state object. *)
Definition stale_world : World :=
  exec (join_continue "s2" "r" (Some "bob")
          (set_participants (new_room "r" None None None None 0) [mkParticipant (Some "s2") (Some "bob") 0]))
    (exec (cleanup "r" 0) (exec (handle "s1" (LeaveRoom "r")) demo_world)).

Example stale_cleanup_drops_live_room_witness :
  (registry_ok stale_world /\ w_tasks stale_world = [LeaveFind "s1" "r" 0] /\
   JsMap.get "r" (w_rooms stale_world) = Some 1 /\
   JsMap.size (rs_participants (deref stale_world 0)) = 0 /\
   JsMap.has "s2" (rs_participants (deref stale_world 1)) = true) /\
  let w' := drain 2 stale_world in
  star stale_world w' /\ w_tasks w' = [] /\ JsMap.get "r" (w_rooms w') = None /\
  JsMap.has "s2" (rs_participants (deref w' 1)) = true /\
  forall c l, let w'' := exec (handle "s2" (CodeChange "r" c l)) w' in
    w_heap w'' = w_heap w' /\ w_timers w'' = w_timers w'.
Proof.
  assert (Hw : registry_ok stale_world).
  { apply keeps_join_continue, keeps_cleanup, keeps_handle, demo_world_ok. }
  assert (H : w_tasks stale_world = [LeaveFind "s1" "r" 0] /\ JsMap.get "r" (w_rooms stale_world) = Some 1 /\
              JsMap.size (rs_participants (deref stale_world 0)) = 0 /\
              JsMap.has "s2" (rs_participants (deref stale_world 1)) = true) by (vm_compute; auto).
  destruct H as (H1 & H2 & H3 & H4).
  split; [split_and!; assumption|].
  exact (stale_cleanup_drops_live_room "s1" "r" 0 1 "s2" stale_world Hw H1 H2 H3 H4).
Defined.

End Guarantees.
