(* ===== verification/Scenarios.v ===== *)
(** * Executions of the server

    Concrete runs of [EventLoop.run_all] from a freshly started server:
    the end-to-end scenarios of the spec (two users in a room editing,
    chatting, one disconnecting), and the interleavings that break what
    the spec promises of the room registry and the debounced save.  Each
    run is a reachable execution ([EventLoop.run_all_sound]); its final
    state is computed by [vm_compute].  The interleavings are proved for
    every world where they start in [Guarantees]; the runs here show that
    a fresh server reaches them. *)

From S2P Require Import Prelude JsMap Store Handler EventLoop Chat.

Module Scenarios.
Import Store Handler EventLoop.

(** ** Observations of a world *)

Definition is_code_updated (ev : OutEvent) : bool :=
  match ev with CodeUpdated _ _ _ => true | _ => false end.
Definition is_chat (ev : OutEvent) : bool :=
  match ev with ChatMessage _ _ _ _ => true | _ => false end.
Definition is_user_left (ev : OutEvent) : bool :=
  match ev with UserLeft _ _ => true | _ => false end.

(** The socket was told it joined the room. *)
Definition told_joined (w : World) (sid roomId : string) : bool :=
  existsb (fun ev => match ev with RoomJoined r _ _ _ _ => String.eqb r roomId | _ => false end)
    (received w sid).

(** The socket is a participant of the state object [rooms] holds for
    the room. *)
Definition registered (w : World) (sid roomId : string) : bool :=
  match JsMap.get roomId (w_rooms w) with
  | Some ref => JsMap.has sid (rs_participants (deref w ref))
  | None => false
  end.

(** The socket is a participant of some state object, reachable from
    [rooms] or not. *)
Definition in_some_state (w : World) (sid : string) : bool :=
  existsb (fun '(_, rs) => JsMap.has sid (rs_participants rs)) (map_to_list (w_heap w)).

(** The user ids of the stored room's participants. *)
Definition stored_users (w : World) (roomId : string) : list (option string) :=
  match List.find (has_id roomId) (docs (w_db w)) with
  | Some r => map p_userId (participants r)
  | None => []
  end.

Definition final (acts : list Action) (db : Db) : World :=
  default (init db) (run_all acts (init db)).

Lemma final_reachable acts db : is_Some (run_all acts (init db)) -> reachable db (final acts db).
Proof.
  intros [w Hw]. unfold final. rewrite Hw. simpl. by apply (run_all_sound acts).
Qed.

(** ** The runs *)

Definition R : string := "abc12345".
Definition empty_db : Db := mkDb [] true.

(** [join-room] run to its end without interleaving: [findOne], the
    creation of a missing room, the save of the participant. *)
Definition join_new (sid name : string) : list Action :=
  [AEvent sid (JoinRoom R (Some name)); AResume 0; AResume 0; AResume 0].
Definition join_existing (sid name : string) : list Action :=
  [AEvent sid (JoinRoom R (Some name)); AResume 0; AResume 0].

(** The spec's scenario: alice (A) and bob (B) join room [R]. *)
Definition two_users : list Action :=
  [AConnect "A"; AConnect "B"] ++ join_new "A" "alice" ++ join_existing "B" "bob".

(** A run's final state is reachable, and its observations compute. *)
Ltac run_scenario :=
  split; [apply final_reachable; vm_compute; eexists; reflexivity
         |vm_compute; repeat split; reflexivity].

(** The spec's scenario 2: when alice (A) and bob (B) are in the
    room and A sends [code-change {code: "x=1"}], B receives
    [code-updated {code: "x=1", userId: A}] and A receives no
    [code-updated]. *)
Theorem scenario_code_change :
  let w := final (two_users ++ [AEvent "A" (CodeChange R (Some "x=1") None)]) empty_db in
  reachable empty_db w /\
  List.filter is_code_updated (received w "B") = [CodeUpdated (Some "x=1") None "A"] /\
  List.filter is_code_updated (received w "A") = [].
Proof. run_scenario. Qed.

(** The spec's scenario 3: A's [chat-message "hi"] reaches both A
    and B, with the same user, username and timestamp. *)
Theorem scenario_chat :
  let w := final (two_users ++ [ATick 5; AEvent "A" (ChatMessageIn R (JStr "hi") (Some "alice"))])
             empty_db in
  reachable empty_db w /\
  List.filter is_chat (received w "A") = [ChatMessage "A" "alice" (JStr "hi") 5] /\
  List.filter is_chat (received w "B") = [ChatMessage "A" "alice" (JStr "hi") 5].
Proof. run_scenario. Qed.

(** The spec's scenario 4: when A disconnects, B receives
    [user-left {userId: A, participants: [B]}] and, once the store has
    answered, the stored room's participants no longer contain A. *)
Theorem scenario_disconnect :
  let w := final (two_users ++ [ADisconnect "A"; AResume 0; AResume 0]) empty_db in
  reachable empty_db w /\
  List.filter is_user_left (received w "B") = [UserLeft "A" [mkLive "B" "bob" 0]] /\
  stored_users w R = [Some "B"] /\ registered w "A" R = false /\ w_tasks w = [].
Proof. run_scenario. Qed.

(** ** Interleavings the spec rules out *)

(** A and C are in the room and both leave; C's cleanup drops the room;
    D joins and gets a new state object; then A's [leave-room] resumes
    and, seeing its own (old, empty) state object, deletes [rooms[R]] —
    which is now D's. *)
Definition stale_cleanup : list Action :=
  [AConnect "A"; AConnect "C"; AConnect "D"] ++ join_new "A" "alice" ++ join_existing "C" "carol" ++
  [AEvent "A" (LeaveRoom R); AEvent "C" (LeaveRoom R); AResume 1; AResume 1;
   AEvent "D" (JoinRoom R (Some "dave")); AResume 1; AResume 1; AResume 0; AResume 0].

(** The emptiness check of [leave-room] (line 284) reads the state
    object the handler captured before its [await]s, not the current
    entry of [rooms]: there is a reachable state where D, connected and
    told it joined room R, is a participant of a state object that
    [rooms] no longer holds, so D's next [code-change] updates no state
    and schedules no save. *)
Theorem stale_cleanup_run :
  let w := final stale_cleanup empty_db in
  reachable empty_db w /\
  existsb (String.eqb "D") (w_connected w) = true /\ told_joined w "D" R = true /\
  in_some_state w "D" = true /\ registered w "D" R = false /\ w_tasks w = [] /\
  (let w' := exec (handle "D" (CodeChange R (Some "x=1") None)) w in
   w_timers w' = w_timers w /\ w_heap w' = w_heap w).
Proof. run_scenario. Qed.

(** A sends [join-room] and disconnects before the store answered. *)
Definition disconnect_during_join : list Action :=
  [AConnect "A"; AEvent "A" (JoinRoom R (Some "alice")); ADisconnect "A";
   AResume 0; AResume 0; AResume 0].

(** A socket that disconnects while its [join-room] waits for the store
    is registered once the handler resumes: after the disconnect handler
    ran, it is a participant of the live room and in the stored
    participants, and nothing is left to remove it; socket.io kept it out
    of the broadcast group. *)
Theorem disconnect_during_join_run :
  let w := final disconnect_during_join empty_db in
  reachable empty_db w /\
  existsb (String.eqb "A") (w_connected w) = false /\ registered w "A" R = true /\
  members w R = [] /\ stored_users w R = [Some "A"] /\ w_tasks w = [].
Proof. run_scenario. Qed.

(** A edits, leaves (the room is dropped, its save still pending),
    rejoins and edits again. *)
Definition rejoin_after_edit : list Action :=
  [AConnect "A"] ++ join_new "A" "alice" ++
  [AEvent "A" (CodeChange R (Some "v1") None); AEvent "A" (LeaveRoom R); AResume 0; AResume 0] ++
  join_existing "A" "alice" ++ [AEvent "A" (CodeChange R (Some "v2") None)].

(** Dropping a room does not cancel its pending save, and the new
    state object does not know it: two saves are pending for one room. *)
Theorem dropped_room_keeps_pending_save :
  let w := final rejoin_after_edit empty_db in
  reachable empty_db w /\
  map tm_code (pending_saves w R) = [Some "v1"; Some "v2"].
Proof. run_scenario. Qed.

(** B leaves while C joins; C's [$push] of its participant lands between
    B's [findOne] and B's [save()]. *)
Definition leave_during_join : list Action :=
  [AConnect "A"; AConnect "B"; AConnect "C"] ++ join_new "A" "alice" ++ join_existing "B" "bob" ++
  [AEvent "B" (LeaveRoom R); AEvent "C" (JoinRoom R (Some "carol"));
   AResume 0; AResume 0; AResume 1; AResume 0].

(** [leave-room] writes the whole participant array it read before
    its [save()]; when a join's [$push] came in between, Mongoose's
    version check rejects the save, the error is only logged, and the
    departed user stays in the stored participants for good. *)
Theorem leave_during_join_run :
  let w := final leave_during_join empty_db in
  reachable empty_db w /\
  registered w "B" R = false /\ stored_users w R = [Some "A"; Some "B"; Some "C"] /\ w_tasks w = [].
Proof. run_scenario. Qed.

End Scenarios.
