(* ===== verification/Pages.v ===== *)
(** * The pages that call the HTTP API: [Home.js] and [Sidebar.js]

    The home page ([src/client/src/components/Home.js]) creates a room
    ([POST /api/code/room], lines 27-51), joins a room by id (lines
    53-62) or from the list of recent rooms (lines 64-73), which it loads
    with [GET /api/code/rooms?limit=6] (lines 18-25) and filters by a
    search text in the browser (lines 178-182).  The editor's settings
    sidebar ([src/client/src/components/Sidebar.js]) saves the room's
    title and description with [PUT /api/code/room/:roomId] (lines 29-43),
    offers a grid of language buttons that call [onLanguageChange]
    (lines 10-27, 66-81), and shows the room's details (lines 130-166);
    [sb_step] is its event handler, with the save split at its [await]
    so that the disabled button and the [Saving...] label are visible.

    Module [Home] and module [Sidebar] model each handler as a function of
    the component's state and of the store.  An HTTP call of Home is the
    route handler of [Routes] applied to the store, so the theorems are
    about the client and the server together; the sidebar's [axios.put]
    is a Section variable, a request to a URL with a JSON body, which
    [Router] instantiates with the server of [index.js] (the URL is not
    encoded, so the id it carries goes through Express's routing).  [axios] rejects a non-2xx answer,
    which the handlers catch.  The outcome of a handler is what the user
    sees: an alert, a navigation (with the [username] passed as router
    state), or nothing. *)

From S2P Require Import Prelude JsMap Store Routes.

(** What a click does to the page. *)
Inductive Outcome :=
| Alert (message : string)
| Navigate (path : string) (username : string)
| Stay.

(** [!s.trim()]: the text is all white space. *)
Definition blank (s : string) : bool := forallb js_space (String.list_ascii_of_string s).

Lemma blank_nonempty s : blank s = false -> s <> "".
Proof. intros Hb ->. discriminate. Qed.

Lemma blank_trim s : String.eqb (trim s) "" = blank s.
Proof. apply trim_eqb_empty. Qed.

Module Home.
Import Store Routes.

Record HomeState := mkHome {
  username : string; roomId : string; recentRooms : list Listing; loading : bool; searchTerm : string }.

Definition set_recentRooms h x := mkHome (username h) (roomId h) x (loading h) (searchTerm h).
Definition set_loading h x := mkHome (username h) (roomId h) (recentRooms h) x (searchTerm h).

(** [fetchRecentRooms], lines 18-25: [GET /api/code/rooms?limit=6]; on
    an error answer the list is left as it was. *)
Definition fetchRecentRooms (rx : string -> option (string -> bool)) (db : Db) (h : HomeState)
    : HomeState :=
  let resp := list_rooms rx None (Some 6%Z) None db in
  if Z.eqb (status resp) 200 then
    match body resp with
    | BRooms rooms _ _ _ => set_recentRooms h rooms
    | _ => h
    end
  else h.

(** [createRoom], lines 27-51, with [uuidv4()] = [uuid] and the time
    [now] on the server. *)
Definition createRoom (uuid : string) (now : Z) (db : Db) (h : HomeState)
    : Outcome * HomeState * Db :=
  if blank (username h) then (Alert "Please enter a username", h, db)
  else
    let '(resp, db') := create_room uuid (Some "Untitled") (Some "") (Some "javascript")
                          (Some (username h)) now db in
    match status resp, body resp with
    | 201%Z, BCreated rid _ =>
        (Navigate ("/editor/" +:+ rid) (username h), set_loading h false, db')
    | _, _ => (Alert "Failed to create room", set_loading h false, db')
    end.

(** [joinRoom], lines 53-62: the path carries the room id as typed. *)
Definition joinRoom (h : HomeState) : Outcome :=
  if blank (username h) || blank (roomId h) then Alert "Please enter both username and room ID"
  else Navigate ("/editor/" +:+ roomId h) (username h).

(** [joinExistingRoom], lines 64-73. *)
Definition joinExistingRoom (rid : string) (h : HomeState) : Outcome :=
  if blank (username h) then Alert "Please enter a username first"
  else Navigate ("/editor/" +:+ rid) (username h).

(** The recent rooms shown for the search text (lines 178-182):
    [toLowerCase().includes(...)] on the title or the description. *)
Definition visibleRooms (h : HomeState) : list Listing :=
  List.filter (fun r => ci_contains (searchTerm h) (l_title r) || ci_contains (searchTerm h) (l_description r))
    (recentRooms h).

Definition set_username h x := mkHome x (roomId h) (recentRooms h) (loading h) (searchTerm h).
Definition set_roomId h x := mkHome (username h) x (recentRooms h) (loading h) (searchTerm h).
Definition set_searchTerm h x := mkHome (username h) (roomId h) (recentRooms h) (loading h) x.

Definition initial : HomeState := mkHome "" "" [] false "".

(** [maxLength={n}]: the browser keeps the first [n] characters. *)
Definition max_length (n : nat) (v : string) : string := String.substring 0 n v.

(** [disabled] of the create button (line 116) and of the join button
    (line 149). *)
Definition create_disabled (h : HomeState) : bool := loading h || blank (username h).
Definition join_disabled (h : HomeState) : bool := blank (username h) || blank (roomId h).

(** What the user does: the mount effect (lines 14-16), the three inputs
    (lines 99, 143, 172), the two buttons (lines 115, 148) and a card of
    the list (line 187). *)
Inductive HomeEvent :=
| Mount | TypeUsername (v : string) | TypeRoomId (v : string) | TypeSearch (v : string)
| ClickCreate (uuid : string) | ClickJoin | ClickRoom (rid : string).

(** One event at time [now]; a click on a disabled button does nothing. *)
Definition home_step (rx : string -> option (string -> bool)) (now : Z) (db : Db) (h : HomeState)
    (ev : HomeEvent) : Outcome * HomeState * Db :=
  match ev with
  | Mount => (Stay, fetchRecentRooms rx db h, db)
  | TypeUsername v => (Stay, set_username h (max_length 20 v), db)
  | TypeRoomId v => (Stay, set_roomId h (max_length 8 v), db)
  | TypeSearch v => (Stay, set_searchTerm h v, db)
  | ClickCreate uuid => if create_disabled h then (Stay, h, db) else createRoom uuid now db h
  | ClickJoin => if join_disabled h then (Stay, h, db) else (joinRoom h, h, db)
  | ClickRoom rid => (joinExistingRoom rid h, h, db)
  end.

(** A card of the recent rooms (lines 184-210). *)
Record RoomCard := mkCard {
  c_key : string; c_title : string; c_description : string; c_language : string;
  c_participants : string; c_updatedAt : Z }.

Definition room_card (r : Listing) : RoomCard :=
  mkCard (l_roomId r) (l_title r)
    (if String.eqb (l_description r) "" then "No description" else l_description r)
    (l_language r) (pretty (length (l_participants r)) +:+ " participants") (l_updatedAt r).

(** What the page shows (lines 75-256), static text aside. *)
Record HomeView := mkHomeView {
  v_username : string; v_roomId : string; v_search : string;
  v_create_disabled : bool; v_create_spinner : bool; v_join_disabled : bool;
  v_cards : list RoomCard; v_no_rooms : bool }.

Definition render (h : HomeState) : HomeView :=
  mkHomeView (username h) (roomId h) (searchTerm h) (create_disabled h) (loading h) (join_disabled h)
    (map room_card (visibleRooms h)) (Nat.eqb (length (recentRooms h)) 0).

(** A session of the page: the events in order, each with its time. *)
Fixpoint home_run (rx : string -> option (string -> bool)) (db : Db) (h : HomeState)
    (evs : list (Z * HomeEvent)) : list Outcome * HomeState * Db :=
  match evs with
  | [] => ([], h, db)
  | (t, ev) :: evs' =>
      let '(o, h1, db1) := home_step rx t db h ev in
      let '(os, h2, db2) := home_run rx db1 h1 evs' in
      (o :: os, h2, db2)
  end.

(** C32: creating a room from the home page with a username that is not
    blank, on a running store and a fresh identifier: the page navigates
    to [/editor/<id>] with the first eight characters of the UUID and the
    username, stops loading, and [GET /room/<id>] then answers the room
    created by that user, titled [Untitled], described [''], in
    [javascript], with the default code.  With a blank username the page
    alerts and the store is unchanged. *)
Theorem home_create_room uuid now db h :
  up db = true -> 8 <= String.length uuid -> find_one (String.substring 0 8 uuid) db = Ok None ->
  if blank (username h) then createRoom uuid now db h = (Alert "Please enter a username", h, db)
  else exists h' db' r,
    createRoom uuid now db h = (Navigate ("/editor/" +:+ String.substring 0 8 uuid) (username h), h', db') /\
    loading h' = false /\
    get_room (String.substring 0 8 uuid) db' = mkResponse 200 (BRoom r) /\
    createdBy r = username h /\ title r = "Untitled" /\ description r = "" /\
    language r = "javascript" /\ code r = default_code /\ isPublic r = true.
Proof.
  intros Hup Hlen Hnone. unfold createRoom.
  destruct (blank (username h)) eqn:Hb; [done|].
  unfold find_one in Hnone. rewrite Hup in Hnone. injection Hnone as Hnone.
  unfold create_room, insert, required_ok. simpl. rewrite substring_required, Hup by done. simpl.
  rewrite (find_none_has_id _ _ Hnone). simpl.
  do 3 eexists. split; [reflexivity|]. split; [done|]. split.
  - unfold get_room, find_one. simpl. rewrite find_snoc_none by done.
    unfold has_id. simpl. by rewrite String.eqb_refl.
  - pose proof (blank_nonempty _ Hb). simpl. destruct (String.eqb_spec (username h) ""); [done|].
    by split_and!.
Qed.

(** On a running store, the home page's recent rooms are the six
    public rooms updated last, newest first. *)
Theorem recent_rooms_fetch rx db h :
  up db = true ->
  recentRooms (fetchRecentRooms rx db h) = take 6 (map select_listing (sort_desc (List.filter isPublic (docs db)))).
Proof.
  intros Hup. unfold fetchRecentRooms.
  change (list_rooms rx None (Some 6%Z) None db) with (list_rooms rx (Some 1%Z) (Some 6%Z) (Some "") db).
  rewrite (list_rooms_ok rx 1 6 "" db isPublic Hup) by (done || lia). simpl. done.
Qed.

(** A store with one private and two public rooms. *)
Definition home_db : Db :=
  mkDb [new_room "r1" None None None None 1; new_room "r2" None None None None 3;
        Store.set_participants (mkRoom "r3" "" "c" "t" "d" 2 2 "x" false [] 0) []] true.

Example home_create_room_witness :
  up home_db = true /\ 8 <= String.length "0123456789" /\
  find_one (String.substring 0 8 "0123456789") home_db = Ok None /\
  if blank (username (mkHome "ann" "" [] false "")) then
    createRoom "0123456789" 5 home_db (mkHome "ann" "" [] false "") =
      (Alert "Please enter a username", mkHome "ann" "" [] false "", home_db)
  else exists h' db' r,
    createRoom "0123456789" 5 home_db (mkHome "ann" "" [] false "") =
      (Navigate ("/editor/" +:+ String.substring 0 8 "0123456789") (username (mkHome "ann" "" [] false "")), h', db') /\
    loading h' = false /\
    get_room (String.substring 0 8 "0123456789") db' = mkResponse 200 (BRoom r) /\
    createdBy r = username (mkHome "ann" "" [] false "") /\ title r = "Untitled" /\ description r = "" /\
    language r = "javascript" /\ code r = default_code /\ isPublic r = true.
Proof.
  split_and!; [reflexivity|simpl; lia|reflexivity|].
  apply (home_create_room "0123456789" 5 home_db (mkHome "ann" "" [] false "")); [reflexivity|simpl; lia|reflexivity].
Defined.

Example recent_rooms_fetch_witness :
  up home_db = true /\
  recentRooms (fetchRecentRooms literal_rx home_db (mkHome "ann" "" [] false "")) =
    take 6 (map select_listing (sort_desc (List.filter isPublic (docs home_db)))).
Proof. split; [reflexivity|]. apply (recent_rooms_fetch literal_rx home_db); reflexivity. Defined.

Lemma substring_length_le n s : String.length (String.substring 0 n s) <= n.
Proof.
  revert s. induction n as [|n IH]; intros [|c s]; simpl; try lia. specialize (IH s). lia.
Qed.

(** The inputs hold at most [maxLength] characters. *)
Definition fields_ok (h : HomeState) : Prop :=
  String.length (username h) <= 20 /\ String.length (roomId h) <= 8.

Lemma createRoom_fields uuid now db h :
  username (createRoom uuid now db h).1.2 = username h /\ roomId (createRoom uuid now db h).1.2 = roomId h.
Proof.
  unfold createRoom. destruct (blank _); [done|].
  destruct (create_room _ _ _ _ _ _ _) as [resp db']. by repeat case_match.
Qed.

Lemma fetchRecentRooms_fields rx db h :
  username (fetchRecentRooms rx db h) = username h /\ roomId (fetchRecentRooms rx db h) = roomId h.
Proof. unfold fetchRecentRooms. case_match; [|done]. by case_match. Qed.

(** The guard alerts of [createRoom] and [joinRoom]. *)
Definition guard_alert (o : Outcome) : bool :=
  match o with
  | Alert m => String.eqb m "Please enter a username" || String.eqb m "Please enter both username and room ID"
  | _ => false
  end.

Lemma createRoom_no_guard uuid now db h :
  blank (username h) = false -> guard_alert (createRoom uuid now db h).1.1 = false.
Proof.
  intros Hb. unfold createRoom. rewrite Hb.
  destruct (create_room _ _ _ _ _ _ _) as [resp db']. by repeat case_match.
Qed.

Lemma home_step_ok rx now db h ev :
  fields_ok h -> fields_ok (home_step rx now db h ev).1.2 /\ guard_alert (home_step rx now db h ev).1.1 = false.
Proof.
  intros [Hu Hr]. pose proof (substring_length_le 20) as L20. pose proof (substring_length_le 8) as L8.
  destruct ev as [| v | v | v | uuid | | rid]; simpl.
  - unfold fields_ok. destruct (fetchRecentRooms_fields rx db h) as [-> ->]. done.
  - split; [split; simpl; [apply L20|lia]|done].
  - split; [split; simpl; [lia|apply L8]|done].
  - done.
  - unfold create_disabled. destruct (loading h), (blank (username h)) eqn:Hb; simpl; try done.
    destruct (createRoom_fields uuid now db h) as [E1 E2]. split; [split; rewrite ?E1, ?E2; done|].
    by apply createRoom_no_guard.
  - unfold join_disabled, joinRoom. by destruct (blank (username h)), (blank (roomId h)).
  - unfold joinExistingRoom. by destruct (blank (username h)).
Qed.

(** In every session of the home page the username holds at most 20
    characters and the room id at most 8, and the alerts that [createRoom]
    and [joinRoom] show for missing fields never appear: the buttons are
    disabled in those states. *)
Lemma home_session rx db evs :
  let '(os, h, _) := home_run rx db initial evs in
  fields_ok h /\ Forall (fun o => guard_alert o = false) os.
Proof.
  assert (H0 : fields_ok initial) by (split; simpl; lia). revert H0.
  generalize initial as h. revert db.
  induction evs as [|[t ev] evs IH]; intros db h Hh; simpl; [done|].
  destruct (home_step_ok rx t db h ev Hh) as [Hh1 Ho].
  destruct (home_step rx t db h ev) as [[o h1] db1]. simpl in *.
  specialize (IH db1 h1 Hh1). destruct (home_run rx db1 h1 evs) as [[os h2] db2].
  destruct IH as [IH1 IH2]. split; [done|]. by constructor.
Qed.

(** When the search hides every recent room, the list shows no card and
    no empty-state text: the text tests [recentRooms.length], not the
    filtered list (line 212). *)
Example home_blank_list :
  let h := mkHome "ann" "" [select_listing (new_room "r1" None None None None 1)] false "zzz" in
  v_cards (render h) = [] /\ v_no_rooms (render h) = false /\ recentRooms h <> [].
Proof. vm_compute. split_and!; [reflexivity|reflexivity|discriminate]. Qed.

End Home.

Module Sidebar.
Import Store Routes.

Record SidebarState := mkSidebar { sb_title : string; sb_description : string; isSaving : bool }.

(** The state of a freshly opened sidebar (lines 6-8):
    [roomInfo?.title || ''] and [roomInfo?.description || '']. *)
Definition initial (roomInfo : option Room) : SidebarState :=
  mkSidebar (default "" (title <$> roomInfo)) (default "" (description <$> roomInfo)) false.

(** The HTTP calls of the sidebar go through [axios.put(url, data)]:
    [http_put url data now db] is the store once the server has answered
    the [PUT] of [url] with the JSON body [data] at time [now] (its answer
    is not read: a rejection is caught and logged).  [Router] instantiates
    it with the server of [index.js]. *)
Section Http.
Variable http_put : string -> gmap string string -> Z -> Db -> Db.

(** The URL of line 34, [`/api/code/room/${roomInfo.roomId}`]: the id
    is pasted in as it is, not encoded. *)
Definition room_url (rid : string) : string := "/api/code/room/" +:+ rid.

(** The body of lines 34-36, [{ title, description }]. *)
Definition save_body (t d : string) : gmap string string := <["title" := t]> (<["description" := d]> ∅).

(** [handleSaveRoomInfo], lines 29-43: nothing without a room id;
    otherwise [PUT] the title and the description, errors caught. *)
Definition handleSaveRoomInfo (roomInfo : option Room) (now : Z) (db : Db) (st : SidebarState)
    : SidebarState * Db :=
  match roomInfo with
  | Some ri =>
      if String.eqb (roomId ri) "" then (st, db)
      else (mkSidebar (sb_title st) (sb_description st) false,
            http_put (room_url (roomId ri)) (save_body (sb_title st) (sb_description st)) now db)
  | None => (st, db)
  end.

(** The table of languages, lines 10-27. *)
Record Lang := mkLang { lang_id : string; lang_name : string; lang_icon : string }.

Definition languages : list Lang :=
  [mkLang "javascript" "JavaScript" "⚡"; mkLang "typescript" "TypeScript" "📘";
   mkLang "python" "Python" "🐍"; mkLang "java" "Java" "☕";
   mkLang "cpp" "C++" "⚙️"; mkLang "c" "C" "🔧";
   mkLang "html" "HTML" "🌐"; mkLang "css" "CSS" "🎨";
   mkLang "json" "JSON" "📄"; mkLang "xml" "XML" "📋";
   mkLang "sql" "SQL" "🗄️"; mkLang "php" "PHP" "🐘";
   mkLang "go" "Go" "🐹"; mkLang "rust" "Rust" "🦀";
   mkLang "swift" "Swift" "🍎"; mkLang "kotlin" "Kotlin" "📱"].

(** A button of the language grid, lines 66-81: its key, label, icon and
    whether it has the highlighted class ([language === lang.id]). *)
Record LangButton := mkButton { b_id : string; b_name : string; b_icon : string; b_selected : bool }.

Definition language_buttons (language : string) : list LangButton :=
  map (fun l => mkButton (lang_id l) (lang_name l) (lang_icon l) (String.eqb language (lang_id l)))
    languages.

(** The save button, lines 119-125: its label and [disabled]. *)
Definition save_label (st : SidebarState) : string :=
  if isSaving st then "Saving..." else "Save Changes".

(** The room details, lines 130-166, shown when [roomInfo] is set; the
    dates are the stored timestamps ([toLocaleDateString] is not
    modelled); [roomInfo.participants?.length || 0]. *)
Record Details := mkDetails {
  d_roomId : string; d_createdAt : Z; d_updatedAt : Z; d_createdBy : string; d_participants : nat }.

Definition details (roomInfo : option Room) : option Details :=
  (fun r => mkDetails (roomId r) (createdAt r) (updatedAt r) (createdBy r) (length (participants r)))
    <$> roomInfo.

(** What the user does in the sidebar, and what it calls on its parent. *)
Inductive SbEvent :=
| ClickClose | ClickLanguage (id : string) | TypeTitle (v : string) | TypeDescription (v : string)
| ClickSave | PutSettled.

Inductive SbCall := OnClose | OnLanguageChange (id : string).

(** The sidebar between renders: its state and the [PUT] that
    [handleSaveRoomInfo] awaits, with the room id, title and description
    it was sent with. *)
Record SbSession := mkSession { sb_state : SidebarState; in_flight : option (string * string * string) }.

(** One event.  A language button calls [onLanguageChange(lang.id)]
    (line 69) and the close button [onClose] (line 51); the inputs set
    the title and the description (lines 100, 112).  [ClickSave] is the
    body of [handleSaveRoomInfo] up to its [await] (lines 30-37), ignored
    while the button is disabled; [PutSettled] is the rest (lines 38-42):
    the [PUT] is answered and [isSaving] is reset whatever the answer. *)
Definition sb_step (roomInfo : option Room) (now : Z) (db : Db) (se : SbSession) (ev : SbEvent)
    : SbSession * list SbCall * Db :=
  let st := sb_state se in
  match ev with
  | ClickClose => (se, [OnClose], db)
  | ClickLanguage id => (se, [OnLanguageChange id], db)
  | TypeTitle v => (mkSession (mkSidebar v (sb_description st) (isSaving st)) (in_flight se), [], db)
  | TypeDescription v => (mkSession (mkSidebar (sb_title st) v (isSaving st)) (in_flight se), [], db)
  | ClickSave =>
      if isSaving st then (se, [], db)
      else match roomInfo with
           | Some ri =>
               if String.eqb (roomId ri) "" then (se, [], db)
               else (mkSession (mkSidebar (sb_title st) (sb_description st) true)
                       (Some (roomId ri, sb_title st, sb_description st)), [], db)
           | None => (se, [], db)
           end
  | PutSettled =>
      match in_flight se with
      | Some (rid, t, d) =>
          (mkSession (mkSidebar (sb_title st) (sb_description st) false) None, [],
           http_put (room_url rid) (save_body t d) now db)
      | None => (se, [], db)
      end
  end.

(** The language buttons the user can click: those of the grid. *)
Definition clickable (ev : SbEvent) : bool :=
  match ev with
  | ClickLanguage id => existsb (fun l => String.eqb (lang_id l) id) languages
  | _ => true
  end.

(** A session: the events in order, each with the time it happens. *)
Fixpoint sb_run (roomInfo : option Room) (se : SbSession) (evs : list (Z * SbEvent)) (db : Db)
    : SbSession * list SbCall * Db :=
  match evs with
  | [] => (se, [], db)
  | (t, ev) :: evs' =>
      let '(se1, c1, db1) := sb_step roomInfo t db se ev in
      let '(se2, c2, db2) := sb_run roomInfo se1 evs' db1 in
      (se2, c1 ++ c2, db2)
  end.

(** The button shows [Saving...] exactly while a [PUT] is in flight. *)
Definition sb_ok (se : SbSession) : Prop := isSaving (sb_state se) = bool_decide (is_Some (in_flight se)).

(** A call to the parent the grid can make: [onClose], or
    [onLanguageChange] with an id of the table. *)
Definition table_call (c : SbCall) : Prop :=
  match c with
  | OnClose => True
  | OnLanguageChange id => id ∈ map lang_id languages
  end.

Lemma sb_step_ok roomInfo now db se ev :
  sb_ok se -> sb_ok (sb_step roomInfo now db se ev).1.1.
Proof.
  unfold sb_ok. destruct se as [[ti de sv] fl]; simpl. intros Hok.
  destruct ev; simpl; try done.
  - destruct sv; [done|]. destruct roomInfo as [ri|]; [|done].
    by destruct (String.eqb (roomId ri) "").
  - by destruct fl as [[[rid t] d]|].
Qed.

Lemma sb_step_calls roomInfo now db se ev :
  clickable ev = true -> Forall table_call (sb_step roomInfo now db se ev).1.2.
Proof.
  destruct ev as [|id| | | |]; intros Hc; simpl; try by repeat constructor.
  - apply existsb_exists in Hc as (l & Hl & Hid%String.eqb_eq). subst id.
    constructor; [|constructor]. apply list_elem_of_In, in_map, Hl.
  - destruct (isSaving _); [constructor|]. destruct roomInfo as [ri|]; [|constructor].
    destruct (String.eqb _ _); constructor.
  - destruct (in_flight se) as [[[rid t] d]|]; constructor.
Qed.

Lemma languages_NoDup : NoDup (map lang_id languages).
Proof. apply (bool_decide_unpack _). vm_compute. reflexivity. Qed.

Lemma selected_count (lang : string) (xs : list Lang) :
  NoDup (map lang_id xs) ->
  length (List.filter b_selected
    (map (fun l => mkButton (lang_id l) (lang_name l) (lang_icon l) (String.eqb lang (lang_id l))) xs)) =
  if bool_decide (lang ∈ map lang_id xs) then 1 else 0.
Proof.
  induction xs as [|x xs IH]; [done|]. intros [Hx Hnd]%NoDup_cons.
  specialize (IH Hnd). cbn [map List.filter length b_selected].
  destruct (String.eqb_spec lang (lang_id x)) as [->|Hne]; simpl; rewrite IH.
  - rewrite bool_decide_false by done. by rewrite bool_decide_true by set_solver.
  - repeat case_bool_decide; set_solver.
Qed.

(** The grid highlights exactly one button when the room's language is in
    the table, and none otherwise. *)
Lemma language_buttons_selected lang :
  length (List.filter b_selected (language_buttons lang)) =
  if bool_decide (lang ∈ map lang_id languages) then 1 else 0.
Proof. apply selected_count, languages_NoDup. Qed.

Lemma sb_run_ok roomInfo se evs db :
  sb_ok se -> Forall (fun e => clickable e.2 = true) evs ->
  sb_ok (sb_run roomInfo se evs db).1.1 /\ Forall table_call (sb_run roomInfo se evs db).1.2.
Proof.
  revert se db. induction evs as [|[t ev] evs IH]; intros se db Hok Hc; simpl; [done|].
  inversion Hc as [|? ? Hev Hc']; subst.
  pose proof (sb_step_ok roomInfo t db se ev Hok) as Hok1.
  pose proof (sb_step_calls roomInfo t db se ev Hev) as Hc1.
  destruct (sb_step roomInfo t db se ev) as [[se1 c1] db1]. simpl in *.
  destruct (IH se1 db1 Hok1 Hc') as [Hok2 Hc2].
  destruct (sb_run roomInfo se1 evs db1) as [[se2 c2] db2]. simpl in *.
  split; [done|]. by apply Forall_app.
Qed.

(** C34: in every session of the settings sidebar, from a freshly opened
    one and whatever the user clicks and types: the save button shows
    [Saving...] (and is disabled) exactly while the [PUT] of
    [handleSaveRoomInfo] is in flight, a click on it then starts no second
    [PUT], and the sidebar calls its parent only with [onClose] or with
    [onLanguageChange] of a language of its table. *)
Theorem sidebar_session roomInfo evs db :
  Forall (fun e => clickable e.2 = true) evs ->
  let '(se, calls, _) := sb_run roomInfo (mkSession (initial roomInfo) None) evs db in
  save_label (sb_state se) = match in_flight se with Some _ => "Saving..." | None => "Save Changes" end /\
  (is_Some (in_flight se) -> forall t db', sb_step roomInfo t db' se ClickSave = (se, [], db')) /\
  Forall table_call calls.
Proof.
  intros Hc. destruct (sb_run_ok roomInfo (mkSession (initial roomInfo) None) evs db) as [Hok Hcalls];
    [done|done|].
  destruct (sb_run roomInfo _ evs db) as [[se calls] db']. simpl in *. unfold sb_ok in Hok.
  unfold save_label. split_and!; [|intros Hs t db1; simpl; by rewrite Hok, bool_decide_true|done].
  rewrite Hok. by destruct (in_flight se).
Qed.

End Http.

(** A session against a server that leaves the store as it is. *)
Example sidebar_session_witness :
  Forall (fun e => clickable e.2 = true)
    [(1, TypeTitle "T"); (2, ClickSave); (3, ClickSave); (4, ClickLanguage "python")]%Z /\
  let '(se, calls, _) := sb_run (fun _ _ _ db => db) (Some (new_room "r1" None None None None 1))
      (mkSession (initial (Some (new_room "r1" None None None None 1))) None)
      [(1, TypeTitle "T"); (2, ClickSave); (3, ClickSave); (4, ClickLanguage "python")]%Z Home.home_db in
  save_label (sb_state se) = match in_flight se with Some _ => "Saving..." | None => "Save Changes" end /\
  (is_Some (in_flight se) -> forall t db',
     sb_step (fun _ _ _ db => db) (Some (new_room "r1" None None None None 1)) t db' se ClickSave = (se, [], db')) /\
  Forall table_call calls.
Proof.
  assert (Hc : Forall (fun e => clickable e.2 = true)
    [(1, TypeTitle "T"); (2, ClickSave); (3, ClickSave); (4, ClickLanguage "python")]%Z)
    by repeat constructor.
  split; [exact Hc|].
  exact (sidebar_session (fun _ _ _ db => db) (Some (new_room "r1" None None None None 1)) _ Home.home_db Hc).
Defined.

End Sidebar.
