(* ===== verification/Url.v ===== *)
(** * URL text: percent-decoding and [parsePath]

    The two libraries that route requests read URL text the same way the
    JavaScript language defines it.  Express decodes each route parameter
    with [decodeURIComponent] (its [decode_param], which turns the
    [URIError] into a 400); React Router decodes each parameter with
    [decodeURIComponent] too, keeping the raw text when that throws
    ([safelyDecodeURIComponent]), and cuts the target of [navigate] into
    pathname, search and hash ([parsePath]).

    Module [Url] models [decodeURIComponent] as ECMA-262 (Decode, with an
    empty reserved set) specifies it on the UTF-8 byte strings of the
    model: a [%XX] escape is a byte; a byte below [0x80] is a character, a
    longer sequence must be a valid UTF-8 encoding spelled as consecutive
    escapes (no overlong form, no surrogate, nothing above [U+10FFFF]);
    any other [%] is an error.  Raw characters are copied. *)

From S2P Require Import Prelude.

Module Url.

Definition is_char (k : nat) (c : ascii) : bool := Nat.eqb (nat_of_ascii c) k.

(** The value of a hexadecimal digit, of either case. *)
Definition hex_val (c : ascii) : option nat :=
  let n := nat_of_ascii c in
  if Nat.leb 48 n && Nat.leb n 57 then Some (n - 48)
  else if Nat.leb 65 n && Nat.leb n 70 then Some (n - 55)
  else if Nat.leb 97 n && Nat.leb n 102 then Some (n - 87)
  else None.

(** The text cut into raw characters and escaped bytes; [None] when a [%]
    is not followed by two hexadecimal digits. *)
Inductive Unit := Raw (c : ascii) | Byte (b : nat).

Fixpoint units (l : list ascii) : option (list Unit) :=
  match l with
  | [] => Some []
  | c :: l' =>
      if is_char 37 c then
        match l' with
        | h1 :: h2 :: l'' =>
            match hex_val h1, hex_val h2 with
            | Some d1, Some d2 => (fun us => Byte (16 * d1 + d2) :: us) <$> units l''
            | _, _ => None
            end
        | _ => None
        end
      else (fun us => Raw c :: us) <$> units l'
  end.

Definition between (lo hi n : nat) : bool := Nat.leb lo n && Nat.leb n hi.
Definition cont (b : nat) : bool := between 128 191 b.

(** Runs of escaped bytes as UTF-8 (RFC 3629's table of well-formed
    sequences); raw characters pass. *)
Fixpoint utf8 (us : list Unit) : option (list ascii) :=
  match us with
  | [] => Some []
  | Raw c :: us' => cons c <$> utf8 us'
  | Byte b1 :: us' =>
      if Nat.ltb b1 128 then cons (ascii_of_nat b1) <$> utf8 us'
      else if between 194 223 b1 then
        match us' with
        | Byte b2 :: r => if cont b2 then app (map ascii_of_nat [b1; b2]) <$> utf8 r else None
        | _ => None
        end
      else if between 224 239 b1 then
        match us' with
        | Byte b2 :: Byte b3 :: r =>
            let ok2 := if Nat.eqb b1 224 then between 160 191 b2
                       else if Nat.eqb b1 237 then between 128 159 b2 else cont b2 in
            if ok2 && cont b3 then app (map ascii_of_nat [b1; b2; b3]) <$> utf8 r else None
        | _ => None
        end
      else if between 240 244 b1 then
        match us' with
        | Byte b2 :: Byte b3 :: Byte b4 :: r =>
            let ok2 := if Nat.eqb b1 240 then between 144 191 b2
                       else if Nat.eqb b1 244 then between 128 143 b2 else cont b2 in
            if ok2 && cont b3 && cont b4 then app (map ascii_of_nat [b1; b2; b3; b4]) <$> utf8 r
            else None
        | _ => None
        end
      else None
  end.

(** [decodeURIComponent(s)]; [None] is the [URIError] it throws. *)
Definition decode (s : string) : option string :=
  us ← units (String.list_ascii_of_string s);
  String.string_of_list_ascii <$> utf8 us.

(** React Router's [safelyDecodeURIComponent]: the raw text when
    decoding throws. *)
Definition safe_decode (s : string) : string := default s (decode s).

(** The index of the first [c] and the text before and from it. *)
Fixpoint split_first (c : ascii) (s : string) : string * string :=
  match s with
  | EmptyString => (EmptyString, EmptyString)
  | String a s' =>
      if Ascii.eqb a c then (EmptyString, s)
      else let '(x, y) := split_first c s' in (String a x, y)
  end.

(** React Router's [parsePath(path)]: the hash from the first [#], then
    the search from the first [?], the rest is the pathname. *)
Definition parse_path (p : string) : string * string * string :=
  let '(p1, hash) := split_first "#" p in
  let '(pathname, search) := split_first "?" p1 in
  (pathname, search, hash).

Definition pathname (p : string) : string := (parse_path p).1.1.

(** Route proofs keep [decode] folded and rewrite with its known values. *)
Arguments decode : simpl never.

(** Text without [%] holds no escape. *)
Definition plain (s : string) : bool := negb (existsb (is_char 37) (String.list_ascii_of_string s)).

Lemma units_plain l : existsb (is_char 37) l = false -> units l = Some (map Raw l).
Proof.
  induction l as [|c l IH]; [done|]. simpl. intros [Hc Hl]%orb_false_iff.
  rewrite Hc, IH by done. done.
Qed.

Lemma utf8_raw l : utf8 (map Raw l) = Some l.
Proof. induction l as [|c l IH]; [done|]. simpl. by rewrite IH. Qed.

(** Decoding text without [%] gives it back. *)
Lemma decode_plain s : plain s = true -> decode s = Some s.
Proof.
  unfold plain, decode. intros Hp%negb_true_iff.
  rewrite units_plain by done. simpl. rewrite utf8_raw. simpl.
  by rewrite String.string_of_list_ascii_of_string.
Qed.

Lemma safe_decode_plain s : plain s = true -> safe_decode s = s.
Proof. intros Hp. unfold safe_decode. by rewrite decode_plain. Qed.

(** Splitting at a character the text does not hold keeps it whole. *)
Lemma split_first_none c s :
  existsb (fun a => Ascii.eqb a c) (String.list_ascii_of_string s) = false -> split_first c s = (s, "").
Proof.
  induction s as [|a s IH]; [done|]. simpl. intros [Ha Hs]%orb_false_iff.
  rewrite Ha, IH by done. done.
Qed.

End Url.
