(* ===== verification/Router.v ===== *)
(** * Request routing: [src/server/index.js], the router of
    [src/server/routes/code.js] and [src/client/src/App.js]

    A URL path is cut at its slashes into segments.  Express (its
    path-to-regexp 0.1 patterns, non-strict, case-insensitive) matches a
    route such as ["/room/:roomId"] against them with one trailing slash
    allowed; React Router's [<Routes>] allows any number.  A [:name]
    segment matches one non-empty segment and binds it.  Module [Server]
    is the middleware chain of [index.js] in its order, with the route
    table of [code.js] behind the [/api/code] mount; module [Client] is
    the route table of [App.js].  Express's router tries the routes in
    order, decoding the parameters of each route whose path matches
    ([decode_param], a failure is a 400 that wins over any later route);
    React Router decodes its parameter leniently and renders the pathname
    [parsePath] cuts from the target of [navigate] ([Url]).  The
    sidebar's save ([Sidebar.handleSaveRoomInfo]) is sent to [serve] by
    [Client.axios_put].  The numeric
    coercion of query strings is not modelled: the query's [page] and
    [limit] are taken as numbers. *)

From S2P Require Import Prelude Store Routes Pages Url.

Module Path.
Import Routes.

(** [s.split(c)]. *)
Fixpoint split_on (c : ascii) (s : string) : list string :=
  match s with
  | EmptyString => [""]
  | String a s' =>
      let r := split_on c s' in
      if Ascii.eqb a c then "" :: r else String a (hd "" r) :: tl r
  end.

(** [xs.join(c)]. *)
Fixpoint join_on (c : ascii) (xs : list string) : string :=
  match xs with
  | [] => ""
  | [x] => x
  | x :: xs' => x +:+ String c (join_on c xs')
  end.

Fixpoint has_char (c : ascii) (s : string) : bool :=
  match s with
  | EmptyString => false
  | String a s' => Ascii.eqb a c || has_char c s'
  end.

(** The segments of a pathname, which starts with a slash. *)
Definition segments (p : string) : option (list string) :=
  match p with
  | String "/" rest => Some (split_on "/" rest)
  | _ => None
  end.

(** A segment of a route pattern: a literal or a [:name] parameter. *)
Inductive Seg := Lit (s : string) | Param (name : string).

Definition seg_of (x : string) : Seg :=
  match x with
  | String ":" name => Param name
  | _ => Lit x
  end.

(** The segments of a pattern written as in the source, ["/room/:roomId"];
    the pattern ["/"] has none. *)
Definition pattern (p : string) : list Seg :=
  match segments p with
  | Some [""] | None => []
  | Some xs => map seg_of xs
  end.

(** A literal matches up to ASCII case (the [i] flag); a parameter
    matches a non-empty segment ([([^\/]+?)]) and binds it. *)
Fixpoint match_segs (ps : list Seg) (xs : list string) : option (list (string * string)) :=
  match ps, xs with
  | [], [] => Some []
  | Lit l :: ps', x :: xs' => if String.eqb (lower l) (lower x) then match_segs ps' xs' else None
  | Param n :: ps', x :: xs' =>
      if String.eqb x "" then None else (fun b => (n, x) :: b) <$> match_segs ps' xs'
  | _, _ => None
  end.

(** Drop one trailing empty segment: Express's non-strict [\/?$]. *)
Definition strip_slash (xs : list string) : list string :=
  match last xs with
  | Some "" => removelast xs
  | _ => xs
  end.

(** Drop every trailing empty segment: React Router's [\/*$]. *)
Fixpoint strip_slashes (xs : list string) : list string :=
  match xs with
  | [] => []
  | x :: xs' =>
      match strip_slashes xs' with
      | [] => if String.eqb x "" then [] else [x]
      | r => x :: r
      end
  end.

Definition express_match (pat : string) (p : string) : option (list (string * string)) :=
  xs ← segments p; match_segs (pattern pat) (strip_slash xs).

Definition react_match (pat : string) (p : string) : option (list (string * string)) :=
  xs ← segments p; match_segs (pattern pat) (strip_slashes xs).

(** [req.params.name] of a match. *)
Definition param (name : string) (ps : list (string * string)) : string :=
  default "" (snd <$> List.find (fun b => String.eqb (fst b) name) ps).

(** ** Splitting and joining *)

Lemma append_empty_l s : "" +:+ s = s.
Proof. done. Qed.

Lemma split_on_plain c x : has_char c x = false -> split_on c x = [x].
Proof.
  induction x as [|a x IH]; simpl; [done|].
  intros [Ha Hx]%orb_false_iff. by rewrite Ha, IH.
Qed.

Lemma split_on_app c x s :
  has_char c x = false -> split_on c (x +:+ String c s) = x :: split_on c s.
Proof.
  induction x as [|a x IH]; simpl.
  - by rewrite Ascii.eqb_refl.
  - intros [Ha Hx]%orb_false_iff. by rewrite Ha, IH.
Qed.

(** Joining segments that hold no separator and splitting again gives
    them back. *)
Lemma split_join c xs :
  xs <> [] -> Forall (fun x => has_char c x = false) xs -> split_on c (join_on c xs) = xs.
Proof.
  induction xs as [|x [|y xs] IH]; intros Hne Hf; [done| |].
  - inversion Hf. by apply split_on_plain.
  - inversion Hf as [|? ? Hx Hf']. simpl. rewrite split_on_app by done.
    f_equal. by apply IH.
Qed.

Lemma segments_join xs :
  xs <> [] -> Forall (fun x => has_char "/" x = false) xs ->
  segments ("/" +:+ join_on "/" xs) = Some xs.
Proof. intros. simpl. f_equal. by apply split_join. Qed.

(** ** Matching *)

(** A path segment fits a pattern segment: the literal itself, or any
    non-empty segment for a parameter. *)
Definition seg_ok (p : Seg) (x : string) : Prop :=
  match p with Lit l => x = l | Param _ => x <> "" end.

Fixpoint binds (ps : list Seg) (xs : list string) : list (string * string) :=
  match ps, xs with
  | Param n :: ps', x :: xs' => (n, x) :: binds ps' xs'
  | Lit _ :: ps', _ :: xs' => binds ps' xs'
  | _, _ => []
  end.

Lemma match_segs_ok ps xs : Forall2 seg_ok ps xs -> match_segs ps xs = Some (binds ps xs).
Proof.
  induction 1 as [|[l|n] x ps xs Hx _ IH]; simpl in *; [done| |].
  - subst. by rewrite String.eqb_refl, IH.
  - rewrite IH. by destruct (String.eqb_neq x "") as [_ ->].
Qed.

Lemma strip_slash_keep xs : last xs <> Some "" -> strip_slash xs = xs.
Proof. unfold strip_slash. destruct (last xs) as [[|a s]|]; congruence. Qed.

Lemma strip_slashes_keep xs : last xs <> Some "" -> strip_slashes xs = xs.
Proof.
  induction xs as [|x xs IH]; [done|]. intros Hl. simpl.
  destruct xs as [|y xs].
  - simpl. destruct x; [done|reflexivity].
  - rewrite IH by done. done.
Qed.

(** The other direction: splitting and joining again gives the string back. *)
Lemma split_on_cons c s : exists x xs, split_on c s = x :: xs.
Proof.
  destruct s as [|a s]; simpl; [by eexists _, _|].
  destruct (Ascii.eqb a c); by eexists _, _.
Qed.

Lemma join_split c s : join_on c (split_on c s) = s.
Proof.
  induction s as [|a s IH]; [done|]. simpl.
  destruct (split_on_cons c s) as (x & xs & E). rewrite E in IH |- *.
  destruct (Ascii.eqb a c) eqn:Ha.
  - apply Ascii.eqb_eq in Ha as ->. rewrite <- IH. reflexivity.
  - rewrite <- IH. by destruct xs.
Qed.

(** Matching a path reduces to matching its segments when it does not end
    in a slash. *)
Lemma express_match_segs pat p xs :
  segments p = Some xs -> last xs <> Some "" ->
  express_match pat p = match_segs (pattern pat) xs.
Proof. intros E Hl. unfold express_match. rewrite E. simpl. by rewrite strip_slash_keep. Qed.

Lemma react_match_segs pat p xs :
  segments p = Some xs -> last xs <> Some "" ->
  react_match pat p = match_segs (pattern pat) xs.
Proof. intros E Hl. unfold react_match. rewrite E. simpl. by rewrite strip_slashes_keep. Qed.

(** Evaluate the matching of a path whose segments are literals and ids
    known to be non-empty ([String.eqb id "" = false] in context) and to
    hold no slash. *)
Ltac match_path_tac :=
  unfold express_match, react_match, segments; simpl; rewrite ?append_empty_l;
  rewrite ?split_on_app, ?split_on_plain by done; simpl;
  rewrite ?strip_slash_keep, ?strip_slashes_keep by (simpl; congruence); simpl;
  repeat match goal with H : String.eqb _ "" = false |- _ => rewrite H end;
  unfold param; cbn.

End Path.

(** * The server: [src/server/index.js] and the router of [code.js] *)
Module Server.
Import Path Store Routes.

Inductive Method := GET | HEAD | POST | PUT | DELETE | PATCH | OPTIONS.

#[global] Instance Method_eq_dec : EqDecision Method.
Proof. solve_decision. Defined.

(** A request as the handlers see it: [req.method], [req.path], the
    string fields of the JSON body [express.json()] parsed (a missing
    field is [undefined]), and the query fields [GET /rooms] reads. *)
Record Request := mkRequest {
  method : Method;
  path : string;
  body : gmap string string;
  query_page : option Z;
  query_limit : option Z;
  query_search : option string }.

(** What answers a request. *)
Inductive Reply :=
| Api (r : Response)          (** a handler of [code.js] *)
| StaticFile (p : string)     (** [express.static] of [client/build] *)
| IndexHtml                   (** [app.get('*')]: [client/build/index.html] *)
| Preflight                   (** [cors()]: 204 to an [OPTIONS] request *)
| BadRequest                  (** Express's final handler: 400, a parameter failed to decode *)
| NotFound.                   (** Express's final handler: 404 [Cannot METHOD path] *)

Inductive CodeRoute :=
| CreateRoom | GetRoom | PutRoom | ListRooms | DeleteRoom | AddParticipant | RemoveParticipant.

(** The [router.METHOD(path, handler)] registrations of [code.js], in order. *)
Definition code_routes : list (Method * string * CodeRoute) :=
  [(POST, "/room", CreateRoom);
   (GET, "/room/:roomId", GetRoom);
   (PUT, "/room/:roomId", PutRoom);
   (GET, "/rooms", ListRooms);
   (DELETE, "/room/:roomId", DeleteRoom);
   (POST, "/room/:roomId/participant", AddParticipant);
   (DELETE, "/room/:roomId/participant/:userId", RemoveParticipant)].

(** A [get] route also answers [HEAD]. *)
Definition method_ok (route m : Method) : bool :=
  bool_decide (m = route) || bool_decide (route = GET /\ m = HEAD).

(** Express's [decode_param]: [decodeURIComponent] of a non-empty value,
    whose [URIError] becomes a 400 error. *)
Definition decode_param (v : string) : option string :=
  if String.eqb v "" then Some v else Url.decode v.

Arguments decode_param : simpl never.

Lemma decode_param_ok v d : v <> "" -> Url.decode v = Some d -> decode_param v = Some d.
Proof. intros Hv Hd. unfold decode_param. by rewrite (proj2 (String.eqb_neq _ _) Hv). Qed.

Lemma decode_param_error v : Url.decode v = None -> decode_param v = None.
Proof. intros Hd. unfold decode_param. destruct (String.eqb_spec v "") as [->|]; [done|exact Hd]. Qed.

Definition decode_params (ps : list (string * string)) : option (list (string * string)) :=
  mapM (fun b => (fun d => (b.1, d)) <$> decode_param b.2) ps.

Arguments decode_params : simpl never.

(** What the router's loop ([router.handle]'s [next]) ends with: a route
    to run with its decoded parameters, the error of a parameter that
    failed to decode, or no route. *)
Inductive Routed := RouteTo (h : CodeRoute) (ps : list (string * string)) | RouteError | NoRoute.

(** The loop over the registered routes in order: a route whose path
    matches has its parameters decoded (a failure is remembered as the
    error and the loop goes on); the first route whose path matches, whose
    parameters decode and whose method fits runs, unless an error was met
    before, which then reaches the final handler instead. *)
Fixpoint find_route (m : Method) (p : string) (err : bool) (rs : list (Method * string * CodeRoute))
    : Routed :=
  match rs with
  | [] => if err then RouteError else NoRoute
  | (mr, pat, h) :: rs' =>
      match express_match pat p with
      | None => find_route m p err rs'
      | Some raw =>
          match decode_params raw with
          | None => find_route m p true rs'
          | Some ps =>
              if method_ok mr m then (if err then RouteError else RouteTo h ps)
              else find_route m p err rs'
          end
      end
  end.

Lemma find_route_miss m p err mr pat h rs :
  express_match pat p = None -> find_route m p err ((mr, pat, h) :: rs) = find_route m p err rs.
Proof. intros E. cbn [find_route]. by rewrite E. Qed.

Lemma find_route_hit m p mr pat h rs raw ps :
  express_match pat p = Some raw -> decode_params raw = Some ps -> method_ok mr m = true ->
  find_route m p false ((mr, pat, h) :: rs) = RouteTo h ps.
Proof. intros E D M. cbn [find_route]. by rewrite E, D, M. Qed.

Lemma find_route_pass m p err mr pat h rs raw ps :
  express_match pat p = Some raw -> decode_params raw = Some ps -> method_ok mr m = false ->
  find_route m p err ((mr, pat, h) :: rs) = find_route m p err rs.
Proof. intros E D M. cbn [find_route]. by rewrite E, D, M. Qed.

Lemma find_route_bad m p err mr pat h rs raw :
  express_match pat p = Some raw -> decode_params raw = None ->
  find_route m p err ((mr, pat, h) :: rs) = find_route m p true rs.
Proof. intros E D. cbn [find_route]. by rewrite E, D. Qed.

Lemma find_route_hit_err m p mr pat h rs raw ps :
  express_match pat p = Some raw -> decode_params raw = Some ps -> method_ok mr m = true ->
  find_route m p true ((mr, pat, h) :: rs) = RouteError.
Proof. intros E D M. cbn [find_route]. by rewrite E, D, M. Qed.

Lemma find_route_nil m p err : find_route m p err [] = if err then RouteError else NoRoute.
Proof. done. Qed.

(** Decode the parameters of a match with the known values of
    [Url.decode] in context. *)
Ltac decode_tac :=
  unfold decode_params, mapM; cbn;
  repeat match goal with
         | H : Url.decode ?v = Some _ |- _ => rewrite (decode_param_ok v _) by (done || congruence)
         | H : Url.decode ?v = None |- _ => rewrite (decode_param_error v) by done
         end; reflexivity.

(** Run the router's loop over [code_routes] one route at a time. *)
Ltac route_tac :=
  unfold code_routes;
  repeat first
    [ rewrite find_route_miss by (match_path_tac; reflexivity)
    | erewrite find_route_hit by first [match_path_tac; reflexivity | decode_tac | reflexivity]
    | erewrite find_route_hit_err by first [match_path_tac; reflexivity | decode_tac | reflexivity]
    | erewrite find_route_pass by first [match_path_tac; reflexivity | decode_tac | reflexivity]
    | erewrite find_route_bad by first [match_path_tac; reflexivity | decode_tac] ];
  rewrite ?find_route_nil.

Fixpoint strip_prefix (pre xs : list string) : option (list string) :=
  match pre, xs with
  | [], rest => Some rest
  | l :: pre', x :: xs' => if String.eqb (lower l) (lower x) then strip_prefix pre' xs' else None
  | _ :: _, [] => None
  end.

(** [app.use('/api/code', router)]: a path under the mount point (up to
    case, at a segment boundary) reaches the router with the prefix cut off
    and a leading slash. *)
Definition mount (pre : list string) (p : string) : option string :=
  xs ← segments p; rest ← strip_prefix pre xs; Some ("/" +:+ join_on "/" rest).

Section Serve.
(** The [uuidv4()] of [POST /room], the clock, the regular-expression
    engine of [GET /rooms], and the files of [client/build]. *)
Variable uuid : string.
Variable now : Z.
Variable rx : string -> option (string -> bool).
Variable static_file : string -> bool.

(** The handler of a route, reading [req.params] and [req.body]. *)
Definition run_route (h : CodeRoute) (ps : list (string * string)) (req : Request) (db : Db)
    : Response * Db :=
  let b := body req in
  match h with
  | CreateRoom => create_room uuid (b !! "title") (b !! "description") (b !! "language")
                    (b !! "createdBy") now db
  | GetRoom => (get_room (param "roomId" ps) db, db)
  | PutRoom => put_room (param "roomId" ps) (b !! "code") (b !! "language") (b !! "title")
                 (b !! "description") now db
  | ListRooms => (list_rooms rx (query_page req) (query_limit req) (query_search req) db, db)
  | DeleteRoom => delete_room (param "roomId" ps) db
  | AddParticipant => add_participant (param "roomId" ps) (b !! "userId") (b !! "username") now db
  | RemoveParticipant => remove_participant (param "roomId" ps) (param "userId" ps) now db
  end.

(** [res.status(..).json(..)] of a handler. *)
Definition api (x : Response * Db) : Reply * Db := (Api (fst x), snd x).

(** The middleware chain of [index.js] in order: [helmet()] and
    [compression()] only set headers; [cors()] ends an [OPTIONS] preflight;
    [express.json()] parses the body; [express.static] serves a file of the
    build to [GET]/[HEAD]; the [/api/code] router; the [*] fallback sends
    [index.html] to [GET]/[HEAD]; anything else is Express's 404. *)
Definition serve (req : Request) (db : Db) : Reply * Db :=
  if bool_decide (method req = OPTIONS) then (Preflight, db)
  else if method_ok GET (method req) && static_file (path req) then (StaticFile (path req), db)
  else
    match mount ["api"; "code"] (path req) with
    | Some p =>
        match find_route (method req) p false code_routes with
        | RouteTo h ps => api (run_route h ps req db)
        | RouteError => (BadRequest, db)
        | NoRoute => if method_ok GET (method req) then (IndexHtml, db) else (NotFound, db)
        end
    | None => if method_ok GET (method req) then (IndexHtml, db) else (NotFound, db)
    end.

End Serve.

(** ** The API under [/api/code] *)

(** A request under [/api/code] that is not a preflight and names no file
    of the build reaches the router of [code.js] with the prefix cut off;
    when no route matches, a [GET] falls through to [index.html]. *)
Lemma serve_api uuid now rx static_file req db s :
  method req <> OPTIONS -> static_file (path req) = false -> path req = "/api/code/" +:+ s ->
  serve uuid now rx static_file req db =
    match find_route (method req) ("/" +:+ s) false code_routes with
    | RouteTo h ps => api (run_route uuid now rx h ps req db)
    | RouteError => (BadRequest, db)
    | NoRoute => if method_ok GET (method req) then (IndexHtml, db) else (NotFound, db)
    end.
Proof.
  intros Hm Hs Hp. unfold serve. rewrite bool_decide_false by done. rewrite Hs, andb_false_r, Hp.
  unfold mount. simpl. by rewrite join_split.
Qed.

(** C21: the spec's HTTP API table (section 5) is what [index.js] serves:
    each of the seven endpoints, written at its path under [/api/code] with
    non-empty ids holding no slash, reaches the handler of [code.js]
    registered for it, called with the path's ids percent-decoded (as
    Express decodes [req.params]) and the body's fields, provided the ids
    decode and the build holds no file under [/api]. *)
Theorem serve_api_table uuid now rx static_file db b pg lim se rid uid drid duid :
  (forall s, static_file ("/api/" +:+ s) = false) ->
  rid <> "" -> has_char "/" rid = false -> uid <> "" -> has_char "/" uid = false ->
  Url.decode rid = Some drid -> Url.decode uid = Some duid ->
  let serve' m p := serve uuid now rx static_file (mkRequest m p b pg lim se) db in
  serve' POST "/api/code/room" =
    api (create_room uuid (b !! "title") (b !! "description") (b !! "language")
           (b !! "createdBy") now db) /\
  serve' GET ("/api/code/room/" +:+ rid) = (Api (get_room drid db), db) /\
  serve' PUT ("/api/code/room/" +:+ rid) =
    api (put_room drid (b !! "code") (b !! "language") (b !! "title") (b !! "description") now db) /\
  serve' GET "/api/code/rooms" = (Api (list_rooms rx pg lim se db), db) /\
  serve' DELETE ("/api/code/room/" +:+ rid) = api (delete_room drid db) /\
  serve' POST ("/api/code/room/" +:+ rid +:+ "/participant") =
    api (add_participant drid (b !! "userId") (b !! "username") now db) /\
  serve' DELETE ("/api/code/room/" +:+ rid +:+ "/participant/" +:+ uid) =
    api (remove_participant drid duid now db).
Proof.
  intros Hst Hr Hrs Hu Hus Hdr Hdu serve'. subst serve'.
  pose proof (proj2 (String.eqb_neq _ _) Hr) as Er. pose proof (proj2 (String.eqb_neq _ _) Hu) as Eu.
  change ("/participant/" +:+ uid) with (String "/" ("participant" +:+ String "/" uid)).
  repeat split; (erewrite serve_api; [|done|simpl; apply Hst|reflexivity]); cbn -[find_route];
    route_tac; reflexivity.
Qed.

Example serve_api_table_witness :
  (forall s, (fun _ : string => false) ("/api/" +:+ s) = false) /\ "r%201" <> "" /\
  has_char "/" "r%201" = false /\ Url.decode "r%201" = Some "r 1" /\
  serve "u" 0 literal_rx (fun _ => false) (mkRequest GET "/api/code/room/r%201" ∅ None None None)
    (mkDb [] true) = (Api (get_room "r 1" (mkDb [] true)), mkDb [] true).
Proof.
  destruct (serve_api_table "u" 0 literal_rx (fun _ => false) (mkDb [] true) ∅ None None None
              "r%201" "u1" "r 1" "u1") as (_ & HG & _); [done | done | done | done | done | reflexivity | reflexivity |].
  split; [done|]. split; [done|]. split; [done|]. split; [reflexivity|]. exact HG.
Defined.

(** C22: a room id that [decodeURIComponent] rejects (a [%] not followed
    by two hexadecimal digits, or escapes that are not UTF-8) makes every
    request to a room's path under [/api/code] answer 400 and leaves the
    store as it was: Express decodes the parameters of each route whose
    path matches before it looks at the method, and the error reaches the
    final handler.  So even a [PATCH], which no route registers, gets 400,
    not 404. *)
Theorem serve_bad_param uuid now rx static_file db b pg lim se rid uid :
  (forall s, static_file ("/api/" +:+ s) = false) ->
  rid <> "" -> has_char "/" rid = false -> Url.decode rid = None ->
  uid <> "" -> has_char "/" uid = false ->
  let serve' m p := serve uuid now rx static_file (mkRequest m p b pg lim se) db in
  serve' GET ("/api/code/room/" +:+ rid) = (BadRequest, db) /\
  serve' PUT ("/api/code/room/" +:+ rid) = (BadRequest, db) /\
  serve' DELETE ("/api/code/room/" +:+ rid) = (BadRequest, db) /\
  serve' PATCH ("/api/code/room/" +:+ rid) = (BadRequest, db) /\
  serve' POST ("/api/code/room/" +:+ rid +:+ "/participant") = (BadRequest, db) /\
  serve' DELETE ("/api/code/room/" +:+ rid +:+ "/participant/" +:+ uid) = (BadRequest, db).
Proof.
  intros Hst Hr Hrs Hd Hu Hus serve'. subst serve'.
  pose proof (proj2 (String.eqb_neq _ _) Hr) as Er. pose proof (proj2 (String.eqb_neq _ _) Hu) as Eu.
  change ("/participant/" +:+ uid) with (String "/" ("participant" +:+ String "/" uid)).
  repeat split; (erewrite serve_api; [|done|simpl; apply Hst|reflexivity]); cbn -[find_route];
    route_tac; reflexivity.
Qed.

Example serve_bad_param_witness :
  ((forall s, (fun _ : string => false) ("/api/" +:+ s) = false) /\ "%ZZ" <> "" /\
   has_char "/" "%ZZ" = false /\ Url.decode "%ZZ" = None /\ "u1" <> "" /\ has_char "/" "u1" = false) /\
  serve "u" 0 literal_rx (fun _ => false) (mkRequest PATCH "/api/code/room/%ZZ" ∅ None None None)
    (mkDb [] true) = (BadRequest, mkDb [] true).
Proof.
  split; [split_and!; done || reflexivity|].
  destruct (serve_bad_param "u" 0 literal_rx (fun _ => false) (mkDb [] true) ∅ None None None "%ZZ" "u1")
    as (_ & _ & _ & HP & _); [done | done | done | reflexivity | done | done | exact HP].
Defined.

End Server.

(** * The client: the route table of [src/client/src/App.js] *)
Module Client.
Import Path.

Inductive Page := HomePage | EditorPage (roomId : string).

(** [<Route path="/" element={<Home />} />] and
    [<Route path="/editor/:roomId" element={<Editor />} />]; React Router
    hands the page the parameter decoded, or raw when it does not decode. *)
Definition app_routes : list (string * (list (string * string) -> Page)) :=
  [("/", fun _ => HomePage);
   ("/editor/:roomId", fun ps => EditorPage (Url.safe_decode (param "roomId" ps)))].

Fixpoint first_match (p : string) (rs : list (string * (list (string * string) -> Page)))
    : option Page :=
  match rs with
  | [] => None
  | (pat, el) :: rs' =>
      match react_match pat p with
      | Some ps => Some (el ps)
      | None => first_match p rs'
      end
  end.

(** The page [App] renders at a location; [None]: no route matches and
    [<Routes>] renders nothing.  The two patterns never match the same
    path, so React Router's ranking of routes reduces to their order. *)
Definition App (p : string) : option Page := first_match p app_routes.

(** [navigate(to)]: the location's pathname is [to] up to its first [?] or
    [#] ([parsePath]), and [App] renders the page of that pathname. *)
Definition navigate_page (to : string) : option Page := App (Url.pathname to).

(** No path matches both routes, so their order does not matter. *)
Lemma app_routes_disjoint p ps : react_match "/" p = Some ps -> react_match "/editor/:roomId" p = None.
Proof.
  unfold react_match. destruct (segments p) as [xs|]; [|done]. simpl.
  by destruct (strip_slashes xs).
Qed.

(** ** The pages Home navigates to *)
Import Server Home.











(** Home does not encode the id it navigates to: a typed id holding [?]
    or [#] is cut there, and an escape in it is decoded, so the editor
    opens another room. *)
Lemma navigate_mangles_ids :
  navigate_page "/editor/ab?c" = Some (EditorPage "ab") /\
  navigate_page "/editor/ab#c" = Some (EditorPage "ab") /\
  navigate_page "/editor/a%41" = Some (EditorPage "aA") /\
  navigate_page "/editor/a%zz" = Some (EditorPage "a%zz").
Proof. vm_compute. auto. Qed.

(** A [GET] under [/api/code] that no route of [code.js] matches, such as
    [/api/code/room/] with an empty id, is answered with the client's
    [index.html] and status 200, not a 404. *)
Lemma serve_api_unmatched_get uuid now rx static_file b pg lim se db :
  static_file "/api/code/room/" = false ->
  serve uuid now rx static_file (mkRequest GET "/api/code/room/" b pg lim se) db = (IndexHtml, db).
Proof. intros Hs. unfold serve. simpl. by rewrite Hs. Qed.

(** ** The sidebar's save, sent to the server *)
Import Sidebar.

(** [axios.put(url, data)] from the editor page: the request reaches the
    server with the path of [url] (the query apart, the fragment not sent)
    and [data] as its JSON body; its answer is not read.  Characters the
    browser percent-encodes in a path (spaces, quotes, bytes above 127) are
    decoded back by Express, and it leaves [%], [/], [?] and [#] as they
    are, so the path is taken as written. *)
Definition axios_put (uuid : string) (rx : string -> option (string -> bool)) (static_file : string -> bool)
    (url : string) (b : gmap string string) (now : Z) (db : Store.Db) : Store.Db :=
  snd (serve uuid now rx static_file (mkRequest PUT (Url.pathname url) b None None None) db).




(** The URL of the save is not encoded: for a stored room whose id holds
    [/] the [PUT] matches no route and the store is unchanged; for an id
    holding [?] the path is cut there and the title is written to
    another room. *)
Definition slash_db : Store.Db :=
  Store.mkDb [Store.new_room "a/b" None None None None 1; Store.new_room "ab" None None None None 1;
              Store.new_room "ab?c" None None None None 1] true.

Definition stored_title (rid : string) (db : Store.Db) : option string :=
  match Store.find_one rid db with Ok (Some r) => Some (Store.title r) | _ => None end.

Lemma sidebar_save_mangled_ids :
  let save rid := handleSaveRoomInfo (axios_put "u" Routes.literal_rx (fun _ => false))
                    (Some (Store.new_room rid None None None None 1)) 9 slash_db (mkSidebar "T" "D" true) in
  (save "a/b").2 = slash_db /\
  stored_title "ab" (save "ab?c").2 = Some "T" /\ stored_title "ab?c" (save "ab?c").2 = Some "Untitled".
Proof. vm_compute. auto. Qed.

End Client.
