(* ===== verification/Panels.v ===== *)
(** * The participant list: [Participants.js]

    Module [Participants] models the two status functions of the
    participant list ([src/client/src/components/Participants.js], lines
    5-24): the colour of a participant's status dot and the text under
    its name, both functions of the time elapsed since it joined, in
    milliseconds ([new Date() - new Date(joinedAt)]).  The theorems: the
    text's bands (just joined, minutes, hours) and that the colour, which
    the code computes from the unrounded minutes, is the one the rounded
    minute count of the text gives.

    [render] is the panel for the participant list the server sends
    ([Handler.LiveParticipant]): the header count, the empty state, and
    one row per participant keyed by its id; with
    [ParticipantIds.reachable_ids_ok], every list the server sends renders
    with distinct keys ([render_sent_keys]). *)

From S2P Require Import Prelude Handler EventLoop ParticipantIds.

Module Participants.

Definition green : string := "text-green-500".
Definition yellow : string := "text-yellow-500".
Definition gray : string := "text-gray-400".

(** [getStatusColor], lines 5-13: [diffMinutes] is the real quotient
    [(now - joined) / 60000], so [diffMinutes < k] is [now - joined <
    k * 60000]. *)
Definition getStatusColor (now joinedAt : Z) : string :=
  let diff := (now - joinedAt)%Z in
  if Z.ltb diff (5 * 60000) then green
  else if Z.ltb diff (15 * 60000) then yellow
  else gray.

(** [getStatusText], lines 15-24: [Math.floor] is [Z.div] (it rounds
    toward minus infinity, as [Z.div] does). *)
Definition getStatusText (now joinedAt : Z) : string :=
  let diffMinutes := Z.div (now - joinedAt) 60000 in
  if Z.ltb diffMinutes 1 then "Just joined"
  else if Z.ltb diffMinutes 60 then pretty diffMinutes +:+ "m ago"
  else pretty (Z.div diffMinutes 60) +:+ "h ago".

(** Comparing the rounded minutes with a whole number is comparing the
    milliseconds with its multiple. *)
Lemma div_minute_ltb d k : Z.ltb (Z.div d 60000) k = Z.ltb d (k * 60000).
Proof.
  pose proof (Z.div_mod d 60000 ltac:(lia)). pose proof (Z.mod_pos_bound d 60000 ltac:(lia)).
  destruct (Z.ltb_spec (d / 60000) k), (Z.ltb_spec d (k * 60000)); lia.
Qed.

(** C35: the status text of a participant who joined [d] milliseconds
    ago: [Just joined] under a minute; [<m>m ago] with [m] the whole
    minutes, between 1 and 59, under an hour; [<h>h ago] with [h] the
    whole hours, at least 1, after. *)
Theorem status_text_bands now j :
  let d := (now - j)%Z in
  ((d < 60000)%Z -> getStatusText now j = "Just joined") /\
  ((60000 <= d < 3600000)%Z ->
     (1 <= d / 60000 <= 59)%Z /\ getStatusText now j = pretty (d / 60000)%Z +:+ "m ago") /\
  ((3600000 <= d)%Z -> (1 <= d / 3600000)%Z /\ getStatusText now j = pretty (d / 3600000)%Z +:+ "h ago").
Proof.
  cbv zeta. unfold getStatusText. rewrite !div_minute_ltb.
  set (d := (now - j)%Z).
  pose proof (Z.div_mod d 60000 ltac:(lia)). pose proof (Z.mod_pos_bound d 60000 ltac:(lia)).
  pose proof (Z.div_mod d 3600000 ltac:(lia)). pose proof (Z.mod_pos_bound d 3600000 ltac:(lia)).
  rewrite Z.div_div by lia. simpl (60000 * 60)%Z.
  split_and!; intros Hd;
    destruct (Z.ltb_spec d (1 * 60000)), (Z.ltb_spec d (60 * 60000)); try lia; split; try done; lia.
Qed.

(** The colour of the status dot, which the code computes from the
    unrounded minutes, is the one the whole minutes shown by the text
    give: green under 5, yellow under 15, gray after. *)
Theorem status_color_minutes now j :
  getStatusColor now j =
    (let m := ((now - j) / 60000)%Z in
     if Z.ltb m 5 then green else if Z.ltb m 15 then yellow else gray).
Proof. cbv zeta. unfold getStatusColor. by rewrite !div_minute_ltb. Qed.

(** [s.charAt(0).toUpperCase()] on ASCII. *)
Definition upper_ascii (c : ascii) : ascii :=
  let n := nat_of_ascii c in
  if (97 <=? n) && (n <=? 122) then ascii_of_nat (n - 32) else c.

Definition initial_upper (s : string) : string :=
  match s with
  | EmptyString => EmptyString
  | String c _ => String (upper_ascii c) EmptyString
  end.

(** A row of the list (lines 52-81): its [key], avatar letter, status dot
    colour, name, status text and the id shortened to eight characters. *)
Record Row := mkRow {
  r_key : string; r_avatar : string; r_color : string; r_username : string; r_status : string;
  r_short_id : string }.

Definition row (now : Z) (p : Handler.LiveParticipant) : Row :=
  mkRow (Handler.lp_id p) (initial_upper (Handler.lp_username p))
    (getStatusColor now (Handler.lp_joinedAt p)) (Handler.lp_username p)
    (getStatusText now (Handler.lp_joinedAt p)) (String.substring 0 8 (Handler.lp_id p) +:+ "...").

Inductive PanelBody := NoParticipants | Rows (rows : list Row).

(** The panel (lines 26-96) for the [participants] prop, which is the
    list the server sends in [room-joined] and [user-joined]: the header
    count, then the empty-state text or one row per participant. *)
Definition render (now : Z) (ps : list Handler.LiveParticipant) : string * PanelBody :=
  ("Participants (" +:+ pretty (length ps) +:+ ")",
   if Nat.eqb (length ps) 0 then NoParticipants else Rows (map (row now) ps)).

(** Every participant list the server has sent, in any reachable state,
    renders as the empty state when it is empty and otherwise as rows
    whose React keys ([participant.id]) are distinct. *)
Lemma render_sent_keys db w sid ev now :
  EventLoop.reachable db w -> (sid, ev) ∈ Handler.w_out w ->
  match (render now (ParticipantIds.ev_participants ev)).2 with
  | NoParticipants => ParticipantIds.ev_participants ev = []
  | Rows rows => NoDup (map r_key rows)
  end.
Proof.
  intros Hr Hin. pose proof (ParticipantIds.io_out w (ParticipantIds.reachable_ids_ok db w Hr) sid ev Hin) as Hnd.
  unfold ParticipantIds.ev_ok in Hnd. unfold render. cbn [snd].
  destruct (ParticipantIds.ev_participants ev) as [|p ps]; [done|].
  cbn [length Nat.eqb]. rewrite map_map. exact Hnd.
Qed.

End Participants.
