(* ===== verification/Editor.v ===== *)
(** * The standalone editor page: [src/client/src/components/Editor.js]

    Module [Editor] models the standalone editor page
    ([src/client/src/components/Editor.js]): its state hooks with their
    hard-coded initial values (lines 5-29), the overlay panel toggled by
    the sidebar buttons and closed by a click outside, the code textarea,
    the local chat list, to which [sendMessage] appends a message numbered
    [messages.length + 1], and what the page renders (lines 309-496).
    Module [Styles] holds the [styles] object (lines 72-307) as data;
    the inline styles that depend on the state are computed as the markup
    does, by object spread ([spread]: the later object's keys win, the
    earlier object's order is kept).
    The theorems: the message ids are always [1 .. n]; the member list
    never changes, so the members button always reads [Members (2)];
    reading a property of a spread ([style_get_spread]); each overlay
    panel is slid in and its button highlighted exactly when it is the
    active overlay, and never both panels ([overlay_styles]). *)

From S2P Require Import Prelude.

Module Editor.

(** A member of the hard-coded list (lines 6-10). *)
Record DemoParticipant := mkDemoParticipant {
  dp_id : nat; dp_name : string; dp_avatar : string; dp_activity : string; dp_online : bool;
  dp_color : string }.

(** A message of the local chat list (lines 12-15 and 42-48). *)
Record DemoMessage := mkDemoMessage {
  dm_id : nat; dm_name : string; dm_avatar : string; dm_time : string; dm_content : string }.

(** The page's state hooks (lines 5-29). *)
Record EditorState := mkEditor {
  activeOverlay : option string; participants : list DemoParticipant; messages : list DemoMessage;
  newMessage : string; code : string }.

Definition set_overlay s o := mkEditor o (participants s) (messages s) (newMessage s) (code s).
Definition set_newMessage s v := mkEditor (activeOverlay s) (participants s) (messages s) v (code s).
Definition set_code s v := mkEditor (activeOverlay s) (participants s) (messages s) (newMessage s) v.

Definition initial_participants : list DemoParticipant :=
  [mkDemoParticipant 1 "Akshada (You)" "A" "Editing line 8" true "#4285f4";
   mkDemoParticipant 2 "Guest_User" "G" "Viewing code" true "#ea4335";
   mkDemoParticipant 3 "John Doe" "J" "Offline • 5 min ago" false "#9c27b0"].

(** The two messages the page starts with (lines 12-15). *)
Definition initial_messages : list DemoMessage :=
  [mkDemoMessage 1 "Akshada" "A" "2:30 PM" "Let's work on this Java program together!";
   mkDemoMessage 2 "Guest_User" "G" "2:32 PM" "Great! The syntax looks correct."].

(** The template literal of lines 18-29. *)
Definition initial_code : string :=
  unlines
    ["class Addition {";
     "    public static void main(String[] args) {";
     "        System.out.println(" +:+ quoted "Hello, My name is Akshada" +:+ ");";
     "        ";
     "        // Let's add some more functionality";
     "        int a = 10;";
     "        int b = 20;";
     "        int sum = a + b;";
     "        ";
     "        System.out.println(" +:+ quoted "Sum of " +:+ " + a + " +:+ quoted " and " +:+
       " + b + " +:+ quoted " is: " +:+ " + sum);";
     "    }";
     "}"].

Definition initial : EditorState := mkEditor None initial_participants initial_messages "" initial_code.

(** [toggleOverlay], lines 31-33. *)
Definition toggleOverlay (type : string) (s : EditorState) : EditorState :=
  set_overlay s (if bool_decide (activeOverlay s = Some type) then None else Some type).

(** [closeOverlay], lines 35-37. *)
Definition closeOverlay (s : EditorState) : EditorState := set_overlay s None.

(** [sendMessage], lines 39-52, at the local time [time]: the guard
    trims, the content does not. *)
Definition sendMessage (time : string) (s : EditorState) : EditorState :=
  if String.eqb (trim (newMessage s)) "" then s
  else mkEditor (activeOverlay s) (participants s)
         (messages s ++ [mkDemoMessage (length (messages s) + 1) "Akshada (You)" "A" time (newMessage s)])
         "" (code s).

(** [handleKeyPress], lines 54-58. *)
Definition handleKeyPress (key time : string) (s : EditorState) : EditorState :=
  if String.eqb key "Enter" then sendMessage time s else s.

(** [handleClickOutside], lines 62-66: a click that is neither in the
    panel nor on a sidebar button closes an open panel. *)
Definition handleClickOutside (inPanel onButton : bool) (s : EditorState) : EditorState :=
  if bool_decide (activeOverlay s <> None) && negb inPanel && negb onButton then closeOverlay s else s.

(** The handlers the markup wires (lines 332, 342, 352, 370, 445, 479,
    480, 486) and the document listener. *)
Inductive EditorEvent :=
| Toggle (type : string)
| Close
| Input (value : string)
| CodeInput (value : string)
| KeyPress (key time : string)
| ClickSend (time : string)
| ClickOutside (inPanel onButton : bool).

Definition editor_step (e : EditorEvent) (s : EditorState) : EditorState :=
  match e with
  | Toggle t => toggleOverlay t s
  | Close => closeOverlay s
  | Input v => set_newMessage s v
  | CodeInput v => set_code s v
  | KeyPress k t => handleKeyPress k t s
  | ClickSend t => sendMessage t s
  | ClickOutside p b => handleClickOutside p b s
  end.

Definition editor_run (es : list EditorEvent) (s : EditorState) : EditorState :=
  foldl (fun s e => editor_step e s) s es.

(** An inline style object: its properties in order; a value is a
    string, a number or a nested object. *)
Inductive StyleVal := SStr (s : string) | SNum (n : Z) | SObj (props : list (string * StyleVal)).

Definition Style : Type := list (string * StyleVal).

Fixpoint style_get (k : string) (s : Style) : option StyleVal :=
  match s with
  | [] => None
  | (k', v) :: s' => if String.eqb k' k then Some v else style_get k s'
  end.

(** [{...a, ...b}]: the properties of [a] in order, those [b] also has
    taking [b]'s value, then the properties of [b] that [a] lacks. *)
Definition spread (a b : Style) : Style :=
  map (fun p => (p.1, default p.2 (style_get p.1 b))) a ++
  List.filter (fun p => negb (bool_decide (is_Some (style_get p.1 a)))) b.

(** The [styles] object, lines 72-307. *)
Module Styles.

(** [styles.collaborativeEditor], lines 73-80. *)
Definition collaborativeEditor : Style :=
  [("height", SStr "100vh");
   ("display", SStr "flex");
   ("flexDirection", SStr "column");
   ("background", SStr "#1e1e1e");
   ("color", SStr "#cccccc");
   ("fontFamily", SStr ("-apple-system, BlinkMacSystemFont, " +:+ quoted "Segoe UI" +:+ ", Roboto, sans-serif"))].

(** [styles.header], lines 81-89. *)
Definition header : Style :=
  [("background", SStr "#2d2d2d");
   ("padding", SStr "8px 16px");
   ("display", SStr "flex");
   ("justifyContent", SStr "space-between");
   ("alignItems", SStr "center");
   ("borderBottom", SStr "1px solid #404040");
   ("minHeight", SStr "35px")].

(** [styles.logo], lines 90-96. *)
Definition logo : Style :=
  [("display", SStr "flex");
   ("alignItems", SStr "center");
   ("gap", SStr "6px");
   ("fontSize", SStr "14px");
   ("fontWeight", SStr "500")].

(** [styles.statusBadge], lines 97-103. *)
Definition statusBadge : Style :=
  [("background", SStr "#0d7377");
   ("padding", SStr "2px 8px");
   ("borderRadius", SStr "8px");
   ("fontSize", SStr "11px");
   ("color", SStr "white")].

(** [styles.editorContainer], lines 104-109. *)
Definition editorContainer : Style :=
  [("flex", SNum 1);
   ("display", SStr "flex");
   ("flexDirection", SStr "column");
   ("position", SStr "relative")].

(** [styles.sidebarButtons], lines 110-117. *)
Definition sidebarButtons : Style :=
  [("position", SStr "absolute");
   ("top", SStr "10px");
   ("right", SStr "10px");
   ("display", SStr "flex");
   ("gap", SStr "8px");
   ("zIndex", SNum 100)].

(** [styles.sidebarButton], lines 118-130. *)
Definition sidebarButton : Style :=
  [("padding", SStr "8px 12px");
   ("background", SStr "#2d2d2d");
   ("border", SStr "1px solid #404040");
   ("borderRadius", SStr "6px");
   ("color", SStr "#cccccc");
   ("cursor", SStr "pointer");
   ("fontSize", SStr "12px");
   ("display", SStr "flex");
   ("alignItems", SStr "center");
   ("gap", SStr "6px");
   ("transition", SStr "all 0.2s ease")].

(** [styles.sidebarButtonActive], lines 131-135. *)
Definition sidebarButtonActive : Style :=
  [("background", SStr "#4285f4");
   ("borderColor", SStr "#4285f4");
   ("color", SStr "white")].

(** [styles.codeEditor], lines 136-148. *)
Definition codeEditor : Style :=
  [("flex", SNum 1);
   ("background", SStr "#1e1e1e");
   ("color", SStr "#d4d4d4");
   ("fontFamily", SStr ("Monaco, Menlo, " +:+ quoted "Ubuntu Mono" +:+ ", monospace"));
   ("fontSize", SStr "13px");
   ("lineHeight", SStr "1.6");
   ("padding", SStr "50px 16px 16px 16px");
   ("border", SStr "none");
   ("outline", SStr "none");
   ("resize", SStr "none");
   ("whiteSpace", SStr "pre")].

(** [styles.overlayPanel], lines 149-162. *)
Definition overlayPanel : Style :=
  [("position", SStr "fixed");
   ("top", SNum 0);
   ("right", SNum 0);
   ("width", SStr "50%");
   ("height", SStr "100vh");
   ("background", SStr "#252526");
   ("borderLeft", SStr "1px solid #404040");
   ("display", SStr "flex");
   ("flexDirection", SStr "column");
   ("zIndex", SNum 200);
   ("transform", SStr "translateX(100%)");
   ("transition", SStr "transform 0.3s ease")].

(** [styles.overlayPanelActive], lines 163-165. *)
Definition overlayPanelActive : Style :=
  [("transform", SStr "translateX(0)")].

(** [styles.overlayHeader], lines 166-173. *)
Definition overlayHeader : Style :=
  [("padding", SStr "12px 16px");
   ("background", SStr "#2d2d2d");
   ("borderBottom", SStr "1px solid #404040");
   ("display", SStr "flex");
   ("justifyContent", SStr "space-between");
   ("alignItems", SStr "center")].

(** [styles.overlayTitle], lines 174-178. *)
Definition overlayTitle : Style :=
  [("fontSize", SStr "14px");
   ("fontWeight", SStr "500");
   ("color", SStr "#fff")].

(** [styles.closeButton], lines 179-188. *)
Definition closeButton : Style :=
  [("background", SStr "none");
   ("border", SStr "none");
   ("color", SStr "#888");
   ("cursor", SStr "pointer");
   ("fontSize", SStr "18px");
   ("padding", SStr "4px");
   ("borderRadius", SStr "3px");
   ("transition", SStr "color 0.2s ease")].

(** [styles.participantsList], lines 189-193. *)
Definition participantsList : Style :=
  [("flex", SNum 1);
   ("padding", SStr "8px");
   ("overflowY", SStr "auto")].

(** [styles.participant], lines 194-202. *)
Definition participant : Style :=
  [("display", SStr "flex");
   ("alignItems", SStr "center");
   ("gap", SStr "10px");
   ("padding", SStr "8px 12px");
   ("marginBottom", SStr "4px");
   ("borderRadius", SStr "6px");
   ("transition", SStr "background 0.2s ease")].

(** [styles.participantAvatar], lines 203-214. *)
Definition participantAvatar : Style :=
  [("width", SStr "28px");
   ("height", SStr "28px");
   ("borderRadius", SStr "50%");
   ("display", SStr "flex");
   ("alignItems", SStr "center");
   ("justifyContent", SStr "center");
   ("fontWeight", SStr "bold");
   ("color", SStr "white");
   ("fontSize", SStr "12px");
   ("position", SStr "relative")].

(** [styles.participantInfo], lines 215-217. *)
Definition participantInfo : Style :=
  [("flex", SNum 1)].

(** [styles.participantName], lines 218-222. *)
Definition participantName : Style :=
  [("fontSize", SStr "13px");
   ("fontWeight", SStr "500");
   ("marginBottom", SStr "2px")].

(** [styles.participantActivity], lines 223-226. *)
Definition participantActivity : Style :=
  [("fontSize", SStr "11px");
   ("color", SStr "#888")].

(** [styles.chatMessages], lines 227-234. *)
Definition chatMessages : Style :=
  [("flex", SNum 1);
   ("padding", SStr "8px 12px");
   ("overflowY", SStr "auto");
   ("display", SStr "flex");
   ("flexDirection", SStr "column");
   ("gap", SStr "12px")].

(** [styles.chatMessage], lines 235-239. *)
Definition chatMessage : Style :=
  [("display", SStr "flex");
   ("flexDirection", SStr "column");
   ("gap", SStr "4px")].

(** [styles.messageHeader], lines 240-244. *)
Definition messageHeader : Style :=
  [("display", SStr "flex");
   ("alignItems", SStr "center");
   ("gap", SStr "8px")].

(** [styles.messageAvatar], lines 245-255. *)
Definition messageAvatar : Style :=
  [("width", SStr "20px");
   ("height", SStr "20px");
   ("borderRadius", SStr "50%");
   ("display", SStr "flex");
   ("alignItems", SStr "center");
   ("justifyContent", SStr "center");
   ("fontWeight", SStr "bold");
   ("color", SStr "white");
   ("fontSize", SStr "10px")].

(** [styles.messageName], lines 256-259. *)
Definition messageName : Style :=
  [("fontSize", SStr "12px");
   ("fontWeight", SStr "500")].

(** [styles.messageTime], lines 260-263. *)
Definition messageTime : Style :=
  [("fontSize", SStr "10px");
   ("color", SStr "#888")].

(** [styles.messageContent], lines 264-272. *)
Definition messageContent : Style :=
  [("marginLeft", SStr "28px");
   ("fontSize", SStr "12px");
   ("lineHeight", SStr "1.4");
   ("background", SStr "#2d2d2d");
   ("padding", SStr "6px 10px");
   ("borderRadius", SStr "8px");
   ("borderLeft", SStr "3px solid #4285f4")].

(** [styles.chatInputContainer], lines 273-277. *)
Definition chatInputContainer : Style :=
  [("borderTop", SStr "1px solid #404040");
   ("padding", SStr "12px");
   ("background", SStr "#2d2d2d")].

(** [styles.chatInputWrapper], lines 278-282. *)
Definition chatInputWrapper : Style :=
  [("display", SStr "flex");
   ("gap", SStr "8px");
   ("alignItems", SStr "center")].

(** [styles.chatInput], lines 283-292. *)
Definition chatInput : Style :=
  [("flex", SNum 1);
   ("background", SStr "#1e1e1e");
   ("border", SStr "1px solid #555");
   ("borderRadius", SStr "16px");
   ("padding", SStr "6px 12px");
   ("color", SStr "#fff");
   ("fontSize", SStr "12px");
   ("outline", SStr "none")].

(** [styles.sendButton], lines 293-306. *)
Definition sendButton : Style :=
  [("background", SStr "#4285f4");
   ("border", SStr "none");
   ("borderRadius", SStr "50%");
   ("width", SStr "28px");
   ("height", SStr "28px");
   ("color", SStr "white");
   ("cursor", SStr "pointer");
   ("display", SStr "flex");
   ("alignItems", SStr "center");
   ("justifyContent", SStr "center");
   ("fontSize", SStr "14px");
   ("transition", SStr "background 0.2s ease")].

End Styles.
(** What the page shows (lines 309-496), styles aside: the members button
    with the count of online participants and the active style of each
    button, which overlay panel has the active style, the rows of the
    member list and of the chat, the code and the chat input. *)
Record EditorView := mkView {
  v_members_label : string; v_members_active : bool; v_chat_active : bool;
  v_participants_open : bool; v_chat_open : bool;
  v_participant_rows : list (string * string * string * bool);
  v_message_rows : list (string * string * string * string);
  v_code : string; v_input : string }.

Definition render (s : EditorState) : EditorView :=
  let active o := bool_decide (activeOverlay s = Some o) in
  mkView ("👥 Members (" +:+ pretty (length (List.filter dp_online (participants s))) +:+ ")")
    (active "participants") (active "chat") (active "participants") (active "chat")
    (map (fun p => (dp_avatar p, dp_name p, dp_activity p, dp_online p)) (participants s))
    (map (fun m => (dm_avatar m, dm_name m, dm_time m, dm_content m)) (messages s))
    (code s) (newMessage s).

(** The elements whose style depends on the state (lines 328-331,
    338-341, 361-364, 436-439, 392-408, 412-421, 462). *)
Definition members_button_style (s : EditorState) : Style :=
  spread Styles.sidebarButton
    (if bool_decide (activeOverlay s = Some "participants") then Styles.sidebarButtonActive else []).

Definition chat_button_style (s : EditorState) : Style :=
  spread Styles.sidebarButton
    (if bool_decide (activeOverlay s = Some "chat") then Styles.sidebarButtonActive else []).

Definition participants_panel_style (s : EditorState) : Style :=
  spread Styles.overlayPanel
    (if bool_decide (activeOverlay s = Some "participants") then Styles.overlayPanelActive else []).

Definition chat_panel_style (s : EditorState) : Style :=
  spread Styles.overlayPanel
    (if bool_decide (activeOverlay s = Some "chat") then Styles.overlayPanelActive else []).

(** The green dot: the [::after] entry of the avatar's style, and the
    [div] drawn for an online participant (lines 411-422). *)
Definition online_dot : Style :=
  [("position", SStr "absolute"); ("bottom", SNum 0); ("right", SNum 0); ("width", SStr "8px");
   ("height", SStr "8px"); ("background", SStr "#0f9d58"); ("border", SStr "1.5px solid #252526");
   ("borderRadius", SStr "50%")].

Definition avatar_style (p : DemoParticipant) : Style :=
  spread (spread Styles.participantAvatar [("background", SStr (dp_color p))])
    (if dp_online p then [("::after", SObj (("content", SStr (quoted "")) :: online_dot))] else []).

Definition avatar_dot (p : DemoParticipant) : option Style := if dp_online p then Some online_dot else None.

Definition message_avatar_style : Style := spread Styles.messageAvatar [("background", SStr "#4285f4")].

(** The logo's [</>] (line 314). *)
Definition logo_mark_style : Style :=
  [("color", SStr "#4285f4"); ("fontWeight", SStr "bold"); ("fontSize", SStr "16px");
   ("marginRight", SStr "6px")].

Definition ids_ok (s : EditorState) : Prop :=
  map dm_id (messages s) = seq 1 (length (messages s)).

Lemma editor_step_ids e s : ids_ok s -> ids_ok (editor_step e s).
Proof.
  unfold ids_ok. intros H.
  assert (Hsend : forall t, map dm_id (messages (sendMessage t s)) = seq 1 (length (messages (sendMessage t s)))).
  { intros t. unfold sendMessage. destruct (String.eqb _ _); [done|]. simpl.
    rewrite map_app, H, length_app. simpl. rewrite Nat.add_1_r, seq_S. simpl. done. }
  destruct e as [t| |v|v|k t|t|p b]; simpl; try done.
  - unfold handleKeyPress. by destruct (String.eqb k "Enter").
  - unfold handleClickOutside. by destruct (_ && _ && _).
Qed.

(** In every run of the editor page, the local chat messages are
    numbered [1, 2, ..., n] in order: [messages.length + 1] never repeats
    an id. *)
Theorem editor_message_ids es :
  map dm_id (messages (editor_run es initial)) = seq 1 (length (messages (editor_run es initial))).
Proof.
  change (ids_ok (editor_run es initial)).
  assert (H0 : ids_ok initial) by reflexivity. revert H0. generalize initial.
  induction es as [|e es IH]; intros s Hs; [done|]. apply IH. by apply editor_step_ids.
Qed.

Lemma editor_step_participants e s : participants (editor_step e s) = participants s.
Proof.
  assert (Hs : forall t, participants (sendMessage t s) = participants s).
  { intros t. unfold sendMessage. by destruct (String.eqb _ ""). }
  destruct e as [t| |v|v|k t|t|p b]; simpl; try done.
  - unfold handleKeyPress. by destruct (String.eqb k "Enter").
  - unfold handleClickOutside. by destruct (_ && _ && _).
Qed.

(** [setParticipants] is never called: in every run the member list is
    the hard-coded one and the members button reads [Members (2)]. *)
Lemma editor_members es :
  participants (editor_run es initial) = initial_participants /\
  v_members_label (render (editor_run es initial)) = "👥 Members (2)".
Proof.
  assert (Hp : participants (editor_run es initial) = initial_participants).
  { unfold editor_run. change initial_participants with (participants initial).
    generalize initial as s0.
    induction es as [|e es IH]; intros s0; simpl; [done|]. by rewrite IH, editor_step_participants. }
  split; [done|]. unfold render. by rewrite Hp.
Qed.

(** Toggling the open panel (or opening a panel when none is) twice gives
    the page back. *)
Lemma toggle_twice t s :
  activeOverlay s = None \/ activeOverlay s = Some t -> toggleOverlay t (toggleOverlay t s) = s.
Proof.
  destruct s as [o ps ms nm c]. unfold toggleOverlay, set_overlay. simpl.
  intros [->| ->]; repeat (case_bool_decide; simpl in *); congruence.
Qed.

Lemma style_get_app k l1 l2 :
  style_get k (l1 ++ l2) = match style_get k l1 with Some v => Some v | None => style_get k l2 end.
Proof. induction l1 as [|[k' v'] l1 IH]; simpl; [done|]. by destruct (String.eqb k' k). Qed.

Lemma style_get_override k a b :
  style_get k (map (fun p => (p.1, default p.2 (style_get p.1 b))) a) =
  (fun v => default v (style_get k b)) <$> style_get k a.
Proof.
  induction a as [|[k' v'] a IH]; simpl; [done|].
  destruct (String.eqb_spec k' k) as [->|]; [done|exact IH].
Qed.

Lemma style_get_rest k a b :
  style_get k (List.filter (fun p => negb (bool_decide (is_Some (style_get p.1 a)))) b) =
  if bool_decide (is_Some (style_get k a)) then None else style_get k b.
Proof.
  induction b as [|[k' v'] b IH]; simpl; [by case_bool_decide|].
  destruct (String.eqb_spec k' k) as [->|Hne].
  - case_bool_decide; simpl; [exact IH|by rewrite String.eqb_refl].
  - destruct (bool_decide (is_Some (style_get k' a))); simpl;
      rewrite ?(proj2 (String.eqb_neq _ _) Hne); exact IH.
Qed.

(** Reading a property of [{...a, ...b}]: [b]'s value if it has one,
    otherwise [a]'s. *)
Lemma style_get_spread k a b :
  style_get k (spread a b) = match style_get k b with Some v => Some v | None => style_get k a end.
Proof.
  unfold spread. rewrite style_get_app, style_get_override, style_get_rest.
  destruct (style_get k a) eqn:Ea, (style_get k b) eqn:Eb; simpl; rewrite ?Eb; try done.
Qed.

(** C36: The overlay panels and the sidebar buttons look the way the page
    state says: the participants (chat) panel, whose style is
    [{...styles.overlayPanel, ...(active ? styles.overlayPanelActive : {})}],
    is slid in ([transform: translateX(0)]) exactly when [render] marks it
    open and slid out ([translateX(100%)]) otherwise, its button is blue
    ([#4285f4]) exactly when it is marked active and grey ([#2d2d2d])
    otherwise, and the two panels are never slid in together. *)
Theorem overlay_styles s :
  style_get "transform" (participants_panel_style s) =
    Some (SStr (if v_participants_open (render s) then "translateX(0)" else "translateX(100%)")) /\
  style_get "transform" (chat_panel_style s) =
    Some (SStr (if v_chat_open (render s) then "translateX(0)" else "translateX(100%)")) /\
  style_get "background" (members_button_style s) =
    Some (SStr (if v_members_active (render s) then "#4285f4" else "#2d2d2d")) /\
  style_get "background" (chat_button_style s) =
    Some (SStr (if v_chat_active (render s) then "#4285f4" else "#2d2d2d")) /\
  ~ (v_participants_open (render s) = true /\ v_chat_open (render s) = true).
Proof.
  unfold participants_panel_style, chat_panel_style, members_button_style, chat_button_style.
  rewrite !style_get_spread; unfold render; cbn [v_participants_open v_chat_open v_members_active v_chat_active].
  repeat case_bool_decide; simplify_eq; repeat split; try done; by intros [? ?].
Qed.

End Editor.
