(* ===== verification/Setup.v ===== *)
(** * The setup script: [src/setup.js]

    Module [Setup] models the script that prepares a checkout: it checks
    that [node] and [npm] run, writes the default [.env] next to itself
    unless one exists, and installs the server's and the client's
    packages, ending the process with status 1 at the first failure.

    The machine is the record [Sys]: the file system as a map from paths to
    contents, the console lines in order, the commands handed to
    [execSync] with their working directory, and the status passed to
    [process.exit].  What a command does is given by two Section
    variables: [shell] (its standard output when it exits with 0, [None]
    when [execSync] throws) and [effect] (what it does to the files, as
    [npm install] writes [node_modules] and [package-lock.json], whether
    it succeeds or not), so the theorems hold whatever the machine's tools
    answer and write.
    A statement is [Script A], the state monad [St] of the prelude with an
    [option] result: [None] means [process.exit] was called, and
    [x <-! c ;; k] skips [k] then, as the process ends. *)

From S2P Require Import Prelude.

Module Setup.

Inductive Stream := Stdout | Stderr.

Record Sys := mkSys {
  files : gmap string string;
  out : list (Stream * string);
  ran : list (string * string);
  exit_code : option Z }.

Definition Script (A : Type) : Type := St Sys (option A).

Definition sret {A} (a : A) : Script A := st_ret (Some a).
Definition sbind {A B} (c : Script A) (k : A -> Script B) : Script B :=
  st_bind c (fun o => match o with Some a => k a | None => st_ret None end).

Declare Scope script_scope.
Delimit Scope script_scope with script.
Notation "x <-! c1 ;; c2" := (sbind c1 (fun x => c2))
  (at level 100, c1 at next level, right associativity) : script_scope.
Notation "c1 ;;! c2" := (sbind c1 (fun _ => c2))
  (at level 100, right associativity) : script_scope.
Local Open Scope script_scope.

(** [path.join] of a directory (absolute, no trailing slash, as
    [__dirname] is) and a file name. *)
Definition path_join (a b : string) : string := a +:+ "/" +:+ b.

Definition nl : string := String (ascii_of_nat 10) EmptyString.

Section Script.

(** [shell cmd wd]: the standard output of [cmd] run in [wd] when it exits
    with status 0; [None] when it fails and [execSync] throws.  [dir] is
    [__dirname], the directory of setup.js; [cwd] is [process.cwd()],
    where [execSync] runs a command given no [cwd] option. *)
Variable shell : string -> string -> option string.
(** [effect cmd wd fs]: the files once [cmd] has run in [wd] on [fs]. *)
Variable effect : string -> string -> gmap string string -> gmap string string.
Variables dir cwd : string.

Definition console (k : Stream) (m : string) : Script unit :=
  fun s => (Some tt, mkSys (files s) (out s ++ [(k, m)]) (ran s) (exit_code s)).

Definition exit {A} (c : Z) : Script A :=
  fun s => (None, mkSys (files s) (out s) (ran s) (Some c)).

Definition execSync (cmd wd : string) : Script (option string) :=
  fun s => (Some (shell cmd wd), mkSys (effect cmd wd (files s)) (out s) (ran s ++ [(cmd, wd)]) (exit_code s)).

Definition existsSync (p : string) : Script bool :=
  fun s => (Some (bool_decide (is_Some (files s !! p))), s).

Definition writeFileSync (p c : string) : Script unit :=
  fun s => (Some tt, mkSys (<[p := c]> (files s)) (out s) (ran s) (exit_code s)).

(** [try { const v = execSync(cmd, {cwd: wd}); ok(v) }
     catch (error) { console.error(err); process.exit(1); }] *)
Definition try_exec (cmd wd : string) (ok : string -> Script unit) (err : string) : Script unit :=
  r <-! execSync cmd wd ;;
  match r with
  | Some v => ok v
  | None => console Stderr err ;;! exit 1%Z
  end.

(** Lines 9-15. *)
Definition check_node : Script unit :=
  try_exec "node --version" cwd
    (fun v => console Stdout ("✅ Node.js " +:+ trim v +:+ " is installed"))
    "❌ Node.js is not installed. Please install Node.js 16 or higher.".

(** Lines 17-23. *)
Definition check_npm : Script unit :=
  try_exec "npm --version" cwd
    (fun v => console Stdout ("✅ npm " +:+ trim v +:+ " is installed"))
    "❌ npm is not installed. Please install npm.".

(** Line 26. *)
Definition envPath : string := path_join dir ".env".

(** The template literal of lines 28-37. *)
Definition envContent : string :=
  unlines ["# Server Configuration"; "PORT=5000"; "NODE_ENV=development"; "";
           "# MongoDB Configuration";
           "MONGODB_URI=mongodb://localhost:27017/collaborative-editor"; "";
           "# Client Configuration"; "REACT_APP_SERVER_URL=http://localhost:5000"; ""].

(** Lines 27-43. *)
Definition create_env : Script unit :=
  e <-! existsSync envPath ;;
  if e then console Stdout "✅ .env file already exists"
  else writeFileSync envPath envContent ;;!
       console Stdout "✅ Created .env file with default configuration".

(** Lines 45-52. *)
Definition install_server : Script unit :=
  console Stdout (nl +:+ "📦 Installing server dependencies...") ;;!
  try_exec "npm install" cwd (fun _ => console Stdout "✅ Server dependencies installed")
    "❌ Failed to install server dependencies".

(** Lines 54-61. *)
Definition install_client : Script unit :=
  console Stdout (nl +:+ "📦 Installing client dependencies...") ;;!
  try_exec "npm install" (path_join dir "client")
    (fun _ => console Stdout "✅ Client dependencies installed")
    "❌ Failed to install client dependencies".

Fixpoint log_all (ms : list string) : Script unit :=
  match ms with
  | [] => sret tt
  | m :: ms' => console Stdout m ;;! log_all ms'
  end.

(** Lines 62-75. *)
Definition next_steps : Script unit :=
  log_all [nl +:+ "🎉 Setup completed successfully!"; nl +:+ "📋 Next steps:";
           "1. Start MongoDB (if not using Docker):"; "   - Install MongoDB locally, or";
           "   - Use Docker: docker run -d -p 27017:27017 --name mongo mongo:6";
           nl +:+ "2. Start the development server:"; "   npm run dev";
           nl +:+ "3. Open your browser and navigate to:"; "   http://localhost:3000";
           nl +:+ "4. Create a room and start coding collaboratively!";
           nl +:+ "🐳 Alternative: Use Docker Compose for easy setup:";
           "   docker-compose up --build"].

(** The whole script, lines 6-75. *)
Definition setup : Script unit :=
  console Stdout ("🚀 Setting up Collaborative Code Editor..." +:+ nl) ;;!
  check_node ;;! check_npm ;;! create_env ;;! install_server ;;! install_client ;;!
  next_steps.

(** [node setup.js] on a file system [fs]: a fresh process, nothing
    printed or run yet. *)
Definition run (fs : gmap string string) : Sys := exec setup (mkSys fs [] [] None).

(** The process's exit status: the code given to [process.exit], 0 when
    the script runs to its end. *)
Definition status (s : Sys) : Z := default 0%Z (exit_code s).

(** ** What the script promises

    The abstract behaviour: the four commands run in order, the script
    stops at the first that fails and then ends with status 1, and ends
    with 0 when all four succeed. *)
Definition commands : list (string * string) :=
  [("node --version", cwd); ("npm --version", cwd); ("npm install", cwd);
   ("npm install", path_join dir "client")].

Definition succeeds (c : string * string) : bool := bool_decide (is_Some (shell c.1 c.2)).

(** The message [console.error] prints when each command fails. *)
Definition failure_messages : list string :=
  ["❌ Node.js is not installed. Please install Node.js 16 or higher.";
   "❌ npm is not installed. Please install npm.";
   "❌ Failed to install server dependencies"; "❌ Failed to install client dependencies"].

Fixpoint first_failure (cs : list (string * string)) (ms : list string) : option string :=
  match cs, ms with
  | c :: cs', m :: ms' => if succeeds c then first_failure cs' ms' else Some m
  | _, _ => None
  end.

Definition stderr_lines (s : Sys) : list string :=
  snd <$> List.filter (fun p => match p.1 with Stderr => true | Stdout => false end) (out s).

Fixpoint upto_failure (cs : list (string * string)) : list (string * string) :=
  match cs with
  | [] => []
  | c :: cs' => c :: (if succeeds c then upto_failure cs' else [])
  end.

(** The files after the given commands ran in order. *)
Definition apply_effects (cs : list (string * string)) (fs : gmap string string) : gmap string string :=
  foldl (fun f c => effect c.1 c.2 f) fs cs.

(** [.env] written when missing, once the two checks passed. *)
Definition env_after (fs : gmap string string) : gmap string string :=
  if succeeds ("node --version", cwd) && succeeds ("npm --version", cwd) then
    match fs !! envPath with Some _ => fs | None => <[envPath := envContent]> fs end
  else fs.

(** Case on the answers of the given commands while the goal is small,
    run the script symbolically, then case on whether [.env] exists when
    [existsSync] looks. *)
Ltac run_script cmds :=
  let rec cases l :=
    lazymatch l with
    | (?c, ?w) :: ?l' => let H := fresh "Hsh" in destruct (shell c w) eqn:H; cases l'
    | [] => idtac
    end in
  cases cmds;
  cbv beta iota delta [run exec setup check_node check_npm create_env install_server install_client
    next_steps log_all try_exec sbind sret st_bind st_ret console execSync existsSync
    writeFileSync exit status env_after succeeds commands upto_failure stderr_lines
    first_failure failure_messages apply_effects files out ran exit_code fst snd forallb foldl take drop];
  repeat match goal with H : shell _ _ = _ |- _ => rewrite H; clear H end;
  cbn -[lookup insert trim String.append effect];
  repeat match goal with |- context [?m !! envPath] =>
    let Hf := fresh "Hfs" in destruct (m !! envPath) eqn:Hf end;
  cbn -[lookup insert trim String.append effect].

(** C24: The setup script implements its abstract behaviour: on any file
    system and whatever the machine's tools answer, it hands [execSync]
    exactly the four commands [node --version], [npm --version],
    [npm install] (in the process's directory) and [npm install] (in
    [client]) in this order up to and including the first that fails,
    its exit status is 0 when all four succeed and 1 otherwise, and the
    only line it prints on standard error is the message of the first
    failing command. *)
Theorem setup_commands fs :
  ran (run fs) = upto_failure commands /\
  status (run fs) = (if forallb succeeds commands then 0 else 1)%Z /\
  stderr_lines (run fs) = option_list (first_failure commands failure_messages).
Proof.
  run_script [("node --version", cwd); ("npm --version", cwd); ("npm install", cwd);
              ("npm install", path_join dir "client")]; done.
Qed.

(** The files after the script: the two checks' effects, then [.env]
    written when missing once both passed, then the installs' effects up
    to the first that fails. *)
Lemma setup_files fs :
  files (run fs) =
    apply_effects (drop 2 (upto_failure commands)) (env_after (apply_effects (take 2 (upto_failure commands)) fs)).
Proof.
  run_script [("node --version", cwd); ("npm --version", cwd); ("npm install", cwd);
              ("npm install", path_join dir "client")]; done.
Qed.

Section Frame.
(** The commands do not write [.env] beside setup.js. *)
Hypothesis effect_env : forall c w f, effect c w f !! envPath = f !! envPath.

Lemma apply_effects_env cs fs : apply_effects cs fs !! envPath = fs !! envPath.
Proof. revert fs. induction cs as [|c cs IH]; intros fs; [done|]. simpl. by rewrite IH, effect_env. Qed.

Lemma env_after_env fs fs' : fs' !! envPath = fs !! envPath -> env_after fs' !! envPath = env_after fs !! envPath.
Proof.
  intros E. unfold env_after. destruct (succeeds _ && succeeds _); [|exact E].
  rewrite E. destruct (fs !! envPath) eqn:F; [congruence|by rewrite !lookup_insert_eq].
Qed.

(** C26: The script writes the default configuration to [.env] beside
    itself only when no such file exists, and only after the [node] and
    [npm] checks passed; an existing [.env] is kept as it is.  The files
    after the script are exactly what the commands it ran made of them,
    with that [.env] written between the checks and the installs; so
    [.env] ends as [env_after] says when the commands (as [node --version],
    [npm --version] and [npm install] do) do not write it. *)
Theorem setup_env_file fs :
  files (run fs) =
    apply_effects (drop 2 (upto_failure commands)) (env_after (apply_effects (take 2 (upto_failure commands)) fs)) /\
  files (run fs) !! envPath = env_after fs !! envPath.
Proof.
  split; [apply setup_files|]. rewrite setup_files, apply_effects_env. apply env_after_env, apply_effects_env.
Qed.

End Frame.

End Script.

(** Tools that answer, and an [npm install] that writes its lock file. *)
Definition demo_shell (c _ : string) : option string :=
  if String.eqb c "node --version" then Some "v20.11.0" else Some "10.2.4".
Definition demo_effect (c _ : string) (f : gmap string string) : gmap string string :=
  if String.eqb c "npm install" then <["/app/node_modules/.package-lock.json" := "{}"]> f else f.

Lemma setup_env_file_witness :
  (forall c w f, demo_effect c w f !! envPath "/app" = f !! envPath "/app") /\
  files (run demo_shell demo_effect "/app" "/app" ∅) =
    apply_effects demo_effect (drop 2 (upto_failure demo_shell (commands "/app" "/app")))
      (env_after demo_shell "/app" "/app"
         (apply_effects demo_effect (take 2 (upto_failure demo_shell (commands "/app" "/app"))) ∅)) /\
  files (run demo_shell demo_effect "/app" "/app" ∅) !! envPath "/app" =
    env_after demo_shell "/app" "/app" ∅ !! envPath "/app".
Proof.
  assert (He : forall c w f, demo_effect c w f !! envPath "/app" = f !! envPath "/app").
  { intros c w f. unfold demo_effect. destruct (String.eqb c "npm install"); [|done].
    by rewrite lookup_insert_ne. }
  split; [exact He|]. exact (setup_env_file demo_shell demo_effect "/app" "/app" He ∅).
Defined.

End Setup.
