(* ===== verification/Config.v ===== *)
(** * Server configuration: [require('dotenv').config()] and the settings
      [src/server/index.js] reads from [process.env]

    Module [Dotenv] models the library call on line 9 of index.js as the
    dotenv package documents it: it reads [.env] in the process's working
    directory, parses its [KEY=VALUE] lines and adds to [process.env]
    each key the environment does not already set.  Module [Boot] models
    what index.js reads from the resulting environment: the socket.io CORS
    origin (lines 13-18), the MongoDB URI (line 28), the port and the two
    lines logged once the server listens (lines 52-57).  The theorems
    relate the [.env] file written by setup.js to these settings. *)

From S2P Require Import Prelude Setup.

Module Dotenv.

Definition key_char (c : ascii) : bool :=
  let n := nat_of_ascii c in
  (Nat.leb 48 n && Nat.leb n 57) || (Nat.leb 65 n && Nat.leb n 90) ||
  (Nat.leb 97 n && Nat.leb n 122) || Nat.eqb n 95 || Nat.eqb n 46 || Nat.eqb n 45.

Definition is_char (k : nat) (c : ascii) : bool := Nat.eqb (nat_of_ascii c) k.

Fixpoint take_while (p : ascii -> bool) (l : list ascii) : list ascii :=
  match l with c :: l' => if p c then c :: take_while p l' else [] | [] => [] end.
Fixpoint drop_while (p : ascii -> bool) (l : list ascii) : list ascii :=
  match l with c :: l' => if p c then drop_while p l' else l | [] => [] end.

(** The lines of a file: split at line feeds, a carriage return before a
    line feed dropped (dotenv first turns [\r\n] into [\n]). *)
Fixpoint split_lines (l : list ascii) (cur : list ascii) : list (list ascii) :=
  match l with
  | [] => [rev cur]
  | c :: l' =>
      if is_char 10 c then rev (drop_while (is_char 13) cur) :: split_lines l' []
      else split_lines l' (c :: cur)
  end.

(** A value: quoted (a single quote, a double quote or a backquote) when
    it starts with one and the
    quote closes on the line (the text between the quotes), otherwise the
    text up to a [#] with its white space trimmed. *)
Definition parse_value (v : list ascii) : string :=
  let v := drop_space v in
  match v with
  | q :: rest =>
      if is_char 39 q || is_char 34 q || is_char 96 q then
        let inner := take_while (fun c => negb (Ascii.eqb c q)) rest in
        if bool_decide (length inner < length rest) then String.string_of_list_ascii inner
        else trim (String.string_of_list_ascii (take_while (fun c => negb (is_char 35 c)) v))
      else trim (String.string_of_list_ascii (take_while (fun c => negb (is_char 35 c)) v))
  | [] => ""
  end.

Definition export_prefix : list ascii := String.list_ascii_of_string "export ".

(** One line: [KEY=VALUE] with optional white space around the key and the
    [=] and an optional [export ] before the key; other lines (blank,
    comments, no [=]) define nothing. *)
Definition parse_line (l : list ascii) : option (string * string) :=
  let l := drop_space l in
  let l := if bool_decide (take (length export_prefix) l = export_prefix)
           then drop_space (drop (length export_prefix) l) else l in
  let key := take_while key_char l in
  match key, drop_space (drop_while key_char l) with
  | _ :: _, eq :: v => if is_char 61 eq then Some (String.string_of_list_ascii key, parse_value v) else None
  | _, _ => None
  end.

(** [dotenv.parse]: a later line for the same key wins. *)
Definition parse (content : string) : gmap string string :=
  fold_left (fun m kv => <[kv.1 := kv.2]> m)
    (omap parse_line (split_lines (String.list_ascii_of_string content) [])) ∅.

(** [dotenv.config()]: [.env] of the working directory, when it exists,
    adds the keys the environment does not set. *)
Definition config (cwd : string) (fs : gmap string string) (env : gmap string string)
    : gmap string string :=
  match fs !! Setup.path_join cwd ".env" with
  | Some content => env ∪ parse content
  | None => env
  end.

End Dotenv.

Module Boot.

Record ServerConfig := mkConfig {
  cors_origin : option string;
  cors_methods : list string;
  mongodb_uri : string;
  port : string;
  listen_logs : list string }.

(** The socket.io CORS options, lines 13-18: [origin] is [false]
    ([None]) in production. *)
Definition io_cors (env : gmap string string) : option string * list string :=
  (if bool_decide (env !! "NODE_ENV" = Some "production") then None
   else Some "http://localhost:3000", ["GET"; "POST"]).

(** Line 28. *)
Definition mongodb_uri_of (env : gmap string string) : string :=
  env !! "MONGODB_URI" ?|| "mongodb://localhost:27017/collaborative-editor".

(** Line 52, [PORT || 5000]: the string passed to [server.listen], the
    number 5000 printing as [5000]. *)
Definition port_of (env : gmap string string) : string := env !! "PORT" ?|| "5000".

(** Lines 54-57, the two lines logged once the server listens. *)
Definition listen_logs_of (env : gmap string string) : list string :=
  ["Server running on port " +:+ port_of env;
   "Environment: " +:+ (env !! "NODE_ENV" ?|| "development")].

Definition server_config (env : gmap string string) : ServerConfig :=
  mkConfig (io_cors env).1 (io_cors env).2 (mongodb_uri_of env) (port_of env) (listen_logs_of env).

(** Starting the server in [cwd] with environment [env] on file system [fs]. *)
Definition boot (env : gmap string string) (cwd : string) (fs : gmap string string) : ServerConfig :=
  server_config (Dotenv.config cwd fs env).

End Boot.

Module BootFacts.
Import Setup.Setup Dotenv Boot.

Lemma parse_envContent :
  parse envContent !! "PORT" = Some "5000" /\
  parse envContent !! "NODE_ENV" = Some "development" /\
  parse envContent !! "MONGODB_URI" = Some "mongodb://localhost:27017/collaborative-editor".
Proof. vm_compute. auto. Qed.

(** A key the environment sets keeps its value; one it does not takes the
    file's, and when the file's value is the default [||] falls back to,
    the result of [||] does not change. *)
Lemma js_or_union_default (env p : gmap string string) k d :
  p !! k = Some d -> (env ∪ p) !! k ?|| d = env !! k ?|| d.
Proof.
  intros Hp. rewrite lookup_union, Hp.
  destruct (env !! k) as [v|]; simpl; [done|]. by destruct (String.eqb d "").
Qed.

Lemma node_env_union (env p : gmap string string) :
  p !! "NODE_ENV" = Some "development" ->
  bool_decide ((env ∪ p) !! "NODE_ENV" = Some "production") =
  bool_decide (env !! "NODE_ENV" = Some "production").
Proof. intros Hp. rewrite lookup_union, Hp. by destruct (env !! "NODE_ENV"). Qed.

(** The [.env] setup.js writes sets every key index.js reads to the value
    index.js falls back to without it: the server's settings are those of
    the environment alone. *)
Lemma boot_default_env env cwd fs :
  fs !! path_join cwd ".env" = Some envContent -> boot env cwd fs = server_config env.
Proof.
  intros Hf. destruct parse_envContent as (Hp & Hn & Hm).
  unfold boot, config. rewrite Hf. unfold server_config, io_cors, mongodb_uri_of, listen_logs_of, port_of.
  by rewrite node_env_union, !js_or_union_default.
Qed.

Lemma boot_no_env env cwd fs :
  fs !! path_join cwd ".env" = None -> boot env cwd fs = server_config env.
Proof. intros Hf. unfold boot, config. by rewrite Hf. Qed.

(** C25: Setup and server start-up compose: after setup.js ran in a
    directory whose [.env] is missing or the one it writes, and its [node]
    and [npm] checks passed (whatever the installs answer, and whatever
    the commands write besides [.env]), the server started in that
    directory runs with exactly the settings index.js derives from the
    process environment alone (port, MongoDB URI, CORS origin and
    methods, start-up logs): the generated [.env] only restates
    index.js's fallbacks. *)
Theorem setup_then_boot shell effect dir cwd fs env :
  (forall c w f, effect c w f !! envPath dir = f !! envPath dir) ->
  succeeds shell ("node --version", cwd) = true ->
  succeeds shell ("npm --version", cwd) = true ->
  fs !! envPath dir = None \/ fs !! envPath dir = Some envContent ->
  boot env dir (files (run shell effect dir cwd fs)) = server_config env.
Proof.
  intros Heff Hnode Hnpm Henv. apply boot_default_env. change (path_join dir ".env") with (envPath dir).
  rewrite setup_files, apply_effects_env by exact Heff.
  rewrite (env_after_env _ _ _ fs) by (apply apply_effects_env, Heff).
  unfold env_after. rewrite Hnode, Hnpm. simpl.
  destruct Henv as [He | He]; rewrite He; [by rewrite lookup_insert_eq | exact He].
Qed.

(** Tools that answer and write nothing. *)
Lemma setup_then_boot_witness :
  (forall (c w : string) (f : gmap string string),
     (fun (_ _ : string) (f : gmap string string) => f) c w f !! envPath "/app/src" = f !! envPath "/app/src") /\
  boot ∅ "/app/src"
    (files (run (fun c _ => if String.eqb c "node --version" then Some "v20.11.0" else Some "10.2.4")
              (fun (_ _ : string) (f : gmap string string) => f) "/app/src" "/app/src" ∅)) =
    server_config ∅ /\
  server_config ∅ =
    mkConfig (Some "http://localhost:3000") ["GET"; "POST"]
      "mongodb://localhost:27017/collaborative-editor" "5000"
      ["Server running on port 5000"; "Environment: development"].
Proof.
  split; [done|]. split; [|reflexivity].
  apply (setup_then_boot _ (fun (_ _ : string) (f : gmap string string) => f) "/app/src" "/app/src" ∅ ∅); [done | reflexivity | reflexivity | left; reflexivity].
Defined.

End BootFacts.
