(* ===== verification/ChatSocket.v ===== *)
(** * The chat panel's socket subscription: the effect of [Chat.js],
      lines 21-47

    The panel subscribes to [chat-message] and [user-typing] in a React
    effect that depends on [socket]: the effect registers two fresh
    closures with [socket.on] and returns a cleanup that removes them
    with [socket.off]; React runs the cleanup and the effect again when
    the socket changes, and the cleanup alone when the panel unmounts.

    Module [Subscription] models the listener lists of the socket objects
    (socket.io-client's emitter: [on] appends, [off(event, fn)] removes
    the first listener that is [fn]), one panel instance with the
    lifecycle React gives it, and the delivery of a server event to every
    listener of the socket it arrives on.  The theorem: whatever the
    sequence of renders and unmounts, an event arriving on a socket runs
    the panel's handler exactly once when the panel is mounted with that
    socket, and not at all otherwise, and the listeners of other
    components are left as they were. *)

From S2P Require Import Prelude Handler Chat.

Module Subscription.
Import Handler Chat.

(** The socket.io event name of each event the server sends. *)
Definition out_name (ev : OutEvent) : string :=
  match ev with
  | RoomJoined _ _ _ _ _ => "room-joined"
  | UserJoined _ _ _ => "user-joined"
  | CodeUpdated _ _ _ => "code-updated"
  | CursorUpdated _ _ _ => "cursor-updated"
  | ChatMessage _ _ _ _ => "chat-message"
  | UserTyping _ _ => "user-typing"
  | LanguageUpdated _ _ => "language-updated"
  | RoomUpdated _ _ _ => "room-updated"
  | UserLeft _ _ => "user-left"
  | ErrorEvent _ => "error"
  end.

(** A listener: the event it is registered for and the closure, known by
    the component instance that made it and the effect run that created
    it (each run creates new closures). *)
Record Listener := mkListener { l_event : string; l_owner : nat; l_run : nat }.

#[global] Instance Listener_eq_dec : EqDecision Listener.
Proof. solve_decision. Defined.

(** The listener list of each socket object, by socket id. *)
Abbreviation Emitters := (gmap string (list Listener)).

Definition listeners (em : Emitters) (x : string) : list Listener := default [] (em !! x).

(** [socket.on(event, fn)]. *)
Definition on (x : string) (l : Listener) (em : Emitters) : Emitters :=
  <[x := listeners em x ++ [l]]> em.

Fixpoint remove_first (l : Listener) (ls : list Listener) : list Listener :=
  match ls with
  | [] => []
  | l' :: ls' => if decide (l' = l) then ls' else l' :: remove_first l ls'
  end.

(** [socket.off(event, fn)]. *)
Definition off (x : string) (l : Listener) (em : Emitters) : Emitters :=
  <[x := remove_first l (listeners em x)]> em.

(** A panel instance: whether it is mounted, the socket of its last
    render, the cleanup its last effect returned (the socket and the run
    whose closures it removes; none when the effect returned early
    without a socket) and the number of effect runs so far. *)
Record Panel := mkPanel {
  p_owner : nat; p_mounted : bool; p_socket : option string;
  p_cleanup : option (string * nat); p_runs : nat }.

Definition unmounted (o : nat) : Panel := mkPanel o false None None 0.

(** The effect, lines 21-47. *)
Definition effect (socket : option string) (p : Panel) (em : Emitters) : Panel * Emitters :=
  match socket with
  | None => (mkPanel (p_owner p) true socket None (p_runs p), em)
  | Some x =>
      let r := p_runs p in
      (mkPanel (p_owner p) true socket (Some (x, r)) (S r),
       on x (mkListener "user-typing" (p_owner p) r)
         (on x (mkListener "chat-message" (p_owner p) r) em))
  end.

(** The cleanup, lines 43-46. *)
Definition cleanup (p : Panel) (em : Emitters) : Emitters :=
  match p_cleanup p with
  | None => em
  | Some (x, r) =>
      off x (mkListener "user-typing" (p_owner p) r)
        (off x (mkListener "chat-message" (p_owner p) r) em)
  end.

Inductive LifeEvent := Render (socket : option string) | Unmount.

(** React's handling of an effect with dependencies [[socket]]: run on
    mount; on a render with another socket, the previous cleanup and then
    the effect; on unmount, the cleanup. *)
Definition life_step (ev : LifeEvent) (pe : Panel * Emitters) : Panel * Emitters :=
  let '(p, em) := pe in
  match ev with
  | Render socket =>
      if negb (p_mounted p) then effect socket p em
      else if bool_decide (socket = p_socket p) then (p, em)
      else effect socket p (cleanup p em)
  | Unmount =>
      if p_mounted p then (mkPanel (p_owner p) false None None (p_runs p), cleanup p em)
      else (p, em)
  end.

Definition life_run (es : list LifeEvent) (pe : Panel * Emitters) : Panel * Emitters :=
  fold_left (fun pe ev => life_step ev pe) es pe.

(** A server event arriving on socket [x]: every listener registered for
    its name runs in order; those of panel [o] run the panel's handler
    ([socket.id] is [x]), the others belong to other components. *)
Definition deliver (o : nat) (x : string) (ev : OutEvent) (em : Emitters) (s : ChatState) : ChatState :=
  fold_left (fun s l => if Nat.eqb (l_owner l) o && String.eqb (l_event l) (out_name ev)
                        then receive x ev s else s) (listeners em x) s.

Definition subscribed (p : Panel) (x : string) : bool :=
  p_mounted p && bool_decide (p_socket p = Some x).

(** ** The invariant *)

(** The listeners of panel [o] for event [e], and those of the others. *)
Definition ours (o : nat) (e : string) (ls : list Listener) : list Listener :=
  List.filter (fun l => Nat.eqb (l_owner l) o && String.eqb (l_event l) e) ls.
Definition others (o : nat) (ls : list Listener) : list Listener :=
  List.filter (fun l => negb (Nat.eqb (l_owner l) o)) ls.

(** What the panel has registered: on the socket of its pending cleanup,
    one closure of that run for each of its two events; nothing else. *)
Definition expected (p : Panel) (x e : string) : list Listener :=
  match p_cleanup p with
  | Some (y, r) =>
      if String.eqb y x && (String.eqb "chat-message" e || String.eqb "user-typing" e)
      then [mkListener e (p_owner p) r] else []
  | None => []
  end.

Record panel_ok (p : Panel) (em : Emitters) : Prop := {
  pk_clean : p_mounted p = false -> p_cleanup p = None;
  pk_sock : p_mounted p = true -> fst <$> p_cleanup p = p_socket p;
  pk_ours : forall x e, ours (p_owner p) e (listeners em x) = expected p x e }.

Lemma filter_remove_first_in (f : Listener -> bool) l ls :
  f l = true -> List.filter f (remove_first l ls) = remove_first l (List.filter f ls).
Proof.
  intros Hl. induction ls as [|l' ls IH]; simpl; [done|].
  destruct (decide (l' = l)) as [->|Hne]; simpl.
  - by rewrite Hl; simpl; rewrite decide_True.
  - destruct (f l') eqn:E; simpl; rewrite ?decide_False, ?IH; done.
Qed.

Lemma filter_remove_first_out (f : Listener -> bool) l ls :
  f l = false -> List.filter f (remove_first l ls) = List.filter f ls.
Proof.
  intros Hl. induction ls as [|l' ls IH]; simpl; [done|].
  destruct (decide (l' = l)) as [->|Hne]; simpl; [by rewrite Hl|].
  by destruct (f l'); rewrite IH.
Qed.

Lemma listeners_on x y l em :
  listeners (on x l em) y = if String.eqb x y then listeners em x ++ [l] else listeners em y.
Proof.
  unfold listeners, on. destruct (String.eqb_spec x y) as [->|Hne].
  - by rewrite lookup_insert_eq.
  - by rewrite lookup_insert_ne.
Qed.

Lemma listeners_off x y l em :
  listeners (off x l em) y = if String.eqb x y then remove_first l (listeners em x) else listeners em y.
Proof.
  unfold listeners, off. destruct (String.eqb_spec x y) as [->|Hne].
  - by rewrite lookup_insert_eq.
  - by rewrite lookup_insert_ne.
Qed.

Lemma ours_add o e l ls :
  ours o e (ls ++ [l]) =
  ours o e ls ++ (if Nat.eqb (l_owner l) o && String.eqb (l_event l) e then [l] else []).
Proof. unfold ours. rewrite List.filter_app. simpl. by destruct (_ && _). Qed.

Lemma ours_remove o e l ls :
  ours o e (remove_first l ls) =
  if Nat.eqb (l_owner l) o && String.eqb (l_event l) e then remove_first l (ours o e ls) else ours o e ls.
Proof.
  unfold ours. destruct (_ && _) eqn:E;
    [by apply filter_remove_first_in | by apply filter_remove_first_out].
Qed.

Lemma others_add o l ls : Nat.eqb (l_owner l) o = true -> others o (ls ++ [l]) = others o ls.
Proof. intros H. unfold others. rewrite List.filter_app. simpl. rewrite H. apply app_nil_r. Qed.

Lemma others_remove o l ls : Nat.eqb (l_owner l) o = true -> others o (remove_first l ls) = others o ls.
Proof. intros H. apply filter_remove_first_out. by rewrite H. Qed.

Ltac event_cases e :=
  destruct (String.eqb_spec "chat-message" e) as [<-|];
  [|destruct (String.eqb_spec "user-typing" e) as [<-|]]; simpl.

(** After the cleanup the panel has no listener left. *)
Lemma cleanup_ours p em :
  (forall x e, ours (p_owner p) e (listeners em x) = expected p x e) ->
  forall x e, ours (p_owner p) e (listeners (cleanup p em) x) = [].
Proof.
  intros H x e. specialize (H x e). unfold cleanup, expected in *.
  destruct (p_cleanup p) as [[y r]|]; [|done].
  rewrite !listeners_off. destruct (String.eqb_spec y x) as [<-|Hne]; [|by rewrite H].
  rewrite String.eqb_refl, !ours_remove, H. simpl l_owner. simpl l_event. rewrite Nat.eqb_refl.
  event_cases e; by rewrite ?decide_True.
Qed.

(** The effect registers the two closures of a new run. *)
Lemma effect_ours socket p em :
  (forall x e, ours (p_owner p) e (listeners em x) = []) ->
  forall x e, ours (p_owner p) e (listeners (effect socket p em).2 x) = expected (effect socket p em).1 x e.
Proof.
  intros H x e. destruct socket as [y|]; unfold effect, expected; cbn [fst snd p_cleanup p_owner];
    [|apply H].
  rewrite !listeners_on. destruct (String.eqb y x); cbn [andb]; [|apply H].
  rewrite String.eqb_refl, !ours_add, H. simpl l_owner. simpl l_event. rewrite Nat.eqb_refl.
  event_cases e; done.
Qed.

Lemma others_effect socket p em x :
  others (p_owner p) (listeners (effect socket p em).2 x) = others (p_owner p) (listeners em x).
Proof.
  destruct socket as [y|]; unfold effect; cbn [fst snd]; [|done].
  rewrite !listeners_on. destruct (String.eqb_spec y x) as [<-|]; [|done].
  rewrite String.eqb_refl, !others_add; [done | apply Nat.eqb_refl..].
Qed.

Lemma others_cleanup p em x :
  others (p_owner p) (listeners (cleanup p em) x) = others (p_owner p) (listeners em x).
Proof.
  unfold cleanup. destruct (p_cleanup p) as [[y r]|]; [|done].
  rewrite !listeners_off. destruct (String.eqb_spec y x) as [<-|]; [|done].
  rewrite String.eqb_refl, !others_remove; [done | apply Nat.eqb_refl..].
Qed.

Lemma effect_owner socket p em : p_owner (effect socket p em).1 = p_owner p.
Proof. by destruct socket. Qed.

Lemma effect_ok socket p em :
  (forall x e, ours (p_owner p) e (listeners em x) = []) ->
  panel_ok (effect socket p em).1 (effect socket p em).2.
Proof.
  intros H. split; [by destruct socket | by destruct socket |].
  intros x e. rewrite effect_owner. by apply effect_ours.
Qed.

Lemma idle_ours p em :
  panel_ok p em -> p_cleanup p = None -> forall x e, ours (p_owner p) e (listeners em x) = [].
Proof. intros Hok Hc x e. rewrite (pk_ours _ _ Hok). unfold expected. by rewrite Hc. Qed.

(** Every lifecycle step keeps the invariant and leaves the other
    components' listeners alone. *)
Lemma life_step_ok ev p em :
  panel_ok p em ->
  panel_ok (life_step ev (p, em)).1 (life_step ev (p, em)).2 /\
  p_owner (life_step ev (p, em)).1 = p_owner p /\
  forall x, others (p_owner p) (listeners (life_step ev (p, em)).2 x) = others (p_owner p) (listeners em x).
Proof.
  intros Hok. destruct ev as [socket|]; simpl.
  - destruct (p_mounted p) eqn:Hm; simpl.
    + case_bool_decide; [done|].
      split_and!; [apply effect_ok, cleanup_ours, (pk_ours _ _ Hok) | apply effect_owner |].
      intros x. by rewrite others_effect, others_cleanup.
    + split_and!; [apply effect_ok, (idle_ours _ _ Hok), (pk_clean _ _ Hok), Hm
                  | apply effect_owner | intros x; apply others_effect].
  - destruct (p_mounted p) eqn:Hm; simpl; [|done].
    split_and!; [split; [done|done|] | done | intros x; apply others_cleanup].
    intros x e. unfold expected; simpl. apply cleanup_ours, (pk_ours _ _ Hok).
Qed.

Lemma life_run_ok es p em :
  panel_ok p em ->
  panel_ok (life_run es (p, em)).1 (life_run es (p, em)).2 /\
  p_owner (life_run es (p, em)).1 = p_owner p /\
  forall x, others (p_owner p) (listeners (life_run es (p, em)).2 x) = others (p_owner p) (listeners em x).
Proof.
  revert p em. induction es as [|ev es IH]; intros p em Hok; [by split_and!|].
  change (life_run (ev :: es) (p, em)) with (life_run es (life_step ev (p, em))).
  destruct (life_step_ok ev p em Hok) as (Hok' & Ho & Hx).
  destruct (life_step ev (p, em)) as [p' em'] eqn:E. simpl in *.
  destruct (IH p' em' Hok') as (? & Ho' & Hx'). split_and!; [done|congruence|].
  intros x. specialize (Hx' x). rewrite Ho in Hx'. by rewrite Hx'.
Qed.

(** Delivery runs the panel's handler once per listener of the panel
    registered for the event's name. *)
Lemma deliver_ours o x ev em s :
  deliver o x ev em s = fold_left (fun s _ => receive x ev s) (ours o (out_name ev) (listeners em x)) s.
Proof.
  unfold deliver, ours. generalize (listeners em x) as ls. intros ls. revert s.
  induction ls as [|l ls IH]; intros s; simpl; [done|]. by destruct (_ && _).
Qed.

Lemma receive_other x ev s :
  String.eqb "chat-message" (out_name ev) || String.eqb "user-typing" (out_name ev) = false ->
  receive x ev s = s.
Proof. by destruct ev. Qed.

Lemma subscribed_cleanup p em x :
  panel_ok p em -> subscribed p x = true <-> exists r, p_cleanup p = Some (x, r).
Proof.
  intros Hok. unfold subscribed. split.
  - intros [Hm Hs]%andb_prop. apply bool_decide_eq_true in Hs.
    pose proof (pk_sock _ _ Hok Hm) as H. rewrite Hs in H.
    destruct (p_cleanup p) as [[y r]|]; simplify_eq/=. eauto.
  - intros [r Hc]. destruct (p_mounted p) eqn:Hm.
    + pose proof (pk_sock _ _ Hok Hm) as H. rewrite Hc in H. simpl in H.
      rewrite <-H. simpl. by rewrite bool_decide_true.
    + by rewrite (pk_clean _ _ Hok Hm) in Hc.
Qed.

(** A panel that keeps the invariant handles an event arriving on [x]
    once when it is subscribed on [x], and not at all otherwise. *)
Lemma deliver_panel p em x ev s :
  panel_ok p em -> deliver (p_owner p) x ev em s = if subscribed p x then receive x ev s else s.
Proof.
  intros Hok. rewrite deliver_ours, (pk_ours _ _ Hok). unfold expected.
  destruct (subscribed p x) eqn:Hs.
  - apply (subscribed_cleanup _ _ _ Hok) in Hs as [r Hc]. rewrite Hc, String.eqb_refl. simpl.
    destruct (_ || _) eqn:En; [done|]. by rewrite receive_other.
  - destruct (p_cleanup p) as [[y r]|] eqn:Hc; [|done].
    destruct (String.eqb_spec y x) as [<-|]; [|done].
    enough (subscribed p y = true) by congruence.
    apply (subscribed_cleanup _ _ _ Hok). eauto.
Qed.

(** The invariant holds after any lifecycle from a table without the
    panel's listeners. *)
Lemma life_run_unmounted_ok o es em0 :
  (forall y e, ours o e (listeners em0 y) = []) ->
  panel_ok (life_run es (unmounted o, em0)).1 (life_run es (unmounted o, em0)).2 /\
  p_owner (life_run es (unmounted o, em0)).1 = o.
Proof.
  intros H0. destruct (life_run_ok es (unmounted o) em0) as (Hok & Ho & _); [|done].
  split; [done | done | intros y e; apply H0].
Qed.

(** C30: Whatever the sequence of renders (with the socket the context
    gives, possibly none or a new one) and unmounts of a chat panel, from
    a socket table holding none of its listeners: a server event arriving
    on socket [x] runs the panel's handler exactly once when the panel is
    mounted with socket [x], and not at all otherwise (so no message is
    appended twice after a reconnection, nor to an unmounted panel), and
    the listeners of every other component are as they were. *)
Theorem chat_delivered_once o es em0 x ev s :
  (forall y e, ours o e (listeners em0 y) = []) ->
  let pe := life_run es (unmounted o, em0) in
  deliver o x ev pe.2 s = (if subscribed pe.1 x then receive x ev s else s) /\
  forall y, others o (listeners pe.2 y) = others o (listeners em0 y).
Proof.
  intros H0. cbv zeta.
  destruct (life_run_ok es (unmounted o) em0) as (Hok & Ho & Hx).
  { split; [done | done | intros y e; apply H0]. }
  set (pe := life_run es (unmounted o, em0)) in *.
  simpl in Ho. split; [|exact Hx]. rewrite <-Ho. by apply deliver_panel.
Qed.

Example chat_delivered_once_witness :
  (forall y e, ours 1 e (listeners {["a" := [mkListener "chat-message" 2 0]]} y) = []) /\
  let pe := life_run [Render (Some "a"); Render (Some "b"); Render (Some "b"); Unmount; Render (Some "b")]
              (unmounted 1, {["a" := [mkListener "chat-message" 2 0]]}) in
  deliver 1 "b" (ChatMessage "u" "Ann" (JStr "hi") 5) pe.2 (initial 0) =
    (if subscribed pe.1 "b" then receive "b" (ChatMessage "u" "Ann" (JStr "hi") 5) (initial 0)
     else initial 0) /\
  forall y, others 1 (listeners pe.2 y) = others 1 (listeners {["a" := [mkListener "chat-message" 2 0]]} y).
Proof.
  assert (H : forall y e, ours 1 e (listeners {["a" := [mkListener "chat-message" 2 0]]} y) = []).
  { intros y e. unfold listeners. destruct (String.eq_dec y "a") as [->|Hne]; [reflexivity|].
    rewrite lookup_singleton_ne; [reflexivity | congruence]. }
  split; [exact H|]. apply (chat_delivered_once 1 _ _ "b"), H.
Defined.

End Subscription.
