(* ===== verification/ChatFlow.v ===== *)
(** * A chat message end to end: [Chat.js], [handler.js] and [Chat.js]
      again

    The three parts a chat message goes through: the sender's panel
    ([handleSendMessage], Chat.js lines 49-61) emits [chat-message]; the
    server's handler (handler.js lines 146-157) stamps it with the sender's
    id, name and the time and sends it to every member of the room's
    broadcast group, the sender included; each member's socket runs the
    listeners registered on it (Chat.js lines 21-47).

    Module [ChatFlow] composes the models of the three parts: [Chat] for
    the panel, [Handler] for the server, [Subscription] for the listeners
    of the receiving sockets.  The theorem: a submitted message that is not
    blank appears exactly once in the panel of every member of the room
    whose panel is mounted with its socket, and in no other panel. *)

From S2P Require Import Prelude JsMap Store Handler EventLoop Chat ChatSocket.

Module ChatFlow.
Import Handler Chat Subscription.

(** What the server sent to socket [b] between [w] and [w']: the entries
    appended to its output. *)
Definition inbox (w w' : World) (b : string) : list OutEvent :=
  snd <$> List.filter (fun p => String.eqb p.1 b) (drop (length (w_out w)) (w_out w')).

(** Socket [b] receiving events in order, each run through its listeners. *)
Definition deliver_all (o : nat) (b : string) (evs : list OutEvent) (em : Emitters)
    (s : ChatState) : ChatState :=
  fold_left (fun s ev => deliver o b ev em s) evs s.

(** The sender [a] submits its panel [sa]; the server handles, in order,
    what the panel emitted. *)
Definition send_and_relay (roomId : string) (username : option string) (a : string)
    (sa : ChatState) (w : World) : ChatState * World :=
  let sa' := handleSendMessage roomId username (Some a) sa in
  (sa', fold_left (fun w ev => exec (handle a ev) w) (drop (length (sent sa)) (sent sa')) w).

(** The server's [chat-message] handler appends one event per member. *)
Lemma handle_chat_out a roomId m u w :
  w_out (exec (handle a (ChatMessageIn roomId m u)) w) =
  w_out w ++ ((fun s => (s, ChatMessage a (u ?|| "Anonymous") m (w_clock w))) <$> members w roomId).
Proof. reflexivity. Qed.

Lemma inbox_app w w' b l :
  w_out w' = w_out w ++ l -> inbox w w' b = snd <$> List.filter (fun p => String.eqb p.1 b) l.
Proof. intros H. unfold inbox. by rewrite H, drop_app_length. Qed.

(** An event sent to a list of distinct sockets reaches [b] once when [b]
    is one of them. *)
Lemma inbox_members {A} (ev : A) b l :
  NoDup l ->
  snd <$> List.filter (fun p => String.eqb p.1 b) ((fun s => (s, ev)) <$> l) =
  if bool_decide (b ∈ l) then [ev] else [].
Proof.
  induction l as [|s l IH]; intros Hnd; [done|].
  apply NoDup_cons in Hnd as [Hs Hnd].
  rewrite fmap_cons. cbn [List.filter fst].
  destruct (String.eqb_spec s b) as [<-|Hne].
  - rewrite fmap_cons, IH by done.
    rewrite (bool_decide_false (s ∈ l)), (bool_decide_true (s ∈ s :: l)) by set_solver. done.
  - rewrite IH by done. by rewrite (bool_decide_ext (b ∈ s :: l) (b ∈ l)) by set_solver.
Qed.

(** C31: A chat message end to end.  When the sender's panel, connected
    as socket [a], submits a text with a character that is not white
    space, and the server handles what the panel emitted: the sender's
    input is emptied, and the panel of every socket [b] (the sender's
    included), mounted and re-rendered in any way, ends up with the
    trimmed text appended exactly once, with the sender's id, its name
    (or Anonymous) and the server's time, when [b] is a member of the
    room's broadcast group and the panel is subscribed on [b]; any other
    panel is unchanged.  (The registry invariant, true of every reachable
    server state, makes the group's members distinct.) *)
Theorem chat_end_to_end roomId username a sa w o es em0 b sb :
  registry_ok w ->
  forallb js_space (String.list_ascii_of_string (newMessage sa)) = false ->
  (forall y e, ours o e (listeners em0 y) = []) ->
  let pe := life_run es (unmounted o, em0) in
  let sw := send_and_relay roomId username a sa w in
  newMessage sw.1 = "" /\
  deliver_all o b (inbox w sw.2 b) pe.2 sb =
    if bool_decide (b ∈ members w roomId) && subscribed pe.1 b
    then handleChatMessage
           (mkMessage a (username ?|| "Anonymous") (JStr (trim (newMessage sa))) (w_clock w)) sb
    else sb.
Proof.
  intros Hw Hbl H0 pe sw.
  pose proof (send_message_guard roomId username (Some a) sa) as Hg. cbv zeta in Hg.
  rewrite Hbl, bool_decide_true in Hg by done. destruct Hg as (Hsent & Hnm & _).
  subst sw. unfold send_and_relay. cbv zeta. rewrite Hsent, drop_app_length. cbn [fold_left fst snd].
  split; [exact Hnm|].
  rewrite (inbox_app _ _ b _ (handle_chat_out _ _ _ _ _)), inbox_members by (apply members_NoDup, Hw).
  destruct (life_run_unmounted_ok o es em0 H0) as [Hok Ho]. fold pe in Hok, Ho.
  destruct (bool_decide (b ∈ members w roomId)); simpl; [|done].
  pose proof (deliver_panel pe.1 pe.2 b
    (ChatMessage a (username ?|| "Anonymous") (JStr (trim (newMessage sa))) (w_clock w)) sb Hok) as Hd.
  rewrite Ho in Hd. unfold deliver_all. simpl. rewrite Hd. by destruct (subscribed pe.1 b).
Qed.

(** Sockets A and B in room [r] of a fresh server; A submits [hi ]
    and B's panel, mounted on B, shows it once. *)
Example chat_end_to_end_witness :
  let w := exec (sio_join "B" "r") (exec (sio_join "A" "r")
             (exec (on_connect "B") (exec (on_connect "A") (EventLoop.init (Store.mkDb [] true))))) in
  let sa := set_newMessage (initial 0) "hi " in
  (registry_ok w /\ forallb js_space (String.list_ascii_of_string (newMessage sa)) = false /\
   (forall y e, ours 1 e (listeners ∅ y) = [])) /\
  let pe := life_run [Render (Some "B")] (unmounted 1, ∅) in
  let sw := send_and_relay "r" (Some "alice") "A" sa w in
  newMessage sw.1 = "" /\
  deliver_all 1 "B" (inbox w sw.2 "B") pe.2 (initial 0) =
    if bool_decide ("B" ∈ members w "r") && subscribed pe.1 "B"
    then handleChatMessage (mkMessage "A" (Some "alice" ?|| "Anonymous") (JStr (trim (newMessage sa))) (w_clock w))
           (initial 0)
    else initial 0.
Proof.
  cbv zeta.
  assert (Hw : registry_ok (exec (sio_join "B" "r") (exec (sio_join "A" "r")
             (exec (on_connect "B") (exec (on_connect "A") (EventLoop.init (Store.mkDb [] true))))))).
  { apply keeps_sio_join, keeps_sio_join, keeps_on_connect, keeps_on_connect, EventLoop.registry_ok_init. }
  split; [split_and!; [exact Hw | reflexivity | reflexivity] |].
  apply chat_end_to_end; [exact Hw | reflexivity | reflexivity].
Defined.

(** The sender [a] types [v] in its panel [sa]; the server handles, in
    order, what the panel emitted. *)
Definition type_and_relay (roomId a v : string) (sa : ChatState) (w : World) : ChatState * World :=
  let sa' := handleTyping roomId (Some a) v sa in
  (sa', fold_left (fun w ev => exec (handle a ev) w) (drop (length (sent sa)) (sent sa')) w).

(** A keystroke emits [typing true] when the panel was not typing. *)
Lemma handleTyping_sent roomId a v sa :
  sent (handleTyping roomId (Some a) v sa) =
    sent sa ++ (if isTyping sa then [] else [TypingIn roomId (JBool true)]).
Proof.
  unfold handleTyping, set_typing_timer, clear_typing.
  destruct sa as [m nm it tu tt ts nt c st]; destruct it, tt; simpl; rewrite ?app_nil_r; reflexivity.
Qed.

(** The server's [typing] handler sends [user-typing] with the sender's id
    and the flag, and nothing else, to the other members. *)
Lemma handle_typing_out a roomId j w :
  w_out (exec (handle a (TypingIn roomId j)) w) =
  w_out w ++ ((fun s => (s, UserTyping a j)) <$> Handler.others w roomId a).
Proof. reflexivity. Qed.

(** C14: The typing indicator end to end, and the user name it lacks.
    When the panel of socket [a], not yet typing, gets a keystroke and the
    server handles what it emitted, the panel of every socket [b] (mounted
    and re-rendered in any way) has run [handleUserTyping] once on
    [{userId: a, isTyping: true}], with no [username], when [b] is another
    member of the room's group and the panel is subscribed on [b]; any
    other panel is unchanged.  So a panel that showed no typing user now
    shows [undefined is typing...]: handler.js (lines 164-167) relays
    only the id and the flag, and Chat.js (line 144) prints
    [typingUsers[0].username]. *)
Theorem typing_indicator_without_username roomId a v sa w o es em0 b sb :
  registry_ok w -> isTyping sa = false ->
  (forall y e, ours o e (listeners em0 y) = []) ->
  let pe := life_run es (unmounted o, em0) in
  let sb' := deliver_all o b (inbox w (type_and_relay roomId a v sa w).2 b) pe.2 sb in
  sb' = (if bool_decide (b ∈ members w roomId /\ b <> a) && subscribed pe.1 b
         then handleUserTyping b (mkTyping a (JBool true) None) sb else sb) /\
  (b ∈ members w roomId -> b <> a -> subscribed pe.1 b = true -> typingUsers sb = [] ->
   typing_text sb' = Some "undefined is typing...").
Proof.
  intros Hw Hty H0 pe sb'.
  assert (Hsb : sb' = if bool_decide (b ∈ members w roomId /\ b <> a) && subscribed pe.1 b
                      then handleUserTyping b (mkTyping a (JBool true) None) sb else sb).
  { subst sb'. unfold type_and_relay. rewrite handleTyping_sent, Hty, drop_app_length. cbn [fold_left snd].
    rewrite (inbox_app _ _ b _ (handle_typing_out _ _ _ _)), inbox_members
      by (apply NoDup_list_filter, members_NoDup, Hw).
    destruct (life_run_unmounted_ok o es em0 H0) as [Hok Ho]. fold pe in Hok, Ho.
    rewrite (bool_decide_ext _ _ (others_spec w roomId a b)).
    destruct (bool_decide (b ∈ members w roomId /\ b <> a)); simpl; [|done].
    pose proof (deliver_panel pe.1 pe.2 b (UserTyping a (JBool true)) sb Hok) as Hd.
    rewrite Ho in Hd. unfold deliver_all. simpl. rewrite Hd. by destruct (subscribed pe.1 b). }
  split; [exact Hsb|]. intros Hm Hne Hs Hnone.
  rewrite Hsb, bool_decide_true, Hs by done. simpl.
  unfold handleUserTyping, typing_update, typing_text. simpl. rewrite Hnone.
  by rewrite (proj2 (String.eqb_neq a b)) by congruence.
Qed.

(** Sockets A and B in room [r]; A types [h] and B's panel, mounted on B,
    shows the indicator without a name. *)
Example typing_indicator_without_username_witness :
  let w := exec (sio_join "B" "r") (exec (sio_join "A" "r")
             (exec (on_connect "B") (exec (on_connect "A") (EventLoop.init (Store.mkDb [] true))))) in
  (registry_ok w /\ isTyping (initial 0) = false /\ (forall y e, ours 1 e (listeners ∅ y) = [])) /\
  let pe := life_run [Render (Some "B")] (unmounted 1, ∅) in
  let sb' := deliver_all 1 "B" (inbox w (type_and_relay "r" "A" "h" (initial 0) w).2 "B") pe.2 (initial 0) in
  sb' = (if bool_decide ("B" ∈ members w "r" /\ "B" <> "A") && subscribed pe.1 "B"
         then handleUserTyping "B" (mkTyping "A" (JBool true) None) (initial 0) else initial 0) /\
  ("B" ∈ members w "r" -> "B" <> "A" -> subscribed pe.1 "B" = true -> typingUsers (initial 0) = [] ->
   typing_text sb' = Some "undefined is typing...").
Proof.
  cbv zeta.
  assert (Hw : registry_ok (exec (sio_join "B" "r") (exec (sio_join "A" "r")
             (exec (on_connect "B") (exec (on_connect "A") (EventLoop.init (Store.mkDb [] true))))))).
  { apply keeps_sio_join, keeps_sio_join, keeps_on_connect, keeps_on_connect, EventLoop.registry_ok_init. }
  split; [split_and!; [exact Hw | reflexivity | reflexivity] |].
  apply typing_indicator_without_username; [exact Hw | reflexivity | reflexivity].
Defined.

End ChatFlow.
